(** * Resumind: the resume date extraction and validation engine

    A shallow embedding of the date-validation core of the repository
    (parser, section segmentation, period building, timeline validation,
    suggestion ranking and the validation orchestrator) together with the
    properties stated about it.

    Conventions of the embedding.
    - A JavaScript string is a [string]: a sequence of code units below 256
      (the Latin-1 range).  Code units above 255 (for instance the en and em
      dashes accepted by the date-range pattern) are outside the alphabet of
      the model.
    - A JavaScript number that counts or indexes is a [nat]; years and
      millisecond time stamps are [Z]; confidences, thresholds and quotients
      of time differences are exact rationals [Q].
    - A [Date] is its time value in milliseconds, for a time zone with a
      constant offset (taken to be zero): the code only compares time values
      and subtracts them, which does not depend on the offset.
    - [new Date()] is the explicit argument [now].
    - Code that may throw returns an [Outcome]. *)

From Stdlib Require Import Bool Arith ZArith QArith Qround Lia List String Ascii.
From Stdlib Require Import Permutation Sorted Lqa.
From Stdlib Require DecimalString.
Import ListNotations.

Local Close Scope Q_scope.
Local Close Scope Z_scope.
Local Open Scope nat_scope.
Local Open Scope string_scope.
Local Open Scope list_scope.

(* ================================================================== *)
(** * JavaScript strings *)

Module JsString.

Definition code (c : ascii) : N := N_of_ascii c.

Definition inRange (lo hi : N) (c : ascii) : bool :=
    (N.leb lo (code c) && N.leb (code c) hi)%N.

  (** White space and line terminators of ECMAScript that lie below 256:
      TAB, LF, VT, FF, CR, SPACE and NO-BREAK SPACE.  This is the set
      stripped by [trim] and matched by the regular-expression class [\s]. *)
Definition isSpace (c : ascii) : bool :=
    inRange 9 13 c || N.eqb (code c) 32 || N.eqb (code c) 160.

Definition isDigit (c : ascii) : bool := inRange 48 57 c.

Definition isUpperAscii (c : ascii) : bool := inRange 65 90 c.
Definition isLowerAscii (c : ascii) : bool := inRange 97 122 c.

  (** [\w]: ASCII letters, digits and the underscore. *)
Definition isWordChar (c : ascii) : bool :=
    isUpperAscii c || isLowerAscii c || isDigit c || N.eqb (code c) 95.

  (** [String.prototype.toLowerCase] on one code unit below 256: the ASCII
      capitals and the Latin-1 capitals U+00C0..U+00DE (without the
      multiplication sign U+00D7) move up by 32. *)
Definition lowerChar (c : ascii) : ascii :=
    if isUpperAscii c || (inRange 192 222 c && negb (N.eqb (code c) 215))
    then ascii_of_N (code c + 32)
    else c.

  (** Canonicalisation of the [i] flag (no [u] flag) for a code unit below
      256 compared against an ASCII pattern character: only ASCII letters
      fold, a code unit above 127 never folds onto an ASCII one. *)
Definition foldChar (c : ascii) : ascii :=
    if isLowerAscii c then ascii_of_N (code c - 32) else c.

Fixpoint toLowerCase (s : string) : string :=
    match s with
    | EmptyString => EmptyString
    | String c s' => String (lowerChar c) (toLowerCase s')
    end.

Fixpoint trimStart (s : string) : string :=
    match s with
    | EmptyString => EmptyString
    | String c s' => if isSpace c then trimStart s' else s
    end.

  (** Drops the trailing white space: a character is kept when it is not
      white space or when something is kept after it. *)
Fixpoint trimEnd (s : string) : string :=
    match s with
    | EmptyString => EmptyString
    | String c s' =>
        match trimEnd s' with
        | EmptyString => if isSpace c then EmptyString else String c EmptyString
        | t => String c t
        end
    end.

Definition trim (s : string) : string := trimEnd (trimStart s).

Definition isEmpty (s : string) : bool :=
    match s with EmptyString => true | _ => false end.

  (** [s.startsWith(p)] *)
Fixpoint startsWith (p s : string) : bool :=
    match p, s with
    | EmptyString, _ => true
    | String a p', String b s' => Ascii.eqb a b && startsWith p' s'
    | String _ _, EmptyString => false
    end.

  (** [s.includes(p)] *)
Fixpoint includes (s p : string) : bool :=
    startsWith p s ||
    match s with
    | EmptyString => false
    | String _ s' => includes s' p
    end.

  (** [s.indexOf(p)], [None] standing for -1. *)
Fixpoint indexOf (s p : string) : option nat :=
    if startsWith p s then Some 0
    else match s with
         | EmptyString => None
         | String _ s' => option_map S (indexOf s' p)
         end.

Fixpoint take (n : nat) (s : string) : string :=
    match n, s with
    | S n', String c s' => String c (take n' s')
    | _, _ => EmptyString
    end.

Fixpoint drop (n : nat) (s : string) : string :=
    match n, s with
    | S n', String _ s' => drop n' s'
    | _, _ => s
    end.

  (** [s.substring(a, b)] for [0 <= a], [b <= s.length]; when [b < a] the
      arguments are swapped, as the method does. *)
Definition substring (a b : nat) (s : string) : string :=
    take (Nat.max a b - Nat.min a b) (drop (Nat.min a b) s).

  (** [s.split('\n')] *)
Fixpoint splitLines (s : string) : list string :=
    match s with
    | EmptyString => [EmptyString]
    | String c s' =>
        if N.eqb (code c) 10 then EmptyString :: splitLines s'
        else match splitLines s' with
             | l :: ls => String c l :: ls
             | [] => [String c EmptyString]
             end
    end.

  (** [lines.join('\n')] *)
Fixpoint joinLines (ls : list string) : string :=
    match ls with
    | [] => EmptyString
    | [l] => l
    | l :: ls' => l ++ String (ascii_of_N 10) (joinLines ls')
    end.

Definition digitValue (c : ascii) : Z := Z.of_N (code c) - 48.

Fixpoint digitsPrefix (s : string) (acc : option Z) : option Z :=
    match s with
    | String c s' =>
        if isDigit c
        then digitsPrefix s' (Some (10 * match acc with Some a => a | None => 0 end
                                   + digitValue c)%Z)
        else acc
    | EmptyString => acc
    end.

  (** [parseInt(s)] for an unsigned decimal numeral: leading white space is
      skipped and the longest prefix of digits is read; [None] is NaN.  The
      engine applies it to digit groups captured by a pattern only. *)
Definition parseInt (s : string) : option Z := digitsPrefix (trimStart s) None.

  (** Decimal rendering of an integer inside a template literal. *)
Definition ofZ (z : Z) : string := DecimalString.NilZero.string_of_int (Z.to_int z).

End JsString.
Import JsString.

(* ================================================================== *)
(** * Regular expressions

    The patterns of the engine use literals, alternation, capturing groups,
    the word boundary and greedy repetition of a character class.  [run] is
    a backtracking matcher in continuation-passing style: alternatives are
    tried from left to right and a greedy repetition gives characters back
    one at a time, which is the order of ECMAScript. *)

Module Regex.

Inductive re : Type :=
  | Fail
  | Eps
  | Lit (s : string)
  | Cls (p : ascii -> bool) (lo : nat) (hi : option nat)
  | WordB
  | Seq (r1 r2 : re)
  | Alt (r1 r2 : re)
  | Grp (r : re).

Definition seq (l : list re) : re := fold_right Seq Eps l.
Definition oneOf (l : list string) : re := fold_right (fun s r => Alt (Lit s) r) Fail l.
Definition plus (p : ascii -> bool) : re := Cls p 1 None.
Definition star (p : ascii -> bool) : re := Cls p 0 None.
Definition times (n : nat) (p : ascii -> bool) : re := Cls p n (Some n).
Definition between (lo hi : nat) (p : ascii -> bool) : re := Cls p lo (Some hi).

Definition charEq (ci : bool) (a b : ascii) : bool :=
    if ci then Ascii.eqb (foldChar a) (foldChar b) else Ascii.eqb a b.

Fixpoint matchLit (ci : bool) (l : string) (prev : option ascii) (s : string)
    : option (option ascii * string) :=
    match l, s with
    | EmptyString, _ => Some (prev, s)
    | String a l', String b s' =>
        if charEq ci a b then matchLit ci l' (Some b) s' else None
    | String _ _, EmptyString => None
    end.

Definition isWordOpt (c : option ascii) : bool :=
    match c with Some c => isWordChar c | None => false end.

Definition head (s : string) : option ascii :=
    match s with String c _ => Some c | EmptyString => None end.

Section Matcher.
Context {R : Type}.

Fixpoint rep (p : ascii -> bool) (lo : nat) (hi : option nat)
             (prev : option ascii) (s : string)
             (k : option ascii -> string -> option R) : option R :=
      let stop := match lo with 0 => k prev s | S _ => None end in
      match s with
      | String c s' =>
          if p c && match hi with Some 0 => false | _ => true end
          then match rep p (Nat.pred lo) (option_map Nat.pred hi) (Some c) s' k with
               | Some x => Some x
               | None => stop
               end
          else stop
      | EmptyString => stop
      end.

Fixpoint run (ci : bool) (r : re) (prev : option ascii) (s : string)
             (caps : list string)
             (k : option ascii -> string -> list string -> option R) : option R :=
      match r with
      | Fail => None
      | Eps => k prev s caps
      | Lit l =>
          match matchLit ci l prev s with
          | Some (prev', s') => k prev' s' caps
          | None => None
          end
      | Cls p lo hi => rep p lo hi prev s (fun prev' s' => k prev' s' caps)
      | WordB =>
          if xorb (isWordOpt prev) (isWordOpt (head s)) then k prev s caps else None
      | Seq r1 r2 =>
          run ci r1 prev s caps (fun prev' s' caps' => run ci r2 prev' s' caps' k)
      | Alt r1 r2 =>
          match run ci r1 prev s caps k with
          | Some x => Some x
          | None => run ci r2 prev s caps k
          end
      | Grp r1 =>
          run ci r1 prev s caps
              (fun prev' s' caps' =>
                 k prev' s' (caps' ++ [take (String.length s - String.length s') s]))
      end.
End Matcher.

  (** A compiled pattern: its source and its [i] flag. *)
Record RegExp := mkRegExp { source : re; ignoreCase : bool }.

  (** A position in the subject: the index, the code unit before it (for the
      word boundary) and the rest of the subject.  It plays the role of
      [lastIndex]. *)
Record Cursor := mkCursor { index : nat; before : option ascii; rest : string }.

Definition start (text : string) : Cursor := mkCursor 0 None text.

  (** The match array of [exec]: element 0, its index and the groups. *)
Record Match := mkMatch { matched : string; matchIndex : nat; groups : list string }.

Definition group (n : nat) (m : Match) : string := nth (Nat.pred n) (groups m) "".

Definition matchAt (rx : RegExp) (c : Cursor) : option (Match * Cursor) :=
    run (ignoreCase rx) (source rx) (before c) (rest c) []
        (fun prev' s' caps =>
           let len := String.length (rest c) - String.length s' in
           Some (mkMatch (take len (rest c)) (index c) caps,
                 mkCursor (index c + len) prev' s')).

  (** First match at or after the cursor, with the cursor behind it. *)
Fixpoint searchFrom (rx : RegExp) (idx : nat) (prev : option ascii) (s : string)
    : option (Match * Cursor) :=
    match matchAt rx (mkCursor idx prev s) with
    | Some r => Some r
    | None =>
        match s with
        | String c s' => searchFrom rx (S idx) (Some c) s'
        | EmptyString => None
        end
    end.

Definition exec (rx : RegExp) (c : Cursor) : option (Match * Cursor) :=
    searchFrom rx (index c) (before c) (rest c).

  (** [text.match(rx)] for a pattern without the [g] flag. *)
Definition matchFirst (rx : RegExp) (text : string) : option Match :=
    option_map fst (exec rx (start text)).

  (** [rx.test(text)] on a fresh pattern. *)
Definition test (rx : RegExp) (text : string) : bool :=
    match exec rx (start text) with Some _ => true | None => false end.

End Regex.
Import Regex.

(* ================================================================== *)
(** * Dates *)

Module JsDate.
Local Open Scope Z_scope.

  (** The time value, in milliseconds. *)
Definition Date := Z.

Definition msPerDay : Z := 1000 * 60 * 60 * 24.

  (** Number of days from 1970-01-01 to the civil date [y]-[m]-[d], with
      [m] in 1..12 (proleptic Gregorian calendar). *)
Definition daysFromCivil (y m d : Z) : Z :=
    let y' := if m <=? 2 then y - 1 else y in
    let era := y' / 400 in
    let yoe := y' - era * 400 in
    let doy := (153 * (if 2 <? m then m - 3 else m + 9) + 2) / 5 + d - 1 in
    let doe := yoe * 365 + yoe / 4 - yoe / 100 + doy in
    era * 146097 + doe - 719468.

  (** The civil date (year, month 1..12, day) of a day number. *)
Definition civilFromDays (z : Z) : Z * Z * Z :=
    let z' := z + 719468 in
    let era := z' / 146097 in
    let doe := z' - era * 146097 in
    let yoe := (doe - doe / 1460 + doe / 36524 - doe / 146096) / 365 in
    let doy := doe - (365 * yoe + yoe / 4 - yoe / 100) in
    let mp := (5 * doy + 2) / 153 in
    let d := doy - (153 * mp + 2) / 5 + 1 in
    let m := if mp <? 10 then mp + 3 else mp - 9 in
    (yoe + era * 400 + (if m <=? 2 then 1 else 0), m, d).

  (** [new Date(year, monthIndex, day)]: local midnight; a month index or a
      day out of range carries over, and a year in 0..99 means 1900 + year. *)
Definition newDate (year monthIndex day : Z) : Date :=
    let year' := if (0 <=? year) && (year <=? 99) then 1900 + year else year in
    let y := year' + monthIndex / 12 in
    let m := monthIndex mod 12 in
    (daysFromCivil y (m + 1) 1 + (day - 1)) * msPerDay.

Definition getTime (d : Date) : Z := d.

Definition getFullYear (d : Date) : Z :=
    let '(y, _, _) := civilFromDays (d / msPerDay) in y.

  (** 0-based month. *)
Definition getMonth (d : Date) : Z :=
    let '(_, m, _) := civilFromDays (d / msPerDay) in m - 1.

Definition getDate (d : Date) : Z :=
    let '(_, _, dd) := civilFromDays (d / msPerDay) in dd.

End JsDate.
Import JsDate.

(* ================================================================== *)
(** * Generic array operations *)

Section Arrays.
Context {A : Type}.

  (** [array.findIndex(p)], [None] standing for -1. *)
Fixpoint findIndex (p : A -> bool) (l : list A) : option nat :=
    match l with
    | [] => None
    | x :: l' => if p x then Some 0 else option_map S (findIndex p l')
    end.

  (** [array.filter((x, index, array) => f x index array)] *)
Fixpoint filterFrom (f : A -> nat -> bool) (i : nat) (l : list A) : list A :=
    match l with
    | [] => []
    | x :: l' => if f x i then x :: filterFrom f (S i) l' else filterFrom f (S i) l'
    end.

Definition filterIndexed (f : A -> nat -> list A -> bool) (l : list A) : list A :=
    filterFrom (fun x i => f x i l) 0 l.

Definition optNatEqb (a : option nat) (b : nat) : bool :=
    match a with Some n => Nat.eqb n b | None => false end.

  (** The idiom [array.filter((x, index, array) =>
      array.findIndex(y => same y x) === index)]: the first occurrence of
      every key stays. *)
Definition uniqueBy (same : A -> A -> bool) (l : list A) : list A :=
    filterIndexed (fun x index array => optNatEqb (findIndex (fun y => same y x) array) index) l.

  (** [Array.prototype.sort] is stable; for a comparator that is a total
      preorder every stable sort returns the same array.  [before a b] is
      [compare(a, b) <= 0]. *)
Fixpoint insertSorted (before : A -> A -> bool) (x : A) (l : list A) : list A :=
    match l with
    | [] => [x]
    | y :: l' => if before x y then x :: y :: l' else y :: insertSorted before x l'
    end.

Definition sortBy (before : A -> A -> bool) (l : list A) : list A :=
    fold_right (insertSorted before) [] l.

Fixpoint firstSome {B : Type} (fs : list (A -> option B)) (x : A) : option B :=
    match fs with
    | [] => None
    | f :: fs' => match f x with Some r => Some r | None => firstSome fs' x end
    end.

Definition last_opt (l : list A) : option A :=
    match rev l with x :: _ => Some x | [] => None end.

End Arrays.

(** [array.indexOf(s)] on an array of strings. *)
Definition indexOfString (l : list string) (s : string) : option nat :=
  findIndex (String.eqb s) l.

(** [keywords.some(keyword => text.includes(keyword))] *)
Definition includesAny (text : string) (keywords : list string) : bool :=
  existsb (fun keyword => includes text keyword) keywords.

(* ================================================================== *)
(** * Data model (types.ts)

    Field names carry a short prefix of their record, since several
    interfaces share field names. *)

Inductive DateFormat := MONTH_YEAR | YEAR_ONLY | FULL_DATE | PRESENT | CURRENT.

Record ParsedDate := mkParsedDate {
  pd_original : string;
  pd_normalized : Date;
  pd_format : DateFormat;
  pd_isOngoing : bool;
  pd_confidence : Q }.

Record ExtractedDate := mkExtractedDate {
  ed_text : string;
  ed_startIndex : nat;
  ed_endIndex : nat;
  ed_parsedDate : option ParsedDate;
  ed_context : string }.

(* ================================================================== *)
(** * Constants (constants.ts) *)

Module Constants.

Definition monthAbbreviationsCap : list string :=
    ["Jan"; "Feb"; "Mar"; "Apr"; "May"; "Jun"; "Jul"; "Aug"; "Sep"; "Oct"; "Nov"; "Dec"].
Definition monthNamesCap : list string :=
    ["January"; "February"; "March"; "April"; "May"; "June"; "July"; "August";
     "September"; "October"; "November"; "December"].

Definition isDash (c : ascii) : bool := N.eqb (code c) 45.

  (** [DATE_PATTERNS]; every pattern has the [g] flag, which the callers
      realise by looping on [exec]. *)
Definition MONTH_YEAR_RX : RegExp :=
    mkRegExp (seq [WordB; Grp (oneOf (monthAbbreviationsCap ++ monthNamesCap));
                   plus isSpace; Grp (times 4 isDigit); WordB]) true.
Definition YEAR_ONLY_RX : RegExp :=
    mkRegExp (seq [WordB; Grp (oneOf ["19"; "20"]); times 2 isDigit; WordB]) false.
Definition FULL_DATE_RX : RegExp :=
    mkRegExp (seq [WordB; Grp (between 1 2 isDigit); Lit "/"; Grp (between 1 2 isDigit);
                   Lit "/"; Grp (times 4 isDigit); WordB]) false.
Definition PRESENT_INDICATORS_RX : RegExp :=
    mkRegExp (seq [WordB; Grp (oneOf ["present"; "current"; "ongoing"; "now"; "today"]);
                   WordB]) true.
  (** The class of the separator holds the hyphen, the en dash and the em
      dash; only the hyphen is a code unit below 256. *)
Definition DATE_RANGE_RX : RegExp :=
    mkRegExp (seq [Grp (times 4 isDigit); star isSpace; Cls isDash 1 (Some 1); star isSpace;
                   Grp (Alt (times 4 isDigit) (oneOf ["present"; "current"]))]) true.

Definition ONGOING_KEYWORDS : list string :=
    ["present"; "current"; "ongoing"; "now"; "today"; "till date"; "to date"; "continuing"].

Definition EDUCATION_KEYWORDS : list string :=
    ["university"; "college"; "school"; "degree"; "bachelor"; "master"; "phd";
     "doctorate"; "diploma"; "certificate"; "graduation"; "graduated"; "education";
     "academic"; "student"].

Definition WORK_KEYWORDS : list string :=
    ["company"; "corporation"; "inc"; "ltd"; "llc"; "work"; "job"; "position"; "role";
     "employment"; "experience"; "career"; "professional"; "intern"; "internship";
     "volunteer"].

Module FORMAT_CONFIDENCE.
Definition EXACT_MATCH : Q := 1.
Definition PATTERN_MATCH : Q := 8 # 10.
Definition FUZZY_MATCH : Q := 6 # 10.
Definition GUESS : Q := 4 # 10.
Definition UNKNOWN : Q := 2 # 10.
End FORMAT_CONFIDENCE.

End Constants.
Import Constants.

(* ================================================================== *)
(** * The date parser (class ResumeDateParser)

    The [try]/[catch] blocks of the class guard calls that do not throw on
    strings; the console output is not part of the model. *)

Module ResumeDateParser.

Definition monthNames : list string :=
    ["january"; "february"; "march"; "april"; "may"; "june";
     "july"; "august"; "september"; "october"; "november"; "december"].

Definition monthAbbreviations : list string :=
    ["jan"; "feb"; "mar"; "apr"; "may"; "jun"; "jul"; "aug"; "sep"; "oct"; "nov"; "dec"].

  (** What a format parser returns: [{ date, format, confidence }]. *)
Record FormatResult := mkFormatResult {
    fr_date : Date; fr_format : DateFormat; fr_confidence : Q }.

Definition isOngoingIndicator (text : string) : bool :=
    existsb (fun keyword => includes text (toLowerCase keyword)) ONGOING_KEYWORDS.

Definition isValidYear (now : Date) (year : Z) : bool :=
    let currentYear := getFullYear now in
    ((1950 <=? year) && (year <=? currentYear + 10))%Z.

Definition isValidDate (now : Date) (month day year : Z) : bool :=
    if ((month <? 1) || (12 <? month))%Z then false
    else if ((day <? 1) || (31 <? day))%Z then false
    else if negb (isValidYear now year) then false
    else
      let date := newDate year (month - 1) day in
      ((getFullYear date =? year) && (getMonth date =? month - 1)
       && (getDate date =? day))%Z.

Definition monthYearRx : RegExp :=
    mkRegExp (seq [WordB; Grp (oneOf (monthAbbreviations ++ monthNames));
                   plus isSpace; Grp (times 4 isDigit); WordB]) true.

Definition parseMonthYear (now : Date) (text : string) : option FormatResult :=
    match matchFirst monthYearRx text with
    | Some monthYearMatch =>
        let monthStr := toLowerCase (group 1 monthYearMatch) in
        match parseInt (group 2 monthYearMatch) with
        | Some year =>
            let monthIndex :=
              match indexOfString monthAbbreviations monthStr with
              | Some i => Some i
              | None => indexOfString monthNames monthStr
              end in
            match monthIndex with
            | Some mi =>
                if isValidYear now year
                then Some (mkFormatResult (newDate year (Z.of_nat mi) 1) MONTH_YEAR
                                          FORMAT_CONFIDENCE.EXACT_MATCH)
                else None
            | None => None
            end
        | None => None
        end
    | None => None
    end.

Definition parseYearOnly (now : Date) (text : string) : option FormatResult :=
    match matchFirst YEAR_ONLY_RX text with
    | Some yearMatch =>
        match parseInt (matched yearMatch) with
        | Some year =>
            if isValidYear now year
            then Some (mkFormatResult (newDate year 0 1) YEAR_ONLY
                                      FORMAT_CONFIDENCE.PATTERN_MATCH)
            else None
        | None => None
        end
    | None => None
    end.

Definition parseFullDate (now : Date) (text : string) : option FormatResult :=
    match matchFirst FULL_DATE_RX text with
    | Some fullDateMatch =>
        match parseInt (group 1 fullDateMatch), parseInt (group 2 fullDateMatch),
              parseInt (group 3 fullDateMatch) with
        | Some month, Some day, Some year =>
            if isValidDate now month day year
            then Some (mkFormatResult (newDate year (month - 1) day) FULL_DATE
                                      FORMAT_CONFIDENCE.EXACT_MATCH)
            else None
        | _, _, _ => None
        end
    | None => None
    end.

  (** The format parsers in the order in which [parseDate] tries them. *)
Definition formats (now : Date) : list (string -> option FormatResult) :=
    [parseMonthYear now; parseYearOnly now; parseFullDate now].

Definition parseDate (now : Date) (dateString : string) : option ParsedDate :=
    if isEmpty dateString then None
    else if isEmpty (trim dateString) then None
    else
      let trimmed := toLowerCase (trim dateString) in
      if isOngoingIndicator trimmed
      then Some (mkParsedDate dateString now PRESENT true FORMAT_CONFIDENCE.EXACT_MATCH)
      else
        match firstSome (formats now) trimmed with
        | Some result =>
            Some (mkParsedDate dateString (fr_date result) (fr_format result) false
                               (fr_confidence result))
        | None => None
        end.

Definition normalizeDate (now : Date) (date : string) : option Date :=
    option_map pd_normalized (parseDate now date).

  (** The 50 code units before and after a match, trimmed. *)
Definition contextOf (text : string) (startIndex endIndex : nat) : string :=
    let contextStart := Nat.max 0 (startIndex - 50) in
    let contextEnd := Nat.min (String.length text) (endIndex + 50) in
    trim (substring contextStart contextEnd text).

  (** [extractDateRange]: both ends of a range are parsed on their own and
      pushed when they parse. *)
Definition extractDateRange (now : Date) (m : Match) (text : string)
             (extractedDates : list ExtractedDate) : list ExtractedDate :=
    let fullMatch := matched m in
    let startYear := group 1 m in
    let endPart := group 2 m in
    let startIndex := matchIndex m in
    let endIndex := startIndex + String.length fullMatch in
    let context := contextOf text startIndex endIndex in
    let withStart :=
      match parseDate now startYear with
      | Some startDate =>
          extractedDates ++
            [mkExtractedDate startYear startIndex (startIndex + String.length startYear)
                             (Some startDate) context]
      | None => extractedDates
      end in
    match parseDate now endPart with
    | Some endDate =>
        let endStartIndex :=
          startIndex + match indexOf fullMatch endPart with Some i => i | None => 0 end in
        withStart ++
          [mkExtractedDate endPart endStartIndex (endStartIndex + String.length endPart)
                           (Some endDate) context]
    | None => withStart
    end.

Inductive PatternType := month_year | full_date | year_only | present | date_range.

Definition patterns : list (RegExp * PatternType) :=
    [(MONTH_YEAR_RX, month_year); (FULL_DATE_RX, full_date); (YEAR_ONLY_RX, year_only);
     (PRESENT_INDICATORS_RX, present); (DATE_RANGE_RX, date_range)].

Definition isDateRange (t : PatternType) : bool :=
    match t with date_range => true | _ => false end.

  (** The body of the [while] loop for one match. *)
Definition processMatch (now : Date) (text : string) (type : PatternType) (m : Match)
             (extractedDates : list ExtractedDate) : list ExtractedDate :=
    let matchText := matched m in
    let startIndex := matchIndex m in
    let endIndex := startIndex + String.length matchText in
    if isDateRange type
    then extractDateRange now m text extractedDates
    else extractedDates ++
           [mkExtractedDate matchText startIndex endIndex (parseDate now matchText)
                            (contextOf text startIndex endIndex)].

  (** The loop guard [matchCount > 200] leaves the loop after the 201st
      match; [maxMatches] is the number of matches a pattern can contribute. *)
Definition maxMatches : nat := 201.

Fixpoint matchLoop (budget : nat) (now : Date) (text : string) (rx : RegExp)
           (type : PatternType) (cursor : Cursor) (extractedDates : list ExtractedDate)
    : list ExtractedDate :=
    match budget with
    | 0 => extractedDates
    | S budget' =>
        match exec rx cursor with
        | None => extractedDates
        | Some (m, cursor') =>
            matchLoop budget' now text rx type cursor'
                      (processMatch now text type m extractedDates)
        end
    end.

Definition sameMatch (d date : ExtractedDate) : bool :=
    Nat.eqb (ed_startIndex d) (ed_startIndex date) && String.eqb (ed_text d) (ed_text date).

Definition deduplicateAndSort (extractedDates : list ExtractedDate) : list ExtractedDate :=
    let unique := uniqueBy sameMatch extractedDates in
    sortBy (fun a b => Nat.leb (ed_startIndex a) (ed_startIndex b)) unique.

  (** Each pattern gets a fresh [RegExp] object, so every scan starts at
      index 0. *)
Definition collectMatches (now : Date) (text : string) : list ExtractedDate :=
    fold_left (fun extractedDates pattern =>
                 matchLoop maxMatches now text (fst pattern) (snd pattern) (start text)
                           extractedDates)
              patterns [].

Definition extractDatesFromText (now : Date) (text : string) : list ExtractedDate :=
    if isEmpty text then []
    else if isEmpty (trim text) then []
    else deduplicateAndSort (collectMatches now text).

End ResumeDateParser.
Import ResumeDateParser.

(* ================================================================== *)
(** * Periods, issues and results (types.ts) *)

Record EducationPeriod := mkEducationPeriod {
  ep_institution : string;
  ep_degree : option string;
  ep_startDate : option Date;
  ep_endDate : option Date;
  ep_isOngoing : bool;
  ep_originalText : string;
  ep_confidence : Q }.

Record WorkExperience := mkWorkExperience {
  we_company : string;
  we_position : string;
  we_startDate : option Date;
  we_endDate : option Date;
  we_isOngoing : bool;
  we_originalText : string;
  we_confidence : Q }.

Inductive Severity := critical | warning | suggestion.
Inductive Category := education | work | general.

Record ValidationIssue := mkValidationIssue {
  vi_type : Severity;
  vi_category : Category;
  vi_message : string;
  vi_detectedDate : string;
  vi_suggestedFix : option string;
  vi_confidence : Q }.

Record ValidationWarning := mkValidationWarning {
  vw_category : Category;
  vw_message : string;
  vw_context : string }.

Record DateSuggestion := mkDateSuggestion {
  ds_originalDate : string;
  ds_suggestedDate : string;
  ds_reason : string;
  ds_confidence : Q }.

Record ValidationConfig := mkValidationConfig {
  maxFutureEducationYears : Z;
  maxFutureWorkMonths : Z;
  enableTypoDetection : bool;
  confidenceThreshold : Q;
  strictMode : bool }.

Record ValidationContext := mkValidationContext {
  currentDate : Date;
  educationPeriods : list EducationPeriod;
  workExperience : list WorkExperience;
  config : ValidationConfig;
  resumeText : string }.

Record DateValidationResult := mkDateValidationResult {
  isValid : bool;
  issues : list ValidationIssue;
  warnings : list ValidationWarning;
  suggestions : list DateSuggestion }.

Definition severityName (s : Severity) : string :=
  match s with critical => "critical" | warning => "warning" | suggestion => "suggestion" end.

Definition categoryName (c : Category) : string :=
  match c with education => "education" | work => "work" | general => "general" end.

Definition isCritical (issue : ValidationIssue) : bool :=
  match vi_type issue with critical => true | _ => false end.

(** [a < b] and [a <= b] on numbers. *)
Definition Qltb (a b : Q) : bool := negb (Qle_bool b a).
Definition Qleb (a b : Q) : bool := Qle_bool a b.

(** config.ts *)
Definition DEFAULT_VALIDATION_CONFIG : ValidationConfig :=
  mkValidationConfig 4 3 true (8 # 10) false.

(** [validateConfig]: the ranges a configuration manager accepts. *)
Definition validConfig (c : ValidationConfig) : Prop :=
  (0 <= maxFutureEducationYears c <= 10)%Z /\
  (0 <= maxFutureWorkMonths c <= 12)%Z /\
  (0 <= confidenceThreshold c <= 1)%Q.

Definition nl : string := String (ascii_of_N 10) EmptyString.

(* ================================================================== *)
(** * The validation service: segmentation and period building
    (class ResumeDateValidationService) *)

Module Service.

Definition isEducationSectionHeader (line : string) : bool :=
    includesAny line ["education"; "academic background"; "academic qualifications";
                      "educational background"; "qualifications"; "degrees"].

Definition isNonEducationSectionHeader (line : string) : bool :=
    includesAny line ["experience"; "work"; "skills"; "projects"; "certifications";
                      "achievements"; "awards"; "publications"; "references"].

Definition containsEducationKeywords (line : string) : bool :=
    includesAny line EDUCATION_KEYWORDS.

  (** [lines.slice(max(0, index - contextSize), min(lines.length, index + contextSize + 1))] *)
Definition getContextLines (lines : list string) (index contextSize : nat) : list string :=
    let start := Nat.max 0 (index - contextSize) in
    let end_ := Nat.min (List.length lines) (index + contextSize + 1) in
    firstn (end_ - start) (skipn start lines).

Definition dateLineRx : RegExp :=
    mkRegExp (Alt (times 4 isDigit) (oneOf ["present"; "current"])) true.

Definition isDateLine (line : string) : bool :=
    test dateLineRx line && Nat.ltb (String.length (trim line)) 50.

Definition isDegreeOnlyLine (line : string) : bool :=
    includesAny (toLowerCase line) ["bachelor"; "master"; "phd"; "b.s."; "b.a."; "m.s."; "m.a."]
    && Nat.ltb (String.length (trim line)) 100.

  (** The variables of the segmentation loop. *)
Record Segmenter := mkSegmenter {
    sections : list string;
    currentSection : string;
    inSection : bool;
    sectionStarted : bool }.

Definition pushNonEmpty (sections : list string) (section : string) : list string :=
    if isEmpty (trim section) then sections else sections ++ [trim section].

  (** One iteration of the loop of [extractEducationSections]. *)
Definition educationLine (lines : list string) (st : Segmenter) (i : nat) (rawLine : string)
    : Segmenter :=
    let line := trim rawLine in
    let lowerLine := toLowerCase line in
    if isEducationSectionHeader lowerLine then
      mkSegmenter (if sectionStarted st then pushNonEmpty (sections st) (currentSection st)
                   else sections st)
                  (line ++ nl) true true
    else if isNonEducationSectionHeader lowerLine && inSection st then
      mkSegmenter (pushNonEmpty (sections st) (currentSection st)) "" false false
    else if inSection st then
      mkSegmenter (sections st) (currentSection st ++ line ++ nl) (inSection st)
                  (sectionStarted st)
    else if negb (sectionStarted st) && containsEducationKeywords lowerLine then
      mkSegmenter (sections st ++ [joinLines (getContextLines lines i 2)])
                  (currentSection st) (inSection st) (sectionStarted st)
    else st.

Fixpoint segment (step : Segmenter -> nat -> string -> Segmenter) (st : Segmenter)
           (i : nat) (rest : list string) : Segmenter :=
    match rest with
    | [] => st
    | rawLine :: rest' => segment step (step st i rawLine) (S i) rest'
    end.

Definition extractEducationSections (text : string) : list string :=
    let lines := splitLines text in
    let st := segment (educationLine lines) (mkSegmenter [] "" false false) 0 lines in
    if inSection st then pushNonEmpty (sections st) (currentSection st) else sections st.

Definition isOngoingDate (date : ExtractedDate) : bool :=
    match ed_parsedDate date with Some p => pd_isOngoing p | None => false end.

  (** The dates of [extractedDates] that parsed and are not ongoing markers. *)
Fixpoint actualDatesOf (extractedDates : list ExtractedDate) : list ParsedDate :=
    match extractedDates with
    | [] => []
    | date :: rest =>
        match ed_parsedDate date with
        | Some p => if pd_isOngoing p then actualDatesOf rest else p :: actualDatesOf rest
        | None => actualDatesOf rest
        end
    end.

Definition byNormalizedTime (a b : ParsedDate) : bool :=
    (getTime (pd_normalized a) - getTime (pd_normalized b) <=? 0)%Z.

Record DateRange := mkDateRange {
    startDate : option Date; endDate : option Date; isOngoing : bool }.

Definition determineDateRange (extractedDates : list ExtractedDate) : DateRange :=
    match extractedDates with
    | [] => mkDateRange None None false
    | _ =>
        let isOngoing := existsb isOngoingDate extractedDates in
        let actualDates := sortBy byNormalizedTime (actualDatesOf extractedDates) in
        match actualDates with
        | [] => mkDateRange None None isOngoing
        | [only] =>
            if isOngoing then mkDateRange (Some (pd_normalized only)) None isOngoing
            else mkDateRange None (Some (pd_normalized only)) isOngoing
        | first :: _ =>
            mkDateRange (Some (pd_normalized first))
                        (if isOngoing then None else option_map pd_normalized (last_opt actualDates))
                        isOngoing
        end
    end.

Definition nonEmptyLines (sectionText : string) : list string :=
    filter (fun line => negb (isEmpty line)) (map trim (splitLines sectionText)).

Definition truthy (s : string) : option string := if isEmpty s then None else Some s.

Definition extractInstitution (lines : list string) : option string :=
    match find (fun line =>
                  negb (isDateLine line || isDegreeOnlyLine line)
                  && includesAny (toLowerCase line) ["university"; "college"; "school"; "institute"])
               lines with
    | Some line => Some (trim line)
    | None =>
        match find (fun line => Nat.ltb 5 (String.length (trim line))
                                && negb (isDateLine line) && negb (isDegreeOnlyLine line))
                   lines with
        | Some substantialLine => truthy (trim substantialLine)
        | None => None
        end
    end.

Definition extractDegree (lines : list string) : option string :=
    option_map trim
      (find (fun line =>
               includesAny (toLowerCase line)
                 ["bachelor"; "master"; "phd"; "doctorate"; "diploma"; "certificate";
                  "b.s."; "b.a."; "m.s."; "m.a."; "ph.d."; "mba"; "degree"])
            lines).

Definition dateConfidence (date : ExtractedDate) : Q :=
    match ed_parsedDate date with Some p => pd_confidence p | None => 0%Q end.

Definition calculateEducationConfidence (institution degree : option string)
             (extractedDates : list ExtractedDate) : Q :=
    let c0 := (5 # 10)%Q in
    let c1 :=
      match institution with
      | Some i =>
          if isEmpty i then c0
          else
            let c := (c0 + (2 # 10))%Q in
            if includes (toLowerCase i) "university" || includes (toLowerCase i) "college"
            then (c + (1 # 10))%Q else c
      | None => c0
      end in
    let c2 := match degree with
              | Some d => if isEmpty d then c1 else (c1 + (2 # 10))%Q
              | None => c1
              end in
    let avgDateConfidence :=
      (fold_left (fun sum date => sum + dateConfidence date) extractedDates 0
       / inject_Z (Z.of_nat (List.length extractedDates)))%Q in
    let c3 := (c2 + avgDateConfidence * (1 # 10))%Q in
    if Qleb c3 1 then c3 else 1%Q.

Definition orDefault (o : option string) (d : string) : string :=
    match o with Some s => if isEmpty s then d else s | None => d end.

Definition parseEducationSection (now : Date) (sectionText : string)
    : option EducationPeriod :=
    let extractedDates := extractDatesFromText now sectionText in
    match extractedDates with
    | [] => None
    | _ =>
        let lines := nonEmptyLines sectionText in
        let institution := extractInstitution lines in
        let degree := extractDegree lines in
        let range := determineDateRange extractedDates in
        let confidence := calculateEducationConfidence institution degree extractedDates in
        Some (mkEducationPeriod (orDefault institution "Unknown Institution")
                                (match degree with Some d => truthy d | None => None end)
                                (startDate range) (endDate range) (isOngoing range)
                                sectionText confidence)
    end.

Fixpoint somes {A : Type} (l : list (option A)) : list A :=
    match l with
    | [] => []
    | Some x :: l' => x :: somes l'
    | None :: l' => somes l'
    end.

Definition parseEducationDates (now : Date) (text : string) : list EducationPeriod :=
    if isEmpty text then []
    else if isEmpty (trim text) then []
    else somes (map (parseEducationSection now) (extractEducationSections text)).

  (* ---------------------------------------------------------------- *)
  (** ** Timeline validation *)

Definition msPerYear : Q := (inject_Z msPerDay * (36525 # 100))%Q.
Definition msPerMonth : Q := (inject_Z msPerDay * (3044 # 100))%Q.

  (** [(a.getTime() - b.getTime()) / unit] *)
Definition elapsed (a b : Date) (unit : Q) : Q :=
    (inject_Z (getTime a - getTime b) / unit)%Q.

  (** [Math.ceil] rendered in a template literal. *)
Definition ceilStr (q : Q) : string := ofZ (Qceiling q).

  (** [date?.getTime() || Date.now()] *)
Definition timeOrNow (now : Date) (date : option Date) : Z :=
    match date with
    | Some d => if (getTime d =? 0)%Z then getTime now else getTime d
    | None => getTime now
    end.

Definition hasEducationOverlap (now : Date) (period1 period2 : EducationPeriod) : bool :=
    match ep_startDate period1, ep_startDate period2 with
    | Some s1, Some s2 =>
        let p1Start := getTime s1 in
        let p1End := timeOrNow now (ep_endDate period1) in
        let p2Start := getTime s2 in
        let p2End := timeOrNow now (ep_endDate period2) in
        ((p1Start <? p2End) && (p2Start <? p1End))%Z
    | _, _ => false
    end.

Definition degreeLower (period : EducationPeriod) : string :=
    match ep_degree period with Some d => toLowerCase d | None => "" end.

Definition isValidEducationOverlap (period1 period2 : EducationPeriod) : bool :=
    if String.eqb (toLowerCase (ep_institution period1)) (toLowerCase (ep_institution period2))
    then true
    else
      let degree1 := degreeLower period1 in
      let degree2 := degreeLower period2 in
      if (includes degree1 "certificate" || includes degree1 "diploma")
         || (includes degree2 "certificate" || includes degree2 "diploma")
      then true
      else
        match ep_startDate period1, ep_endDate period1,
              ep_startDate period2, ep_endDate period2 with
        | Some s1, Some e1, Some s2, Some e2 =>
            let overlapStart := Z.max (getTime s1) (getTime s2) in
            let overlapEnd := Z.min (getTime e1) (getTime e2) in
            let overlapMonths := (inject_Z (overlapEnd - overlapStart) / msPerMonth)%Q in
            Qltb overlapMonths 6
        | _, _, _, _ => false
        end.

  (** The pairs [(l[i], l[j])] with [i < j], in the order of the nested loops. *)
Fixpoint pairs {A : Type} (l : list A) : list (A * A) :=
    match l with
    | [] => []
    | x :: l' => map (fun y => (x, y)) l' ++ pairs l'
    end.

Section Timeline.
    (** [Date.prototype.toLocaleDateString] depends on the locale of the
        host. *)
Variable toLocaleDateString : Date -> string.
Variable now : Date.
Variable cfg : ValidationConfig.

Definition range (a b : Date) : string :=
      toLocaleDateString a ++ " - " ++ toLocaleDateString b.

Definition futureGraduation (period : EducationPeriod) : list ValidationIssue :=
      match ep_endDate period with
      | Some endDate =>
          if negb (ep_isOngoing period) then
            let yearsDifference := elapsed endDate now msPerYear in
            if Qltb (inject_Z (maxFutureEducationYears cfg)) yearsDifference then
              [mkValidationIssue critical education
                 ("Graduation date " ++ ofZ (getFullYear endDate) ++ " is more than "
                  ++ ofZ (maxFutureEducationYears cfg)
                  ++ " years in the future, which seems unrealistic.")
                 (toLocaleDateString endDate)
                 (Some ("Consider checking if this should be "
                        ++ ofZ (getFullYear endDate - 10) ++ " instead.")%string)
                 (9 # 10)]
            else if Qltb 2 yearsDifference then
              [mkValidationIssue warning education
                 ("Graduation date " ++ ofZ (getFullYear endDate) ++ " is "
                  ++ ceilStr yearsDifference
                  ++ " years in the future. Please verify this is correct.")
                 (toLocaleDateString endDate) None (7 # 10)]
            else []
          else []
      | None => []
      end.

Definition futureStart (period : EducationPeriod) : list ValidationIssue :=
      match ep_startDate period with
      | Some startDate =>
          let monthsDifference := elapsed startDate now msPerMonth in
          if Qltb 3 monthsDifference then
            [mkValidationIssue critical education
               ("Education start date " ++ toLocaleDateString startDate
                ++ " is more than 3 months in the future.")
               (toLocaleDateString startDate)
               (Some ("Verify this date is correct or consider if it should be "
                      ++ ofZ (getFullYear startDate - 1) ++ ".")%string)
               (85 # 100)]
          else []
      | None => []
      end.

Definition dateOrder (period : EducationPeriod) : list ValidationIssue :=
      match ep_startDate period, ep_endDate period with
      | Some startDate, Some endDate =>
          if negb (ep_isOngoing period) && (getTime endDate <=? getTime startDate)%Z then
            [mkValidationIssue critical education
               ("Education start date (" ++ toLocaleDateString startDate
                ++ ") is after or same as end date (" ++ toLocaleDateString endDate ++ ").")
               (range startDate endDate)
               (Some "Please check and correct the date order.")
               (95 # 100)]
          else []
      | _, _ => []
      end.

Definition degreeMentionsDegree (period : EducationPeriod) : bool :=
      match ep_degree period with
      | Some d => includes (toLowerCase d) "degree"
      | None => false
      end.

Definition duration (period : EducationPeriod) : list ValidationIssue :=
      match ep_startDate period, ep_endDate period with
      | Some startDate, Some endDate =>
          if negb (ep_isOngoing period) then
            let durationYears := elapsed endDate startDate msPerYear in
            if Qltb 10 durationYears then
              [mkValidationIssue warning education
                 ("Education period of " ++ ceilStr durationYears
                  ++ " years seems unusually long for " ++ ep_institution period ++ ".")
                 (range startDate endDate) None (6 # 10)]
            else if Qltb durationYears (5 # 10) && degreeMentionsDegree period then
              [mkValidationIssue suggestion education
                 ("Education period of " ++ ceilStr (durationYears * 12)
                  ++ " months seems short for a degree program.")
                 (range startDate endDate) None (5 # 10)]
            else []
          else []
      | _, _ => []
      end.

Definition staleOngoing (period : EducationPeriod) : list ValidationIssue :=
      match ep_startDate period with
      | Some startDate =>
          if ep_isOngoing period then
            let yearsSinceStart := elapsed now startDate msPerYear in
            if Qltb 8 yearsSinceStart then
              [mkValidationIssue warning education
                 ("Ongoing education started " ++ ceilStr yearsSinceStart
                  ++ " years ago. Please verify this is still current.")
                 (toLocaleDateString startDate) None (7 # 10)]
            else []
          else []
      | None => []
      end.

    (** The body of the first loop of [validateEducationTimeline]. *)
Definition periodIssues (period : EducationPeriod) : list ValidationIssue :=
      futureGraduation period ++ futureStart period ++ dateOrder period
      ++ duration period ++ staleOngoing period.

Definition localeOr (date : option Date) (dflt : string) : string :=
      match date with
      | Some d => if isEmpty (toLocaleDateString d) then dflt else toLocaleDateString d
      | None => dflt
      end.

Definition overlapIssue (pr : EducationPeriod * EducationPeriod) : list ValidationIssue :=
      let '(period1, period2) := pr in
      if hasEducationOverlap now period1 period2 then
        if negb (isValidEducationOverlap period1 period2) then
          [mkValidationIssue suggestion education
             ("Overlapping education periods detected: " ++ ep_institution period1 ++ " and "
              ++ ep_institution period2 ++ ". Please verify if this is correct.")
             (localeOr (ep_startDate period1) "Unknown" ++ " - "
              ++ localeOr (ep_endDate period1) "Present" ++ " overlaps with "
              ++ localeOr (ep_startDate period2) "Unknown" ++ " - "
              ++ localeOr (ep_endDate period2) "Present")
             None (6 # 10)]
        else []
      else [].

Definition validateEducationTimeline (education : list EducationPeriod)
      : list ValidationIssue :=
      flat_map periodIssues education ++ flat_map overlapIssue (pairs education).

End Timeline.

  (* ---------------------------------------------------------------- *)
  (** ** Severity reclassification and the empty result *)

Definition toWarning (issue : ValidationIssue) : ValidationWarning :=
    mkValidationWarning (vi_category issue) (vi_message issue) (vi_detectedDate issue).

Definition isLowConfidenceCritical (cfg : ValidationConfig) (issue : ValidationIssue) : bool :=
    Qltb (vi_confidence issue) (confidenceThreshold cfg) && isCritical issue.

Record Categorized := mkCategorized {
    cat_issues : list ValidationIssue;
    convertedWarnings : list ValidationWarning }.

Fixpoint categorizeLoop (cfg : ValidationConfig) (issues : list ValidationIssue)
           (acc : Categorized) : Categorized :=
    match issues with
    | [] => acc
    | issue :: rest =>
        categorizeLoop cfg rest
          (if isLowConfidenceCritical cfg issue
           then mkCategorized (cat_issues acc) (convertedWarnings acc ++ [toWarning issue])
           else mkCategorized (cat_issues acc ++ [issue]) (convertedWarnings acc))
    end.

Definition categorizeIssuesBySeverity (cfg : ValidationConfig)
             (issues : list ValidationIssue) : Categorized :=
    categorizeLoop cfg issues (mkCategorized [] []).

Definition createEmptyValidationResult (warningMessage : option string)
    : DateValidationResult :=
    mkDateValidationResult true []
      (match warningMessage with
       | Some m => if isEmpty m then []
                   else [mkValidationWarning general m "System error during validation"]
       | None => []
       end)
      [].

End Service.

(* ================================================================== *)
(** * Exceptions and local variables

    [Outcome] is the result of a call that may throw.  [M] adds the local
    variables of a method: an assignment made inside a [try] block
    survives the exception that leaves the block. *)

Module Effects.

Definition Error := string.

Inductive Outcome (A : Type) : Type :=
  | Ok (a : A)
  | Throw (e : Error).
Arguments Ok {A} a.
Arguments Throw {A} e.

Definition obind {A B : Type} (m : Outcome A) (f : A -> Outcome B) : Outcome B :=
    match m with
    | Ok a => f a
    | Throw e => Throw e
    end.

Definition M (S A : Type) : Type := S -> Outcome A * S.

Section Monad.
Context {S : Type}.

Definition ret {A : Type} (a : A) : M S A := fun s => (Ok a, s).

Definition bind {A B : Type} (m : M S A) (f : A -> M S B) : M S B :=
      fun s =>
        match m s with
        | (Ok a, s') => f a s'
        | (Throw e, s') => (Throw e, s')
        end.

    (** A call of a collaborator. *)
Definition call {A : Type} (r : Outcome A) : M S A := fun s => (r, s).

Definition get : M S S := fun s => (Ok s, s).

Definition modify (f : S -> S) : M S unit := fun s => (Ok tt, f s).

    (** [try { m } catch (e) { h e }] *)
Definition tryCatch {A : Type} (m : M S A) (h : Error -> M S A) : M S A :=
      fun s =>
        match m s with
        | (Ok a, s') => (Ok a, s')
        | (Throw e, s') => h e s'
        end.

Fixpoint forEach {A : Type} (f : A -> M S unit) (l : list A) : M S unit :=
      match l with
      | [] => ret tt
      | x :: l' => bind (f x) (fun _ => forEach f l')
      end.

Definition when (b : bool) (m : M S unit) : M S unit := if b then m else ret tt.

    (** Runs a method body from the initial values of its variables. *)
Definition run {A : Type} (m : M S A) (init : S) : Outcome A := fst (m init).
End Monad.

End Effects.
Import Effects.

Declare Scope eff_scope.
Delimit Scope eff_scope with eff.
Notation "x <- m ;; k" := (bind m (fun x => k))
  (at level 61, m at next level, right associativity) : eff_scope.
Notation "m ;; k" := (bind m (fun _ => k))
  (at level 61, right associativity) : eff_scope.
Notation "x <~ m ;; k" := (obind m (fun x => k))
  (at level 61, m at next level, right associativity) : eff_scope.

(* ================================================================== *)
(** * Suggestion ranking (class DateSuggestionGenerator) *)

Module SuggestionGenerator.

Definition sameSuggestion (s suggestion : DateSuggestion) : bool :=
    String.eqb (ds_originalDate s) (ds_originalDate suggestion)
    && String.eqb (ds_suggestedDate s) (ds_suggestedDate suggestion).

Definition meetsThreshold (context : ValidationContext) (suggestion : DateSuggestion) : bool :=
    Qleb (confidenceThreshold (config context)) (ds_confidence suggestion).

  (** The comparator [(a, b) => b.confidence - a.confidence]. *)
Definition byConfidenceDesc (a b : DateSuggestion) : bool :=
    Qleb (ds_confidence b - ds_confidence a) 0.

Definition filterAndRankSuggestions (suggestions : list DateSuggestion)
             (context : ValidationContext) : list DateSuggestion :=
    let uniqueSuggestions := uniqueBy sameSuggestion suggestions in
    let filteredSuggestions := filter (meetsThreshold context) uniqueSuggestions in
    sortBy byConfidenceDesc filteredSuggestions.

Section Generators.
    (** The typo detector and the generators of issue-specific and
        timeline suggestions: whatever they return, or throw. *)
Variable detectTypos : ValidationContext -> Outcome (list DateSuggestion).
Variable generateContextAwareSuggestions :
      ValidationIssue -> ValidationContext -> Outcome (list DateSuggestion).
Variable generateTimelineSuggestions : ValidationContext -> Outcome (list DateSuggestion).

Local Open Scope eff_scope.

Fixpoint forIssues (context : ValidationContext) (issues : list ValidationIssue)
             (suggestions : list DateSuggestion) : Outcome (list DateSuggestion) :=
      match issues with
      | [] => Ok suggestions
      | issue :: rest =>
          contextSuggestions <~ generateContextAwareSuggestions issue context ;;
          forIssues context rest (suggestions ++ contextSuggestions)
      end.

    (** The suggestions before ranking. *)
Definition collectSuggestions (context : ValidationContext) (issues : list ValidationIssue)
      : Outcome (list DateSuggestion) :=
      typoSuggestions <~ detectTypos context ;;
      withIssues <~ forIssues context issues typoSuggestions ;;
      timelineSuggestions <~ generateTimelineSuggestions context ;;
      Ok (withIssues ++ timelineSuggestions).

Definition generateSuggestions (context : ValidationContext) (issues : list ValidationIssue)
      : Outcome (list DateSuggestion) :=
      suggestions <~ collectSuggestions context issues ;;
      Ok (filterAndRankSuggestions suggestions context).
End Generators.

End SuggestionGenerator.
Import SuggestionGenerator.

(* ================================================================== *)
(** * The validation orchestrator
    ([ResumeDateValidationService.validateResumeDates])

    The collaborators of the method are the fields of [this]: the logger,
    the configuration manager, the suggestion generators and the parsing
    and validation methods of the service.  Each call returns or throws.
    The configuration manager hands out its configuration; [getConfig]
    copies a record and does not throw.  The console is not modelled. *)

Module Orchestrator.

(** The second argument of [endPerformanceMonitoring]. *)
Inductive EndData := Success (success : bool) | Skipped.

(** class DateValidationLogger, as the service uses it. *)
Record Logger := mkLogger {
  startPerformanceMonitoring : string -> Outcome string;
  endPerformanceMonitoring : string -> EndData -> Outcome (option Q);
  log : string -> string -> string -> Outcome unit;
  logValidationResults : nat -> nat -> nat -> nat -> Q -> bool -> Outcome unit;
  logEdgeCase : string -> string -> string -> string -> option string -> Outcome unit }.

(** class DateValidationConfigManager, as the service uses it. *)
Record ConfigManager := mkConfigManager {
  getConfig : ValidationConfig;
  logDate : string -> Outcome unit;
  logDates : string -> nat -> Outcome unit }.

Definition isTypoDetectionEnabled (manager : ConfigManager) : bool :=
  enableTypoDetection (getConfig manager).

(** The generators behind [DateSuggestionGenerator.generateSuggestions]. *)
Record Generators := mkGenerators {
  detectTypos : ValidationContext -> Outcome (list DateSuggestion);
  generateContextAwareSuggestions :
    ValidationIssue -> ValidationContext -> Outcome (list DateSuggestion);
  generateTimelineSuggestions : ValidationContext -> Outcome (list DateSuggestion) }.

(** The service object: its collaborators and the methods that
    [validateResumeDates] calls on [this]. *)
Record ServiceObject := mkServiceObject {
  configManager : ConfigManager;
  logger : Logger;
  suggestionGenerator : Generators;
  parseEducationDates : string -> Outcome (list EducationPeriod);
  parseWorkExperience : string -> Outcome (list WorkExperience);
  validateEducationTimeline : list EducationPeriod -> Outcome (list ValidationIssue);
  validateWorkTimeline : list WorkExperience -> Outcome (list ValidationIssue);
  applyValidationRules : ValidationContext -> Outcome (list ValidationIssue) }.

(** The local variables of the method. *)
Record Locals := mkLocals {
  l_educationPeriods : list EducationPeriod;
  l_workExperience : list WorkExperience;
  l_allIssues : list ValidationIssue;
  l_warnings : list ValidationWarning;
  l_suggestions : list DateSuggestion;
  l_issues : list ValidationIssue }.

Definition initial : Locals := mkLocals [] [] [] [] [] [].

Definition setEducationPeriods (v : list EducationPeriod) (l : Locals) : Locals :=
  mkLocals v (l_workExperience l) (l_allIssues l) (l_warnings l) (l_suggestions l) (l_issues l).
Definition setWorkExperience (v : list WorkExperience) (l : Locals) : Locals :=
  mkLocals (l_educationPeriods l) v (l_allIssues l) (l_warnings l) (l_suggestions l) (l_issues l).
Definition pushIssues (v : list ValidationIssue) (l : Locals) : Locals :=
  mkLocals (l_educationPeriods l) (l_workExperience l) (l_allIssues l ++ v) (l_warnings l)
           (l_suggestions l) (l_issues l).
Definition pushWarnings (v : list ValidationWarning) (l : Locals) : Locals :=
  mkLocals (l_educationPeriods l) (l_workExperience l) (l_allIssues l) (l_warnings l ++ v)
           (l_suggestions l) (l_issues l).
Definition pushSuggestions (v : list DateSuggestion) (l : Locals) : Locals :=
  mkLocals (l_educationPeriods l) (l_workExperience l) (l_allIssues l) (l_warnings l)
           (l_suggestions l ++ v) (l_issues l).
Definition setIssues (v : list ValidationIssue) (l : Locals) : Locals :=
  mkLocals (l_educationPeriods l) (l_workExperience l) (l_allIssues l) (l_warnings l)
           (l_suggestions l) v.

Definition educationSkipped : ValidationWarning :=
  mkValidationWarning education
    "Education timeline validation encountered an error and was skipped"
    "System error during validation".
Definition workSkipped : ValidationWarning :=
  mkValidationWarning work
    "Work timeline validation encountered an error and was skipped"
    "System error during validation".
Definition rulesSkipped : ValidationWarning :=
  mkValidationWarning general
    "Advanced validation rules encountered an error and were skipped"
    "System error during rule application".
Definition suggestionsSkipped : ValidationWarning :=
  mkValidationWarning general
    "Suggestion generation encountered an error and was skipped"
    "System error during suggestion generation".

Definition unavailable : string :=
  "Date validation temporarily unavailable due to an internal error".

Definition orUnknown (s : string) : string := if isEmpty s then "Unknown context" else s.

Definition orZero (duration : option Q) : Q :=
  match duration with Some d => d | None => 0%Q end.

(** The number of dates [logAllExtractedDates] passes to [logDates]. *)
Definition countDates (education : list EducationPeriod) (workExp : list WorkExperience)
  : nat :=
  List.length (Service.somes (map ep_startDate education ++ map ep_endDate education
                              ++ map we_startDate workExp ++ map we_endDate workExp)).

Section Method.
Variable this : ServiceObject.
Variable now : Date.

Local Open Scope eff_scope.
Local Notation "'Body'" := (M Locals).

(** Parse education dates with error handling. *)
Definition parseEducationStep (resumeText : string) : Body unit :=
  educationParsingId <-
    call (startPerformanceMonitoring (logger this) "parse_education_dates") ;;
  tryCatch
    (parsed <- call (parseEducationDates this resumeText) ;;
     modify (setEducationPeriods parsed) ;;
     call (endPerformanceMonitoring (logger this) educationParsingId (Success true)) ;;
     call (log (logger this) "info" "parsing" "education_parsing_completed"))
    (fun _ =>
       call (endPerformanceMonitoring (logger this) educationParsingId (Success false)) ;;
       call (log (logger this) "error" "parsing" "education_parsing_failed") ;;
       modify (setEducationPeriods [])).

(** Parse work experience with error handling. *)
Definition parseWorkStep (resumeText : string) : Body unit :=
  workParsingId <- call (startPerformanceMonitoring (logger this) "parse_work_experience") ;;
  tryCatch
    (parsed <- call (parseWorkExperience this resumeText) ;;
     modify (setWorkExperience parsed) ;;
     call (endPerformanceMonitoring (logger this) workParsingId (Success true)) ;;
     call (log (logger this) "info" "parsing" "work_parsing_completed"))
    (fun _ =>
       call (endPerformanceMonitoring (logger this) workParsingId (Success false)) ;;
       call (log (logger this) "error" "parsing" "work_parsing_failed") ;;
       modify (setWorkExperience [])).

(** [logAllExtractedDates] catches what its body throws. *)
Definition logAllExtractedDates (education : list EducationPeriod)
           (workExp : list WorkExperience) : Body unit :=
  tryCatch
    (let n := countDates education workExp in
     when (Nat.ltb 0 n) (call (logDates (configManager this) "All extracted dates" n)))
    (fun _ => ret tt).

(** Log all extracted dates for debugging. *)
Definition logExtractedDatesStep : Body unit :=
  loc <- get ;;
  tryCatch
    (logAllExtractedDates (l_educationPeriods loc) (l_workExperience loc) ;;
     call (log (logger this) "debug" "validation" "dates_extracted"))
    (fun _ => call (log (logger this) "error" "validation" "date_extraction_logging_failed")).

(** Apply built-in education validation rules. *)
Definition validateEducationStep : Body unit :=
  educationValidationId <-
    call (startPerformanceMonitoring (logger this) "validate_education_timeline") ;;
  loc <- get ;;
  tryCatch
    (educationIssues <- call (validateEducationTimeline this (l_educationPeriods loc)) ;;
     modify (pushIssues educationIssues) ;;
     call (endPerformanceMonitoring (logger this) educationValidationId (Success true)) ;;
     call (log (logger this) "info" "validation" "education_validation_completed"))
    (fun _ =>
       call (endPerformanceMonitoring (logger this) educationValidationId (Success false)) ;;
       call (log (logger this) "error" "validation" "education_validation_failed") ;;
       modify (pushWarnings [educationSkipped])).

(** Apply built-in work validation rules. *)
Definition validateWorkStep : Body unit :=
  workValidationId <-
    call (startPerformanceMonitoring (logger this) "validate_work_timeline") ;;
  loc <- get ;;
  tryCatch
    (workIssues <- call (validateWorkTimeline this (l_workExperience loc)) ;;
     modify (pushIssues workIssues) ;;
     call (endPerformanceMonitoring (logger this) workValidationId (Success true)) ;;
     call (log (logger this) "info" "validation" "work_validation_completed"))
    (fun _ =>
       call (endPerformanceMonitoring (logger this) workValidationId (Success false)) ;;
       call (log (logger this) "error" "validation" "work_validation_failed") ;;
       modify (pushWarnings [workSkipped])).

(** Apply configurable validation rules. *)
Definition applyRulesStep (context : ValidationContext) : Body unit :=
  ruleValidationId <-
    call (startPerformanceMonitoring (logger this) "apply_validation_rules") ;;
  tryCatch
    (ruleBasedIssues <- call (applyValidationRules this context) ;;
     modify (pushIssues ruleBasedIssues) ;;
     call (endPerformanceMonitoring (logger this) ruleValidationId (Success true)) ;;
     call (log (logger this) "info" "validation" "rule_validation_completed"))
    (fun _ =>
       call (endPerformanceMonitoring (logger this) ruleValidationId (Success false)) ;;
       call (log (logger this) "error" "validation" "rule_validation_failed") ;;
       modify (pushWarnings [rulesSkipped])).

(** [this.suggestionGenerator.generateSuggestions(context, allIssues)] *)
Definition generate (context : ValidationContext) (allIssues : list ValidationIssue)
  : Outcome (list DateSuggestion) :=
  generateSuggestions (detectTypos (suggestionGenerator this))
                      (generateContextAwareSuggestions (suggestionGenerator this))
                      (generateTimelineSuggestions (suggestionGenerator this))
                      context allIssues.

(** Generate intelligent suggestions for all issues. *)
Definition suggestionStep (context : ValidationContext) : Body unit :=
  suggestionId <- call (startPerformanceMonitoring (logger this) "generate_suggestions") ;;
  loc <- get ;;
  tryCatch
    (if isTypoDetectionEnabled (configManager this) then
       intelligentSuggestions <- call (generate context (l_allIssues loc)) ;;
       modify (pushSuggestions intelligentSuggestions) ;;
       call (endPerformanceMonitoring (logger this) suggestionId (Success true)) ;;
       call (log (logger this) "info" "validation" "suggestion_generation_completed")
     else
       call (endPerformanceMonitoring (logger this) suggestionId Skipped) ;;
       call (log (logger this) "info" "validation" "suggestion_generation_skipped"))
    (fun _ =>
       call (endPerformanceMonitoring (logger this) suggestionId (Success false)) ;;
       call (log (logger this) "error" "validation" "suggestion_generation_failed") ;;
       modify (pushWarnings [suggestionsSkipped])).

(** Convert low-confidence issues to warnings. *)
Definition categorizeStep : Body unit :=
  loc <- get ;;
  tryCatch
    (let categorized :=
       Service.categorizeIssuesBySeverity (getConfig (configManager this)) (l_allIssues loc) in
     modify (setIssues (Service.cat_issues categorized)) ;;
     modify (pushWarnings (Service.convertedWarnings categorized)))
    (fun _ => modify (setIssues (l_allIssues loc))).

Definition logEdgeCasesFromResults (issues : list ValidationIssue)
           (warnings : list ValidationWarning) (resumeText : string) : Body unit :=
  tryCatch
    (forEach
       (fun issue =>
          when (Qltb (vi_confidence issue) (7 # 10))
               (call (logEdgeCase (logger this) "ambiguous_date"
                        ("Low confidence validation issue: " ++ vi_message issue)
                        ("Category: " ++ categoryName (vi_category issue)
                         ++ ", Type: " ++ severityName (vi_type issue))
                        (vi_detectedDate issue) (vi_suggestedFix issue))) ;;
          when (includes (vi_message issue) "future"
                && match vi_type issue with warning => true | _ => false end)
               (call (logEdgeCase (logger this) "unusual_date_format"
                        ("Future date detected: " ++ vi_message issue)
                        ("Category: " ++ categoryName (vi_category issue))
                        (vi_detectedDate issue)
                        (Some "Verify if this is an ongoing program or position"))))
       issues ;;
     forEach
       (fun w =>
          when (includes (vw_message w) "error" || includes (vw_message w) "skipped")
               (call (logEdgeCase (logger this) "unexpected_pattern"
                        ("System warning during validation: " ++ vw_message w)
                        (orUnknown (vw_context w))
                        (substring 0 100 resumeText)
                        (Some "Review system logs for detailed error information"))))
       warnings)
    (fun _ => call (log (logger this) "error" "validation" "edge_case_logging_failed")).

(** Determine the overall validation result, log it and return it. *)
Definition finishStep (resumeText operationId : string) : Body DateValidationResult :=
  loc <- get ;;
  let issues := l_issues loc in
  let warnings := l_warnings loc in
  let suggestions := l_suggestions loc in
  let criticalIssues := filter isCritical issues in
  let isValid := Nat.eqb (List.length criticalIssues) 0 in
  let result := mkDateValidationResult isValid issues warnings suggestions in
  duration <- call (endPerformanceMonitoring (logger this) operationId (Success true)) ;;
  call (logDate (configManager this) "Validation completed") ;;
  call (logValidationResults (logger this) (String.length resumeText) (List.length issues)
                             (List.length warnings) (List.length suggestions)
                             (orZero duration) true) ;;
  logEdgeCasesFromResults issues warnings resumeText ;;
  ret result.

(** The stages that follow the creation of the validation context. *)
Definition validateWith (context : ValidationContext) (resumeText operationId : string)
  : Body DateValidationResult :=
  validateEducationStep ;;
  validateWorkStep ;;
  applyRulesStep context ;;
  suggestionStep context ;;
  categorizeStep ;;
  finishStep resumeText operationId.

(** The statements of the outer [try] block. *)
Definition validate (resumeText operationId : string) : Body DateValidationResult :=
  if isEmpty resumeText then
    call (log (logger this) "error" "validation" "invalid_input") ;;
    ret (Service.createEmptyValidationResult (Some "Invalid resume text provided"))
  else if isEmpty (trim resumeText) then
    call (log (logger this) "warn" "validation" "empty_input") ;;
    ret (Service.createEmptyValidationResult (Some "Empty resume text provided"))
  else
    call (log (logger this) "info" "validation" "validation_started") ;;
    parseEducationStep resumeText ;;
    parseWorkStep resumeText ;;
    logExtractedDatesStep ;;
    loc <- get ;;
    validateWith (mkValidationContext now (l_educationPeriods loc) (l_workExperience loc)
                                      (getConfig (configManager this)) resumeText)
                 resumeText operationId.

(** The outer [catch] block: graceful degradation. *)
Definition recover (resumeText operationId : string) : Body DateValidationResult :=
  duration <- call (endPerformanceMonitoring (logger this) operationId (Success false)) ;;
  call (log (logger this) "error" "validation" "validation_critical_error") ;;
  call (logDate (configManager this) "Validation failed") ;;
  call (logValidationResults (logger this) (String.length resumeText) 0 0 0
                             (orZero duration) false) ;;
  ret (Service.createEmptyValidationResult (Some unavailable)).

Definition validateResumeDates (resumeText : string) : Outcome DateValidationResult :=
  operationId <~ startPerformanceMonitoring (logger this) "validate_resume_dates" ;;
  _ <~ logDate (configManager this) "Validation started" ;;
  run (tryCatch (validate resumeText operationId)
                (fun _ => recover resumeText operationId))
      initial.

End Method.
End Orchestrator.

(* ================================================================== *)
(** * The simple service (class DateValidationService, dateValidation.ts)

    Its three validators scan the text on their own; here they are
    parameters that return issues or throw. *)

Module SimpleService.

Record DateValidationWarning := mkDateValidationWarning {
  sw_message : string;
  sw_category : Category }.

Record SimpleSuggestion := mkSimpleSuggestion {
  ss_message : string;
  ss_suggestedDate : string;
  ss_confidence : Q }.

Record SimpleResult := mkSimpleResult {
  isValid : bool;
  issues : list ValidationIssue;
  warnings : list DateValidationWarning;
  suggestions : list SimpleSuggestion }.

Record Locals := mkLocals {
  l_issues : list ValidationIssue;
  l_warnings : list DateValidationWarning }.

Definition pushIssues (v : list ValidationIssue) (l : Locals) : Locals :=
  mkLocals (l_issues l ++ v) (l_warnings l).
Definition pushWarning (w : DateValidationWarning) (l : Locals) : Locals :=
  mkLocals (l_issues l) (l_warnings l ++ [w]).

Definition createEmptyResult (warningMessage : option string) : SimpleResult :=
  mkSimpleResult true []
    (match warningMessage with
     | Some m => if isEmpty m then [] else [mkDateValidationWarning m general]
     | None => []
     end)
    [].

Section Validators.
Variable validateEducationDates : string -> Outcome (list ValidationIssue).
Variable validateWorkDates : string -> Outcome (list ValidationIssue).
Variable validateGeneralDates : string -> Outcome (list ValidationIssue).

Local Open Scope eff_scope.

(** One validator call with its [catch] block. *)
Definition guarded (validator : string -> Outcome (list ValidationIssue)) (resumeText : string)
           (skipped : DateValidationWarning) : M Locals unit :=
  tryCatch
    (found <- call (validator resumeText) ;;
     modify (pushIssues found))
    (fun _ => modify (pushWarning skipped)).

Definition validate (resumeText : string) : M Locals SimpleResult :=
  if isEmpty resumeText then ret (createEmptyResult (Some "Invalid resume text provided"))
  else if isEmpty (trim resumeText) then
    ret (createEmptyResult (Some "Empty resume text provided"))
  else
    guarded validateEducationDates resumeText
      (mkDateValidationWarning
         "Education date validation encountered an error and was skipped" education) ;;
    guarded validateWorkDates resumeText
      (mkDateValidationWarning
         "Work experience date validation encountered an error and was skipped" work) ;;
    guarded validateGeneralDates resumeText
      (mkDateValidationWarning
         "General date validation encountered an error and was skipped" general) ;;
    loc <- get ;;
    ret (mkSimpleResult (Nat.eqb (List.length (filter isCritical (l_issues loc))) 0)
                        (l_issues loc) (l_warnings loc) []).

Definition validateResumeDates (resumeText : string) : Outcome SimpleResult :=
  run (tryCatch (validate resumeText)
                (fun _ =>
                   ret (mkSimpleResult true []
                          [mkDateValidationWarning
                             "Date validation temporarily unavailable due to an internal error"
                             general]
                          [])))
      (mkLocals [] []).

End Validators.
End SimpleService.

(* ================================================================== *)
(** * Vocabulary of the statements *)

(** [issues.every(i => i.type !== 'critical')] *)
Definition noCritical (issues : list ValidationIssue) : bool :=
  forallb (fun i => negb (isCritical i)) issues.

(** The identity under which extracted dates are deduplicated. *)
Definition matchKey (d : ExtractedDate) : nat * string := (ed_startIndex d, ed_text d).

(** The identity under which suggestions are deduplicated. *)
Definition suggestionKey (s : DateSuggestion) : string * string :=
  (ds_originalDate s, ds_suggestedDate s).

(** [text] contains [keyword] up to the case of letters. *)
Definition containsIgnoreCase (text keyword : string) : Prop :=
  exists before occurrence after : string,
    text = (before ++ occurrence ++ after)%string /\
    toLowerCase occurrence = toLowerCase keyword.

(** A month or a day written with one or two digits. *)
Definition numeral (leadingZero : bool) (n : Z) : string :=
  if leadingZero && (n <? 10)%Z then ("0" ++ ofZ n)%string else ofZ n.

(** The text [M/D/YYYY]. *)
Definition fullDateString (zeroMonth zeroDay : bool) (month day year : Z) : string :=
  (numeral zeroMonth month ++ "/" ++ numeral zeroDay day ++ "/" ++ ofZ year)%string.

Definition isLeapYear (year : Z) : bool :=
  ((year mod 4 =? 0) && negb (year mod 100 =? 0) || (year mod 400 =? 0))%Z.

Definition daysInMonth (year month : Z) : Z :=
  if (month =? 2)%Z then (if isLeapYear year then 29 else 28)%Z
  else if ((month =? 4) || (month =? 6) || (month =? 9) || (month =? 11))%Z then 30%Z
  else 31%Z.

(** Digits and the slash: the alphabet of [fullDateString]. *)
Definition isDateChar (c : ascii) : bool := isDigit c || N.eqb (code c) 47.

Fixpoint allChars (p : ascii -> bool) (s : string) : bool :=
  match s with
  | EmptyString => true
  | String c s' => p c && allChars p s'
  end.

Definition zrange (lo : Z) (n : nat) : list Z :=
  map (fun i => (lo + Z.of_nat i)%Z) (List.seq 0 n).

(** Weakest precondition of a method body: [Q] on return, [E] on throw. *)
Definition wp {S A : Type} (m : M S A) (Q : A -> S -> Prop) (E : Error -> S -> Prop)
           (s : S) : Prop :=
  match m s with
  | (Ok a, s') => Q a s'
  | (Throw e, s') => E e s'
  end.

Definition okOr {A : Type} (d : A) (r : Outcome A) : A :=
  match r with Ok a => a | Throw _ => d end.

Definition returns {A : Type} (r : Outcome A) : Prop := exists a, r = Ok a.

(** The invariant of a validation result. *)
Definition wellFormed (r : DateValidationResult) : Prop := isValid r = noCritical (issues r).

Module Runs.
Import Orchestrator.

(** The logging calls of [validateResumeDates] that are not inside its
    [try] block return: the two calls before the block and the calls of the
    [catch] block. *)
Definition loggingAroundTryReturns (this : ServiceObject) (resumeText : string) : Prop :=
  exists operationId,
    startPerformanceMonitoring (logger this) "validate_resume_dates" = Ok operationId /\
    returns (logDate (configManager this) "Validation started") /\
    returns (endPerformanceMonitoring (logger this) operationId (Success false)) /\
    returns (log (logger this) "error" "validation" "validation_critical_error") /\
    returns (logDate (configManager this) "Validation failed") /\
    forall duration,
      returns (logValidationResults (logger this) (String.length resumeText) 0 0 0
                                    duration false).

(** No logging call throws, which is how the logger and the configuration
    manager of the repository behave. *)
Definition loggingReturns (this : ServiceObject) : Prop :=
  (forall name, returns (startPerformanceMonitoring (logger this) name)) /\
  (forall id data, returns (endPerformanceMonitoring (logger this) id data)) /\
  (forall level category operation, returns (log (logger this) level category operation)) /\
  (forall a b c d e f, returns (logValidationResults (logger this) a b c d e f)) /\
  (forall a b c d e, returns (logEdgeCase (logger this) a b c d e)) /\
  (forall context, returns (logDate (configManager this) context)) /\
  (forall context n, returns (logDates (configManager this) context n)).

(** The periods the validators of a run see. *)
Definition educationOf (this : ServiceObject) (resumeText : string) : list EducationPeriod :=
  okOr [] (parseEducationDates this resumeText).

Definition workOf (this : ServiceObject) (resumeText : string) : list WorkExperience :=
  okOr [] (parseWorkExperience this resumeText).

Definition contextOfRun (this : ServiceObject) (now : Date) (resumeText : string)
  : ValidationContext :=
  mkValidationContext now (educationOf this resumeText) (workOf this resumeText)
                      (getConfig (configManager this)) resumeText.

(** The issues the validators of a run produce: those of the education
    validator, of the work validator and of the rules, in this order, a
    validator that throws contributing none. *)
Definition validatorIssues (this : ServiceObject) (now : Date) (resumeText : string)
  : list ValidationIssue :=
  if isEmpty (trim resumeText) then []
  else
    okOr [] (validateEducationTimeline this (educationOf this resumeText))
    ++ okOr [] (validateWorkTimeline this (workOf this resumeText))
    ++ okOr [] (applyValidationRules this (contextOfRun this now resumeText)).

(** What the ranking guarantees of a list of suggestions: unique pairs,
    nothing below the threshold of the configuration, descending
    confidence, and, unless the list is empty, exactly the first
    occurrences among the generated suggestions that meet the threshold. *)
Definition rankedSuggestions (this : ServiceObject) (l : list DateSuggestion) : Prop :=
  let threshold := confidenceThreshold (getConfig (configManager this)) in
  NoDup (map suggestionKey l) /\
  Forall (fun s => (threshold <= ds_confidence s)%Q) l /\
  StronglySorted (fun a b => (ds_confidence b <= ds_confidence a)%Q) l /\
  (l = [] \/
   exists context found raw,
     config context = getConfig (configManager this) /\
     collectSuggestions (detectTypos (suggestionGenerator this))
                        (generateContextAwareSuggestions (suggestionGenerator this))
                        (generateTimelineSuggestions (suggestionGenerator this))
                        context found = Ok raw /\
     Permutation l (filter (meetsThreshold context) (uniqueBy sameSuggestion raw))).

(** A logger and a configuration manager that do nothing. *)
Definition quietLogger : Logger :=
  mkLogger (fun name => Ok name) (fun _ _ => Ok None) (fun _ _ _ => Ok tt)
           (fun _ _ _ _ _ _ => Ok tt) (fun _ _ _ _ _ => Ok tt).

Definition quietManager (cfg : ValidationConfig) : ConfigManager :=
  mkConfigManager cfg (fun _ => Ok tt) (fun _ _ => Ok tt).

(** A logger that throws on the first logging call of the [try] block. *)
Definition failingLogger : Logger :=
  mkLogger (fun name => Ok name) (fun _ _ => Ok None)
           (fun _ _ operation =>
              if String.eqb operation "validation_started" then Throw "logger failure"
              else Ok tt)
           (fun _ _ _ _ _ _ => Ok tt) (fun _ _ _ _ _ => Ok tt).

Definition noSuggestions : Generators :=
  mkGenerators (fun _ => Ok []) (fun _ _ => Ok []) (fun _ => Ok []).

End Runs.

(** The scenarios of the specification. *)
Definition scenario1 : string :=
  "Bachelor of Computer Science, University of Technology, September 2018 - May 2022".

Definition scenario4 : string := "2025/13/45 - 2026/99/99".

Definition scenario4Document : string :=
  ("Data Analyst, Facebook" ++ nl ++ scenario4 ++ nl
   ++ "Software Engineering Intern, StartupXYZ" ++ nl ++ "June 2021 - August 2021")%string.

(** A host locale for examples: the en-US rendering [M/D/YYYY]. *)
Definition enUS (d : Date) : string :=
  (ofZ (getMonth d + 1) ++ "/" ++ ofZ (getDate d) ++ "/" ++ ofZ (getFullYear d))%string.

(** ** Shapes of texts *)

Fixpoint lastChar (s : string) : option ascii :=
  match s with
  | EmptyString => None
  | String c EmptyString => Some c
  | String _ s' => lastChar s'
  end.

(** The keywords are in lower case and neither start nor end with white
    space. *)
Definition keywordShape (k : string) : bool :=
  String.eqb (toLowerCase k) k &&
  match k with String c _ => negb (isSpace c) | EmptyString => false end &&
  match lastChar k with Some c => negb (isSpace c) | None => false end.

(** A literal that starts with a small letter. *)
Definition startsLower (l : string) : bool :=
  match l with String a _ => isLowerAscii a | EmptyString => false end.

(** Four digits that start with 19 or 20. *)
Definition yearText (y : string) : bool :=
  match y with
  | String a (String b (String c (String d EmptyString))) =>
      (Ascii.eqb a "1" && Ascii.eqb b "9" || Ascii.eqb a "2" && Ascii.eqb b "0")
      && isDigit c && isDigit d
  | _ => false
  end.

(** One or two digits. *)
Definition shortNumeral (s : string) : bool :=
  match s with
  | String a EmptyString => isDigit a
  | String a (String b EmptyString) => isDigit a && isDigit b
  | _ => false
  end.

(** [parseInt] reads back the rendering of [y]. *)
Definition readsBack (y : Z) : bool :=
  match parseInt (ofZ y) with Some v => (v =? y)%Z | None => false end.

(** ** Services for examples *)

(** Three suggestions, one of them twice and one of low confidence. *)
Definition typoSuggestions : list DateSuggestion :=
  [mkDateSuggestion "2032" "2022" "Possible typo in the decade" (9 # 10);
   mkDateSuggestion "2081" "2018" "Possibly transposed digits" (95 # 100);
   mkDateSuggestion "2032" "2022" "Possible typo in the decade" (9 # 10);
   mkDateSuggestion "1023" "2023" "Unlikely year" (5 # 10)].

Definition typoGenerators : Orchestrator.Generators :=
  Orchestrator.mkGenerators (fun _ => Ok typoSuggestions) (fun _ _ => Ok []) (fun _ => Ok []).

(** A service whose education stage is the one of the repository, read in
    the en-US locale, and whose work and rule stages find nothing. *)
Definition educationService (logger : Orchestrator.Logger)
           (generators : Orchestrator.Generators) (cfg : ValidationConfig) (now : Date)
  : Orchestrator.ServiceObject :=
  Orchestrator.mkServiceObject
    (Runs.quietManager cfg) logger generators
    (fun text => Ok (Service.parseEducationDates now text))
    (fun _ => Ok [])
    (fun periods => Ok (Service.validateEducationTimeline enUS now cfg periods))
    (fun _ => Ok [])
    (fun _ => Ok []).

(** A configuration with the confidence threshold 0.9. *)
Definition strictThreshold : ValidationConfig := mkValidationConfig 4 3 true (9 # 10) false.

Definition today : Date := newDate 2026 10 2.

Definition futureProgram : string := "University of Future, 2030 - 2034".

Definition strictService : Orchestrator.ServiceObject :=
  educationService Runs.quietLogger Runs.noSuggestions strictThreshold today.

Definition failingService : Orchestrator.ServiceObject :=
  educationService Runs.failingLogger Runs.noSuggestions DEFAULT_VALIDATION_CONFIG today.

Definition typoService : Orchestrator.ServiceObject :=
  educationService Runs.quietLogger typoGenerators DEFAULT_VALIDATION_CONFIG today.

(** The issue that the start date of [futureProgram] raises on [today]. *)
Definition futureStartIssue : ValidationIssue :=
  mkValidationIssue critical education
    "Education start date 1/1/2030 is more than 3 months in the future."
    "1/1/2030"
    (Some "Verify this date is correct or consider if it should be 2029.")
    (85 # 100).

(* ================================================================== *)
(** * Further definitions: what the properties below speak of *)

(** [s'] is what is left of [s] behind a prefix. *)
Definition suffix (s' s : string) : Prop := exists pre : string, s = (pre ++ s')%string.

(** A date that a format parser returns: the midnight of a date of the
    calendar in a valid year. *)
Definition calendarResult (now : Date) (r : FormatResult) : Prop :=
  exists year monthIndex day : Z,
    fr_date r = newDate year monthIndex day /\
    (1950 <= year <= getFullYear now + 10)%Z /\
    getFullYear (fr_date r) = year /\ getMonth (fr_date r) = monthIndex /\
    getDate (fr_date r) = day.

(** No character of [s] is a digit. *)
Definition noDigits (s : string) : bool := allChars (fun c => negb (isDigit c)) s.

(** [r] matches at no position of a subject without digits. *)
Definition needsDigit (ci : bool) (r : re) : Prop :=
  forall (R : Type) prev s caps (k : option ascii -> string -> list string -> option R),
    noDigits s = true -> Regex.run ci r prev s caps k = None.

(** What [parseDate] read, without the string it was given. *)
Definition reading (p : ParsedDate) : Date * DateFormat * bool * Q :=
  (pd_normalized p, pd_format p, pd_isOngoing p, pd_confidence p).

(** What a match consumed: the subject without what is left of it. *)
Definition consumed (s s' : string) : string := take (String.length s - String.length s') s.

Definition occursIn (c t : string) : Prop := exists a b : string, t = (a ++ c ++ b)%string.

(** The entry lies in [text] where its indexes say, and its parsed date is
    the reading of its own text. *)
Definition located (now : Date) (text : string) (e : ExtractedDate) : Prop :=
  ed_parsedDate e = parseDate now (ed_text e) /\
  ed_endIndex e = ed_startIndex e + String.length (ed_text e) /\
  ed_endIndex e <= String.length text /\
  substring (ed_startIndex e) (ed_endIndex e) text = ed_text e.

(* ================================================================== *)
(** * The date parser: dates by context (class ResumeDateParser, continued) *)

(** The keywords of [isEducationContext]. *)
Definition educationContextKeywords : list string :=
  ["university"; "college"; "school"; "degree"; "bachelor"; "master";
   "phd"; "doctorate"; "diploma"; "certificate"; "graduation"; "graduated";
   "education"; "academic"; "student"; "gpa"; "major"; "minor"].

Definition isEducationContext (context : string) : bool :=
  includesAny (toLowerCase context) educationContextKeywords.

(** The keywords of [isWorkContext]. *)
Definition workContextKeywords : list string :=
  ["company"; "corporation"; "inc"; "ltd"; "llc"; "work"; "job";
   "position"; "role"; "employment"; "experience"; "career";
   "professional"; "intern"; "internship"; "volunteer"; "manager";
   "developer"; "engineer"; "analyst"; "consultant"; "director"].

Definition isWorkContext (context : string) : bool :=
  includesAny (toLowerCase context) workContextKeywords.

Definition extractEducationDates (now : Date) (text : string) : list ExtractedDate :=
  let allDates := extractDatesFromText now text in
  filter (fun date => isEducationContext (ed_context date)) allDates.

Definition extractWorkExperienceDates (now : Date) (text : string) : list ExtractedDate :=
  let allDates := extractDatesFromText now text in
  filter (fun date => isWorkContext (ed_context date)) allDates.

(** The [lastIndex] of the two shared patterns of [DATE_PATTERNS] that
    [detectDateFormat] tests.  Both patterns have the [g] flag, so [test]
    starts at [lastIndex] and moves it. *)
Record PatternState := mkPatternState {
  monthYearLastIndex : nat;
  fullDateLastIndex : nat }.

Fixpoint cursorFrom (i idx : nat) (prev : option ascii) (s : string) : Cursor :=
  match i, s with
  | S i', String c s' => cursorFrom i' (S idx) (Some c) s'
  | _, _ => mkCursor idx prev s
  end.

(** The position [lastIndex] of [text]. *)
Definition cursorAt (text : string) (lastIndex : nat) : Cursor :=
  cursorFrom lastIndex 0 None text.

(** [rx.test(text)] for a pattern with the [g] flag: the answer and the
    new [lastIndex], which is the end of the match, or 0 when nothing
    matches at or after the old one. *)
Definition testGlobal (rx : RegExp) (lastIndex : nat) (text : string) : bool * nat :=
  if Nat.ltb (String.length text) lastIndex then (false, 0)
  else
    match exec rx (cursorAt text lastIndex) with
    | Some (_, c) => (true, index c)
    | None => (false, 0)
    end.

Definition detectDateFormat (text : string) : M PatternState DateFormat :=
  (if isEmpty text then ret YEAR_ONLY
   else
     let trimmed := toLowerCase (trim text) in
     if isOngoingIndicator trimmed then ret PRESENT
     else
       st <- get ;;
       let monthYear := testGlobal MONTH_YEAR_RX (monthYearLastIndex st) text in
       modify (fun st => mkPatternState (snd monthYear) (fullDateLastIndex st)) ;;
       if fst monthYear then ret MONTH_YEAR
       else
         st <- get ;;
         let fullDate := testGlobal FULL_DATE_RX (fullDateLastIndex st) text in
         modify (fun st => mkPatternState (monthYearLastIndex st) (snd fullDate)) ;;
         if fst fullDate then ret FULL_DATE else ret YEAR_ONLY)%eff.

(** [l] is [l'] without some of its elements, the others in their
    order. *)
Inductive subsequence {A : Type} : list A -> list A -> Prop :=
  | subsequence_nil : subsequence [] []
  | subsequence_skip (x : A) (l l' : list A) : subsequence l l' -> subsequence l (x :: l')
  | subsequence_keep (x : A) (l l' : list A) :
      subsequence l l' -> subsequence (x :: l) (x :: l').

(** The context of the entry is a window of [text]. *)
Definition windowed (text : string) (e : ExtractedDate) : Prop :=
  exists startIndex endIndex : nat, ed_context e = contextOf text startIndex endIndex.

(* ================================================================== *)
(** * The configuration manager (class DateValidationConfigManager)

    The manager holds one configuration object.  Its methods that write
    to storage are asynchronous and are not modelled; the synchronous ones
    are.  A field of an update may be absent, or present with the value
    [undefined], which the spread operator copies like any other value.
    The numbers of years and of months are integers, as everywhere in the
    model. *)

Module ConfigManager.

Inductive Field (A : Type) : Type :=
  | Absent
  | Undefined
  | Value (v : A).
Arguments Absent {A}.
Arguments Undefined {A}.
Arguments Value {A} v.

(** [Partial<ValidationConfig>] *)
Record PartialConfig := mkPartialConfig {
  p_maxFutureEducationYears : Field Z;
  p_maxFutureWorkMonths : Field Z;
  p_enableTypoDetection : Field bool;
  p_confidenceThreshold : Field Q;
  p_strictMode : Field bool }.

Definition noUpdates : PartialConfig := mkPartialConfig Absent Absent Absent Absent Absent.

(** The object in [this.config]; [None] is a field that holds
    [undefined]. *)
Record ConfigObject := mkConfigObject {
  o_maxFutureEducationYears : option Z;
  o_maxFutureWorkMonths : option Z;
  o_enableTypoDetection : option bool;
  o_confidenceThreshold : option Q;
  o_strictMode : option bool }.

Definition ofConfig (c : ValidationConfig) : ConfigObject :=
  mkConfigObject (Some (maxFutureEducationYears c)) (Some (maxFutureWorkMonths c))
                 (Some (enableTypoDetection c)) (Some (confidenceThreshold c))
                 (Some (strictMode c)).

Definition spreadField {A : Type} (old : option A) (f : Field A) : option A :=
  match f with
  | Absent => old
  | Undefined => None
  | Value v => Some v
  end.

(** [{ ...config, ...updates }] *)
Definition spread (config : ConfigObject) (updates : PartialConfig) : ConfigObject :=
  mkConfigObject
    (spreadField (o_maxFutureEducationYears config) (p_maxFutureEducationYears updates))
    (spreadField (o_maxFutureWorkMonths config) (p_maxFutureWorkMonths updates))
    (spreadField (o_enableTypoDetection config) (p_enableTypoDetection updates))
    (spreadField (o_confidenceThreshold config) (p_confidenceThreshold updates))
    (spreadField (o_strictMode config) (p_strictMode updates)).

(** CONFIG_VALIDATION_RULES *)
Definition yearsMessage : string := "maxFutureEducationYears must be between 0 and 10 years".
Definition monthsMessage : string := "maxFutureWorkMonths must be between 0 and 12 months".
Definition thresholdMessage : string := "confidenceThreshold must be between 0 and 1".

Definition outsideZ (lo hi : Z) (v : option Z) : bool :=
  match v with
  | Some x => ((x <? lo) || (hi <? x))%Z
  | None => true
  end.

Definition outsideQ (lo hi : Q) (v : option Q) : bool :=
  match v with
  | Some x => Qltb x lo || Qltb hi x
  | None => true
  end.

Definition notBoolean (v : option bool) : bool :=
  match v with Some _ => false | None => true end.

Definition errorsOf (config : ConfigObject) : list string :=
  (if outsideZ 0 10 (o_maxFutureEducationYears config) then [yearsMessage] else [])
  ++ (if outsideZ 0 12 (o_maxFutureWorkMonths config) then [monthsMessage] else [])
  ++ (if outsideQ 0 1 (o_confidenceThreshold config) then [thresholdMessage] else [])
  ++ (if notBoolean (o_enableTypoDetection config)
      then ["enableTypoDetection must be a boolean value"] else [])
  ++ (if notBoolean (o_strictMode config) then ["strictMode must be a boolean value"] else []).

(** [errors.join(', ')] *)
Fixpoint join (l : list string) : string :=
  match l with
  | [] => ""
  | [e] => e
  | e :: l' => (e ++ ", " ++ join l')%string
  end.

Definition validateConfig (config : ConfigObject) : Outcome unit :=
  match errorsOf config with
  | [] => Ok tt
  | errors => Throw ("Configuration validation failed: " ++ join errors)%string
  end.

(** [new DateValidationConfigManager(customConfig)]: the object it holds,
    unless the validation throws. *)
Definition construct (customConfig : option PartialConfig) : Outcome ConfigObject :=
  let config := spread (ofConfig DEFAULT_VALIDATION_CONFIG)
                       (match customConfig with Some p => p | None => noUpdates end) in
  obind (validateConfig config) (fun _ => Ok config).

Local Open Scope eff_scope.

Definition updateConfigSync (updates : PartialConfig) : M ConfigObject unit :=
  oldConfig <- get ;;
  modify (fun config => spread config updates) ;;
  tryCatch
    (config <- get ;;
     call (validateConfig config))
    (fun error =>
       modify (fun _ => oldConfig) ;;
       call (Throw error)).

Definition resetToDefaultsSync : M ConfigObject unit :=
  modify (fun _ => ofConfig DEFAULT_VALIDATION_CONFIG).

Definition getConfig : M ConfigObject ConfigObject := get.

(** [fromJSON] *)
Definition fromJSON (json : PartialConfig) : Outcome ConfigObject := construct (Some json).

(** A call of one of the two methods that change the configuration. *)
Inductive Call := UpdateConfigSync (updates : PartialConfig) | ResetToDefaultsSync.

(** The object after a call, whether the call returned or threw. *)
Definition after (config : ConfigObject) (c : Call) : ConfigObject :=
  match c with
  | UpdateConfigSync updates => snd (updateConfigSync updates config)
  | ResetToDefaultsSync => snd (resetToDefaultsSync config)
  end.

(** The object is a configuration within the ranges of the rules. *)
Definition withinRules (config : ConfigObject) : Prop :=
  exists c : ValidationConfig,
    config = ofConfig c /\
    (0 <= maxFutureEducationYears c <= 10)%Z /\
    (0 <= maxFutureWorkMonths c <= 12)%Z /\
    (0 <= confidenceThreshold c <= 1)%Q.

End ConfigManager.

(* ================================================================== *)
(** * A run of the orchestrator in closed form *)

Module QuietRun.
Import Orchestrator Runs.

(** The warning of a stage that threw. *)
Definition skippedIf {A : Type} (r : Outcome A) (w : ValidationWarning)
  : list ValidationWarning :=
  match r with
  | Ok _ => []
  | Throw _ => [w]
  end.

Section Run.
Variable this : ServiceObject.
Variable now : Date.
Variable resumeText : string.

Definition generated : Outcome (list DateSuggestion) :=
  generate this (contextOfRun this now resumeText) (validatorIssues this now resumeText).

(** The warnings of the stages that threw, in the order of the stages. *)
Definition stageWarnings : list ValidationWarning :=
  skippedIf (validateEducationTimeline this (educationOf this resumeText)) educationSkipped
  ++ skippedIf (validateWorkTimeline this (workOf this resumeText)) workSkipped
  ++ skippedIf (applyValidationRules this (contextOfRun this now resumeText)) rulesSkipped
  ++ (if isTypoDetectionEnabled (configManager this)
      then skippedIf generated suggestionsSkipped else []).

Definition keptIssues : list ValidationIssue :=
  filter (fun i => negb (Service.isLowConfidenceCritical (getConfig (configManager this)) i))
         (validatorIssues this now resumeText).

Definition convertedIssues : list ValidationWarning :=
  map Service.toWarning
      (filter (Service.isLowConfidenceCritical (getConfig (configManager this)))
              (validatorIssues this now resumeText)).

Definition result : DateValidationResult :=
  mkDateValidationResult
    (noCritical keptIssues) keptIssues (stageWarnings ++ convertedIssues)
    (if isTypoDetectionEnabled (configManager this) then okOr [] generated else []).

End Run.
End QuietRun.

(* ================================================================== *)
(** * Shapes of date texts *)

(** Four digits. *)
Definition fourDigits (y : string) : bool :=
  match y with
  | String a (String b (String c (String d EmptyString))) =>
      isDigit a && isDigit b && isDigit c && isDigit d
  | _ => false
  end.

(** Every digit replaced by the digit 0. *)
Fixpoint zeroDigits (s : string) : string :=
  match s with
  | EmptyString => EmptyString
  | String c s' => String (if isDigit c then "0"%char else c) (zeroDigits s')
  end.

(** The name of the month with index [i], in full or abbreviated, as the
    parser knows it. *)
Definition monthText (long : bool) (i : nat) : string :=
  nth i (if long then ResumeDateParser.monthNames else ResumeDateParser.monthAbbreviations) "".

(* ================================================================== *)
(** * The validation service: work experience
    (class ResumeDateValidationService, continued) *)

Module WorkService.
Import Service.

Definition isWorkSectionHeader (line : string) : bool :=
  includesAny line ["experience"; "work experience"; "professional experience";
                    "employment"; "career"; "work history"; "professional background"].

Definition isNonWorkSectionHeader (line : string) : bool :=
  includesAny line ["education"; "skills"; "projects"; "certifications";
                    "achievements"; "awards"; "publications"; "references"].

Definition containsWorkKeywords (line : string) : bool := includesAny line WORK_KEYWORDS.

Definition containsCompanyIndicators (line : string) : bool :=
  includesAny (toLowerCase line) ["inc"; "corp"; "ltd"; "llc"; "company"; "corporation"].

Definition isPositionOnlyLine (line : string) : bool :=
  includesAny (toLowerCase line) ["manager"; "director"; "engineer"; "developer"]
  && Nat.ltb (String.length (trim line)) 50.

(** One iteration of the loop of [extractWorkSections]. *)
Definition workLine (lines : list string) (st : Segmenter) (i : nat) (rawLine : string)
  : Segmenter :=
  let line := trim rawLine in
  let lowerLine := toLowerCase line in
  if isWorkSectionHeader lowerLine then
    mkSegmenter (if sectionStarted st then pushNonEmpty (sections st) (currentSection st)
                 else sections st)
                (line ++ nl) true true
  else if isNonWorkSectionHeader lowerLine && inSection st then
    mkSegmenter (pushNonEmpty (sections st) (currentSection st)) "" false false
  else if inSection st then
    mkSegmenter (sections st) (currentSection st ++ line ++ nl) (inSection st)
                (sectionStarted st)
  else if negb (sectionStarted st) && containsWorkKeywords lowerLine then
    mkSegmenter (sections st ++ [joinLines (getContextLines lines i 2)])
                (currentSection st) (inSection st) (sectionStarted st)
  else st.

Definition extractWorkSections (text : string) : list string :=
  let lines := splitLines text in
  let st := segment (workLine lines) (mkSegmenter [] "" false false) 0 lines in
  if inSection st then pushNonEmpty (sections st) (currentSection st) else sections st.

Definition extractCompany (lines : list string) : option string :=
  match find (fun line =>
                negb (isDateLine line || isPositionOnlyLine line)
                && includesAny (toLowerCase line) ["inc"; "corp"; "ltd"; "llc"; "company"])
             lines with
  | Some line => Some (trim line)
  | None =>
      match find (fun line => Nat.ltb 3 (String.length (trim line))
                              && negb (isDateLine line) && negb (isPositionOnlyLine line))
                 lines with
      | Some substantialLine => truthy (trim substantialLine)
      | None => None
      end
  end.

Definition extractPosition (lines : list string) : option string :=
  match find (fun line =>
                includesAny (toLowerCase line)
                  ["manager"; "director"; "engineer"; "developer"; "analyst"; "consultant";
                   "intern"; "associate"; "specialist"; "coordinator"; "assistant"; "lead"])
             lines with
  | Some line => Some (trim line)
  | None =>
      match find (fun line =>
                    let trimmed := trim line in
                    Nat.ltb 5 (String.length trimmed) && Nat.ltb (String.length trimmed) 50
                    && negb (isDateLine line) && negb (containsCompanyIndicators line))
                 lines with
      | Some titleLine => truthy (trim titleLine)
      | None => None
      end
  end.

Definition calculateWorkConfidence (company position : option string)
           (extractedDates : list ExtractedDate) : Q :=
  let c0 := (5 # 10)%Q in
  let c1 :=
    match company with
    | Some c =>
        if isEmpty c then c0
        else
          let c' := (c0 + (2 # 10))%Q in
          if containsCompanyIndicators c then (c' + (1 # 10))%Q else c'
    | None => c0
    end in
  let c2 := match position with
            | Some p => if isEmpty p then c1 else (c1 + (2 # 10))%Q
            | None => c1
            end in
  let avgDateConfidence :=
    (fold_left (fun sum date => sum + dateConfidence date) extractedDates 0
     / inject_Z (Z.of_nat (List.length extractedDates)))%Q in
  let c3 := (c2 + avgDateConfidence * (1 # 10))%Q in
  if Qleb c3 1 then c3 else 1%Q.

Definition parseWorkSection (now : Date) (sectionText : string) : option WorkExperience :=
  let extractedDates := extractDatesFromText now sectionText in
  match extractedDates with
  | [] => None
  | _ =>
      let lines := nonEmptyLines sectionText in
      let company := extractCompany lines in
      let position := extractPosition lines in
      let range := determineDateRange extractedDates in
      let confidence := calculateWorkConfidence company position extractedDates in
      Some (mkWorkExperience (orDefault company "Unknown Company")
                             (orDefault position "Unknown Position")
                             (startDate range) (endDate range) (isOngoing range)
                             sectionText confidence)
  end.

Definition parseWorkExperience (now : Date) (text : string) : list WorkExperience :=
  if isEmpty text then []
  else if isEmpty (trim text) then []
  else somes (map (parseWorkSection now) (extractWorkSections text)).

(* ---------------------------------------------------------------- *)
(** ** Timeline validation *)

Definition hasWorkOverlap (now : Date) (work1 work2 : WorkExperience) : bool :=
  match we_startDate work1, we_startDate work2 with
  | Some s1, Some s2 =>
      let w1Start := getTime s1 in
      let w1End := timeOrNow now (we_endDate work1) in
      let w2Start := getTime s2 in
      let w2End := timeOrNow now (we_endDate work2) in
      ((w1Start <? w2End) && (w2Start <? w1End))%Z
  | _, _ => false
  end.

Definition validOverlapKeywords : list string :=
  ["part-time"; "freelance"; "consultant"; "contractor"; "intern";
   "volunteer"; "seasonal"; "temporary"; "project-based"; "remote"].

Definition industryKeywords : list string :=
  ["teaching"; "education"; "consulting"; "research"; "writing";
   "coaching"; "training"; "speaking"; "advisory"].

Definition isValidWorkOverlap (work1 work2 : WorkExperience) : bool :=
  let position1 := toLowerCase (we_position work1) in
  let position2 := toLowerCase (we_position work2) in
  let company1 := toLowerCase (we_company work1) in
  let company2 := toLowerCase (we_company work2) in
  let hasValidKeywords :=
    existsb (fun keyword =>
               includes position1 keyword || includes position2 keyword
               || includes company1 keyword || includes company2 keyword)
            validOverlapKeywords in
  if hasValidKeywords then true
  else
    let shortOverlap :=
      match we_startDate work1, we_endDate work1, we_startDate work2, we_endDate work2 with
      | Some s1, Some e1, Some s2, Some e2 =>
          let overlapStart := Z.max (getTime s1) (getTime s2) in
          let overlapEnd := Z.min (getTime e1) (getTime e2) in
          let overlapMonths := (inject_Z (overlapEnd - overlapStart) / msPerMonth)%Q in
          Qltb overlapMonths 3
      | _, _, _, _ => false
      end in
    if shortOverlap then true
    else
      existsb (fun keyword =>
                 (includes position1 keyword && negb (includes position2 keyword))
                 || (negb (includes position1 keyword) && includes position2 keyword))
              industryKeywords.

(** The comparator of the sort in [validateWorkTimeline]. *)
Definition byStartDate (a b : WorkExperience) : Z :=
  match we_startDate a, we_startDate b with
  | Some s1, Some s2 => getTime s1 - getTime s2
  | _, _ => 0
  end.

Section Timeline.
Variable toLocaleDateString : Date -> string.
Variable now : Date.
Variable cfg : ValidationConfig.
(** [Array.prototype.sort].  The comparator [byStartDate] answers 0 as
    soon as one start date is missing, which is no consistent ordering;
    the order of the sorted array is then left to the host. *)
Variable arraySort :
  (WorkExperience -> WorkExperience -> Z) -> list WorkExperience -> list WorkExperience.

Definition futureEnd (experience : WorkExperience) : list ValidationIssue :=
  match we_endDate experience with
  | Some endDate =>
      if negb (we_isOngoing experience) then
        let monthsDifference := elapsed endDate now msPerMonth in
        if Qltb (inject_Z (maxFutureWorkMonths cfg)) monthsDifference then
          [mkValidationIssue critical work
             ("Work end date " ++ toLocaleDateString endDate ++ " is more than "
              ++ ofZ (maxFutureWorkMonths cfg) ++ " months in the future.")
             (toLocaleDateString endDate)
             (Some ("Consider checking if this should be "
                    ++ ofZ (getFullYear endDate - 1) ++ " or if this position is ongoing.")%string)
             (9 # 10)]
        else if Qltb 1 monthsDifference then
          [mkValidationIssue warning work
             ("Work end date " ++ toLocaleDateString endDate ++ " is "
              ++ ceilStr monthsDifference
              ++ " months in the future. Please verify this is correct.")
             (toLocaleDateString endDate) None (7 # 10)]
        else []
      else []
  | None => []
  end.

Definition futureStart (experience : WorkExperience) : list ValidationIssue :=
  match we_startDate experience with
  | Some startDate =>
      let monthsDifference := elapsed startDate now msPerMonth in
      if Qltb (inject_Z (maxFutureWorkMonths cfg)) monthsDifference then
        [mkValidationIssue critical work
           ("Work start date " ++ toLocaleDateString startDate ++ " is more than "
            ++ ofZ (maxFutureWorkMonths cfg) ++ " months in the future.")
           (toLocaleDateString startDate)
           (Some ("Verify this date is correct or consider if it should be "
                  ++ ofZ (getFullYear startDate - 1) ++ ".")%string)
           (85 # 100)]
      else []
  | None => []
  end.

Definition dateOrder (experience : WorkExperience) : list ValidationIssue :=
  match we_startDate experience, we_endDate experience with
  | Some startDate, Some endDate =>
      if negb (we_isOngoing experience) && (getTime endDate <=? getTime startDate)%Z then
        [mkValidationIssue critical work
           ("Work start date (" ++ toLocaleDateString startDate
            ++ ") is after or same as end date (" ++ toLocaleDateString endDate ++ ") at "
            ++ we_company experience ++ ".")
           (range toLocaleDateString startDate endDate)
           (Some "Please check and correct the date order.")
           (95 # 100)]
      else []
  | _, _ => []
  end.

Definition duration (experience : WorkExperience) : list ValidationIssue :=
  match we_startDate experience, we_endDate experience with
  | Some startDate, Some endDate =>
      if negb (we_isOngoing experience) then
        let durationDays := elapsed endDate startDate (inject_Z msPerDay) in
        if Qltb durationDays 1 then
          [mkValidationIssue critical work
             ("Work period at " ++ we_company experience
              ++ " appears to be less than one day.")
             (range toLocaleDateString startDate endDate)
             (Some "Please verify the dates are correct.")
             (9 # 10)]
        else if Qltb durationDays 7 then
          [mkValidationIssue warning work
             ("Work period at " ++ we_company experience ++ " is very short ("
              ++ ceilStr durationDays ++ " days).")
             (range toLocaleDateString startDate endDate) None (7 # 10)]
        else []
      else []
  | _, _ => []
  end.

Definition staleOngoing (experience : WorkExperience) : list ValidationIssue :=
  match we_startDate experience with
  | Some startDate =>
      if we_isOngoing experience then
        let yearsSinceStart := elapsed now startDate msPerYear in
        if Qltb 15 yearsSinceStart then
          [mkValidationIssue suggestion work
             ("Current position at " ++ we_company experience ++ " started "
              ++ ceilStr yearsSinceStart ++ " years ago. Consider if this is still accurate.")
             (toLocaleDateString startDate) None (6 # 10)]
        else []
      else []
  | None => []
  end.

(** The body of the first loop of [validateWorkTimeline]. *)
Definition experienceIssues (experience : WorkExperience) : list ValidationIssue :=
  futureEnd experience ++ futureStart experience ++ dateOrder experience
  ++ duration experience ++ staleOngoing experience.

Definition overlapIssue (work1 work2 : WorkExperience) : list ValidationIssue :=
  if hasWorkOverlap now work1 work2 then
    if negb (isValidWorkOverlap work1 work2) then
      [mkValidationIssue warning work
         ("Overlapping work periods detected: " ++ we_company work1 ++ " and "
          ++ we_company work2 ++ ". Please verify if this is correct.")
         (localeOr toLocaleDateString (we_startDate work1) "Unknown" ++ " - "
          ++ localeOr toLocaleDateString (we_endDate work1) "Present" ++ " overlaps with "
          ++ localeOr toLocaleDateString (we_startDate work2) "Unknown" ++ " - "
          ++ localeOr toLocaleDateString (we_endDate work2) "Present")
         None (7 # 10)]
    else []
  else [].

Definition gapIssue (currentWork nextWork : WorkExperience) : list ValidationIssue :=
  match we_endDate currentWork, we_startDate nextWork with
  | Some endDate, Some startDate =>
      if negb (we_isOngoing currentWork) then
        let gapMonths := elapsed startDate endDate msPerMonth in
        if Qltb 12 gapMonths then
          [mkValidationIssue suggestion work
             ("Gap of " ++ ceilStr gapMonths ++ " months between " ++ we_company currentWork
              ++ " and " ++ we_company nextWork
              ++ ". Consider explaining significant employment gaps.")
             (toLocaleDateString endDate ++ " to " ++ toLocaleDateString startDate)
             None (5 # 10)]
        else []
      else []
  | _, _ => []
  end.

(** The nested loops over the sorted array: for every index, the overlaps
    with the later entries, then the gap to the next entry. *)
Fixpoint pairLoop (sortedWork : list WorkExperience) : list ValidationIssue :=
  match sortedWork with
  | [] => []
  | work1 :: rest =>
      flat_map (overlapIssue work1) rest
      ++ match rest with
         | nextWork :: _ => gapIssue work1 nextWork
         | [] => []
         end
      ++ pairLoop rest
  end.

Definition validateWorkTimeline (work : list WorkExperience) : list ValidationIssue :=
  flat_map experienceIssues work ++ pairLoop (arraySort byStartDate work).

End Timeline.

End WorkService.

(* ================================================================== *)
(** * The validation rules (getValidationRules, applyValidationRules) *)

(** [date.setFullYear(year)]: the month, the day of the month and the time
    within the day stay; a 29th of February moves to the 1st of March in a year
    that is not a leap year. *)
Definition setFullYear (date : Date) (year : Z) : Date :=
  (newDate year (getMonth date) (getDate date) + date mod msPerDay)%Z.

Module Rules.
Import Service.

(** interface ValidationRule *)
Record ValidationRule := mkValidationRule {
  rule_name : string;
  rule_category : Category;
  rule_severity : Severity;
  rule_condition : ValidationContext -> bool;
  rule_message : ValidationContext -> string;
  rule_suggestion : option (ValidationContext -> option string) }.

(** The dates of the periods of the context, those of the education
    first. *)
Definition allDates (context : ValidationContext) : list Date :=
  flat_map (fun p => somes [ep_startDate p; ep_endDate p]) (educationPeriods context)
  ++ flat_map (fun w => somes [we_startDate w; we_endDate w]) (workExperience context).

Definition isAncient (date : Date) : bool := (getFullYear date <? 1980)%Z.

Definition findAncientDate (context : ValidationContext) : option Date :=
  find isAncient (allDates context).

(** [`${date?.getFullYear()}`] *)
Definition yearOrUndefined (date : option Date) : string :=
  match date with
  | Some d => ofZ (getFullYear d)
  | None => "undefined"
  end.

Definition hasStartDate (w : WorkExperience) : bool :=
  match we_startDate w with Some _ => true | None => false end.

(** [(a, b) => a.startDate.getTime() - b.startDate.getTime()], on
    experiences that have a start date. *)
Definition startsBefore (a b : WorkExperience) : bool :=
  match we_startDate a, we_startDate b with
  | Some s1, Some s2 => (getTime s1 - getTime s2 <=? 0)%Z
  | _, _ => true
  end.

Definition hasCompletedEnd (e : EducationPeriod) : bool :=
  match ep_endDate e with Some _ => negb (ep_isOngoing e) | None => false end.

(** [(a, b) => b.endDate.getTime() - a.endDate.getTime()], on periods
    that have an end date. *)
Definition endsAfter (a b : EducationPeriod) : bool :=
  match ep_endDate a, ep_endDate b with
  | Some e1, Some e2 => (getTime e2 - getTime e1 <=? 0)%Z
  | _, _ => true
  end.

(** The loop of the rule on career progression over the sorted
    experiences. *)
Fixpoint hasLongGap (sortedWork : list WorkExperience) : bool :=
  match sortedWork with
  | prevWork :: ((currentWork :: _) as rest) =>
      match we_endDate prevWork, we_startDate currentWork with
      | Some endDate, Some startDate =>
          if Qltb 2 (elapsed startDate endDate msPerYear) then true else hasLongGap rest
      | _, _ => hasLongGap rest
      end
  | _ => false
  end.

Definition careerProgressionCondition (context : ValidationContext) : bool :=
  if Nat.ltb (List.length (workExperience context)) 2 then false
  else hasLongGap (sortBy startsBefore (filter hasStartDate (workExperience context))).

Definition educationWorkCondition (context : ValidationContext) : bool :=
  let latestEducation :=
    hd_error (sortBy endsAfter (filter hasCompletedEnd (educationPeriods context))) in
  let earliestWork :=
    hd_error (sortBy startsBefore (filter hasStartDate (workExperience context))) in
  match latestEducation, earliestWork with
  | Some e, Some w =>
      match we_startDate w, ep_endDate e with
      | Some startDate, Some endDate => (getTime startDate <? getTime endDate)%Z
      | _, _ => false
      end
  | _, _ => false
  end.

Section Apply.
Variable toLocaleDateString : Date -> string.
Variable now : Date.
(** The addition of the host on numbers, which is the one of binary
    floating point: [0.7 + 0.1] is not [0.8] there. *)
Variable add : Q -> Q -> Q.

Definition futureLimit : Date := setFullYear now (getFullYear now + 10).

Definition isImpossible (date : Date) : bool := (getTime futureLimit <? getTime date)%Z.

Definition findImpossibleFutureDate (context : ValidationContext) : option Date :=
  find isImpossible (allDates context).

Definition getValidationRules : list ValidationRule :=
  [ mkValidationRule "ancient-dates" general warning
      (fun context => existsb isAncient (allDates context))
      (fun context =>
         ("Date " ++ yearOrUndefined (findAncientDate context)
          ++ " seems unusually old. Please verify this is correct.")%string)
      (Some (fun context =>
               match findAncientDate context with
               | Some ancientDate =>
                   Some ("Consider if this should be "
                         ++ ofZ (getFullYear ancientDate + 20) ++ " instead.")%string
               | None => None
               end));
    mkValidationRule "impossible-future-dates" general critical
      (fun context => existsb isImpossible (allDates context))
      (fun context =>
         ("Date " ++ yearOrUndefined (findImpossibleFutureDate context)
          ++ " is too far in the future to be realistic.")%string)
      (Some (fun context =>
               match findImpossibleFutureDate context with
               | Some impossibleDate =>
                   Some ("This might be a typo. Consider if it should be "
                         ++ ofZ (getFullYear impossibleDate - 10) ++ ".")%string
               | None => None
               end));
    mkValidationRule "career-progression" work suggestion
      careerProgressionCondition
      (fun _ => "Consider explaining any significant gaps in employment history.")
      (Some (fun _ =>
               Some "Add brief explanations for employment gaps (education, travel, family, etc.)"));
    mkValidationRule "education-work-consistency" general warning
      educationWorkCondition
      (fun _ => "Work experience appears to start before education completion. Please verify timeline consistency.")
      (Some (fun _ =>
               Some "Check if work was part-time during education or if dates need correction.")) ].

(** [a || b] on dates that may be missing. *)
Definition orElse (a b : option Date) : option Date :=
  match a with Some _ => a | None => b end.

Definition extractRelevantDate (context : ValidationContext) (rule : ValidationRule)
  : string :=
  match rule_category rule with
  | education =>
      localeOr toLocaleDateString
               (match educationPeriods context with
                | p :: _ => orElse (ep_endDate p) (ep_startDate p)
                | [] => None
                end) "Unknown"
  | work =>
      localeOr toLocaleDateString
               (match workExperience context with
                | w :: _ => orElse (we_endDate w) (we_startDate w)
                | [] => None
                end) "Unknown"
  | general => "Multiple dates"
  end.

Definition isEducation (c : Category) : bool :=
  match c with education => true | _ => false end.

Definition isWork (c : Category) : bool :=
  match c with work => true | _ => false end.

Definition calculateRuleConfidence (rule : ValidationRule) (context : ValidationContext)
  : Q :=
  let c0 := (7 # 10)%Q in
  let hasGoodEducationData :=
    existsb (fun p => Qltb (8 # 10) (ep_confidence p)) (educationPeriods context) in
  let hasGoodWorkData :=
    existsb (fun w => Qltb (8 # 10) (we_confidence w)) (workExperience context) in
  let c1 := if isEducation (rule_category rule) && hasGoodEducationData
            then add c0 (1 # 10) else c0 in
  let c2 := if isWork (rule_category rule) && hasGoodWorkData
            then add c1 (1 # 10) else c1 in
  let c3 := if strictMode (config context) then add c2 (1 # 10) else c2 in
  if Qleb c3 1 then c3 else 1%Q.

(** The issue of a rule whose condition holds. *)
Definition ruleIssue (context : ValidationContext) (rule : ValidationRule)
  : ValidationIssue :=
  mkValidationIssue (rule_severity rule) (rule_category rule)
    (rule_message rule context)
    (extractRelevantDate context rule)
    (match rule_suggestion rule with
     | Some suggest => suggest context
     | None => None
     end)
    (calculateRuleConfidence rule context).

(** No condition, message or suggestion of the four rules throws, so the
    [catch] of the loop is never entered. *)
Definition applyValidationRules (context : ValidationContext) : list ValidationIssue :=
  flat_map (fun rule => if rule_condition rule context then [ruleIssue context rule] else [])
           getValidationRules.

End Apply.
End Rules.

(* ================================================================== *)
(** * Timeline suggestions (class DateSuggestionGenerator) *)

Module TimelineSuggestions.

Definition hasStartDate (edu : EducationPeriod) : bool :=
  match ep_startDate edu with Some _ => true | None => false end.

(** [(a, b) => a.startDate.getTime() - b.startDate.getTime()], on periods
    that have a start date. *)
Definition startsBefore (a b : EducationPeriod) : bool :=
  match ep_startDate a, ep_startDate b with
  | Some s1, Some s2 => (getTime s1 - getTime s2 <=? 0)%Z
  | _, _ => true
  end.

(** The loop of [generateEducationTimelineGapSuggestions] over the sorted
    periods. *)
Fixpoint gapSuggestions (sortedEducation : list EducationPeriod) : list DateSuggestion :=
  match sortedEducation with
  | current :: ((next :: _) as rest) =>
      match ep_endDate current, ep_startDate next with
      | Some endDate, Some startDate =>
          let gapYears := (getFullYear startDate - getFullYear endDate)%Z in
          if (2 <? gapYears)%Z then
            [mkDateSuggestion
               (ofZ (getFullYear endDate) ++ " to " ++ ofZ (getFullYear startDate))
               "Consider adding missing education or adjusting dates"
               (ofZ gapYears
                ++ "-year gap in education timeline may indicate missing information")
               (3 # 10)]
          else []
      | _, _ => []
      end ++ gapSuggestions rest
  | _ => []
  end.

Definition generateEducationTimelineGapSuggestions (educationPeriods : list EducationPeriod)
  : list DateSuggestion :=
  gapSuggestions (sortBy startsBefore (filter hasStartDate educationPeriods)).

Section Timeline.
Variable toLocaleDateString : Date -> string.
Variable now : Date.

(** [date || new Date()] *)
Definition orNow (date : option Date) : Date :=
  match date with Some d => d | None => now end.

Definition hasSignificantOverlap (work1 work2 : WorkExperience) : bool :=
  match we_startDate work1, we_startDate work2 with
  | Some s1, Some s2 =>
      let work1End := orNow (we_endDate work1) in
      let work2End := orNow (we_endDate work2) in
      let overlapStart := Z.max (getTime s1) (getTime s2) in
      let overlapEnd := Z.min (getTime work1End) (getTime work2End) in
      let overlapMonths := (inject_Z (overlapEnd - overlapStart) / Service.msPerMonth)%Q in
      Qltb 6 overlapMonths
  | _, _ => false
  end.

Definition generateOverlapSuggestion (work1 work2 : WorkExperience) : option DateSuggestion :=
  match we_endDate work1, we_startDate work2 with
  | Some endDate, Some startDate =>
      let suggestedEndDate := (getTime startDate - 24 * 60 * 60 * 1000)%Z in
      Some (mkDateSuggestion (toLocaleDateString endDate)
                             (toLocaleDateString suggestedEndDate)
                             ("Adjust end date to avoid overlap with " ++ we_company work2)
                             (4 # 10))
  | _, _ => None
  end.

Definition overlapSuggestion (pr : WorkExperience * WorkExperience) : list DateSuggestion :=
  let '(work1, work2) := pr in
  if hasSignificantOverlap work1 work2 then
    match generateOverlapSuggestion work1 work2 with
    | Some overlapSuggestion => [overlapSuggestion]
    | None => []
    end
  else [].

Definition generateWorkTimelineOverlapSuggestions (workExperience : list WorkExperience)
  : list DateSuggestion :=
  flat_map overlapSuggestion (Service.pairs workExperience).

Definition generateTimelineSuggestions (context : ValidationContext) : list DateSuggestion :=
  generateEducationTimelineGapSuggestions (educationPeriods context)
  ++ generateWorkTimelineOverlapSuggestions (workExperience context).

End Timeline.
End TimelineSuggestions.

(* ================================================================== *)
(** * The service with its own stages *)

(** The service object of the repository: every stage is the method of
    the class. *)
Definition repositoryService (logger : Orchestrator.Logger)
           (generators : Orchestrator.Generators) (cfg : ValidationConfig)
           (toLocaleDateString : Date -> string)
           (arraySort : (WorkExperience -> WorkExperience -> Z)
                        -> list WorkExperience -> list WorkExperience)
           (add : Q -> Q -> Q) (now : Date)
  : Orchestrator.ServiceObject :=
  Orchestrator.mkServiceObject
    (Runs.quietManager cfg) logger generators
    (fun text => Ok (Service.parseEducationDates now text))
    (fun text => Ok (WorkService.parseWorkExperience now text))
    (fun periods => Ok (Service.validateEducationTimeline toLocaleDateString now cfg periods))
    (fun experiences =>
       Ok (WorkService.validateWorkTimeline toLocaleDateString now cfg arraySort experiences))
    (fun context => Ok (Rules.applyValidationRules toLocaleDateString now add context)).

(** A stable sort, which is what the host does with a comparator that is
    consistent. *)
Definition stableSort (compare : WorkExperience -> WorkExperience -> Z)
           (l : list WorkExperience) : list WorkExperience :=
  sortBy (fun a b => (compare a b <=? 0)%Z) l.

(* ================================================================== *)
(** * Examples *)

(** The default configuration without typo detection. *)
Definition withoutTypoDetection : ValidationConfig :=
  mkValidationConfig 4 3 false (8 # 10) false.

Definition plainService : Orchestrator.ServiceObject :=
  educationService Runs.quietLogger typoGenerators withoutTypoDetection today.

(** The period that [scenario1] yields. *)
Definition scenario1Period : EducationPeriod :=
  mkEducationPeriod "Unknown Institution" (Some scenario1)
                    (Some (newDate 2018 0 1)) (Some (newDate 2022 4 1)) false
                    scenario1 (316000 # 400000).

Definition workScenario : string :=
  ("Software Engineer, Acme Inc" ++ nl ++ "June 2019 - August 2021")%string.

Definition acmeExperience : WorkExperience :=
  mkWorkExperience "Acme Inc" "Software Engineer"
                   (Some (newDate 2019 5 1)) (Some (newDate 2021 7 1)) false
                   workScenario (9 # 10).

(** A program whose end lies more than ten years after [today]. *)
Definition distantProgram : EducationPeriod :=
  mkEducationPeriod "University of Future" None
                    (Some (newDate 2030 0 1)) (Some (newDate 2037 0 1)) false
                    "University of Future, 2030 - 2037" (8 # 10).

Definition distantContext : ValidationContext :=
  mkValidationContext today [distantProgram] [] DEFAULT_VALIDATION_CONFIG
                      "University of Future, 2030 - 2037".

(** The service of the repository in its default configuration, read in
    the en-US locale. *)
Definition defaultService : Orchestrator.ServiceObject :=
  repositoryService Runs.quietLogger Runs.noSuggestions DEFAULT_VALIDATION_CONFIG
                    enUS stableSort Qplus today.

Definition resumeScenario : string := (scenario1 ++ nl ++ workScenario)%string.

Definition universityScenario : string := "University of X, 2015 - 2019".

(** Two periods more than two years apart. *)
Definition gapContext : ValidationContext :=
  mkValidationContext today
    [scenario1Period;
     mkEducationPeriod "University of Future" None (Some (newDate 2025 8 1)) None true
                       "University of Future, September 2025 - Present" (8 # 10)]
    [] DEFAULT_VALIDATION_CONFIG resumeScenario.

(* ================================================================== *)
(** * Properties *)

(* ================================================================== *)
(** * Arrays: first occurrences and stable sorting *)

Section ArrayFacts.
Context {A : Type}.

Lemma findIndex_Some (p : A -> bool) (l : list A) (i : nat) :
  findIndex p l = Some i ->
  exists pre x post, l = pre ++ x :: post /\ List.length pre = i /\ p x = true /\
                     forallb (fun y => negb (p y)) pre = true.
Proof.
  revert i. induction l as [|y l IH]; simpl; intros i H; [discriminate|].
  destruct (p y) eqn:Hy.
  - injection H as <-. exists [], y, l. auto.
  - destruct (findIndex p l) as [j|]; [|discriminate].
    injection H as <-. destruct (IH j eq_refl) as (pre & x & post & -> & Hlen & Hx & Hpre).
    exists (y :: pre), x, post. simpl. rewrite Hy, Hpre, Hlen. auto.
Qed.

Lemma findIndex_first (p : A -> bool) (pre : list A) (x : A) (post : list A) :
  forallb (fun y => negb (p y)) pre = true -> p x = true ->
  findIndex p (pre ++ x :: post) = Some (List.length pre).
Proof.
  induction pre as [|y pre IH]; simpl; intros Hpre Hx.
  - now rewrite Hx.
  - apply andb_prop in Hpre as [Hy Hpre]. apply negb_true_iff in Hy.
    rewrite Hy, IH; auto.
Qed.

Lemma findIndex_None (p : A -> bool) (l : list A) :
  findIndex p l = None -> forallb (fun y => negb (p y)) l = true.
Proof.
  induction l as [|y l IH]; simpl; auto.
  destruct (p y); [discriminate|]. destruct (findIndex p l); [discriminate|auto].
Qed.

Lemma filterFrom_In (f : A -> nat -> bool) (i : nat) (l : list A) (x : A) :
  In x (filterFrom f i l) -> In x l.
Proof.
  revert i. induction l as [|y l IH]; simpl; intros i H; auto.
  destruct (f y i); [destruct H as [->|H]|]; eauto.
Qed.

Lemma filterFrom_ext (f g : A -> nat -> bool) (i : nat) (l : list A) :
  (forall k x, nth_error l k = Some x -> f x (i + k) = g x (i + k)) ->
  filterFrom f i l = filterFrom g i l.
Proof.
  revert i. induction l as [|y l IH]; simpl; intros i H; auto.
  rewrite (IH (S i)).
  - specialize (H 0 y eq_refl). rewrite Nat.add_0_r in H. now rewrite H.
  - intros k x Hk. specialize (H (S k) x Hk). now rewrite Nat.add_succ_r in H.
Qed.

Variable same : A -> A -> bool.
Variable K : Type.
Variable key : A -> K.
Hypothesis same_key : forall x y, same x y = true <-> key x = key y.

Lemma same_refl x : same x x = true.
Proof. now apply same_key. Qed.

Lemma no_same_notin (x : A) (pre : list A) :
  forallb (fun y => negb (same y x)) pre = true <-> ~ In (key x) (map key pre).
Proof.
  induction pre as [|y pre IH]; simpl.
  - tauto.
  - rewrite andb_true_iff, IH, negb_true_iff. 
    destruct (same y x) eqn:E.
    + apply same_key in E. split; [intros [? _]; discriminate|intros H; exfalso; apply H; auto].
    + split; [intros [_ H] [H'|H']; [|tauto]|tauto].
      apply same_key in H'. congruence.
Qed.

(** What [uniqueBy] keeps of a suffix [l] of the array [pre ++ l]. *)
Lemma uniqueBy_suffix (pre l : list A) :
  filterFrom (fun x i => optNatEqb (findIndex (fun y => same y x) (pre ++ l)) i)
             (List.length pre) l
  = match l with
    | [] => []
    | x :: l' =>
        (if existsb (fun y => same y x) pre then [] else [x])
        ++ filterFrom (fun z i => optNatEqb (findIndex (fun y => same y z) ((pre ++ [x]) ++ l')) i)
                      (List.length (pre ++ [x])) l'
    end.
Proof.
  destruct l as [|x l']; simpl; auto.
  rewrite length_app, Nat.add_1_r, <- app_assoc. simpl.
  destruct (existsb (fun y => same y x) pre) eqn:E.
  - replace (optNatEqb _ _) with false; auto.
    symmetry. destruct (findIndex _ _) as [j|] eqn:F; simpl; auto.
    apply Nat.eqb_neq. intros ->.
    apply findIndex_Some in F as (pre' & x' & post' & Heq & Hlen & _ & Hpre').
    assert (pre' = pre) as ->.
    { clear - Heq Hlen. revert pre' Heq Hlen. induction pre as [|a pre IH]; intros [|b pre']; simpl; try discriminate; auto.
      intros H1 H2. injection H1 as -> H1. f_equal. apply IH; auto. }
    apply existsb_exists in E as (y & Hy & Hs).
    rewrite forallb_forall in Hpre'. specialize (Hpre' y Hy). now rewrite Hs in Hpre'.
  - rewrite findIndex_first; auto using same_refl.
    + simpl. now rewrite Nat.eqb_refl.
    + apply forallb_forall. intros y Hy. apply negb_true_iff.
      destruct (same y x) eqn:Hs; auto.
      assert (existsb (fun y => same y x) pre = true) by (apply existsb_exists; eauto). congruence.
Qed.

Lemma uniqueBy_suffix_spec (l pre : list A) :
  let kept := filterFrom (fun x i => optNatEqb (findIndex (fun y => same y x) (pre ++ l)) i)
                         (List.length pre) l in
  NoDup (map key kept) /\
  (forall x, In x kept -> In x l /\ ~ In (key x) (map key pre)) /\
  (forall x, In x l -> In (key x) (map key pre) \/ In (key x) (map key kept)) /\
  (NoDup (map key (pre ++ l)) -> kept = l).
Proof.
  revert pre. induction l as [|x l IH]; intros pre kept; subst kept.
  - simpl. repeat split; try constructor; try tauto.
  - rewrite uniqueBy_suffix.
    destruct (IH (pre ++ [x])) as (Hnd & Hin & Hcov & Hid).
    set (rest := filterFrom _ _ l) in *.
    assert (Hrest : forall z, In z rest -> key z <> key x /\ ~ In (key z) (map key pre) /\ In z l).
    { intros z Hz. destruct (Hin z Hz) as [Hl Hn]. rewrite map_app, in_app_iff in Hn. simpl in Hn.
      split; [|split; [|exact Hl]].
      - intros E. apply Hn. right. left. auto.
      - intros E. apply Hn. now left. }
    destruct (existsb (fun y => same y x) pre) eqn:E; simpl.
    + assert (Hx : In (key x) (map key pre)).
      { apply existsb_exists in E as (y & Hy & Hs). apply same_key in Hs.
        rewrite <- Hs. now apply in_map. }
      split; [exact Hnd|split; [|split]].
      * intros z Hz. destruct (Hrest z Hz) as (_ & ? & ?). auto.
      * intros z [<-|Hz]; [now left|].
        destruct (Hcov z Hz) as [H|H]; auto. rewrite map_app, in_app_iff in H. simpl in H.
        destruct H as [H|[H|[]]]; auto. left. now rewrite <- H.
      * intros Hnd'. exfalso. rewrite map_app in Hnd'. simpl in Hnd'.
        apply NoDup_remove_2 in Hnd'. apply Hnd'. apply in_or_app. now left.
    + assert (Hx : ~ In (key x) (map key pre)).
      { apply no_same_notin. apply forallb_forall. intros y Hy. apply negb_true_iff.
        destruct (same y x) eqn:Hs; auto.
        assert (existsb (fun y => same y x) pre = true) by (apply existsb_exists; eauto).
        congruence. }
      split; [|split; [|split]].
      * constructor; auto. intros H. apply in_map_iff in H as (z & Hk & Hz).
        destruct (Hrest z Hz) as (Hne & _). auto.
      * intros z [<-|Hz]; [split; [now left|exact Hx]|].
        destruct (Hrest z Hz) as (_ & ? & ?). auto.
      * intros z [<-|Hz]; [right; now left|].
        destruct (Hcov z Hz) as [H|H]; [|right; now right].
        rewrite map_app, in_app_iff in H. simpl in H.
        destruct H as [H|[H|[]]]; [now left|right; left; auto].
      * intros Hnd'. f_equal. apply Hid. now rewrite <- app_assoc.
Qed.

Lemma uniqueBy_NoDup (l : list A) : NoDup (map key (uniqueBy same l)).
Proof. apply (uniqueBy_suffix_spec l []). Qed.

Lemma uniqueBy_incl (l : list A) (x : A) : In x (uniqueBy same l) -> In x l.
Proof. intros H. now apply (uniqueBy_suffix_spec l []) in H. Qed.

Lemma uniqueBy_covers (l : list A) (x : A) :
  In x l -> In (key x) (map key (uniqueBy same l)).
Proof. intros H. destruct (proj1 (proj2 (proj2 (uniqueBy_suffix_spec l []))) x H) as [[]|]; auto. Qed.

Lemma uniqueBy_fixed (l : list A) : NoDup (map key l) -> uniqueBy same l = l.
Proof. apply (uniqueBy_suffix_spec l []). Qed.

End ArrayFacts.

Section SortFacts.
Context {A : Type}.
Variable before : A -> A -> bool.

Lemma insertSorted_perm (x : A) (l : list A) : Permutation (insertSorted before x l) (x :: l).
Proof.
  induction l as [|y l IH]; simpl; auto.
  destruct (before x y); auto.
  rewrite IH. apply perm_swap.
Qed.

Lemma sortBy_perm (l : list A) : Permutation (sortBy before l) l.
Proof.
  induction l as [|x l IH]; simpl; auto.
  rewrite insertSorted_perm. now constructor.
Qed.

Hypothesis before_total : forall a b, before a b = true \/ before b a = true.
Hypothesis before_trans :
  forall a b c, before a b = true -> before b c = true -> before a c = true.

Let ordered (a b : A) : Prop := before a b = true.

Lemma insertSorted_sorted (x : A) (l : list A) :
  StronglySorted ordered l -> StronglySorted ordered (insertSorted before x l).
Proof.
  induction 1 as [|y l Hs IH Hy]; simpl.
  - repeat constructor.
  - destruct (before x y) eqn:E.
    + constructor; [now constructor|]. constructor; auto.
      eapply Forall_impl; [|exact Hy]. intros z Hz. eapply before_trans; eauto.
    + constructor; auto.
      assert (Hyx : ordered y x) by (destruct (before_total x y); [congruence|auto]).
      eapply Permutation_Forall; [symmetry; apply insertSorted_perm|]. now constructor.
Qed.

Lemma sortBy_sorted (l : list A) : StronglySorted ordered (sortBy before l).
Proof.
  induction l as [|x l IH]; simpl; [constructor|now apply insertSorted_sorted].
Qed.

Lemma sortBy_fixed (l : list A) : StronglySorted ordered l -> sortBy before l = l.
Proof.
  induction 1 as [|x l Hs IH Hx]; simpl; auto.
  rewrite IH. destruct l as [|y l]; simpl; auto.
  inversion Hx as [|? ? Hxy _]; subst. unfold ordered in Hxy. now rewrite Hxy.
Qed.

End SortFacts.

(* ================================================================== *)
(** * The text extractor *)

Lemma sameMatch_key (x y : ExtractedDate) :
  sameMatch x y = true <-> matchKey x = matchKey y.
Proof.
  unfold sameMatch, matchKey. rewrite andb_true_iff, Nat.eqb_eq, String.eqb_eq.
  split; [intros [-> ->]; reflexivity|intros H; injection H; auto].
Qed.

Lemma deduplicateAndSort_sorted (l : list ExtractedDate) :
  StronglySorted (fun a b => ed_startIndex a <= ed_startIndex b) (deduplicateAndSort l).
Proof.
  unfold deduplicateAndSort.
  eapply StronglySorted_ind with (P := StronglySorted _);
    [constructor| |apply sortBy_sorted].
  - intros a l' _ IH Ha. constructor; auto.
    eapply Forall_impl; [|exact Ha]. intros b Hb. now apply Nat.leb_le.
  - intros a b. rewrite !Nat.leb_le. lia.
  - intros a b c. rewrite !Nat.leb_le. lia.
Qed.

Lemma deduplicateAndSort_NoDup (l : list ExtractedDate) :
  NoDup (map matchKey (deduplicateAndSort l)).
Proof.
  unfold deduplicateAndSort.
  eapply Permutation_NoDup.
  - apply Permutation_map. symmetry. apply sortBy_perm.
  - apply (uniqueBy_NoDup sameMatch _ matchKey sameMatch_key).
Qed.

Lemma deduplicateAndSort_idempotent (l : list ExtractedDate) :
  deduplicateAndSort (deduplicateAndSort l) = deduplicateAndSort l.
Proof.
  unfold deduplicateAndSort at 1.
  rewrite (uniqueBy_fixed sameMatch _ matchKey sameMatch_key)
    by apply deduplicateAndSort_NoDup.
  apply sortBy_fixed.
  eapply StronglySorted_ind with (P := StronglySorted _);
    [constructor| |apply deduplicateAndSort_sorted].
  intros a l' _ IH Ha. constructor; auto.
  eapply Forall_impl; [|exact Ha]. intros b Hb. now apply Nat.leb_le.
Qed.

Lemma deduplicateAndSort_keys (l : list ExtractedDate) (k : nat * string) :
  In k (map matchKey (deduplicateAndSort l)) <-> In k (map matchKey l).
Proof.
  unfold deduplicateAndSort. split; intros H.
  - apply in_map_iff in H as (x & <- & Hx). apply in_map.
    eapply Permutation_in in Hx; [|apply sortBy_perm].
    eapply uniqueBy_incl; eauto using sameMatch_key.
  - apply in_map_iff in H as (x & <- & Hx).
    eapply Permutation_in; [apply Permutation_map; symmetry; apply sortBy_perm|].
    now apply (uniqueBy_covers sameMatch _ matchKey sameMatch_key).
Qed.

(* ================================================================== *)
(** * Suggestion ranking *)

Lemma sameSuggestion_key (x y : DateSuggestion) :
  sameSuggestion x y = true <-> suggestionKey x = suggestionKey y.
Proof.
  unfold sameSuggestion, suggestionKey. rewrite andb_true_iff, !String.eqb_eq.
  split; [intros [-> ->]; reflexivity|intros H; injection H; auto].
Qed.

Lemma NoDup_map_filter {A K : Type} (key : A -> K) (f : A -> bool) (l : list A) :
  NoDup (map key l) -> NoDup (map key (filter f l)).
Proof.
  induction l as [|x l IH]; simpl; intros H; [constructor|].
  inversion H as [|? ? Hx Hl]; subst.
  destruct (f x); simpl; auto. constructor; auto.
  intros Hin. apply Hx. apply in_map_iff in Hin as (y & Hy & Hin).
  apply filter_In in Hin as [Hin _]. rewrite <- Hy. now apply in_map.
Qed.

Lemma byConfidenceDesc_le (a b : DateSuggestion) :
  byConfidenceDesc a b = true <-> (ds_confidence b <= ds_confidence a)%Q.
Proof.
  unfold byConfidenceDesc, Qleb. rewrite Qle_bool_iff. split; intros H; lra.
Qed.

(** The ranked list: unique pairs, nothing below the threshold, descending
    confidence, and exactly the first occurrences that meet the threshold. *)
Lemma filterAndRankSuggestions_spec (raw : list DateSuggestion) (context : ValidationContext) :
  let ranked := filterAndRankSuggestions raw context in
  NoDup (map suggestionKey ranked) /\
  Forall (fun s => (confidenceThreshold (config context) <= ds_confidence s)%Q) ranked /\
  StronglySorted (fun a b => (ds_confidence b <= ds_confidence a)%Q) ranked /\
  Permutation ranked (filter (meetsThreshold context) (uniqueBy sameSuggestion raw)).
Proof.
  unfold filterAndRankSuggestions.
  set (kept := filter (meetsThreshold context) (uniqueBy sameSuggestion raw)).
  assert (Hperm : Permutation (sortBy byConfidenceDesc kept) kept) by apply sortBy_perm.
  split; [|split; [|split]]; auto.
  - eapply Permutation_NoDup; [apply Permutation_map; symmetry; exact Hperm|].
    apply NoDup_map_filter. apply (uniqueBy_NoDup sameSuggestion _ suggestionKey sameSuggestion_key).
  - eapply Permutation_Forall; [symmetry; exact Hperm|].
    apply Forall_forall. intros s Hs. apply filter_In in Hs as [_ Hs].
    unfold meetsThreshold, Qleb in Hs. now apply Qle_bool_iff.
  - eapply StronglySorted_ind with (P := StronglySorted _);
      [constructor| |apply (sortBy_sorted byConfidenceDesc)].
    + intros a l' _ IH Ha. constructor; auto.
      eapply Forall_impl; [|exact Ha]. intros b Hb. now apply byConfidenceDesc_le.
    + intros a b. rewrite !byConfidenceDesc_le.
      destruct (Qlt_le_dec (ds_confidence a) (ds_confidence b)); [right|left]; lra.
    + intros a b c. rewrite !byConfidenceDesc_le. lra.
Qed.

(* ================================================================== *)
(** * Reasoning about method bodies *)

Section WpRules.
Context {S : Type}.

Lemma wp_ret {A} (a : A) (Q : A -> S -> Prop) E s : Q a s -> wp (ret a) Q E s.
Proof. auto. Qed.

Lemma wp_bind {A B} (m : M S A) (f : A -> M S B) (Q : B -> S -> Prop) E s :
  wp m (fun a s' => wp (f a) Q E s') E s -> wp (bind m f) Q E s.
Proof. unfold wp, bind. destruct (m s) as [[a|e] s']; auto. Qed.

Lemma wp_mono {A} (m : M S A) (Q Q' : A -> S -> Prop) (E E' : Error -> S -> Prop) s :
  wp m Q E s -> (forall a s', Q a s' -> Q' a s') -> (forall e s', E e s' -> E' e s') ->
  wp m Q' E' s.
Proof. unfold wp. destruct (m s) as [[a|e] s']; auto. Qed.

Lemma wp_post {A} (m : M S A) (Q Q' : A -> S -> Prop) (E : Error -> S -> Prop) s :
  wp m Q E s -> (forall a s', Q a s' -> Q' a s') -> wp m Q' E s.
Proof. intros H HQ. eapply wp_mono; eauto. Qed.

(** Sequencing through an intermediate assertion. *)
Lemma wp_seq {A B} (R : A -> S -> Prop) (m : M S A) (f : A -> M S B)
      (Q : B -> S -> Prop) E s :
  wp m R E s -> (forall a s', R a s' -> wp (f a) Q E s') -> wp (bind m f) Q E s.
Proof. intros Hm Hf. apply wp_bind. eapply wp_mono; eauto. Qed.

Lemma wp_call {A} (r : Outcome A) (Q : A -> S -> Prop) (E : Error -> S -> Prop) s :
  (forall a, r = Ok a -> Q a s) -> (forall e, r = Throw e -> E e s) -> wp (call r) Q E s.
Proof. unfold wp, call. destruct r; auto. Qed.

Lemma wp_get (Q : S -> S -> Prop) E s : Q s s -> wp get Q E s.
Proof. auto. Qed.

Lemma wp_modify (f : S -> S) (Q : unit -> S -> Prop) E s : Q tt (f s) -> wp (modify f) Q E s.
Proof. auto. Qed.

Lemma wp_tryCatch {A} (m : M S A) (h : Error -> M S A) (Q : A -> S -> Prop) E s :
  wp m Q (fun e s' => wp (h e) Q E s') s -> wp (tryCatch m h) Q E s.
Proof. unfold wp, tryCatch. destruct (m s) as [[a|e] s']; auto. Qed.

Lemma wp_when (b : bool) (m : M S unit) (Q : unit -> S -> Prop) E s :
  (b = true -> wp m Q E s) -> (b = false -> Q tt s) -> wp (when b m) Q E s.
Proof. destruct b; simpl; intros H1 H2; [now apply H1|now apply wp_ret, H2]. Qed.

(** A loop whose body keeps [I]. *)
Lemma wp_forEach {A} (f : A -> M S unit) (l : list A) (I : S -> Prop) E s :
  (forall x s', I s' -> wp (f x) (fun _ => I) E s') ->
  I s -> wp (forEach f l) (fun _ => I) E s.
Proof.
  intros Hf. revert s. induction l as [|x l IH]; simpl; intros s Hs; auto.
  eapply wp_seq; [apply Hf, Hs|]. intros u s' Hs'. now apply IH.
Qed.

(** What a run returns satisfies the postcondition. *)
Lemma wp_run {A} (m : M S A) (Q : A -> S -> Prop) E s (a : A) :
  wp m Q E s -> run m s = Ok a -> exists s', Q a s'.
Proof.
  unfold wp, run. destruct (m s) as [[a'|e] s']; simpl; intros H H'; [|discriminate].
  injection H' as <-. eauto.
Qed.

End WpRules.

(** One step of symbolic execution of a method body. *)
Ltac wp_step :=
  lazymatch goal with
  | |- wp (bind _ _) _ _ _ => apply wp_bind
  | |- wp (ret _) _ _ _ => apply wp_ret
  | |- wp get _ _ _ => apply wp_get
  | |- wp (modify _) _ _ _ => apply wp_modify
  | |- wp (tryCatch _ _) _ _ _ => apply wp_tryCatch
  | |- wp (call _) _ _ _ => apply wp_call; intros
  | |- wp (when _ _) _ _ _ => apply wp_when; intros
  | |- wp (if ?b then _ else _) _ _ _ => destruct b eqn:?
  end.

Ltac wp_steps := repeat (wp_step; cbv beta).

(* ================================================================== *)
(** * The orchestrator *)

Lemma noCritical_filter (l : list ValidationIssue) :
  Nat.eqb (List.length (filter isCritical l)) 0 = noCritical l.
Proof.
  induction l as [|i l IH]; simpl; auto.
  destruct (isCritical i); simpl; auto.
Qed.

Lemma noCritical_spec (l : list ValidationIssue) :
  noCritical l = true <-> forall i, In i l -> vi_type i <> critical.
Proof.
  unfold noCritical. rewrite forallb_forall. split; intros H i Hi; specialize (H i Hi).
  - unfold isCritical in H. destruct (vi_type i); simpl in H; congruence.
  - unfold isCritical. destruct (vi_type i); simpl; congruence.
Qed.

Section OrchestratorFacts.
Import Orchestrator Runs.
Variable this : ServiceObject.
Variable now : Date.

Local Notation "'Body'" := (M Locals).

(** A postcondition that holds of every state and value holds after any
    body. *)
Lemma wp_any {A} (m : Body A) (Q : A -> Locals -> Prop) (E : Error -> Locals -> Prop) s :
  (forall a s', Q a s') -> (forall e s', E e s') -> wp m Q E s.
Proof. intros HQ HE. unfold wp. destruct (m s) as [[a|e] s']; auto. Qed.

(** The [catch] block of the method returns the empty result, or throws
    from one of its logging calls. *)
Lemma recover_result (resumeText operationId : string) (Q : DateValidationResult -> Prop) s :
  Q (Service.createEmptyValidationResult (Some unavailable)) ->
  wp (recover this resumeText operationId) (fun r _ => Q r) (fun _ _ => True) s.
Proof. intros HQ. unfold recover. wp_steps; auto. Qed.

Lemma finishStep_wellFormed (resumeText operationId : string) s :
  wp (finishStep this resumeText operationId) (fun r _ => wellFormed r)
     (fun _ s' => wp (recover this resumeText operationId) (fun r _ => wellFormed r)
                     (fun _ _ => True) s') s.
Proof.
  unfold finishStep. wp_steps; try (apply recover_result; reflexivity).
  apply wp_any; intros; [|apply recover_result; reflexivity].
  apply wp_ret. unfold wellFormed. simpl. apply noCritical_filter.
Qed.

Lemma validate_wellFormed (resumeText operationId : string) s :
  wp (validate this now resumeText operationId) (fun r _ => wellFormed r)
     (fun _ s' => wp (recover this resumeText operationId) (fun r _ => wellFormed r)
                     (fun _ _ => True) s') s.
Proof.
  assert (Hrec : forall (e : Error) s', wp (recover this resumeText operationId)
                   (fun r _ => wellFormed r) (fun _ _ => True) s')
    by (intros; apply recover_result; reflexivity).
  unfold validate.
  destruct (isEmpty resumeText); [|destruct (isEmpty (trim resumeText))].
  - wp_steps; auto. reflexivity.
  - wp_steps; auto. reflexivity.
  - do 4 (eapply wp_seq; [apply wp_any with (Q := fun _ _ => True); auto|intros ? ? _]).
    apply wp_bind, wp_get. unfold validateWith.
    do 5 (eapply wp_seq; [apply wp_any with (Q := fun _ _ => True); auto|intros ? ? _]).
    apply finishStep_wellFormed.
Qed.

Lemma validateResumeDates_wellFormed (resumeText : string) (r : DateValidationResult) :
  validateResumeDates this now resumeText = Ok r -> wellFormed r.
Proof.
  unfold validateResumeDates, obind.
  destruct (startPerformanceMonitoring _ _) as [operationId|]; [|discriminate].
  destruct (logDate _ _); [|discriminate].
  intros H.
  apply (wp_run _ (fun r _ => wellFormed r) (fun _ _ => True)) in H as [s' H]; [exact H|].
  apply wp_tryCatch. apply validate_wellFormed.
Qed.

(** The run returns a result when the logging calls around the [try]
    block return. *)
Lemma validateResumeDates_returns (resumeText : string) :
  loggingAroundTryReturns this resumeText ->
  exists r, validateResumeDates this now resumeText = Ok r /\
            forall operationId e s,
              startPerformanceMonitoring (logger this) "validate_resume_dates" = Ok operationId ->
              validate this now resumeText operationId initial = (Throw e, s) ->
              r = Service.createEmptyValidationResult (Some unavailable).
Proof.
  intros (operationId & Hstart & [[] Hdate] & [d Hend] & [[] Hlog] & [[] Hdate'] & Hres).
  unfold validateResumeDates, obind. rewrite Hstart, Hdate.
  unfold run, tryCatch.
  destruct (validate this now resumeText operationId initial) as [[r|e] s] eqn:Hv.
  - exists r. split; auto. intros op e s' Hop. assert (op = operationId) as -> by congruence.
    rewrite Hv. discriminate.
  - unfold recover, bind, call. rewrite Hend, Hlog, Hdate'.
    destruct (Hres (orZero d)) as [[] ->]. simpl.
    eexists. split; [reflexivity|]. auto.
Qed.

(** Blank input: whatever the logging call of the branch does, the result
    is the empty result with one general warning. *)
Lemma validateResumeDates_blank (resumeText : string) :
  loggingAroundTryReturns this resumeText ->
  isEmpty (trim resumeText) = true ->
  exists w, validateResumeDates this now resumeText
            = Ok (mkDateValidationResult true [] [w] []) /\
            vw_category w = general.
Proof.
  intros (operationId & Hstart & [[] Hdate] & [d Hend] & [[] Hlog] & [[] Hdate'] & Hres) Hblank.
  unfold validateResumeDates, obind. rewrite Hstart, Hdate.
  unfold run, tryCatch, validate. rewrite Hblank.
  assert (Hrec : forall s, recover this resumeText operationId s
                           = (Ok (Service.createEmptyValidationResult (Some unavailable)), s)).
  { intros s. unfold recover, bind, call. rewrite Hend, Hlog, Hdate'.
    now destruct (Hres (orZero d)) as [[] ->]. }
  destruct (isEmpty resumeText); unfold bind, call;
    match goal with |- context [log ?l ?a ?b ?c] => destruct (log l a b c) end;
    simpl; rewrite ?Hrec; simpl; eexists; split; reflexivity.
Qed.

Lemma throw_not_returns {A} (r : Outcome A) (e : Error) : r = Throw e -> returns r -> False.
Proof. intros -> [a H]. discriminate. Qed.

Lemma categorizeLoop_spec (cfg : ValidationConfig) (l : list ValidationIssue)
      (acc : Service.Categorized) :
  Service.categorizeLoop cfg l acc
  = Service.mkCategorized
      (Service.cat_issues acc
       ++ filter (fun i => negb (Service.isLowConfidenceCritical cfg i)) l)
      (Service.convertedWarnings acc
       ++ map Service.toWarning (filter (Service.isLowConfidenceCritical cfg) l)).
Proof.
  revert acc. induction l as [|i l IH]; intros [kept ws]; simpl.
  - now rewrite !app_nil_r.
  - rewrite IH. destruct (Service.isLowConfidenceCritical cfg i); simpl;
      now rewrite <- ?app_assoc.
Qed.

Lemma categorizeIssuesBySeverity_spec (cfg : ValidationConfig) (l : list ValidationIssue) :
  Service.categorizeIssuesBySeverity cfg l
  = Service.mkCategorized
      (filter (fun i => negb (Service.isLowConfidenceCritical cfg i)) l)
      (map Service.toWarning (filter (Service.isLowConfidenceCritical cfg) l)).
Proof. unfold Service.categorizeIssuesBySeverity. now rewrite categorizeLoop_spec. Qed.

Section QuietLogging.
Hypothesis Hlog : loggingReturns this.

(** Closes the branch in which a logging call throws. *)
Ltac quiet :=
  try solve [exfalso; eapply throw_not_returns; [eassumption|];
             destruct Hlog as (? & ? & ? & ? & ? & ? & ?); auto].

Ltac run_body := wp_steps; quiet; simpl.

Lemma parseEducationStep_quiet (resumeText : string) s :
  wp (parseEducationStep this resumeText)
     (fun _ s' => s' = setEducationPeriods (educationOf this resumeText) s)
     (fun _ _ => False) s.
Proof.
  unfold parseEducationStep, educationOf.
  run_body; repeat match goal with H : _ = _ |- _ => rewrite H end; reflexivity.
Qed.

Lemma parseWorkStep_quiet (resumeText : string) s :
  wp (parseWorkStep this resumeText)
     (fun _ s' => s' = setWorkExperience (workOf this resumeText) s)
     (fun _ _ => False) s.
Proof.
  unfold parseWorkStep, workOf.
  run_body; repeat match goal with H : _ = _ |- _ => rewrite H end; reflexivity.
Qed.

Lemma logExtractedDatesStep_quiet s :
  wp (logExtractedDatesStep this) (fun _ s' => s' = s) (fun _ _ => False) s.
Proof. unfold logExtractedDatesStep, logAllExtractedDates. run_body; reflexivity. Qed.

Lemma validateEducationStep_quiet s :
  wp (validateEducationStep this)
     (fun _ s' =>
        s' = pushIssues (okOr [] (validateEducationTimeline this (l_educationPeriods s))) s \/
        s' = pushWarnings [educationSkipped]
                          (pushIssues (okOr [] (validateEducationTimeline
                                                  this (l_educationPeriods s))) s))
     (fun _ _ => False) s.
Proof.
  unfold validateEducationStep.
  run_body; repeat match goal with H : _ = _ |- _ => rewrite H end; simpl; auto.
  right. unfold pushWarnings, pushIssues. simpl. now rewrite app_nil_r.
Qed.

Lemma validateWorkStep_quiet s :
  wp (validateWorkStep this)
     (fun _ s' =>
        s' = pushIssues (okOr [] (validateWorkTimeline this (l_workExperience s))) s \/
        s' = pushWarnings [workSkipped]
                          (pushIssues (okOr [] (validateWorkTimeline
                                                  this (l_workExperience s))) s))
     (fun _ _ => False) s.
Proof.
  unfold validateWorkStep.
  run_body; repeat match goal with H : _ = _ |- _ => rewrite H end; simpl; auto.
  right. unfold pushWarnings, pushIssues. simpl. now rewrite app_nil_r.
Qed.

Lemma applyRulesStep_quiet (context : ValidationContext) s :
  wp (applyRulesStep this context)
     (fun _ s' =>
        s' = pushIssues (okOr [] (applyValidationRules this context)) s \/
        s' = pushWarnings [rulesSkipped]
                          (pushIssues (okOr [] (applyValidationRules this context)) s))
     (fun _ _ => False) s.
Proof.
  unfold applyRulesStep.
  run_body; repeat match goal with H : _ = _ |- _ => rewrite H end; simpl; auto.
  right. unfold pushWarnings, pushIssues. simpl. now rewrite app_nil_r.
Qed.

Lemma suggestionStep_quiet (context : ValidationContext) s :
  wp (suggestionStep this context)
     (fun _ s' => l_allIssues s' = l_allIssues s)
     (fun _ _ => False) s.
Proof. unfold suggestionStep. run_body; reflexivity. Qed.

Lemma categorizeStep_spec s :
  wp (categorizeStep this)
     (fun _ s' =>
        let cfg := getConfig (configManager this) in
        l_issues s' = filter (fun i => negb (Service.isLowConfidenceCritical cfg i))
                             (l_allIssues s) /\
        l_warnings s' = l_warnings s
                        ++ map Service.toWarning
                               (filter (Service.isLowConfidenceCritical cfg) (l_allIssues s)) /\
        l_suggestions s' = l_suggestions s)
     (fun _ _ => False) s.
Proof.
  unfold categorizeStep. wp_steps.
  rewrite categorizeIssuesBySeverity_spec. simpl. auto.
Qed.

Lemma logEdgeCasesFromResults_quiet issues warnings resumeText s :
  wp (logEdgeCasesFromResults this issues warnings resumeText)
     (fun _ s' => s' = s) (fun _ _ => False) s.
Proof.
  unfold logEdgeCasesFromResults. apply wp_tryCatch.
  eapply wp_mono with (Q := fun _ s' => s' = s) (E := fun _ _ => False); auto; [|tauto].
  eapply wp_seq with (R := fun _ s' => s' = s).
  - apply wp_forEach with (I := fun s' => s' = s); auto.
    intros issue s' ->. run_body; reflexivity.
  - intros _ s' ->. apply wp_forEach with (I := fun s' => s' = s); auto.
    intros w s' ->. run_body; reflexivity.
Qed.

Lemma finishStep_quiet (resumeText operationId : string) s :
  wp (finishStep this resumeText operationId)
     (fun r _ => r = mkDateValidationResult (noCritical (l_issues s)) (l_issues s)
                                            (l_warnings s) (l_suggestions s))
     (fun _ _ => False) s.
Proof.
  unfold finishStep. wp_steps; quiet.
  eapply wp_mono; [apply logEdgeCasesFromResults_quiet| |tauto].
  intros _ s' ->. apply wp_ret. now rewrite noCritical_filter.
Qed.

Lemma pushed_fields (s s' : Locals) (found : list ValidationIssue) (w : list ValidationWarning) :
  s' = pushIssues found s \/ s' = pushWarnings w (pushIssues found s) ->
  l_allIssues s' = l_allIssues s ++ found /\
  l_educationPeriods s' = l_educationPeriods s /\
  l_workExperience s' = l_workExperience s.
Proof. intros [-> | ->]; simpl; auto. Qed.

Lemma nonblank_nonempty (text : string) : isEmpty (trim text) = false -> isEmpty text = false.
Proof. destruct text; simpl; auto. Qed.

(** With a quiet logger the body of the [try] block returns, and its
    result carries the reclassified issues of the validators. *)
Lemma validate_quiet (resumeText operationId : string) :
  isEmpty (trim resumeText) = false ->
  wp (validate this now resumeText operationId)
     (fun r _ =>
        let cfg := getConfig (configManager this) in
        let found := validatorIssues this now resumeText in
        issues r = filter (fun i => negb (Service.isLowConfidenceCritical cfg i)) found /\
        (exists others,
           warnings r
           = others ++ map Service.toWarning (filter (Service.isLowConfidenceCritical cfg) found)) /\
        isValid r = noCritical (issues r))
     (fun _ _ => False) initial.
Proof.
  intros Hblank. unfold validate. rewrite (nonblank_nonempty _ Hblank), Hblank.
  apply wp_bind. wp_step; quiet. cbv beta.
  eapply wp_seq; [apply parseEducationStep_quiet|]. intros ? s1 ->.
  eapply wp_seq; [apply parseWorkStep_quiet|]. intros ? s2 ->.
  eapply wp_seq; [apply logExtractedDatesStep_quiet|]. intros ? s3 ->.
  apply wp_bind, wp_get. simpl. unfold validateWith.
  eapply wp_seq; [apply validateEducationStep_quiet|]. intros ? s4 H4.
  apply pushed_fields in H4 as (Ha4 & He4 & Hw4). simpl in *.
  eapply wp_seq; [apply validateWorkStep_quiet|]. intros ? s5 H5.
  apply pushed_fields in H5 as (Ha5 & He5 & Hw5). rewrite Hw4, Ha4 in *.
  eapply wp_seq; [apply applyRulesStep_quiet|]. intros ? s6 H6.
  apply pushed_fields in H6 as (Ha6 & He6 & Hw6). rewrite Ha5 in *.
  eapply wp_seq; [apply suggestionStep_quiet|]. intros ? s7 Ha7. rewrite Ha6 in *.
  eapply wp_seq; [apply categorizeStep_spec|]. intros ? s8 (Hi8 & Hw8 & _).
  eapply wp_mono; [apply finishStep_quiet| |tauto].
  intros r ? ->. simpl.
  assert (Hfound : l_allIssues s7 = validatorIssues this now resumeText).
  { rewrite Ha7. unfold validatorIssues. rewrite Hblank. unfold contextOfRun.
    now rewrite <- app_assoc. }
  rewrite Hi8, Hw8, Hfound. eauto.
Qed.

Lemma loggingReturns_around (resumeText : string) : loggingAroundTryReturns this resumeText.
Proof.
  destruct Hlog as (Hs & He & Hl & Hv & _ & Hd & _).
  destruct (Hs "validate_resume_dates") as [operationId Hop].
  exists operationId. repeat split; auto.
Qed.

Lemma validateResumeDates_quiet (resumeText : string) :
  isEmpty (trim resumeText) = false ->
  exists r,
    validateResumeDates this now resumeText = Ok r /\
    let cfg := getConfig (configManager this) in
    let found := validatorIssues this now resumeText in
    issues r = filter (fun i => negb (Service.isLowConfidenceCritical cfg i)) found /\
    (exists others,
       warnings r
       = others ++ map Service.toWarning (filter (Service.isLowConfidenceCritical cfg) found)) /\
    isValid r = noCritical (issues r).
Proof.
  intros Hblank.
  destruct (loggingReturns_around resumeText) as (operationId & Hstart & [[] Hdate] & _).
  unfold validateResumeDates, obind. rewrite Hstart, Hdate.
  pose proof (validate_quiet resumeText operationId Hblank) as H.
  unfold wp in H. unfold run, tryCatch.
  destruct (validate this now resumeText operationId initial) as [[r|e] s]; [|contradiction].
  exists r. split; auto.
Qed.

End QuietLogging.

Lemma lowConfidenceCritical_iff (cfg : ValidationConfig) (i : ValidationIssue) :
  Service.isLowConfidenceCritical cfg i = true <->
  (vi_confidence i < confidenceThreshold cfg)%Q /\ vi_type i = critical.
Proof.
  unfold Service.isLowConfidenceCritical, Qltb, isCritical.
  rewrite andb_true_iff, negb_true_iff.
  split; intros [H1 H2]; split.
  - apply Qnot_le_lt. intros H. apply Qle_bool_iff in H. congruence.
  - destruct (vi_type i); congruence.
  - destruct (Qle_bool _ _) eqn:E; auto. apply Qle_bool_iff in E. lra.
  - now rewrite H2.
Qed.

(** ** The suggestions of the result *)

Lemma rankedSuggestions_nil : rankedSuggestions this [].
Proof.
  unfold rankedSuggestions. cbv zeta.
  split; [constructor|split; [constructor|split; [constructor|now left]]].
Qed.

Lemma generate_ranked (context : ValidationContext) (found : list ValidationIssue)
      (l : list DateSuggestion) :
  config context = getConfig (configManager this) ->
  generate this context found = Ok l -> rankedSuggestions this l.
Proof.
  intros Hcfg. unfold generate, generateSuggestions, obind.
  destruct (collectSuggestions _ _ _ context found) as [raw|] eqn:Hraw; [|discriminate].
  intros H. injection H as <-.
  destruct (filterAndRankSuggestions_spec raw context) as (H1 & H2 & H3 & H4).
  unfold rankedSuggestions. rewrite <- Hcfg.
  repeat split; auto. right. exists context, found, raw. auto.
Qed.

Section AnyLogging.
Variable E : Error -> Locals -> Prop.
Hypothesis HE : forall e s, E e s.

Ltac frame := wp_steps; simpl; auto.

Lemma parseEducationStep_suggestions (resumeText : string) s :
  wp (parseEducationStep this resumeText)
     (fun _ s' => l_suggestions s' = l_suggestions s) E s.
Proof. unfold parseEducationStep. frame. Qed.

Lemma parseWorkStep_suggestions (resumeText : string) s :
  wp (parseWorkStep this resumeText) (fun _ s' => l_suggestions s' = l_suggestions s) E s.
Proof. unfold parseWorkStep. frame. Qed.

Lemma logExtractedDatesStep_suggestions s :
  wp (logExtractedDatesStep this) (fun _ s' => l_suggestions s' = l_suggestions s) E s.
Proof. unfold logExtractedDatesStep, logAllExtractedDates. frame. Qed.

Lemma validateEducationStep_suggestions s :
  wp (validateEducationStep this) (fun _ s' => l_suggestions s' = l_suggestions s) E s.
Proof. unfold validateEducationStep. frame. Qed.

Lemma validateWorkStep_suggestions s :
  wp (validateWorkStep this) (fun _ s' => l_suggestions s' = l_suggestions s) E s.
Proof. unfold validateWorkStep. frame. Qed.

Lemma applyRulesStep_suggestions (context : ValidationContext) s :
  wp (applyRulesStep this context) (fun _ s' => l_suggestions s' = l_suggestions s) E s.
Proof. unfold applyRulesStep. frame. Qed.

Lemma suggestionStep_ranked (context : ValidationContext) s :
  config context = getConfig (configManager this) ->
  l_suggestions s = [] ->
  wp (suggestionStep this context) (fun _ s' => rankedSuggestions this (l_suggestions s')) E s.
Proof.
  intros Hcfg Hnil. unfold suggestionStep.
  wp_steps; simpl; rewrite ?Hnil; simpl;
    auto using rankedSuggestions_nil; eapply generate_ranked; eauto.
Qed.

Lemma categorizeStep_suggestions s :
  wp (categorizeStep this) (fun _ s' => l_suggestions s' = l_suggestions s) E s.
Proof.
  eapply wp_mono; [apply categorizeStep_spec| |intros ? ? []]. intros ? s' (_ & _ & H). exact H.
Qed.

Lemma finishStep_suggestions (resumeText operationId : string) s :
  wp (finishStep this resumeText operationId)
     (fun r _ => suggestions r = l_suggestions s) E s.
Proof. unfold finishStep. wp_steps; auto. apply wp_any; auto. intros. now apply wp_ret. Qed.

End AnyLogging.

Lemma validate_ranked (resumeText operationId : string) :
  wp (validate this now resumeText operationId)
     (fun r _ => rankedSuggestions this (suggestions r))
     (fun _ s' => wp (recover this resumeText operationId)
                     (fun r _ => rankedSuggestions this (suggestions r))
                     (fun _ _ => True) s') initial.
Proof.
  assert (Hrec : forall (e : Error) s', wp (recover this resumeText operationId)
                   (fun r _ => rankedSuggestions this (suggestions r)) (fun _ _ => True) s')
    by (intros; apply recover_result; apply rankedSuggestions_nil).
  unfold validate.
  destruct (isEmpty resumeText); [|destruct (isEmpty (trim resumeText))].
  - wp_steps; auto. apply rankedSuggestions_nil.
  - wp_steps; auto. apply rankedSuggestions_nil.
  - apply wp_bind. wp_step; auto. cbv beta.
    eapply wp_seq; [apply parseEducationStep_suggestions; auto|]. intros ? s1 H1.
    eapply wp_seq; [apply parseWorkStep_suggestions; auto|]. intros ? s2 H2.
    eapply wp_seq; [apply logExtractedDatesStep_suggestions; auto|]. intros ? s3 H3.
    apply wp_bind, wp_get. unfold validateWith.
    eapply wp_seq; [apply validateEducationStep_suggestions; auto|]. intros ? s4 H4.
    eapply wp_seq; [apply validateWorkStep_suggestions; auto|]. intros ? s5 H5.
    eapply wp_seq; [apply applyRulesStep_suggestions; auto|]. intros ? s6 H6.
    eapply wp_seq; [apply suggestionStep_ranked; auto|].
    { rewrite H6, H5, H4, H3, H2, H1. reflexivity. }
    intros ? s7 H7.
    eapply wp_seq; [apply categorizeStep_suggestions; auto|]. intros ? s8 H8.
    eapply wp_post; [apply finishStep_suggestions; auto|].
    cbv beta in *. intros r ? ->. now rewrite H8.
Qed.

Lemma validateResumeDates_ranked (resumeText : string) (r : DateValidationResult) :
  validateResumeDates this now resumeText = Ok r -> rankedSuggestions this (suggestions r).
Proof.
  unfold validateResumeDates, obind.
  destruct (startPerformanceMonitoring _ _) as [operationId|]; [|discriminate].
  destruct (logDate _ _); [|discriminate].
  intros H.
  apply (wp_run _ (fun r _ => rankedSuggestions this (suggestions r)) (fun _ _ => True))
    in H as [s' H]; [exact H|].
  apply wp_tryCatch. apply validate_ranked.
Qed.

End OrchestratorFacts.

Lemma trimStart_spaces (text : string) : allChars isSpace text = true -> trimStart text = "".
Proof.
  induction text as [|c text IH]; simpl; auto.
  intros H. apply andb_prop in H as [Hc H]. rewrite Hc. auto.
Qed.

Lemma trim_spaces (text : string) : allChars isSpace text = true -> trim text = "".
Proof. intros H. unfold trim. now rewrite trimStart_spaces. Qed.

(** ** The simple service *)

Lemma simple_validate_wellFormed validateEducationDates validateWorkDates validateGeneralDates
      (resumeText : string) :
  exists r,
    SimpleService.validateResumeDates validateEducationDates validateWorkDates
                                      validateGeneralDates resumeText = Ok r /\
    SimpleService.isValid r = noCritical (SimpleService.issues r).
Proof.
  unfold SimpleService.validateResumeDates, SimpleService.validate, run, tryCatch.
  destruct (isEmpty resumeText); [|destruct (isEmpty (trim resumeText))];
    try (eexists; split; reflexivity).
  unfold SimpleService.guarded, bind, tryCatch, call, modify, get, ret.
  destruct (validateEducationDates resumeText);
    destruct (validateWorkDates resumeText);
    destruct (validateGeneralDates resumeText); simpl;
    (eexists; split; [reflexivity|]); simpl;
    first [reflexivity|apply noCritical_filter].
Qed.

(* ================================================================== *)
(** * The properties of the orchestrator *)

(** C1. Every result that [validateResumeDates] returns has [isValid]
    true if and only if none of its issues has type critical; the run does
    return a result when the logging calls placed around the [try] block
    return.  The simple service of dateValidation.ts always returns, and
    its result has the same property. *)
Theorem isValid_iff_no_critical_issue :
  forall (this : Orchestrator.ServiceObject) (now : Date) (resumeText : string),
    (forall r,
        Orchestrator.validateResumeDates this now resumeText = Ok r ->
        (isValid r = true <-> forall i, In i (issues r) -> vi_type i <> critical)) /\
    (Runs.loggingAroundTryReturns this resumeText ->
     returns (Orchestrator.validateResumeDates this now resumeText)) /\
    (forall validateEducationDates validateWorkDates validateGeneralDates,
        exists r,
          SimpleService.validateResumeDates validateEducationDates validateWorkDates
                                            validateGeneralDates resumeText = Ok r /\
          (SimpleService.isValid r = true <->
           forall i, In i (SimpleService.issues r) -> vi_type i <> critical)).
Proof.
  intros this now resumeText. split; [|split].
  - intros r Hr. apply validateResumeDates_wellFormed in Hr. unfold wellFormed in Hr.
    rewrite Hr. apply noCritical_spec.
  - intros H. destruct (validateResumeDates_returns this now resumeText H) as (r & Hr & _).
    now exists r.
  - intros vE vW vG. destruct (simple_validate_wellFormed vE vW vG resumeText) as (r & Hr & Hv).
    exists r. split; auto. rewrite Hv. apply noCritical_spec.
Qed.

(** C2. When the logging calls placed around the [try] block return,
    [validateResumeDates] returns a result and never throws: an exception
    that leaves the statements of the [try] block is caught and the result
    is the valid, empty result with the single general warning
    "Date validation temporarily unavailable due to an internal error".
    The simple service of dateValidation.ts, which logs to the console
    only, returns a result whatever its validators do. *)
Theorem validateResumeDates_never_throws :
  forall (this : Orchestrator.ServiceObject) (now : Date) (resumeText : string),
    (Runs.loggingAroundTryReturns this resumeText ->
     exists r,
       Orchestrator.validateResumeDates this now resumeText = Ok r /\
       forall operationId e s,
         Orchestrator.startPerformanceMonitoring (Orchestrator.logger this)
                                                 "validate_resume_dates" = Ok operationId ->
         Orchestrator.validate this now resumeText operationId Orchestrator.initial
         = (Throw e, s) ->
         r = mkDateValidationResult
               true []
               [mkValidationWarning general
                  "Date validation temporarily unavailable due to an internal error"
                  "System error during validation"]
               []) /\
    (forall validateEducationDates validateWorkDates validateGeneralDates,
        returns (SimpleService.validateResumeDates validateEducationDates validateWorkDates
                                                   validateGeneralDates resumeText)).
Proof.
  intros this now resumeText. split.
  - intros H.
    destruct (validateResumeDates_returns this now resumeText H) as (r & Hr & Hcatch).
    exists r. split; auto.
  - intros vE vW vG.
    destruct (simple_validate_wellFormed vE vW vG resumeText) as (r & Hr & _).
    now exists r.
Qed.

(** C3. With a logger that does not throw, a run returns a result in
    which every issue that a validator produced with type critical and a
    confidence strictly below the threshold of the configuration is absent
    from [issues] and present in [warnings] as the warning that carries its
    category and its message (a warning has no suggested fix); [isValid] is
    computed from the issues that remain. *)
Theorem low_confidence_critical_becomes_warning :
  forall (this : Orchestrator.ServiceObject) (now : Date) (resumeText : string),
    Runs.loggingReturns this ->
    exists r,
      Orchestrator.validateResumeDates this now resumeText = Ok r /\
      (forall i,
          In i (Runs.validatorIssues this now resumeText) ->
          vi_type i = critical ->
          (vi_confidence i
           < confidenceThreshold (Orchestrator.getConfig (Orchestrator.configManager this)))%Q ->
          ~ In i (issues r) /\
          In (mkValidationWarning (vi_category i) (vi_message i) (vi_detectedDate i))
             (warnings r)) /\
      isValid r
      = noCritical
          (filter (fun i => negb (Service.isLowConfidenceCritical
                                    (Orchestrator.getConfig (Orchestrator.configManager this)) i))
                  (Runs.validatorIssues this now resumeText)).
Proof.
  intros this now resumeText Hlog.
  destruct (isEmpty (trim resumeText)) eqn:Hblank.
  - destruct (validateResumeDates_blank this now resumeText
                (loggingReturns_around this Hlog resumeText) Hblank) as (w & Hr & _).
    eexists. split; [exact Hr|]. unfold Runs.validatorIssues. rewrite Hblank. simpl.
    split; [intros i []|reflexivity].
  - destruct (validateResumeDates_quiet this now Hlog resumeText Hblank)
      as (r & Hr & Hi & [others Hw] & Hv).
    exists r. split; [exact Hr|]. split.
    + intros i Hin Hcrit Hconf.
      assert (Hlow : Service.isLowConfidenceCritical
                       (Orchestrator.getConfig (Orchestrator.configManager this)) i = true)
        by (apply lowConfidenceCritical_iff; auto).
      split.
      * rewrite Hi. intros H. apply filter_In in H as [_ H]. now rewrite Hlow in H.
      * rewrite Hw. apply in_or_app. right.
        change (mkValidationWarning _ _ _) with (Service.toWarning i).
        apply in_map. apply filter_In. auto.
    + now rewrite Hv, Hi.
Qed.

(** C4. For the empty string and for a text of white space only,
    [validateResumeDates] returns the valid result with no issue, no
    suggestion and exactly one warning, of category general (the logging
    calls placed around the [try] block returning). *)
Theorem blank_input_gives_empty_result :
  forall (this : Orchestrator.ServiceObject) (now : Date) (resumeText : string),
    Runs.loggingAroundTryReturns this resumeText ->
    allChars isSpace resumeText = true ->
    exists w,
      Orchestrator.validateResumeDates this now resumeText
      = Ok (mkDateValidationResult true [] [w] []) /\
      vw_category w = general.
Proof.
  intros this now resumeText H Hblank.
  apply validateResumeDates_blank; auto.
  now rewrite trim_spaces.
Qed.

(** C9. The suggestions of every result that [validateResumeDates]
    returns have pairwise distinct (originalDate, suggestedDate) pairs,
    confidences at or above the threshold of the configuration and
    descending confidences; unless the list is empty it is a permutation
    of all the first occurrences among the generated suggestions that meet
    the threshold: nothing is cut off. *)
Theorem result_suggestions_ranked :
  forall (this : Orchestrator.ServiceObject) (now : Date) (resumeText : string)
         (r : DateValidationResult),
    Orchestrator.validateResumeDates this now resumeText = Ok r ->
    Runs.rankedSuggestions this (suggestions r).
Proof. intros this now resumeText r. apply validateResumeDates_ranked. Qed.

(* ================================================================== *)
(** * The date parser *)

Lemma lastChar_split (s : string) (c : ascii) :
  lastChar s = Some c -> exists init, s = (init ++ String c "")%string.
Proof.
  induction s as [|a s IH]; simpl; [discriminate|].
  destruct s as [|b s].
  - intros H. injection H as ->. now exists "".
  - intros H. destruct (IH H) as [init Hinit]. exists (String a init). simpl. now rewrite <- Hinit.
Qed.

Lemma isSpace_lowerChar (c : ascii) : isSpace (lowerChar c) = isSpace c.
Proof. destruct c as [[] [] [] [] [] [] [] []]; reflexivity. Qed.

Lemma toLowerCase_app (a b : string) :
  toLowerCase (a ++ b) = (toLowerCase a ++ toLowerCase b)%string.
Proof. induction a as [|c a IH]; simpl; auto. now rewrite IH. Qed.

Lemma toLowerCase_split (s a b : string) :
  toLowerCase s = (a ++ b)%string ->
  exists sa sb, s = (sa ++ sb)%string /\ toLowerCase sa = a /\ toLowerCase sb = b.
Proof.
  revert s. induction a as [|c a IH]; simpl; intros s H.
  - exists "", s. auto.
  - destruct s as [|d s]; simpl in H; [discriminate|].
    injection H as Hc H. destruct (IH s H) as (sa & sb & -> & Ha & Hb).
    exists (String d sa), sb. simpl. rewrite Ha, Hc. auto.
Qed.

Lemma append_assoc (a b c : string) : ((a ++ b) ++ c = a ++ (b ++ c))%string.
Proof. induction a as [|x a IH]; simpl; auto. now rewrite IH. Qed.

Lemma startsWith_app (k rest : string) : startsWith k (k ++ rest) = true.
Proof. induction k as [|c k IH]; simpl; auto. now rewrite Ascii.eqb_refl. Qed.

Lemma includes_app (a k b : string) : includes (a ++ k ++ b) k = true.
Proof.
  induction a as [|c a IH]; simpl.
  - pose proof (startsWith_app k b) as H. destruct (k ++ b)%string; simpl; now rewrite H.
  - rewrite IH. apply orb_true_r.
Qed.

Lemma trimStart_app (pre : string) (c : ascii) (rest : string) :
  isSpace c = false ->
  exists pre', trimStart (pre ++ String c rest) = (pre' ++ String c rest)%string.
Proof.
  intros Hc. induction pre as [|a pre IH]; simpl.
  - rewrite Hc. now exists "".
  - destruct (isSpace a); auto. now exists (String a pre).
Qed.

Lemma trimEnd_app (a : string) (c : ascii) (post : string) :
  isSpace c = false ->
  exists post', trimEnd (a ++ String c post) = (a ++ String c post')%string.
Proof.
  intros Hc. induction a as [|x a IH]; simpl.
  - destruct (trimEnd post) as [|y t] eqn:E; rewrite ?Hc; eauto.
  - destruct IH as [post' ->]. exists post'.
    destruct (a ++ String c post')%string eqn:E; auto.
    destruct a; discriminate.
Qed.

(** An occurrence that starts and ends with a character that is not white
    space survives [trim]. *)
Lemma trim_keeps (pre occ post : string) (first last : ascii) (mid init : string) :
  occ = String first mid -> occ = (init ++ String last "")%string ->
  isSpace first = false -> isSpace last = false ->
  exists pre' post', trim (pre ++ occ ++ post) = (pre' ++ occ ++ post')%string.
Proof.
  intros Hfirst Hlast Hf Hl. unfold trim.
  assert (H1 : exists pre', trimStart (pre ++ occ ++ post) = (pre' ++ occ ++ post)%string).
  { rewrite Hfirst. simpl. now apply trimStart_app. }
  destruct H1 as [pre' ->]. exists pre'.
  rewrite Hlast, !append_assoc. simpl. rewrite <- !(append_assoc pre').
  destruct (trimEnd_app (pre' ++ init) last post Hl) as [post' ->]. exists post'.
  now rewrite !append_assoc.
Qed.

Lemma isEmpty_app (a : string) (c : ascii) (b : string) : isEmpty (a ++ String c b) = false.
Proof. destruct a; reflexivity. Qed.

Lemma first_of_lower (occ : string) (k0 : ascii) (krest : string) :
  toLowerCase occ = String k0 krest -> isSpace k0 = false ->
  exists c mid, occ = String c mid /\ isSpace c = false.
Proof.
  destruct occ as [|c mid]; simpl; [discriminate|]. intros H Hk. injection H as Hc _.
  exists c, mid. split; auto. now rewrite <- isSpace_lowerChar, Hc.
Qed.

Lemma last_of_lower (occ kinit : string) (kl : ascii) :
  toLowerCase occ = (kinit ++ String kl "")%string -> isSpace kl = false ->
  exists init c, occ = (init ++ String c "")%string /\ isSpace c = false.
Proof.
  intros H Hk. apply toLowerCase_split in H as (sa & sb & -> & _ & Hb).
  destruct sb as [|c [|d sb]]; simpl in Hb; try discriminate.
  injection Hb as Hc. exists sa, c. split; auto. now rewrite <- isSpace_lowerChar, Hc.
Qed.

Lemma ONGOING_KEYWORDS_shape : forallb keywordShape ONGOING_KEYWORDS = true.
Proof. reflexivity. Qed.

(** C7. For every string that contains one of the ongoing keywords, up
    to the case of letters, [parseDate] returns a parsed date with
    [isOngoing] true, confidence 1, format PRESENT and the current date as
    normalized date. *)
Theorem parseDate_ongoing_keyword :
  forall (now : Date) (dateString keyword : string),
    In keyword ONGOING_KEYWORDS ->
    containsIgnoreCase dateString keyword ->
    parseDate now dateString = Some (mkParsedDate dateString now PRESENT true 1).
Proof.
  intros now dateString keyword Hin (pre & occ & post & -> & Hocc).
  pose proof ONGOING_KEYWORDS_shape as Hshape.
  rewrite forallb_forall in Hshape. specialize (Hshape keyword Hin).
  unfold keywordShape in Hshape.
  apply andb_prop in Hshape as [Hshape Hlast]. apply andb_prop in Hshape as [Hlower Hfirst].
  apply String.eqb_eq in Hlower. rewrite Hlower in Hocc.
  destruct keyword as [|k0 krest] eqn:Hk; [discriminate|]. rewrite <- Hk in *.
  apply negb_true_iff in Hfirst.
  destruct (lastChar keyword) as [kl|] eqn:Hkl; [|discriminate].
  apply negb_true_iff in Hlast. apply lastChar_split in Hkl as [kinit Hkinit].
  assert (Hocc1 := Hocc). rewrite Hk in Hocc1.
  destruct (first_of_lower occ k0 krest Hocc1 Hfirst) as (c & mid & Hc & Hcs).
  assert (Hocc2 := Hocc). rewrite Hkinit in Hocc2.
  destruct (last_of_lower occ kinit kl Hocc2 Hlast) as (init & cl & Hcl & Hcls).
  destruct (trim_keeps pre occ post c cl mid init Hc Hcl Hcs Hcls) as (pre' & post' & Htrim).
  unfold parseDate. rewrite Htrim.
  assert (Hne1 : isEmpty (pre ++ occ ++ post) = false)
    by (rewrite Hc; apply (isEmpty_app pre c (mid ++ post))).
  assert (Hne2 : isEmpty (pre' ++ occ ++ post') = false)
    by (rewrite Hc; apply (isEmpty_app pre' c (mid ++ post'))).
  rewrite Hne1, Hne2.
  assert (Hongoing : isOngoingIndicator (toLowerCase (pre' ++ occ ++ post')) = true).
  { unfold isOngoingIndicator. apply existsb_exists. exists keyword. split; auto.
    rewrite Hlower, !toLowerCase_app, Hocc. apply includes_app. }
  rewrite Hongoing. reflexivity.
Qed.

(** ** Texts of digits and slashes *)

Ltac by_cases_on_char c :=
  destruct c as [[] [] [] [] [] [] [] []]; vm_compute; intros; try discriminate; auto.

Lemma dateChar_lowerChar (c : ascii) : isDateChar c = true -> lowerChar c = c.
Proof. by_cases_on_char c. Qed.

Lemma dateChar_not_space (c : ascii) : isDateChar c = true -> isSpace c = false.
Proof. by_cases_on_char c. Qed.

Lemma dateChar_foldChar (c : ascii) : isDateChar c = true -> foldChar c = c.
Proof. by_cases_on_char c. Qed.

Lemma lower_fold_not_dateChar (a : ascii) :
  isLowerAscii a = true -> isDateChar (foldChar a) = false.
Proof. by_cases_on_char a. Qed.

Lemma lower_not_dateChar (a : ascii) : isLowerAscii a = true -> isDateChar a = false.
Proof. by_cases_on_char a. Qed.

Lemma digit_wordChar (c : ascii) : isDigit c = true -> isWordChar c = true.
Proof. by_cases_on_char c. Qed.

Lemma digit_dateChar (c : ascii) : isDigit c = true -> isDateChar c = true.
Proof. unfold isDateChar. now intros ->. Qed.

Lemma dateText_toLowerCase (s : string) : allChars isDateChar s = true -> toLowerCase s = s.
Proof.
  induction s as [|c s IH]; simpl; auto.
  intros H. apply andb_prop in H as [Hc H]. now rewrite IH, dateChar_lowerChar.
Qed.

Lemma dateText_trimEnd (s : string) : allChars isDateChar s = true -> trimEnd s = s.
Proof.
  induction s as [|c s IH]; simpl; auto.
  intros H. apply andb_prop in H as [Hc H]. rewrite IH by auto.
  destruct s; auto. now rewrite dateChar_not_space.
Qed.

Lemma dateText_trim (s : string) : allChars isDateChar s = true -> trim s = s.
Proof.
  intros H. unfold trim. destruct s as [|c s]; auto.
  simpl in H. apply andb_prop in H as [Hc H].
  simpl trimStart. rewrite dateChar_not_space by auto.
  apply dateText_trimEnd. simpl. now rewrite Hc.
Qed.

Lemma charEq_lower_dateChar (a c : ascii) :
  isLowerAscii a = true -> isDateChar c = true -> charEq true a c = false.
Proof.
  intros Ha Hc. unfold charEq. rewrite (dateChar_foldChar c Hc).
  destruct (Ascii.eqb (foldChar a) c) eqn:E; auto.
  apply Ascii.eqb_eq in E. subst c. now rewrite lower_fold_not_dateChar in Hc.
Qed.

Lemma startsWith_dateText (k s : string) :
  startsLower k = true -> allChars isDateChar s = true -> startsWith k s = false.
Proof.
  destruct k as [|a k]; [discriminate|]. destruct s as [|c s]; simpl; auto.
  intros Ha H. apply andb_prop in H as [Hc _].
  destruct (Ascii.eqb a c) eqn:E; auto. apply Ascii.eqb_eq in E. subst c.
  now rewrite lower_not_dateChar in Hc.
Qed.

Lemma includes_dateText (k s : string) :
  startsLower k = true -> allChars isDateChar s = true -> includes s k = false.
Proof.
  intros Hk. induction s as [|c s IH]; intros H.
  - simpl. now rewrite startsWith_dateText.
  - simpl includes. rewrite startsWith_dateText by auto.
    simpl in H. apply andb_prop in H as [_ H]. now rewrite IH.
Qed.

Lemma dateText_not_ongoing (s : string) :
  allChars isDateChar s = true -> isOngoingIndicator s = false.
Proof.
  intros H. unfold isOngoingIndicator.
  destruct (existsb _ _) eqn:E; auto.
  apply existsb_exists in E as (k & Hk & Hin).
  assert (Hlow : Forall (fun k => startsLower (toLowerCase k) = true) ONGOING_KEYWORDS)
    by (repeat constructor).
  rewrite Forall_forall in Hlow.
  rewrite includes_dateText in Hin; auto.
Qed.

Lemma matchLit_dateText (l : string) (prev : option ascii) (s : string) :
  startsLower l = true -> allChars isDateChar s = true -> matchLit true l prev s = None.
Proof.
  destruct l as [|a l]; [discriminate|]. destruct s as [|c s]; cbn [matchLit]; auto.
  intros Ha H. simpl in Ha, H. apply andb_prop in H as [Hc _].
  now rewrite charEq_lower_dateChar.
Qed.

Lemma oneOf_dateText {R} (names : list string) prev s caps
      (k : option ascii -> string -> list string -> option R) :
  forallb startsLower names = true -> allChars isDateChar s = true ->
  Regex.run true (oneOf names) prev s caps k = None.
Proof.
  intros Hn Hs. induction names as [|n names IH]; simpl; auto.
  simpl in Hn. apply andb_prop in Hn as [Hn Hns].
  rewrite matchLit_dateText by auto. auto.
Qed.

Lemma run_Seq {R} ci r1 r2 prev s caps
      (k : option ascii -> string -> list string -> option R) :
  Regex.run ci (Seq r1 r2) prev s caps k =
  Regex.run ci r1 prev s caps (fun prev' s' caps' => Regex.run ci r2 prev' s' caps' k).
Proof. reflexivity. Qed.

Lemma run_WordB {R} ci prev s caps
      (k : option ascii -> string -> list string -> option R) :
  Regex.run ci WordB prev s caps k =
  if xorb (isWordOpt prev) (isWordOpt (head s)) then k prev s caps else None.
Proof. reflexivity. Qed.

Lemma run_Grp {R} ci r prev s caps
      (k : option ascii -> string -> list string -> option R) :
  Regex.run ci (Grp r) prev s caps k =
  Regex.run ci r prev s caps
            (fun prev' s' caps' =>
               k prev' s' (caps' ++ [take (String.length s - String.length s') s])).
Proof. reflexivity. Qed.

Lemma monthYear_dateText (s : string) (i : nat) (prev : option ascii) :
  allChars isDateChar s = true -> searchFrom monthYearRx i prev s = None.
Proof.
  assert (Hat : forall s i prev, allChars isDateChar s = true ->
                                 matchAt monthYearRx (mkCursor i prev s) = None).
  { intros s' i' prev' H. unfold matchAt.
    change (ignoreCase monthYearRx) with true.
    change (source monthYearRx)
      with (Seq WordB (Seq (Grp (oneOf (monthAbbreviations ++ monthNames)))
                           (Regex.seq [plus isSpace; Grp (times 4 isDigit); WordB]))).
    cbn [before rest]. rewrite run_Seq, run_WordB.
    destruct (xorb _ _); auto.
    rewrite run_Seq, run_Grp. now apply oneOf_dateText. }
  revert i prev. induction s as [|c s IH]; intros i prev H; simpl searchFrom.
  - now rewrite Hat.
  - rewrite Hat by auto. simpl in H. apply andb_prop in H as [_ H]. auto.
Qed.

Ltac split_ifs :=
  repeat match goal with
         | |- context [if ?b then _ else _] =>
             destruct b eqn:?; cbn -[Ascii.eqb isDigit isWordChar]
         end.

Ltac case_char x a :=
  let E := fresh "E" in
  destruct (Ascii.eqb x a) eqn:E; [apply Ascii.eqb_eq in E; subst a|].

Ltac closed_eqb :=
  match goal with
  | |- context [Ascii.eqb ?x ?y] =>
      let v := eval vm_compute in (Ascii.eqb x y) in
      match v with
      | true => change (Ascii.eqb x y) with true
      | false => change (Ascii.eqb x y) with false
      end
  end.

Ltac year_steps :=
  cbn -[Ascii.eqb isDigit isWordChar];
  repeat (closed_eqb; cbn -[Ascii.eqb isDigit isWordChar]).

Lemma yearOnly_at_slash (i : nat) (prev : option ascii) (s : string) :
  matchAt YEAR_ONLY_RX (mkCursor i prev (String "/" s)) = None.
Proof.
  unfold matchAt. cbn -[isDigit isWordChar]. now split_ifs.
Qed.

Lemma yearOnly_no_boundary (i : nat) (p a : ascii) (s : string) :
  isWordChar p = true -> isWordChar a = true ->
  matchAt YEAR_ONLY_RX (mkCursor i (Some p) (String a s)) = None.
Proof.
  intros Hp Ha. unfold matchAt. cbn -[isDigit isWordChar]. now rewrite Hp, Ha.
Qed.

Lemma yearOnly_short1 (i : nat) (prev : option ascii) (a : ascii) (s : string) :
  matchAt YEAR_ONLY_RX (mkCursor i prev (String a (String "/" s))) = None.
Proof.
  unfold matchAt.
  case_char "1"%char a; [cbn; now split_ifs|].
  case_char "2"%char a; [cbn; now split_ifs|].
  year_steps. rewrite E, E0. now split_ifs.
Qed.

Lemma yearOnly_short2 (i : nat) (prev : option ascii) (a b : ascii) (s : string) :
  matchAt YEAR_ONLY_RX (mkCursor i prev (String a (String b (String "/" s)))) = None.
Proof.
  unfold matchAt.
  case_char "1"%char a.
  { case_char "9"%char b; [cbn; now split_ifs|].
    year_steps. rewrite E. now split_ifs. }
  case_char "2"%char a.
  { case_char "0"%char b; [cbn; now split_ifs|].
    year_steps. rewrite E0. now split_ifs. }
  year_steps. rewrite E, E0. now split_ifs.
Qed.

Lemma yearOnly_hit (i : nat) (y : string) :
  yearText y = true ->
  exists c : Cursor,
    matchAt YEAR_ONLY_RX (mkCursor i (Some "/"%char) y) = Some (mkMatch y i [take 2 y], c).
Proof.
  destruct y as [|a [|b [|c [|d [|]]]]]; try discriminate. cbn [yearText].
  intros H. apply andb_prop in H as [H Hd]. apply andb_prop in H as [H Hc].
  pose proof (digit_wordChar d Hd) as Hw.
  apply orb_prop in H as [H|H]; apply andb_prop in H as [Ha Hb];
    apply Ascii.eqb_eq in Ha, Hb; subst a b; unfold matchAt;
    year_steps; rewrite Hc, Hd; year_steps; rewrite Hw; year_steps; eexists; reflexivity.
Qed.

Lemma searchFrom_skip (rx : RegExp) (i : nat) (prev : option ascii) (c : ascii) (s : string) :
  matchAt rx (mkCursor i prev (String c s)) = None ->
  searchFrom rx i prev (String c s) = searchFrom rx (S i) (Some c) s.
Proof. intros H. cbn [searchFrom]. now rewrite H. Qed.

Lemma searchFrom_hit (rx : RegExp) (i : nat) (prev : option ascii) (s : string) r :
  matchAt rx (mkCursor i prev s) = Some r -> searchFrom rx i prev s = Some r.
Proof. intros H. destruct s; cbn [searchFrom]; now rewrite H. Qed.

(** The year-only pattern finds the year of [M/D/YYYY] and nothing before
    it. *)
Lemma yearOnly_fullDate (m d y : string) :
  shortNumeral m = true -> shortNumeral d = true -> yearText y = true ->
  matchFirst YEAR_ONLY_RX (m ++ "/" ++ d ++ "/" ++ y) =
  Some (mkMatch y (String.length m + String.length d + 2) [take 2 y]).
Proof.
  intros Hm Hd Hy. unfold matchFirst, exec, start. cbn [index before rest].
  assert (Htail : forall i p, 
             option_map fst (searchFrom YEAR_ONLY_RX i p (String "/" y)) =
             Some (mkMatch y (S i) [take 2 y])).
  { intros i p. rewrite searchFrom_skip by apply yearOnly_at_slash.
    destruct (yearOnly_hit (S i) y Hy) as [c Hc].
    now rewrite (searchFrom_hit _ _ _ _ _ Hc). }
  assert (Hday : forall i p,
             option_map fst (searchFrom YEAR_ONLY_RX i p ("/" ++ d ++ "/" ++ y)) =
             Some (mkMatch y (i + String.length d + 2) [take 2 y])).
  { intros i p. cbn [append]. rewrite searchFrom_skip by apply yearOnly_at_slash.
    destruct d as [|a [|b [|]]]; try discriminate; cbn [append shortNumeral] in *.
    - rewrite searchFrom_skip by apply yearOnly_short1.
      rewrite Htail. do 3 f_equal. simpl. lia.
    - apply andb_prop in Hd as [Ha Hb].
      rewrite searchFrom_skip by apply yearOnly_short2.
      rewrite searchFrom_skip by (apply yearOnly_no_boundary; now apply digit_wordChar).
      rewrite Htail. do 3 f_equal. simpl. lia. }
  destruct m as [|a [|b [|]]]; try discriminate; cbn [append shortNumeral] in *.
  - rewrite searchFrom_skip by apply yearOnly_short1.
    apply (Hday 1).
  - apply andb_prop in Hm as [Ha Hb].
    rewrite searchFrom_skip by apply yearOnly_short2.
    rewrite searchFrom_skip by (apply yearOnly_no_boundary; now apply digit_wordChar).
    apply (Hday 2).
Qed.

Lemma In_zrange (lo z : Z) (n : nat) :
  (lo <= z < lo + Z.of_nat n)%Z -> In z (zrange lo n).
Proof.
  intros H. unfold zrange. apply in_map_iff.
  exists (Z.to_nat (z - lo)). split; [lia|]. apply in_seq. lia.
Qed.

Lemma numeral_short (leadingZero : bool) (n : Z) :
  (1 <= n <= 31)%Z -> shortNumeral (numeral leadingZero n) = true.
Proof.
  intros H.
  assert (Hall : forallb (fun n => shortNumeral (numeral true n)
                                   && shortNumeral (numeral false n))
                         (zrange 1 31) = true) by (vm_compute; reflexivity).
  rewrite forallb_forall in Hall.
  specialize (Hall n (In_zrange 1 n 31 ltac:(lia))).
  apply andb_prop in Hall as [Ht Hf]. now destruct leadingZero.
Qed.

Lemma ofZ_year (y : Z) :
  (1950 <= y <= 2099)%Z -> yearText (ofZ y) = true /\ parseInt (ofZ y) = Some y.
Proof.
  intros H.
  assert (Hall : forallb (fun y => yearText (ofZ y) && readsBack y) (zrange 1950 150) = true)
    by (vm_compute; reflexivity).
  rewrite forallb_forall in Hall.
  specialize (Hall y (In_zrange 1950 y 150 ltac:(lia))).
  apply andb_prop in Hall as [Hy Hr]. split; auto.
  unfold readsBack in Hr. destruct (parseInt (ofZ y)); [|discriminate].
  apply Z.eqb_eq in Hr. now subst.
Qed.

Lemma allChars_app (p : ascii -> bool) (s t : string) :
  allChars p (s ++ t) = allChars p s && allChars p t.
Proof. induction s as [|c s IH]; simpl; auto. now rewrite IH, andb_assoc. Qed.

Lemma shortNumeral_dateText (s : string) :
  shortNumeral s = true -> allChars isDateChar s = true.
Proof.
  destruct s as [|a [|b [|]]]; try discriminate; simpl; intros H.
  - now rewrite digit_dateChar.
  - apply andb_prop in H as [Ha Hb]. now rewrite !digit_dateChar.
Qed.

Lemma yearText_dateText (s : string) : yearText s = true -> allChars isDateChar s = true.
Proof.
  destruct s as [|a [|b [|c [|d [|]]]]]; try discriminate. cbn [yearText allChars].
  intros H. apply andb_prop in H as [H Hd]. apply andb_prop in H as [H Hc].
  rewrite (digit_dateChar c Hc), (digit_dateChar d Hd).
  apply orb_prop in H as [H|H]; apply andb_prop in H as [Ha Hb];
    apply Ascii.eqb_eq in Ha, Hb; now subst.
Qed.

Lemma daysInMonth_le (year month : Z) : (daysInMonth year month <= 31)%Z.
Proof.
  unfold daysInMonth. destruct (month =? 2)%Z; [destruct (isLeapYear year); lia|].
  destruct (_ || _); lia.
Qed.

Lemma shortNumeral_nonempty (s t : string) :
  shortNumeral s = true -> isEmpty (s ++ t) = false.
Proof. destruct s; [discriminate|reflexivity]. Qed.

Lemma fullDateString_dateText zeroMonth zeroDay month day year :
  (1 <= month <= 31)%Z -> (1 <= day <= 31)%Z -> (1950 <= year <= 2099)%Z ->
  allChars isDateChar (fullDateString zeroMonth zeroDay month day year) = true.
Proof.
  intros Hm Hd Hy. unfold fullDateString. rewrite !allChars_app.
  rewrite (shortNumeral_dateText _ (numeral_short zeroMonth month Hm)).
  rewrite (shortNumeral_dateText _ (numeral_short zeroDay day Hd)).
  now rewrite (yearText_dateText _ (proj1 (ofZ_year year Hy))).
Qed.

(** A text [M/D/YYYY] whose year starts with 19 or 20 is read by the
    year-only parser, which runs before the full-date parser: its pattern
    finds the four digits of the year, and the month and the day are never
    examined. *)
Lemma parseDate_full_date_before_2100 :
  forall (now : Date) (zeroMonth zeroDay : bool) (month day year : Z),
    (1 <= month <= 12)%Z ->
    (1 <= day <= daysInMonth year month)%Z ->
    (1950 <= year <= getFullYear now + 10)%Z ->
    (year <= 2099)%Z ->
    parseDate now (fullDateString zeroMonth zeroDay month day year) =
    Some (mkParsedDate (fullDateString zeroMonth zeroDay month day year)
                       (newDate year 0 1) YEAR_ONLY false
                       FORMAT_CONFIDENCE.PATTERN_MATCH).
Proof.
  intros now zeroMonth zeroDay month day year Hm Hd Hy Hc.
  pose proof (daysInMonth_le year month) as Hle.
  assert (Hm' : (1 <= month <= 31)%Z) by lia.
  assert (Hd' : (1 <= day <= 31)%Z) by lia.
  assert (Hy' : (1950 <= year <= 2099)%Z) by lia.
  pose proof (fullDateString_dateText zeroMonth zeroDay month day year Hm' Hd' Hy') as Htext.
  destruct (ofZ_year year Hy') as [Hshape Hint].
  pose proof (numeral_short zeroMonth month Hm') as Hms.
  pose proof (numeral_short zeroDay day Hd') as Hds.
  set (text := fullDateString zeroMonth zeroDay month day year) in *.
  assert (Hne : isEmpty text = false) by (now apply shortNumeral_nonempty).
  unfold parseDate. rewrite (dateText_trim text Htext), Hne.
  rewrite (dateText_toLowerCase text Htext), (dateText_not_ongoing text Htext).
  cbn [formats firstSome].
  assert (Hmy : parseMonthYear now text = None).
  { unfold parseMonthYear, matchFirst, exec, start. cbn [index before rest].
    now rewrite monthYear_dateText. }
  rewrite Hmy.
  assert (Hyo : parseYearOnly now text =
                Some (mkFormatResult (newDate year 0 1) YEAR_ONLY
                                     FORMAT_CONFIDENCE.PATTERN_MATCH)).
  { unfold parseYearOnly. subst text. unfold fullDateString.
    rewrite yearOnly_fullDate by auto. cbn [matched]. rewrite Hint.
    unfold isValidYear.
    replace (1950 <=? year)%Z with true by (symmetry; apply Z.leb_le; lia).
    replace (year <=? getFullYear now + 10)%Z with true by (symmetry; apply Z.leb_le; lia).
    reflexivity. }
  now rewrite Hyo.
Qed.

(** C10, as stated, fails once the current year reaches 2090: the year
    2100 is within ten years of 2095, the year-only pattern knows the
    centuries 19 and 20 only, and the text reaches the full-date parser. *)
Lemma parseDate_full_date_2100_counterexample :
  let now := newDate 2095 0 1 in
  (1 <= 1 <= 12)%Z /\ (1 <= 1 <= daysInMonth 2100 1)%Z /\
  (1950 <= 2100 <= getFullYear now + 10)%Z /\
  fullDateString false false 1 1 2100 = "1/1/2100" /\
  parseDate now "1/1/2100" =
  Some (mkParsedDate "1/1/2100" (newDate 2100 0 1) FULL_DATE false
                     FORMAT_CONFIDENCE.EXACT_MATCH).
Proof. vm_compute. intuition discriminate. Qed.

(** ** The scenarios *)

Lemma isValidYear_intro (now : Date) (year : Z) :
  (1950 <= year <= getFullYear now + 10)%Z -> isValidYear now year = true.
Proof. intros H. unfold isValidYear. apply andb_true_intro. split; apply Z.leb_le; lia. Qed.

(** C6, as stated, fails: on 2 November 2026 the span yields two
    parsed dates, the years 2025 and 2026 read by the year-only pattern. *)
Lemma malformed_range_counterexample :
  extractDatesFromText today scenario4 =
  [mkExtractedDate "2025" 0 4
     (Some (mkParsedDate "2025" (newDate 2025 0 1) YEAR_ONLY false
                         FORMAT_CONFIDENCE.PATTERN_MATCH)) scenario4;
   mkExtractedDate "2026" 13 17
     (Some (mkParsedDate "2026" (newDate 2026 0 1) YEAR_ONLY false
                         FORMAT_CONFIDENCE.PATTERN_MATCH)) scenario4].
Proof. vm_compute. reflexivity. Qed.

(** C6 (amended).  When 2026 is at most ten years after the current year,
    the span [2025/13/45 - 2026/99/99] yields exactly two entries: the
    years 2025 and 2026, each read as a year-only date, January 1 of that
    year, with confidence 0.8.  The month and day values are not read by
    any pattern.  In the document of the scenario the extraction goes on
    behind the span and finds the dates of the next entry. *)
Theorem malformed_range_yields_year_only_dates :
  forall now : Date,
    (2026 <= getFullYear now + 10)%Z ->
    extractDatesFromText now scenario4 =
    [mkExtractedDate "2025" 0 4
       (Some (mkParsedDate "2025" (newDate 2025 0 1) YEAR_ONLY false
                           FORMAT_CONFIDENCE.PATTERN_MATCH)) scenario4;
     mkExtractedDate "2026" 13 17
       (Some (mkParsedDate "2026" (newDate 2026 0 1) YEAR_ONLY false
                           FORMAT_CONFIDENCE.PATTERN_MATCH)) scenario4]
    /\ map (fun date => (ed_text date, ed_startIndex date,
                         option_map pd_format (ed_parsedDate date),
                         option_map pd_normalized (ed_parsedDate date)))
           (extractDatesFromText now scenario4Document) =
       [("2025", 23, Some YEAR_ONLY, Some (newDate 2025 0 1));
        ("2026", 36, Some YEAR_ONLY, Some (newDate 2026 0 1));
        ("June 2021", 87, Some MONTH_YEAR, Some (newDate 2021 5 1));
        ("2021", 92, Some YEAR_ONLY, Some (newDate 2021 0 1));
        ("August 2021", 99, Some MONTH_YEAR, Some (newDate 2021 7 1));
        ("2021", 106, Some YEAR_ONLY, Some (newDate 2021 0 1))].
Proof.
  intros now H.
  assert (H1 : isValidYear now 2025 = true) by (apply isValidYear_intro; lia).
  assert (H2 : isValidYear now 2026 = true) by (apply isValidYear_intro; lia).
  assert (H3 : isValidYear now 2021 = true) by (apply isValidYear_intro; lia).
  split.
  - cbv -[isValidYear]. rewrite H1, H2. reflexivity.
  - cbv -[isValidYear]. rewrite H1, H2, H3. reflexivity.
Qed.

Lemma malformed_range_yields_year_only_dates_witness :
  (2026 <= getFullYear today + 10)%Z /\
  List.length (extractDatesFromText today scenario4) = 2.
Proof.
  assert (H : (2026 <= getFullYear today + 10)%Z)
    by (vm_compute; discriminate).
  split; [exact H|].
  now rewrite (proj1 (malformed_range_yields_year_only_dates today H)).
Defined.

Lemma getFullYear_lower (date : Date) :
  (newDate 2022 4 1 <= date)%Z -> (2022 <= getFullYear date)%Z.
Proof.
  change (newDate 2022 4 1) with (1651363200000%Z).
  intros H. unfold getFullYear, civilFromDays, msPerDay.
  change (1000 * 60 * 60 * 24)%Z with (86400000%Z).
  cbv zeta.
  destruct (_ <=? 2)%Z; Z.div_mod_to_equations; lia.
Qed.

Lemma elapsed_nonpos (a b : Date) (unit : Q) :
  (0 < unit)%Q -> (a <= b)%Z -> (Service.elapsed a b unit <= 0)%Q.
Proof.
  intros Hu Hab. unfold Service.elapsed, getTime.
  apply Qle_shift_div_r; auto. rewrite Qmult_0_l.
  unfold Qle. simpl. lia.
Qed.

Lemma Qltb_false (a x : Q) : (x <= a)%Q -> Qltb a x = false.
Proof.
  intros H. unfold Qltb. apply Qle_bool_iff in H. now rewrite H.
Qed.

(** A finished period that lies in the past and whose dates are in order
    raises no critical issue. *)
Lemma past_period_no_critical (toLocaleDateString : Date -> string) (now : Date)
      (cfg : ValidationConfig) (period : EducationPeriod) (s e : Date) :
  ep_startDate period = Some s -> ep_endDate period = Some e ->
  ep_isOngoing period = false ->
  (s < e)%Z -> (e <= now)%Z -> (0 <= maxFutureEducationYears cfg)%Z ->
  noCritical (Service.validateEducationTimeline toLocaleDateString now cfg [period]) = true.
Proof.
  intros Hs He Ho Hse Hen Hcfg.
  assert (Hy : (0 < Service.msPerYear)%Q) by reflexivity.
  assert (Hm : (0 < Service.msPerMonth)%Q) by reflexivity.
  unfold Service.validateEducationTimeline. cbn [flat_map Service.pairs map app].
  rewrite !app_nil_r.
  unfold Service.periodIssues, Service.futureGraduation, Service.futureStart,
    Service.dateOrder, Service.duration, Service.staleOngoing.
  rewrite Hs, He, Ho. cbn [negb andb].
  rewrite (Qltb_false (inject_Z (maxFutureEducationYears cfg))).
  2:{ apply Qle_trans with 0%Q; [now apply elapsed_nonpos|].
      unfold Qle. simpl. lia. }
  rewrite (Qltb_false 2) by (apply Qle_trans with 0%Q; [now apply elapsed_nonpos|easy]).
  rewrite (Qltb_false 3)
    by (apply Qle_trans with 0%Q; [apply elapsed_nonpos; auto; lia|easy]).
  replace (getTime e <=? getTime s)%Z with false
    by (symmetry; apply Z.leb_gt; unfold getTime; lia).
  cbn [app].
  destruct (Qltb 10 _); [reflexivity|].
  destruct (_ && _); reflexivity.
Qed.

Lemma extractDatesFromText_scenario1 (now : Date) :
  (2022 <= getFullYear now + 10)%Z ->
  extractDatesFromText now scenario1 = extractDatesFromText (newDate 2026 10 2) scenario1.
Proof.
  intros H.
  assert (H1 : isValidYear now 2018 = true) by (apply isValidYear_intro; lia).
  assert (H2 : isValidYear now 2022 = true) by (apply isValidYear_intro; lia).
  cbv -[isValidYear]. rewrite H1, H2. reflexivity.
Qed.

Lemma parseEducationDates_scenario1 (now : Date) :
  (2022 <= getFullYear now + 10)%Z ->
  Service.parseEducationDates now scenario1 =
  [mkEducationPeriod "Unknown Institution" (Some scenario1)
                     (Some (newDate 2018 0 1)) (Some (newDate 2022 4 1)) false
                     scenario1 (316000 # 400000)].
Proof.
  intros H. unfold Service.parseEducationDates.
  change (isEmpty scenario1) with false. change (isEmpty (trim scenario1)) with false.
  cbv iota.
  replace (Service.extractEducationSections scenario1) with [scenario1]
    by (vm_compute; reflexivity).
  cbn [map]. unfold Service.parseEducationSection.
  rewrite (extractDatesFromText_scenario1 now H).
  vm_compute. reflexivity.
Qed.

(** C5, as stated, fails: the start date of the period is 1 January 2018,
    since the year-only pattern also reads the year of [September 2018] and
    the earliest date found becomes the start. *)
Lemma scenario1_start_counterexample :
  map ep_startDate (Service.parseEducationDates today scenario1) =
  [Some (newDate 2018 0 1)] /\ newDate 2018 0 1 <> newDate 2018 8 1.
Proof. split; [vm_compute; reflexivity|vm_compute; discriminate]. Qed.

(** C5 (amended).  Once 1 May 2022 is not in the future, the text of
    scenario 1 yields exactly one education period; it starts on
    1 January 2018, ends on 1 May 2022 and is not ongoing, and validating
    it raises no critical issue, whatever the locale and for every
    configuration that allows no negative number of future years. *)
Theorem scenario1_yields_one_period :
  forall (toLocaleDateString : Date -> string) (now : Date) (cfg : ValidationConfig),
    (newDate 2022 4 1 <= now)%Z ->
    (0 <= maxFutureEducationYears cfg)%Z ->
    exists period : EducationPeriod,
      Service.parseEducationDates now scenario1 = [period] /\
      ep_startDate period = Some (newDate 2018 0 1) /\
      ep_endDate period = Some (newDate 2022 4 1) /\
      ep_isOngoing period = false /\
      noCritical (Service.validateEducationTimeline toLocaleDateString now cfg
                    (Service.parseEducationDates now scenario1)) = true.
Proof.
  intros toLocaleDateString now cfg Hnow Hcfg.
  pose proof (getFullYear_lower now Hnow) as Hyear.
  rewrite (parseEducationDates_scenario1 now ltac:(lia)).
  eexists. split; [reflexivity|]. cbn [ep_startDate ep_endDate ep_isOngoing].
  repeat (split; [reflexivity|]).
  apply (past_period_no_critical _ _ _ _ (newDate 2018 0 1) (newDate 2022 4 1));
    auto; reflexivity.
Qed.

Lemma scenario1_yields_one_period_witness :
  (newDate 2022 4 1 <= newDate 2026 10 2)%Z /\
  (0 <= maxFutureEducationYears DEFAULT_VALIDATION_CONFIG)%Z /\
  exists period : EducationPeriod,
    Service.parseEducationDates today scenario1 = [period] /\
    ep_startDate period = Some (newDate 2018 0 1) /\
    ep_endDate period = Some (newDate 2022 4 1) /\
    ep_isOngoing period = false /\
    noCritical (Service.validateEducationTimeline enUS today
                  DEFAULT_VALIDATION_CONFIG
                  (Service.parseEducationDates today scenario1)) = true.
Proof.
  assert (H1 : (newDate 2022 4 1 <= newDate 2026 10 2)%Z) by (vm_compute; discriminate).
  assert (H2 : (0 <= maxFutureEducationYears DEFAULT_VALIDATION_CONFIG)%Z)
    by (vm_compute; discriminate).
  split; [exact H1|]. split; [exact H2|].
  exact (scenario1_yields_one_period enUS today DEFAULT_VALIDATION_CONFIG H1 H2).
Defined.

(* ================================================================== *)
(** * The theorems at work *)

Lemma quietLogger_returns generators cfg now :
  Runs.loggingReturns (educationService Runs.quietLogger generators cfg now).
Proof. unfold Runs.loggingReturns. repeat split; intros; eexists; reflexivity. Qed.

Lemma quietLogger_around generators cfg now resumeText :
  Runs.loggingAroundTryReturns (educationService Runs.quietLogger generators cfg now)
                               resumeText.
Proof.
  exists "validate_resume_dates". repeat split; intros; try (eexists; reflexivity).
Qed.

Lemma failingLogger_around generators cfg now resumeText :
  Runs.loggingAroundTryReturns (educationService Runs.failingLogger generators cfg now)
                               resumeText.
Proof.
  exists "validate_resume_dates". repeat split; intros; try (eexists; reflexivity).
Qed.

Lemma isValid_iff_no_critical_issue_witness :
  Runs.loggingAroundTryReturns strictService futureProgram /\
  returns (Orchestrator.validateResumeDates strictService today futureProgram) /\
  exists r,
    Orchestrator.validateResumeDates strictService today futureProgram = Ok r /\
    isValid r = false /\
    (isValid r = true <-> forall i, In i (issues r) -> vi_type i <> critical).
Proof.
  assert (H : Runs.loggingAroundTryReturns strictService futureProgram)
    by apply quietLogger_around.
  destruct (isValid_iff_no_critical_issue strictService today futureProgram)
    as (Hiff & Hreturns & _).
  split; [exact H|]. split; [exact (Hreturns H)|].
  eexists. split; [vm_compute; reflexivity|]. split; [reflexivity|].
  apply Hiff. vm_compute. reflexivity.
Defined.

Lemma validateResumeDates_never_throws_witness :
  Runs.loggingAroundTryReturns failingService futureProgram /\
  fst (Orchestrator.validate failingService today futureProgram "validate_resume_dates"
                             Orchestrator.initial) = Throw "logger failure" /\
  Orchestrator.validateResumeDates failingService today futureProgram
  = Ok (mkDateValidationResult
          true []
          [mkValidationWarning general
             "Date validation temporarily unavailable due to an internal error"
             "System error during validation"]
          []).
Proof.
  assert (H : Runs.loggingAroundTryReturns failingService futureProgram)
    by apply failingLogger_around.
  destruct (proj1 (validateResumeDates_never_throws failingService today futureProgram) H)
    as (r & Hr & Hcatch).
  split; [exact H|]. split; [vm_compute; reflexivity|].
  rewrite Hr. f_equal.
  apply (Hcatch "validate_resume_dates" "logger failure" Orchestrator.initial);
    vm_compute; reflexivity.
Defined.

Lemma low_confidence_critical_becomes_warning_witness :
  Runs.loggingReturns strictService /\
  In futureStartIssue (Runs.validatorIssues strictService today futureProgram) /\
  exists r,
    Orchestrator.validateResumeDates strictService today futureProgram = Ok r /\
    ~ In futureStartIssue (issues r) /\
    In (mkValidationWarning education
          "Education start date 1/1/2030 is more than 3 months in the future." "1/1/2030")
       (warnings r).
Proof.
  assert (H : Runs.loggingReturns strictService) by apply quietLogger_returns.
  assert (Hin : In futureStartIssue (Runs.validatorIssues strictService today futureProgram))
    by (vm_compute; auto).
  destruct (low_confidence_critical_becomes_warning strictService today futureProgram H)
    as (r & Hr & Hall & _).
  split; [exact H|]. split; [exact Hin|].
  exists r. split; [exact Hr|].
  apply (Hall futureStartIssue Hin); reflexivity.
Defined.

Lemma blank_input_gives_empty_result_witness :
  Runs.loggingAroundTryReturns strictService "   " /\
  allChars isSpace "   " = true /\
  exists w,
    Orchestrator.validateResumeDates strictService today "   "
    = Ok (mkDateValidationResult true [] [w] []) /\
    vw_category w = general.
Proof.
  assert (H : Runs.loggingAroundTryReturns strictService "   ")
    by apply quietLogger_around.
  split; [exact H|]. split; [reflexivity|].
  exact (blank_input_gives_empty_result strictService today "   " H eq_refl).
Defined.

Lemma parseDate_ongoing_keyword_witness :
  In "present" ONGOING_KEYWORDS /\
  containsIgnoreCase "Jan 2020 - Present" "present" /\
  parseDate today "Jan 2020 - Present"
  = Some (mkParsedDate "Jan 2020 - Present" today PRESENT true 1).
Proof.
  assert (H1 : In "present" ONGOING_KEYWORDS) by (simpl; auto).
  assert (H2 : containsIgnoreCase "Jan 2020 - Present" "present")
    by (exists "Jan 2020 - ", "Present", ""; split; reflexivity).
  split; [exact H1|]. split; [exact H2|].
  exact (parseDate_ongoing_keyword today "Jan 2020 - Present" "present" H1 H2).
Defined.

Lemma result_suggestions_ranked_witness :
  exists r,
    Orchestrator.validateResumeDates typoService today scenario1 = Ok r /\
    map suggestionKey (suggestions r) = [("2081", "2018"); ("2032", "2022")] /\
    Runs.rankedSuggestions typoService (suggestions r).
Proof.
  eexists. split; [vm_compute; reflexivity|]. split; [reflexivity|].
  apply (result_suggestions_ranked typoService today scenario1).
  vm_compute. reflexivity.
Defined.

(* ================================================================== *)
(** * The matcher consumes a prefix of its subject *)

Lemma string_length_app (s t : string) : String.length (s ++ t) = String.length s + String.length t.
Proof. induction s as [|c s IH]; simpl; auto. Qed.

Lemma suffix_refl (s : string) : suffix s s.
Proof. now exists "". Qed.

Lemma suffix_trans (a b c : string) : suffix a b -> suffix b c -> suffix a c.
Proof.
  intros [p ->] [q ->]. exists (q ++ p)%string. now rewrite append_assoc.
Qed.

Lemma suffix_tail (c : ascii) (s : string) : suffix s (String c s).
Proof. now exists (String c ""). Qed.

Lemma matchLit_suffix ci l prev s prev' s' :
  matchLit ci l prev s = Some (prev', s') -> suffix s' s.
Proof.
  revert prev s. induction l as [|a l IH]; intros prev s; simpl.
  - intros H. injection H as _ <-. apply suffix_refl.
  - destruct s as [|b s]; [discriminate|]. destruct (charEq ci a b); [|discriminate].
    intros H. apply IH in H. eapply suffix_trans; [exact H|apply suffix_tail].
Qed.

Section Suffix.
Context {R : Type}.

Lemma rep_suffix p lo hi prev s (k : option ascii -> string -> option R) x :
  rep p lo hi prev s k = Some x ->
  exists prev' s', suffix s' s /\ k prev' s' = Some x.
Proof.
  revert lo hi prev. induction s as [|c s IH]; intros lo hi prev; simpl.
  - destruct lo; [|discriminate]. intros H. exists prev, "". split; auto using suffix_refl.
  - assert (Hstop : match lo with 0 => k prev (String c s) | S _ => None end = Some x ->
                    exists prev' s', suffix s' (String c s) /\ k prev' s' = Some x).
    { destruct lo; [|discriminate]. intros H. exists prev, (String c s).
      split; auto using suffix_refl. }
    destruct (p c && _); auto.
    destruct (rep p (Nat.pred lo) (option_map Nat.pred hi) (Some c) s k) eqn:E; auto.
    intros H. injection H as <-. apply IH in E as (prev' & s' & Hs & Hk).
    exists prev', s'. split; auto. eapply suffix_trans; [exact Hs|apply suffix_tail].
Qed.

Lemma run_suffix ci r prev s caps
      (k : option ascii -> string -> list string -> option R) x :
  Regex.run ci r prev s caps k = Some x ->
  exists prev' s' caps', suffix s' s /\ k prev' s' caps' = Some x.
Proof.
  revert prev s caps k. induction r; intros prev s0 caps k; simpl.
  - discriminate.
  - intros H. exists prev, s0, caps. split; auto using suffix_refl.
  - destruct (matchLit ci s prev s0) as [[prev' s']|] eqn:E; [|discriminate].
    intros H. exists prev', s', caps. split; auto. eapply matchLit_suffix; eauto.
  - intros H. apply rep_suffix in H as (prev' & s' & Hs & Hk). now exists prev', s', caps.
  - destruct (xorb _ _); [|discriminate].
    intros H. exists prev, s0, caps. split; auto using suffix_refl.
  - intros H. apply IHr1 in H as (p1 & s1 & c1 & Hs1 & H).
    apply IHr2 in H as (p2 & s2 & c2 & Hs2 & H).
    exists p2, s2, c2. split; auto. eapply suffix_trans; eauto.
  - destruct (Regex.run ci r1 prev s0 caps k) eqn:E.
    + intros H. injection H as <-. now apply IHr1 in E.
    + intros H. now apply IHr2 in H.
  - intros H. apply IHr in H as (p1 & s1 & c1 & Hs1 & H). eauto.
Qed.

End Suffix.

(* ================================================================== *)
(** * Texts without digits *)

Lemma allChars_suffix (p : ascii -> bool) (s' s : string) :
  suffix s' s -> allChars p s = true -> allChars p s' = true.
Proof.
  intros [pre ->]. rewrite allChars_app. intros H. now apply andb_prop in H.
Qed.

Lemma allChars_trimStart (p : ascii -> bool) (s : string) :
  allChars p s = true -> allChars p (trimStart s) = true.
Proof.
  induction s as [|c s IH]; simpl; auto.
  intros H. destruct (isSpace c); auto. apply andb_prop in H as [_ H]. auto.
Qed.

Lemma allChars_trimEnd (p : ascii -> bool) (s : string) :
  allChars p s = true -> allChars p (trimEnd s) = true.
Proof.
  induction s as [|c s IH]; simpl; auto.
  intros H. apply andb_prop in H as [Hc H]. specialize (IH H).
  destruct (trimEnd s).
  - destruct (isSpace c); simpl; auto. now rewrite Hc.
  - simpl in *. now rewrite Hc.
Qed.

Lemma isDigit_lowerChar (c : ascii) : isDigit (lowerChar c) = isDigit c.
Proof. destruct c as [[] [] [] [] [] [] [] []]; reflexivity. Qed.

Lemma noDigits_toLowerCase (s : string) : noDigits (toLowerCase s) = noDigits s.
Proof.
  unfold noDigits. induction s as [|c s IH]; simpl; auto.
  now rewrite isDigit_lowerChar, IH.
Qed.

Lemma noDigits_trimmed (s : string) :
  noDigits s = true -> noDigits (toLowerCase (trim s)) = true.
Proof.
  intros H. rewrite noDigits_toLowerCase. unfold noDigits, trim.
  now apply allChars_trimEnd, allChars_trimStart.
Qed.

Lemma needsDigit_class (ci : bool) (n : nat) (hi : option nat) :
  needsDigit ci (Cls isDigit (S n) hi).
Proof.
  intros R prev s caps k H. simpl. destruct s as [|c s]; simpl; auto.
  unfold noDigits in H. simpl in H. apply andb_prop in H as [Hc _].
  apply negb_true_iff in Hc. now rewrite Hc.
Qed.

Lemma needsDigit_digit_literal (c : ascii) (l : string) :
  isDigit c = true -> needsDigit false (Lit (String c l)).
Proof.
  intros Hc R prev s caps k H. simpl. destruct s as [|b s]; auto.
  unfold noDigits in H. simpl in H. apply andb_prop in H as [Hb _].
  apply negb_true_iff in Hb. unfold charEq.
  destruct (Ascii.eqb c b) eqn:E; auto. apply Ascii.eqb_eq in E. congruence.
Qed.

Lemma needsDigit_fail (ci : bool) : needsDigit ci Fail.
Proof. now intros R prev s caps k H. Qed.

Lemma needsDigit_alt (ci : bool) (r1 r2 : re) :
  needsDigit ci r1 -> needsDigit ci r2 -> needsDigit ci (Alt r1 r2).
Proof. intros H1 H2 R prev s caps k H. simpl. now rewrite H1, H2. Qed.

Lemma needsDigit_grp (ci : bool) (r : re) : needsDigit ci r -> needsDigit ci (Grp r).
Proof. intros H1 R prev s caps k H. simpl. now apply H1. Qed.

Lemma needsDigit_seq_l (ci : bool) (r1 r2 : re) : needsDigit ci r1 -> needsDigit ci (Seq r1 r2).
Proof. intros H1 R prev s caps k H. simpl. now apply H1. Qed.

Lemma needsDigit_seq_r (ci : bool) (r1 r2 : re) : needsDigit ci r2 -> needsDigit ci (Seq r1 r2).
Proof.
  intros H2 R prev s caps k H. simpl.
  destruct (Regex.run ci r1 prev s caps _) eqn:E; auto.
  apply run_suffix in E as (prev' & s' & caps' & Hs & E).
  rewrite H2 in E; [discriminate|]. now apply (allChars_suffix _ s' s).
Qed.

Lemma needsDigit_search (rx : RegExp) (text : string) :
  needsDigit (ignoreCase rx) (source rx) -> noDigits text = true ->
  matchFirst rx text = None.
Proof.
  intros Hrx. unfold matchFirst, exec, start. cbn [index before rest].
  generalize 0 (@None ascii). induction text as [|c text IH]; intros i prev H.
  - cbn [searchFrom]. unfold matchAt. cbn [before rest]. now rewrite Hrx.
  - cbn [searchFrom]. unfold matchAt at 1. cbn [before rest]. rewrite Hrx by auto.
    apply IH. unfold noDigits in *. simpl in H. now apply andb_prop in H.
Qed.

Lemma monthYear_needsDigit : needsDigit (ignoreCase monthYearRx) (source monthYearRx).
Proof.
  cbn. apply needsDigit_seq_r, needsDigit_seq_r, needsDigit_seq_r, needsDigit_seq_l,
         needsDigit_grp, needsDigit_class.
Qed.

Lemma yearOnly_needsDigit : needsDigit (ignoreCase YEAR_ONLY_RX) (source YEAR_ONLY_RX).
Proof.
  cbn. apply needsDigit_seq_r, needsDigit_seq_l, needsDigit_grp.
  repeat apply needsDigit_alt; try apply needsDigit_fail;
    now apply needsDigit_digit_literal.
Qed.

Lemma fullDate_needsDigit : needsDigit (ignoreCase FULL_DATE_RX) (source FULL_DATE_RX).
Proof.
  cbn. apply needsDigit_seq_r, needsDigit_seq_l, needsDigit_grp, needsDigit_class.
Qed.

(** X1. From a string without any digit [parseDate] returns either null
    or the ongoing result: no month, year or full date is read without a
    digit.  From a blank string it returns null. *)
Theorem parseDate_without_digit :
  forall (now : Date) (dateString : string),
    noDigits dateString = true ->
    (parseDate now dateString = None \/
     parseDate now dateString
     = Some (mkParsedDate dateString now PRESENT true FORMAT_CONFIDENCE.EXACT_MATCH)) /\
    (allChars isSpace dateString = true -> parseDate now dateString = None).
Proof.
  intros now dateString H. split.
  - unfold parseDate.
    destruct (isEmpty dateString); auto.
    destruct (isEmpty (trim dateString)); auto. cbv zeta.
    destruct (isOngoingIndicator _); auto. left.
    pose proof (noDigits_trimmed dateString H) as Ht.
    cbn [formats firstSome]. unfold parseMonthYear, parseYearOnly, parseFullDate.
    rewrite (needsDigit_search _ _ monthYear_needsDigit Ht).
    rewrite (needsDigit_search _ _ yearOnly_needsDigit Ht).
    now rewrite (needsDigit_search _ _ fullDate_needsDigit Ht).
  - intros Hblank. unfold parseDate. rewrite (trim_spaces _ Hblank). cbn.
    now destruct (isEmpty dateString).
Qed.

Lemma parseDate_without_digit_witness :
  noDigits "till date" = true /\
  (parseDate today "till date" = None \/
   parseDate today "till date"
   = Some (mkParsedDate "till date" today PRESENT true FORMAT_CONFIDENCE.EXACT_MATCH)) /\
  (allChars isSpace "till date" = true -> parseDate today "till date" = None).
Proof.
  assert (H : noDigits "till date" = true) by reflexivity.
  split; [exact H|]. exact (parseDate_without_digit today "till date" H).
Defined.

Lemma isEmpty_toLowerCase (s : string) : isEmpty (toLowerCase s) = isEmpty s.
Proof. now destruct s. Qed.

Lemma parseDate_trimmed (now : Date) (s : string) :
  option_map reading (parseDate now s) =
  let trimmed := toLowerCase (trim s) in
  if isEmpty trimmed then None
  else if isOngoingIndicator trimmed
       then Some (now, PRESENT, true, FORMAT_CONFIDENCE.EXACT_MATCH)
       else option_map (fun r => (fr_date r, fr_format r, false, fr_confidence r))
                       (firstSome (formats now) trimmed).
Proof.
  cbv zeta. rewrite isEmpty_toLowerCase. unfold parseDate.
  destruct s as [|c s]; [reflexivity|].
  change (isEmpty (String c s)) with false. cbv iota.
  destruct (isEmpty (trim (String c s))); [reflexivity|]. cbv zeta.
  destruct (isOngoingIndicator _); [reflexivity|].
  now destruct (firstSome _ _).
Qed.

(** X3. [parseDate] reads a string up to the case of its letters and up
    to white space around it: two strings that are equal once trimmed and
    put in lower case are read alike, only the [original] field differs. *)
Theorem parseDate_ignores_case_and_margins :
  forall (now : Date) (s t : string),
    toLowerCase (trim s) = toLowerCase (trim t) ->
    option_map reading (parseDate now s) = option_map reading (parseDate now t).
Proof.
  intros now s t H. rewrite !parseDate_trimmed. cbv zeta. now rewrite H.
Qed.

Lemma parseDate_ignores_case_and_margins_witness :
  toLowerCase (trim "  SEPTEMBER 2018 ") = toLowerCase (trim "September 2018") /\
  option_map reading (parseDate today "  SEPTEMBER 2018 ")
  = option_map reading (parseDate today "September 2018").
Proof.
  assert (H : toLowerCase (trim "  SEPTEMBER 2018 ") = toLowerCase (trim "September 2018"))
    by reflexivity.
  split; [exact H|].
  exact (parseDate_ignores_case_and_margins today "  SEPTEMBER 2018 " "September 2018" H).
Defined.

(* ================================================================== *)
(** * Matches and their positions *)

Lemma take_app_length (a b : string) : take (String.length a) (a ++ b) = a.
Proof. induction a as [|c a IH]; simpl; [now destruct b|now rewrite IH]. Qed.

Lemma drop_app_length (a b : string) : drop (String.length a) (a ++ b) = b.
Proof. induction a as [|c a IH]; simpl; auto. Qed.

Lemma take_all (a : string) : take (String.length a) a = a.
Proof. induction a as [|c a IH]; simpl; auto. now rewrite IH. Qed.

Lemma consumed_app (pre s' : string) : consumed (pre ++ s') s' = pre.
Proof.
  unfold consumed. rewrite string_length_app.
  replace (String.length pre + String.length s' - String.length s') with (String.length pre)
    by lia.
  apply take_app_length.
Qed.

Lemma suffix_consumed (s' s : string) : suffix s' s -> s = (consumed s s' ++ s')%string.
Proof. intros [pre ->]. now rewrite consumed_app. Qed.

Lemma consumed_trans (s s1 s2 : string) :
  suffix s1 s -> suffix s2 s1 -> consumed s s2 = (consumed s s1 ++ consumed s1 s2)%string.
Proof.
  intros [p ->] [q ->]. rewrite !consumed_app.
  rewrite <- append_assoc. now rewrite consumed_app.
Qed.

Lemma occursIn_refl (c : string) : occursIn c c.
Proof. exists "", "". simpl. revert c. induction c as [|x c IH]; simpl; auto. now rewrite <- IH. Qed.

Lemma occursIn_app_r (c t u : string) : occursIn c t -> occursIn c (t ++ u).
Proof.
  intros (a & b & ->). exists a, (b ++ u)%string. now rewrite !append_assoc.
Qed.

Lemma occursIn_app_l (c t u : string) : occursIn c t -> occursIn c (u ++ t).
Proof.
  intros (a & b & ->). exists (u ++ a)%string, b. now rewrite !append_assoc.
Qed.

Section Captures.
Context {R : Type}.

(** The matcher hands on a suffix of the subject and the captures it was
    given, followed by captures that occur in what it consumed. *)
Lemma run_captures ci r prev s caps
      (k : option ascii -> string -> list string -> option R) x :
  Regex.run ci r prev s caps k = Some x ->
  exists prev' s' new,
    suffix s' s /\ k prev' s' (caps ++ new) = Some x /\
    Forall (fun c => occursIn c (consumed s s')) new.
Proof.
  revert prev s caps k. induction r; intros prev s0 caps k; simpl.
  - discriminate.
  - intros H. exists prev, s0, []. rewrite app_nil_r. auto using suffix_refl.
  - destruct (matchLit ci s prev s0) as [[prev' s']|] eqn:E; [|discriminate].
    intros H. exists prev', s', []. rewrite app_nil_r.
    split; [eapply matchLit_suffix; eauto|auto].
  - intros H. apply rep_suffix in H as (prev' & s' & Hs & Hk).
    exists prev', s', []. rewrite app_nil_r. auto.
  - destruct (xorb _ _); [|discriminate].
    intros H. exists prev, s0, []. rewrite app_nil_r. auto using suffix_refl.
  - intros H. apply IHr1 in H as (p1 & s1 & n1 & Hs1 & H & Hn1).
    apply IHr2 in H as (p2 & s2 & n2 & Hs2 & H & Hn2).
    exists p2, s2, (n1 ++ n2). rewrite app_assoc.
    split; [eapply suffix_trans; eauto|]. split; auto.
    rewrite (consumed_trans s0 s1 s2) by auto.
    apply Forall_app. split.
    + eapply Forall_impl; [|exact Hn1]. intros c. apply occursIn_app_r.
    + eapply Forall_impl; [|exact Hn2]. intros c. apply occursIn_app_l.
  - destruct (Regex.run ci r1 prev s0 caps k) eqn:E.
    + intros H. injection H as <-. now apply IHr1 in E.
    + intros H. now apply IHr2 in H.
  - intros H. apply IHr in H as (p1 & s1 & n1 & Hs1 & H & Hn1).
    exists p1, s1, (n1 ++ [take (String.length s0 - String.length s1) s0]).
    rewrite app_assoc. split; auto. split; auto.
    apply Forall_app. split; auto. constructor; [|constructor].
    apply occursIn_refl.
Qed.

End Captures.

Lemma matchAt_spec (rx : RegExp) (i : nat) (prev : option ascii) (s : string)
      (m : Match) (c' : Cursor) :
  matchAt rx (mkCursor i prev s) = Some (m, c') ->
  exists s',
    suffix s' s /\ matched m = consumed s s' /\ matchIndex m = i /\
    rest c' = s' /\ index c' = i + String.length (matched m) /\
    Forall (fun c => occursIn c (matched m)) (groups m).
Proof.
  unfold matchAt. cbn [before rest index]. intros H.
  apply run_captures in H as (prev' & s' & new & Hs & H & Hnew).
  cbv zeta in H. injection H as <- <-. cbn. exists s'. repeat split; auto.
  destruct Hs as [pre ->]. fold (consumed (pre ++ s') s'). rewrite consumed_app.
  rewrite string_length_app. f_equal. lia.
Qed.

Lemma searchFrom_spec (rx : RegExp) (i : nat) (prev : option ascii) (s : string)
      (m : Match) (c' : Cursor) :
  searchFrom rx i prev s = Some (m, c') ->
  exists skipped prev0 s0,
    s = (skipped ++ s0)%string /\
    matchAt rx (mkCursor (i + String.length skipped) prev0 s0) = Some (m, c').
Proof.
  revert i prev. induction s as [|c s IH]; intros i prev; cbn [searchFrom].
  - destruct (matchAt rx _) as [r|] eqn:E; [|discriminate].
    intros H. injection H as ->. exists "", prev, "". simpl. now rewrite Nat.add_0_r.
  - destruct (matchAt rx _) as [r|] eqn:E.
    + intros H. injection H as ->. exists "", prev, (String c s). simpl.
      now rewrite Nat.add_0_r.
    + intros H. apply IH in H as (skipped & prev0 & s0 & -> & H).
      exists (String c skipped), prev0, s0. split; auto.
      simpl. now rewrite Nat.add_succ_r.
Qed.

Lemma substring_located (pre t post : string) (i : nat) :
  String.length pre = i ->
  substring i (i + String.length t) (pre ++ t ++ post) = t /\
  i + String.length t <= String.length (pre ++ t ++ post).
Proof.
  intros <-. unfold substring.
  rewrite Nat.max_r, Nat.min_l by lia.
  replace (String.length pre + String.length t - String.length pre) with (String.length t)
    by lia.
  rewrite drop_app_length, take_app_length, !string_length_app. split; [auto|lia].
Qed.

Lemma startsWith_prefix (p s : string) :
  startsWith p s = true <-> exists b, s = (p ++ b)%string.
Proof.
  revert s. induction p as [|a p IH]; intros s; simpl.
  - split; eauto.
  - destruct s as [|c s].
    + split; [discriminate|]. intros [b H]. discriminate.
    + rewrite andb_true_iff, IH. split.
      * intros [E [b ->]]. apply Ascii.eqb_eq in E. subst. eauto.
      * intros [b H]. injection H as -> ->. split; [apply Ascii.eqb_refl|eauto].
Qed.

Lemma indexOf_Some (s p : string) (i : nat) :
  indexOf s p = Some i ->
  exists a b, s = (a ++ p ++ b)%string /\ String.length a = i.
Proof.
  revert i. induction s as [|c s IH]; intros i; simpl.
  - destruct (startsWith p "") eqn:E; [|discriminate].
    intros H. injection H as <-. apply startsWith_prefix in E as [b E]. now exists "", b.
  - destruct (startsWith p (String c s)) eqn:E.
    + intros H. injection H as <-. apply startsWith_prefix in E as [b E]. now exists "", b.
    + destruct (indexOf s p) as [j|]; [|discriminate]. simpl.
      intros H. injection H as <-. destruct (IH j eq_refl) as (a & b & -> & <-).
      now exists (String c a), b.
Qed.

Lemma indexOf_occurs (s p : string) : occursIn p s -> indexOf s p <> None.
Proof.
  intros (a & b & ->). induction a as [|c a IH]; simpl.
  - assert (E : startsWith p (p ++ b) = true) by (apply startsWith_prefix; eauto).
    destruct (p ++ b)%string; simpl in *; now rewrite E.
  - destruct (startsWith p _); [discriminate|].
    destruct (indexOf (a ++ p ++ b) p); [discriminate|contradiction].
Qed.

Lemma occursIn_empty (t : string) : occursIn "" t.
Proof. now exists "", t. Qed.

Lemma occursIn_group (n : nat) (m : Match) :
  Forall (fun c => occursIn c (matched m)) (groups m) -> occursIn (group n m) (matched m).
Proof.
  intros H. unfold group. destruct (nth_in_or_default (Nat.pred n) (groups m) "") as [Hin| ->].
  - rewrite Forall_forall in H. auto.
  - apply occursIn_empty.
Qed.

(** The first group of the date-range pattern is the start of the match. *)
Lemma dateRange_first_group (i : nat) (prev : option ascii) (s : string)
      (m : Match) (c' : Cursor) :
  matchAt DATE_RANGE_RX (mkCursor i prev s) = Some (m, c') ->
  exists b, matched m = (group 1 m ++ b)%string.
Proof.
  unfold matchAt. cbn [before rest index].
  change (ignoreCase DATE_RANGE_RX) with true.
  change (source DATE_RANGE_RX)
    with (Seq (Grp (times 4 isDigit))
              (Regex.seq [star isSpace; Cls isDash 1 (Some 1); star isSpace;
                          Grp (Alt (times 4 isDigit) (oneOf ["present"; "current"]))])).
  rewrite run_Seq, run_Grp. unfold times at 1. cbn [Regex.run].
  intros H. apply rep_suffix in H as (p1 & s1 & Hs1 & H).
  apply run_captures in H as (p2 & s2 & new & Hs2 & H & _).
  cbv zeta in H. injection H as <- _. unfold group. cbn.
  fold (consumed s s1) (consumed s s2).
  rewrite (consumed_trans s s1 s2) by auto. eauto.
Qed.

Lemma exec_located (rx : RegExp) (text pre : string) (c : Cursor) (m : Match) (c' : Cursor) :
  text = (pre ++ rest c)%string -> String.length pre = index c ->
  exec rx c = Some (m, c') ->
  exists pre' s' prev0,
    text = (pre' ++ matched m ++ s')%string /\ String.length pre' = matchIndex m /\
    rest c' = s' /\ index c' = matchIndex m + String.length (matched m) /\
    Forall (fun g => occursIn g (matched m)) (groups m) /\
    matchAt rx (mkCursor (matchIndex m) prev0 (matched m ++ s')) = Some (m, c').
Proof.
  intros Htext Hlen H. unfold exec in H.
  apply searchFrom_spec in H as (skipped & prev0 & s0 & Hs & H).
  destruct (matchAt_spec _ _ _ _ _ _ H) as (s' & Hsuf & Hm & Hi & Hr & Hidx & Hg).
  exists (pre ++ skipped)%string, s', prev0.
  rewrite Hm, <- (suffix_consumed s' s0 Hsuf). rewrite Hi.
  rewrite Htext, Hs, string_length_app, <- Hlen, append_assoc.
  repeat split; auto.
  - rewrite Hidx, Hm, <- Hlen. reflexivity.
  - now rewrite <- Hm.
  - rewrite Hlen. exact H.
Qed.

Lemma processMatch_located (now : Date) (text : string) (rx : RegExp) (type : PatternType)
      (pre s' : string) (prev0 : option ascii) (m : Match) (c' : Cursor)
      (acc : list ExtractedDate) :
  (isDateRange type = true -> rx = DATE_RANGE_RX) ->
  text = (pre ++ matched m ++ s')%string -> String.length pre = matchIndex m ->
  Forall (fun g => occursIn g (matched m)) (groups m) ->
  matchAt rx (mkCursor (matchIndex m) prev0 (matched m ++ s')) = Some (m, c') ->
  Forall (located now text) acc ->
  Forall (located now text) (processMatch now text type m acc).
Proof.
  intros Hrx Htext Hlen Hgroups Hat Hacc. unfold processMatch. cbv zeta.
  destruct (isDateRange type) eqn:Htype.
  - rewrite (Hrx eq_refl) in Hat. apply dateRange_first_group in Hat as [b Hb].
    unfold extractDateRange. cbv zeta.
    assert (Hstart : forall p, parseDate now (group 1 m) = Some p ->
               located now text
                 (mkExtractedDate (group 1 m) (matchIndex m)
                    (matchIndex m + String.length (group 1 m)) (Some p)
                    (contextOf text (matchIndex m)
                               (matchIndex m + String.length (matched m))))).
    { intros p Hp. unfold located.
      cbn [ed_text ed_startIndex ed_endIndex ed_parsedDate]. rewrite Hp.
      destruct (substring_located pre (group 1 m) (b ++ s') (matchIndex m) Hlen) as [H1 H2].
      rewrite Htext, Hb, (append_assoc (group 1 m) b s'). auto. }
    assert (Hend : forall p, parseDate now (group 2 m) = Some p ->
               located now text
                 (mkExtractedDate (group 2 m)
                    (matchIndex m + match indexOf (matched m) (group 2 m) with
                                    | Some i => i | None => 0 end)
                    (matchIndex m + match indexOf (matched m) (group 2 m) with
                                    | Some i => i | None => 0 end
                     + String.length (group 2 m)) (Some p)
                    (contextOf text (matchIndex m)
                               (matchIndex m + String.length (matched m))))).
    { intros p Hp. unfold located.
      cbn [ed_text ed_startIndex ed_endIndex ed_parsedDate]. rewrite Hp.
      pose proof (indexOf_occurs _ _ (occursIn_group 2 m Hgroups)) as Hsome.
      destruct (indexOf (matched m) (group 2 m)) as [j|] eqn:E; [|contradiction].
      apply indexOf_Some in E as (a & b' & Ea & Eb).
      destruct (substring_located (pre ++ a) (group 2 m) (b' ++ s') (matchIndex m + j))
        as [H1 H2]; [rewrite string_length_app; lia|].
      rewrite Htext, Ea. rewrite !append_assoc in *. auto. }
    destruct (parseDate now (group 1 m)) as [p1|] eqn:E1;
      destruct (parseDate now (group 2 m)) as [p2|] eqn:E2;
      repeat (apply Forall_app; split); auto.
  - apply Forall_app. split; auto. constructor; [|constructor].
    unfold located. cbn [ed_text ed_startIndex ed_endIndex ed_parsedDate].
    destruct (substring_located pre (matched m) s' (matchIndex m) Hlen) as [H1 H2].
    rewrite Htext. auto.
Qed.

Lemma matchLoop_located (now : Date) (text : string) (rx : RegExp) (type : PatternType)
      (budget : nat) (pre : string) (c : Cursor) (acc : list ExtractedDate) :
  (isDateRange type = true -> rx = DATE_RANGE_RX) ->
  text = (pre ++ rest c)%string -> String.length pre = index c ->
  Forall (located now text) acc ->
  Forall (located now text) (matchLoop budget now text rx type c acc).
Proof.
  intros Hrx. revert pre c acc.
  induction budget as [|budget IH]; intros pre c acc Htext Hlen Hacc; cbn [matchLoop]; auto.
  destruct (exec rx c) as [[m c']|] eqn:E; auto.
  destruct (exec_located rx text pre c m c' Htext Hlen E)
    as (pre' & s' & prev0 & Ht & Hl & Hr & Hi & Hg & Hat).
  apply (IH (pre' ++ matched m)%string).
  - now rewrite Hr, append_assoc.
  - now rewrite string_length_app, Hl, Hi.
  - eapply processMatch_located; eauto.
Qed.

Lemma collectMatches_located (now : Date) (text : string) :
  Forall (located now text) (collectMatches now text).
Proof.
  unfold collectMatches, patterns. cbn [fold_left fst snd].
  repeat (apply (matchLoop_located now text _ _ _ ""); try reflexivity;
          try (intros H; first [discriminate H|reflexivity])).
  constructor.
Qed.

Lemma extract_located (now : Date) (text : string) (entry : ExtractedDate) :
  In entry (extractDatesFromText now text) -> located now text entry.
Proof.
  unfold extractDatesFromText.
  destruct (isEmpty text); [intros []|].
  destruct (isEmpty (trim text)); [intros []|].
  unfold deduplicateAndSort. cbv zeta. intros H.
  apply (Permutation_in _ (sortBy_perm _ _)) in H.
  apply (uniqueBy_incl sameMatch _ matchKey sameMatch_key) in H.
  pose proof (collectMatches_located now text) as Hall.
  rewrite Forall_forall in Hall. auto.
Qed.

(** X4. Every entry that [extractDatesFromText] returns lies in the text
    where its indexes say: [text.substring(startIndex, endIndex)] is the
    text of the entry, [endIndex] is [startIndex] plus its length and does
    not exceed the length of the text; and its parsed date is what
    [parseDate] reads from the text of the entry. *)
Theorem extractDatesFromText_entries_located :
  forall (now : Date) (text : string) (entry : ExtractedDate),
    In entry (extractDatesFromText now text) ->
    substring (ed_startIndex entry) (ed_endIndex entry) text = ed_text entry /\
    ed_endIndex entry = ed_startIndex entry + String.length (ed_text entry) /\
    ed_endIndex entry <= String.length text /\
    ed_parsedDate entry = parseDate now (ed_text entry).
Proof.
  intros now text entry H. destruct (extract_located now text entry H) as (H1 & H2 & H3 & H4).
  auto.
Qed.

(* ================================================================== *)
(** * Dates by context *)

Lemma occursIn_trans (a b c : string) : occursIn a b -> occursIn b c -> occursIn a c.
Proof.
  intros (p & q & ->) (p' & q' & ->). exists (p' ++ p)%string, (q ++ q')%string.
  now rewrite !append_assoc.
Qed.

Lemma drop_occurs (n : nat) (s : string) : occursIn (drop n s) s.
Proof.
  revert n. induction s as [|c s IH]; intros [|n]; simpl; try apply occursIn_refl.
  apply (occursIn_app_l _ s (String c "")), IH.
Qed.

Lemma take_occurs (n : nat) (s : string) : occursIn (take n s) s.
Proof.
  exists "", (drop n s). simpl. revert n.
  induction s as [|c s IH]; intros [|n]; simpl; auto. now rewrite <- IH.
Qed.

Lemma trimStart_occurs (s : string) : occursIn (trimStart s) s.
Proof.
  induction s as [|c s IH]; simpl; [apply occursIn_refl|].
  destruct (isSpace c); [|apply occursIn_refl].
  apply (occursIn_app_l _ s (String c "")), IH.
Qed.

Lemma trimEnd_prefix (s : string) : exists b, s = (trimEnd s ++ b)%string.
Proof.
  induction s as [|c s [b IH]]; simpl; [now exists ""|].
  destruct (trimEnd s) as [|d t] eqn:E.
  - destruct (isSpace c); [now exists (String c s)|]. exists s. reflexivity.
  - exists b. simpl. now rewrite IH at 1.
Qed.

Lemma trim_occurs (s : string) : occursIn (trim s) s.
Proof.
  unfold trim. apply occursIn_trans with (trimStart s); [|apply trimStart_occurs].
  destruct (trimEnd_prefix (trimStart s)) as [b H]. exists "", b. exact H.
Qed.

Lemma contextOf_occurs (text : string) (startIndex endIndex : nat) :
  occursIn (contextOf text startIndex endIndex) text.
Proof.
  unfold contextOf, substring. cbv zeta.
  eapply occursIn_trans; [apply trim_occurs|].
  eapply occursIn_trans; [apply take_occurs|apply drop_occurs].
Qed.

Lemma includes_occurs (s k : string) : includes s k = true -> occursIn k s.
Proof.
  induction s as [|c s IH]; simpl.
  - rewrite orb_false_r. intros H. apply startsWith_prefix in H as [b ->]. now exists "", b.
  - intros H. apply orb_prop in H as [H|H].
    + apply startsWith_prefix in H as [b ->]. now exists "", b.
    + apply (occursIn_app_l _ s (String c "")), IH, H.
Qed.

Lemma includes_window (window text k : string) :
  occursIn window text -> includes (toLowerCase window) k = true ->
  includes (toLowerCase text) k = true.
Proof.
  intros (a & b & ->) H. apply includes_occurs in H as (p & q & H).
  rewrite !toLowerCase_app, H, !append_assoc, <- (append_assoc (toLowerCase a) p).
  apply includes_app.
Qed.

Lemma includesAny_window (window text : string) (keywords : list string) :
  occursIn window text -> includesAny (toLowerCase text) keywords = false ->
  includesAny (toLowerCase window) keywords = false.
Proof.
  intros Hw H. unfold includesAny in *.
  destruct (existsb (fun keyword => includes (toLowerCase window) keyword) keywords) eqn:E;
    [|reflexivity].
  apply existsb_exists in E as (k & Hk & Hi).
  rewrite <- H. symmetry. apply existsb_exists. exists k. split; [exact Hk|].
  now apply (includes_window window).
Qed.

Lemma processMatch_windowed (now : Date) (text : string) (type : PatternType) (m : Match)
      (acc : list ExtractedDate) :
  Forall (windowed text) acc -> Forall (windowed text) (processMatch now text type m acc).
Proof.
  intros H. unfold processMatch. cbv zeta. destruct (isDateRange type).
  - unfold extractDateRange. cbv zeta.
    assert (H1 : Forall (windowed text)
                   match parseDate now (group 1 m) with
                   | Some startDate =>
                       acc ++ [mkExtractedDate (group 1 m) (matchIndex m)
                                 (matchIndex m + String.length (group 1 m)) (Some startDate)
                                 (contextOf text (matchIndex m)
                                    (matchIndex m + String.length (matched m)))]
                   | None => acc
                   end).
    { destruct (parseDate now (group 1 m)); auto. apply Forall_app. split; auto.
      constructor; [|constructor]. now eexists _, _. }
    destruct (parseDate now (group 2 m)); auto. apply Forall_app. split; auto.
    constructor; [|constructor]. now eexists _, _.
  - apply Forall_app. split; auto. constructor; [|constructor]. now eexists _, _.
Qed.

Lemma matchLoop_windowed (now : Date) (text : string) (rx : RegExp) (type : PatternType)
      (budget : nat) (c : Cursor) (acc : list ExtractedDate) :
  Forall (windowed text) acc -> Forall (windowed text) (matchLoop budget now text rx type c acc).
Proof.
  revert c acc. induction budget as [|budget IH]; intros c acc H; simpl; auto.
  destruct (exec rx c) as [[m c']|]; auto.
  apply IH. now apply processMatch_windowed.
Qed.

Lemma extract_windowed (now : Date) (text : string) (entry : ExtractedDate) :
  In entry (extractDatesFromText now text) -> windowed text entry.
Proof.
  unfold extractDatesFromText.
  destruct (isEmpty text); [intros []|].
  destruct (isEmpty (trim text)); [intros []|].
  unfold deduplicateAndSort. cbv zeta. intros H.
  eapply Permutation_in in H; [|apply sortBy_perm].
  apply (uniqueBy_incl sameMatch _ matchKey sameMatch_key) in H.
  revert entry H. apply Forall_forall.
  unfold collectMatches, patterns. cbn [fold_left fst snd].
  repeat apply matchLoop_windowed. constructor.
Qed.

Lemma extract_sorted_unique (now : Date) (text : string) :
  StronglySorted (fun a b => ed_startIndex a <= ed_startIndex b)
                 (extractDatesFromText now text) /\
  NoDup (map matchKey (extractDatesFromText now text)).
Proof.
  unfold extractDatesFromText.
  destruct (isEmpty text); [split; constructor|].
  destruct (isEmpty (trim text)); [split; constructor|].
  split; [apply deduplicateAndSort_sorted|apply deduplicateAndSort_NoDup].
Qed.

Lemma StronglySorted_filter {A} (R : A -> A -> Prop) (f : A -> bool) (l : list A) :
  StronglySorted R l -> StronglySorted R (filter f l).
Proof.
  induction 1 as [|a l Hl IH Ha]; simpl; [constructor|].
  destruct (f a); auto. constructor; auto.
  apply Forall_forall. intros x Hx. apply filter_In in Hx as [Hx _].
  rewrite Forall_forall in Ha. auto.
Qed.

Lemma filter_subsequence {A} (f : A -> bool) (l : list A) : subsequence (filter f l) l.
Proof.
  induction l as [|x l IH]; simpl; [constructor|].
  destruct (f x); now constructor.
Qed.

Lemma filtered_by_context (now : Date) (text : string) (keywords : list string) :
  let allDates := extractDatesFromText now text in
  let dates := filter (fun date => includesAny (toLowerCase (ed_context date)) keywords)
                      allDates in
  subsequence dates allDates /\
  (forall date, In date dates <->
                In date allDates /\
                includesAny (toLowerCase (ed_context date)) keywords = true) /\
  StronglySorted (fun a b => ed_startIndex a <= ed_startIndex b) dates /\
  NoDup (map matchKey dates) /\
  (includesAny (toLowerCase text) keywords = false -> dates = []).
Proof.
  intros allDates dates. destruct (extract_sorted_unique now text) as [Hs Hu].
  split; [apply filter_subsequence|].
  split; [intros date; apply filter_In|].
  split; [now apply StronglySorted_filter|].
  split; [now apply NoDup_map_filter|].
  intros Hnone. unfold dates, allDates.
  assert (H : forall e, In e (extractDatesFromText now text) ->
                        includesAny (toLowerCase (ed_context e)) keywords = false).
  { intros e He. destruct (extract_windowed now text e He) as (s & e' & ->).
    apply (includesAny_window _ text); auto. apply contextOf_occurs. }
  clear Hs Hu dates allDates. revert H. generalize (extractDatesFromText now text) as l.
  induction l as [|e l IH]; intros H; simpl; auto.
  rewrite (H e) by now left. apply IH. intros x Hx. apply H. now right.
Qed.

(** X7. [extractEducationDates] and [extractWorkExperienceDates] return
    the entries of [extractDatesFromText] whose context holds a keyword of
    their kind, [isEducationContext] or [isWorkContext], and no others, in
    the order they have there.  So the result is sorted by start index and
    no two entries share start index and text.  Since a context is a window
    of the text, a text that holds none of the keywords of a kind, whatever
    the case of its letters, yields no date of that kind. *)
Theorem dates_by_context_need_a_keyword :
  forall (now : Date) (text : string),
    let allDates := extractDatesFromText now text in
    (let dates := extractEducationDates now text in
     subsequence dates allDates /\
     (forall date, In date dates <->
                   In date allDates /\ isEducationContext (ed_context date) = true) /\
     StronglySorted (fun a b => ed_startIndex a <= ed_startIndex b) dates /\
     NoDup (map matchKey dates) /\
     (includesAny (toLowerCase text) educationContextKeywords = false -> dates = [])) /\
    (let dates := extractWorkExperienceDates now text in
     subsequence dates allDates /\
     (forall date, In date dates <->
                   In date allDates /\ isWorkContext (ed_context date) = true) /\
     StronglySorted (fun a b => ed_startIndex a <= ed_startIndex b) dates /\
     NoDup (map matchKey dates) /\
     (includesAny (toLowerCase text) workContextKeywords = false -> dates = [])).
Proof.
  intros now text allDates. split.
  - exact (filtered_by_context now text educationContextKeywords).
  - exact (filtered_by_context now text workContextKeywords).
Qed.

(* ================================================================== *)
(** * The text extractor and the clock *)

Lemma isValidYear_clock (now later : Date) (year : Z) :
  getFullYear later = getFullYear now -> isValidYear later year = isValidYear now year.
Proof. intros H. unfold isValidYear. now rewrite H. Qed.

Lemma formats_clock (now later : Date) (text : string) :
  getFullYear later = getFullYear now ->
  firstSome (formats later) text = firstSome (formats now) text.
Proof.
  intros H. cbn [formats firstSome].
  assert (H1 : parseMonthYear later text = parseMonthYear now text).
  { unfold parseMonthYear. destruct (matchFirst monthYearRx text); [|reflexivity].
    destruct (parseInt _); [|reflexivity]. cbv zeta.
    destruct (match indexOfString _ _ with Some i => Some i | None => _ end); [|reflexivity].
    now rewrite (isValidYear_clock now later). }
  assert (H2 : parseYearOnly later text = parseYearOnly now text).
  { unfold parseYearOnly. destruct (matchFirst YEAR_ONLY_RX text); [|reflexivity].
    destruct (parseInt _); [|reflexivity]. now rewrite (isValidYear_clock now later). }
  assert (H3 : parseFullDate later text = parseFullDate now text).
  { unfold parseFullDate. destruct (matchFirst FULL_DATE_RX text); [|reflexivity].
    destruct (parseInt _); [|reflexivity]. destruct (parseInt _); [|reflexivity].
    destruct (parseInt _); [|reflexivity].
    unfold isValidDate. now rewrite (isValidYear_clock now later). }
  now rewrite H1, H2, H3.
Qed.

(** Whether [parseDate] reads a date depends on the year of the clock
    only. *)
Lemma parseDate_clock (now later : Date) (dateString : string) :
  getFullYear later = getFullYear now ->
  option_map (fun _ => tt) (parseDate later dateString)
  = option_map (fun _ => tt) (parseDate now dateString).
Proof.
  intros H. unfold parseDate.
  destruct (isEmpty dateString); [reflexivity|].
  destruct (isEmpty (trim dateString)); [reflexivity|]. cbv zeta.
  destruct (isOngoingIndicator _); [reflexivity|].
  rewrite (formats_clock now later _ H). now destruct (firstSome _ _).
Qed.

Lemma processMatch_clock (now later : Date) (text : string) (type : PatternType) (m : Match)
      (acc acc' : list ExtractedDate) :
  getFullYear later = getFullYear now ->
  map matchKey acc' = map matchKey acc ->
  map matchKey (processMatch later text type m acc')
  = map matchKey (processMatch now text type m acc).
Proof.
  intros H Hacc. unfold processMatch. cbv zeta. destruct (isDateRange type).
  - unfold extractDateRange. cbv zeta.
    pose proof (parseDate_clock now later (group 1 m) H) as H1.
    pose proof (parseDate_clock now later (group 2 m) H) as H2.
    destruct (parseDate later (group 1 m)), (parseDate now (group 1 m)); try discriminate H1;
      destruct (parseDate later (group 2 m)), (parseDate now (group 2 m));
      try discriminate H2; rewrite ?map_app, ?Hacc; reflexivity.
  - now rewrite !map_app, Hacc.
Qed.

Lemma matchLoop_clock (now later : Date) (text : string) (rx : RegExp) (type : PatternType)
      (budget : nat) (c : Cursor) (acc acc' : list ExtractedDate) :
  getFullYear later = getFullYear now ->
  map matchKey acc' = map matchKey acc ->
  map matchKey (matchLoop budget later text rx type c acc')
  = map matchKey (matchLoop budget now text rx type c acc).
Proof.
  intros H. revert c acc acc'. induction budget as [|budget IH]; intros c acc acc' Hacc; simpl; auto.
  destruct (exec rx c) as [[m c']|]; auto.
  apply IH. now apply processMatch_clock.
Qed.

Lemma collectMatches_clock (now later : Date) (text : string) :
  getFullYear later = getFullYear now ->
  map matchKey (collectMatches later text) = map matchKey (collectMatches now text).
Proof.
  intros H. unfold collectMatches, patterns. cbn [fold_left fst snd].
  repeat apply matchLoop_clock; auto.
Qed.

(** ** Deduplication and sorting look at the pairs only *)

Lemma findIndex_map {A B} (f : A -> B) (p : B -> bool) (l : list A) :
  findIndex (fun x => p (f x)) l = findIndex p (map f l).
Proof. induction l as [|x l IH]; simpl; auto. now rewrite IH. Qed.

Lemma filterFrom_map {A B} (f : A -> B) (g : B -> nat -> bool) (i : nat) (l : list A) :
  map f (filterFrom (fun x k => g (f x) k) i l) = filterFrom g i (map f l).
Proof.
  revert i. induction l as [|x l IH]; intros i; simpl; auto.
  destruct (g (f x) i); simpl; now rewrite IH.
Qed.

Lemma insertSorted_map {A B} (f : A -> B) (before : B -> B -> bool) (x : A) (l : list A) :
  map f (insertSorted (fun a b => before (f a) (f b)) x l)
  = insertSorted before (f x) (map f l).
Proof.
  induction l as [|y l IH]; simpl; auto.
  destruct (before (f x) (f y)); simpl; auto. now rewrite IH.
Qed.

Lemma sortBy_map {A B} (f : A -> B) (before : B -> B -> bool) (l : list A) :
  map f (sortBy (fun a b => before (f a) (f b)) l) = sortBy before (map f l).
Proof.
  unfold sortBy. induction l as [|x l IH]; simpl; auto.
  now rewrite insertSorted_map, IH.
Qed.

Lemma deduplicateAndSort_pairs (l : list ExtractedDate) :
  map matchKey (deduplicateAndSort l)
  = sortBy (fun a b => Nat.leb (fst a) (fst b))
           (uniqueBy (fun a b => Nat.eqb (fst a) (fst b) && String.eqb (snd a) (snd b))
                     (map matchKey l)).
Proof.
  unfold deduplicateAndSort. cbv zeta.
  rewrite (sortBy_map matchKey (fun a b => Nat.leb (fst a) (fst b))). f_equal.
  unfold uniqueBy, filterIndexed.
  rewrite <- (filterFrom_map matchKey
                (fun k i =>
                   optNatEqb
                     (findIndex (fun a => Nat.eqb (fst a) (fst k) && String.eqb (snd a) (snd k))
                                (map matchKey l)) i)).
  f_equal. apply filterFrom_ext. intros k x _.
  now rewrite <- (findIndex_map matchKey
                    (fun a => Nat.eqb (fst a) (fst (matchKey x))
                              && String.eqb (snd a) (snd (matchKey x)))).
Qed.

Lemma extract_clock (now later : Date) (text : string) :
  getFullYear later = getFullYear now ->
  map matchKey (extractDatesFromText later text) = map matchKey (extractDatesFromText now text).
Proof.
  intros H. unfold extractDatesFromText.
  destruct (isEmpty text); [reflexivity|].
  destruct (isEmpty (trim text)); [reflexivity|].
  now rewrite !deduplicateAndSort_pairs, (collectMatches_clock now later text H).
Qed.

(** C8, as stated, fails: a second run is a second reading of the clock,
    and the start of a date range is an entry only when its year is valid on
    that reading.  The year 2037 is more than ten years after 2026 and
    within ten years of 2027, so a run on 31 December 2026 and a run on
    1 January 2027 yield different pairs from the same text. *)
Lemma extractDatesFromText_clock_counterexample :
  map matchKey (extractDatesFromText (newDate 2026 11 31) "x2037 - 2040") = [(8, "2040")] /\
  map matchKey (extractDatesFromText (newDate 2027 0 1) "x2037 - 2040")
  = [(1, "2037"); (8, "2040")].
Proof. split; vm_compute; reflexivity. Qed.

(** C8 (amended).  [extractDatesFromText] returns, for every clock reading
    and every text, an array that is sorted ascending by [startIndex] and in
    which no two entries share the pair (startIndex, text); its pairs are
    exactly the pairs of the collected matches, and deduplicating and
    sorting it once more leaves it unchanged.  A second run on the same
    text is a run on a later reading of the clock: it yields the same
    pairs, in the same order, whenever the clock is then in the same year.
    The pairs depend on the clock through its year only. *)
Theorem extractDatesFromText_sorted_unique :
  forall (now : Date) (text : string),
    let result := extractDatesFromText now text in
    StronglySorted (fun a b => ed_startIndex a <= ed_startIndex b) result /\
    NoDup (map matchKey result) /\
    deduplicateAndSort result = result /\
    (forall k, In k (map matchKey result) <->
               isEmpty (trim text) = false /\
               In k (map matchKey (collectMatches now text))) /\
    forall later : Date,
      getFullYear later = getFullYear now ->
      map matchKey (extractDatesFromText later text) = map matchKey result.
Proof.
  intros now text result. destruct (extract_sorted_unique now text) as [Hs Hu].
  split; [exact Hs|]. split; [exact Hu|].
  split; [|split; [|intros later H; now apply extract_clock]].
  - unfold result, extractDatesFromText.
    destruct (isEmpty text); [reflexivity|].
    destruct (isEmpty (trim text)); [reflexivity|].
    apply deduplicateAndSort_idempotent.
  - intros k. unfold result, extractDatesFromText.
    destruct (isEmpty text) eqn:E.
    + destruct text; [|discriminate]. simpl. split; [tauto|]. intros [? ?]; discriminate.
    + destruct (isEmpty (trim text)) eqn:E'.
      * simpl. split; [tauto|]. intros [? ?]; discriminate.
      * rewrite deduplicateAndSort_keys. tauto.
Qed.

Lemma extractDatesFromText_sorted_unique_witness :
  getFullYear (newDate 2026 11 31) = getFullYear today /\
  map matchKey (extractDatesFromText (newDate 2026 11 31) "x2037 - 2040")
  = map matchKey (extractDatesFromText today "x2037 - 2040").
Proof.
  assert (H : getFullYear (newDate 2026 11 31) = getFullYear today) by reflexivity.
  split; [exact H|].
  exact (proj2 (proj2 (proj2 (proj2 (extractDatesFromText_sorted_unique today "x2037 - 2040"))))
               (newDate 2026 11 31) H).
Defined.

(* ================================================================== *)
(** * The shared patterns of [detectDateFormat] *)

Lemma testGlobal_hit (rx : RegExp) (text : string) (m : Match) (c : Cursor) :
  exec rx (start text) = Some (m, c) -> testGlobal rx 0 text = (true, index c).
Proof.
  intros H. unfold testGlobal. change (Nat.ltb (String.length text) 0) with false.
  change (cursorAt text 0) with (start text) || (destruct text; reflexivity).
  now rewrite H.
Qed.

Lemma testGlobal_miss (rx : RegExp) (text : string) (lastIndex : nat) :
  exec rx (cursorAt text lastIndex) = None -> testGlobal rx lastIndex text = (false, 0).
Proof.
  intros H. unfold testGlobal. destruct (Nat.ltb _ _); [reflexivity|]. now rewrite H.
Qed.

Lemma testGlobal_answers (rx : RegExp) (text : string) (lastIndex : nat) :
  fst (testGlobal rx lastIndex text) = false -> snd (testGlobal rx lastIndex text) = 0.
Proof.
  unfold testGlobal. destruct (Nat.ltb _ _); [reflexivity|].
  destruct (exec rx _) as [[m c]|]; [discriminate|reflexivity].
Qed.

Lemma detectDateFormat_steps (text : string) (m : Match) (c : Cursor) (st : PatternState) :
  isEmpty text = false ->
  isOngoingIndicator (toLowerCase (trim text)) = false ->
  monthYearLastIndex st = 0 ->
  exec MONTH_YEAR_RX (start text) = Some (m, c) ->
  exec MONTH_YEAR_RX (cursorAt text (index c)) = None ->
  fst (detectDateFormat text st) = Ok MONTH_YEAR /\
  monthYearLastIndex (snd (detectDateFormat text st)) = index c /\
  (fst (detectDateFormat text (snd (detectDateFormat text st))) = Ok FULL_DATE \/
   fst (detectDateFormat text (snd (detectDateFormat text st))) = Ok YEAR_ONLY) /\
  monthYearLastIndex (snd (detectDateFormat text (snd (detectDateFormat text st)))) = 0.
Proof.
  intros Hne Hongoing Hfresh Hhit Hmiss.
  assert (H1 : detectDateFormat text st
               = (Ok MONTH_YEAR, mkPatternState (index c) (fullDateLastIndex st))).
  { unfold detectDateFormat. rewrite Hne, Hongoing. cbv zeta.
    unfold bind, get, modify, ret. rewrite Hfresh, (testGlobal_hit _ _ _ _ Hhit). reflexivity. }
  rewrite H1. cbn [fst snd monthYearLastIndex].
  split; [reflexivity|]. split; [reflexivity|].
  unfold detectDateFormat. rewrite Hne, Hongoing. cbv zeta.
  unfold bind, get, modify, ret. cbn [monthYearLastIndex fullDateLastIndex].
  rewrite (testGlobal_miss _ _ _ Hmiss). cbn [fst snd monthYearLastIndex fullDateLastIndex].
  destruct (fst (testGlobal FULL_DATE_RX (fullDateLastIndex st) text));
    cbn [fst snd monthYearLastIndex]; auto.
Qed.

(** X21. [detectDateFormat] is not a function of its text alone: it tests
    the shared patterns of [DATE_PATTERNS], which carry the [g] flag and
    remember where their last match ended.  For a text that is not an
    ongoing indicator and holds exactly one month and year, a first call
    on fresh patterns answers MONTH_YEAR, and the next call on the same
    text answers FULL_DATE or YEAR_ONLY; it leaves the month-year pattern
    fresh, so the answers of further calls alternate. *)
Theorem detectDateFormat_depends_on_earlier_calls :
  forall (text : string) (m : Match) (c : Cursor) (st : PatternState),
    isEmpty text = false ->
    isOngoingIndicator (toLowerCase (trim text)) = false ->
    monthYearLastIndex st = 0 ->
    exec MONTH_YEAR_RX (start text) = Some (m, c) ->
    exec MONTH_YEAR_RX (cursorAt text (index c)) = None ->
    let first := detectDateFormat text st in
    let second := detectDateFormat text (snd first) in
    let third := detectDateFormat text (snd second) in
    fst first = Ok MONTH_YEAR /\
    (fst second = Ok FULL_DATE \/ fst second = Ok YEAR_ONLY) /\
    fst third = Ok MONTH_YEAR.
Proof.
  intros text m c st Hne Hongoing Hfresh Hhit Hmiss first second third.
  destruct (detectDateFormat_steps text m c st Hne Hongoing Hfresh Hhit Hmiss)
    as (H1 & _ & H2 & H3).
  split; [exact H1|]. split; [exact H2|].
  exact (proj1 (detectDateFormat_steps text m c (snd second) Hne Hongoing H3 Hhit Hmiss)).
Qed.

Lemma detectDateFormat_depends_on_earlier_calls_witness :
  isEmpty "Jan 2020" = false /\
  isOngoingIndicator (toLowerCase (trim "Jan 2020")) = false /\
  exec MONTH_YEAR_RX (start "Jan 2020")
  = Some (mkMatch "Jan 2020" 0 ["Jan"; "2020"], mkCursor 8 (Some "0"%char) "") /\
  exec MONTH_YEAR_RX (cursorAt "Jan 2020" 8) = None /\
  fst (detectDateFormat "Jan 2020" (mkPatternState 0 0)) = Ok MONTH_YEAR /\
  fst (detectDateFormat "Jan 2020" (snd (detectDateFormat "Jan 2020" (mkPatternState 0 0))))
  = Ok YEAR_ONLY.
Proof.
  assert (H1 : isEmpty "Jan 2020" = false) by reflexivity.
  assert (H2 : isOngoingIndicator (toLowerCase (trim "Jan 2020")) = false) by reflexivity.
  assert (H3 : exec MONTH_YEAR_RX (start "Jan 2020")
               = Some (mkMatch "Jan 2020" 0 ["Jan"; "2020"], mkCursor 8 (Some "0"%char) ""))
    by (vm_compute; reflexivity).
  assert (H4 : exec MONTH_YEAR_RX (cursorAt "Jan 2020" 8) = None) by (vm_compute; reflexivity).
  split; [exact H1|]. split; [exact H2|]. split; [exact H3|]. split; [exact H4|].
  split.
  - exact (proj1 (detectDateFormat_depends_on_earlier_calls
                    "Jan 2020" _ _ (mkPatternState 0 0) H1 H2 eq_refl H3 H4)).
  - vm_compute. reflexivity.
Defined.

(* ================================================================== *)
(** * Month and year *)

Lemma digit_not_space (c : ascii) : isDigit c = true -> isSpace c = false.
Proof. by_cases_on_char c. Qed.

Lemma startsWith_zeroDigits (k s : string) :
  noDigits k = true -> startsWith k (zeroDigits s) = startsWith k s.
Proof.
  unfold noDigits. revert s. induction k as [|a k IH]; intros [|c s] H; simpl; auto.
  simpl in H. apply andb_prop in H as [Ha Hk]. apply negb_true_iff in Ha.
  rewrite IH by auto. destruct (isDigit c) eqn:Hc; auto.
  replace (Ascii.eqb a "0") with false
    by (symmetry; apply Ascii.eqb_neq; intros ->; discriminate).
  replace (Ascii.eqb a c) with false
    by (symmetry; apply Ascii.eqb_neq; intros ->; congruence).
  reflexivity.
Qed.

Lemma includes_zeroDigits (s k : string) :
  noDigits k = true -> includes (zeroDigits s) k = includes s k.
Proof.
  intros Hk. induction s as [|c s IH].
  - simpl. now rewrite <- (startsWith_zeroDigits k "" Hk).
  - cbn [includes zeroDigits]. rewrite IH.
    change (String (if isDigit c then "0"%char else c) (zeroDigits s))
      with (zeroDigits (String c s)).
    now rewrite startsWith_zeroDigits.
Qed.

Lemma isOngoingIndicator_zeroDigits (s : string) :
  isOngoingIndicator (zeroDigits s) = isOngoingIndicator s.
Proof.
  unfold isOngoingIndicator.
  assert (H : Forall (fun k => noDigits (toLowerCase k) = true) ONGOING_KEYWORDS)
    by (repeat constructor).
  induction H as [|k l Hk _ IH]; simpl; auto.
  now rewrite includes_zeroDigits, IH.
Qed.

Lemma zeroDigits_app (a b : string) : zeroDigits (a ++ b) = (zeroDigits a ++ zeroDigits b)%string.
Proof. induction a as [|c a IH]; simpl; auto. now rewrite IH. Qed.

Lemma zeroDigits_fourDigits (y : string) : fourDigits y = true -> zeroDigits y = "0000".
Proof.
  destruct y as [|a [|b [|c [|d [|]]]]]; try discriminate. cbn [fourDigits zeroDigits].
  intros H. apply andb_prop in H as [H Hd]. apply andb_prop in H as [H Hc].
  apply andb_prop in H as [Ha Hb]. now rewrite Ha, Hb, Hc, Hd.
Qed.

Lemma ofZ_fourDigits (y : Z) :
  (1000 <= y <= 9999)%Z -> fourDigits (ofZ y) = true /\ parseInt (ofZ y) = Some y.
Proof.
  intros H.
  assert (Hall : forallb (fun y => fourDigits (ofZ y) && readsBack y)
                         (zrange 1000 (Z.to_nat 9000)) = true)
    by (vm_compute; reflexivity).
  rewrite forallb_forall in Hall.
  specialize (Hall y (In_zrange 1000 y (Z.to_nat 9000) ltac:(rewrite Z2Nat.id; lia))).
  apply andb_prop in Hall as [Hy Hr]. split; auto.
  unfold readsBack in Hr. destruct (parseInt (ofZ y)); [|discriminate].
  apply Z.eqb_eq in Hr. now subst.
Qed.

(** Decides a test of a character class or a comparison of characters
    whose arguments are known. *)
Ltac closed_test :=
  match goal with
  | |- context [isSpace ?c] =>
      let v := eval vm_compute in (isSpace c) in
      match v with
      | true => change (isSpace c) with true
      | false => change (isSpace c) with false
      end
  | |- context [isDigit ?c] =>
      let v := eval vm_compute in (isDigit c) in
      match v with
      | true => change (isDigit c) with true
      | false => change (isDigit c) with false
      end
  | |- context [isWordChar ?c] =>
      let v := eval vm_compute in (isWordChar c) in
      match v with
      | true => change (isWordChar c) with true
      | false => change (isWordChar c) with false
      end
  | |- context [Ascii.eqb ?x ?y] =>
      let v := eval vm_compute in (Ascii.eqb x y) in
      match v with
      | true => change (Ascii.eqb x y) with true
      | false => change (Ascii.eqb x y) with false
      end
  end.

(** Runs the matcher up to the next test of a character. *)
Ltac head_step :=
  match goal with
  | |- ?l = _ =>
      let l' := eval lazy head beta iota zeta delta -[isSpace isDigit isWordChar Ascii.eqb]
                in l in
      change l with l'
  end.

(** The month-year pattern on a month, a space and four digits. *)
Lemma monthYear_match (long : bool) (i : nat) (y : string) :
  (i < 12)%nat -> fourDigits y = true ->
  matchFirst monthYearRx (monthText long i ++ " " ++ y)
  = Some (mkMatch (monthText long i ++ " " ++ y) 0 [monthText long i; y]).
Proof.
  intros Hi Hy.
  destruct y as [|d1 [|d2 [|d3 [|d4 [|]]]]]; try discriminate. cbn [fourDigits] in Hy.
  apply andb_prop in Hy as [Hy H4]. apply andb_prop in Hy as [Hy H3].
  apply andb_prop in Hy as [H1 H2].
  pose proof (digit_wordChar d4 H4) as Hw.
  pose proof (digit_not_space d1 H1) as Hs1.
  unfold matchFirst, exec, start. cbn [index before rest].
  assert (Hhit : forall name,
             matchAt monthYearRx
                     (mkCursor 0 None (name ++ " " ++ String d1 (String d2 (String d3 (String d4 "")))))
             = Some (mkMatch (name ++ " " ++ String d1 (String d2 (String d3 (String d4 "")))) 0
                             [name; String d1 (String d2 (String d3 (String d4 "")))],
                     mkCursor (String.length name + 5) (Some d4) "") ->
             option_map fst
               (searchFrom monthYearRx 0 None
                  (name ++ " " ++ String d1 (String d2 (String d3 (String d4 "")))))
             = Some (mkMatch (name ++ " " ++ String d1 (String d2 (String d3 (String d4 "")))) 0
                             [name; String d1 (String d2 (String d3 (String d4 "")))])).
  { intros name H. now rewrite (searchFrom_hit _ _ _ _ _ H). }
  do 12 (destruct i as [|i];
         [destruct long; apply Hhit; unfold matchAt;
          repeat (head_step;
                  first [closed_test | rewrite Hs1 | rewrite H1 | rewrite H2 | rewrite H3
                        | rewrite H4 | rewrite Hw]);
          reflexivity|]).
  lia.
Qed.

Lemma monthText_index (long : bool) (i : nat) :
  (i < 12)%nat ->
  match indexOfString ResumeDateParser.monthAbbreviations (toLowerCase (monthText long i)) with
  | Some j => Some j
  | None => indexOfString ResumeDateParser.monthNames (toLowerCase (monthText long i))
  end = Some i.
Proof.
  intros Hi. do 12 (destruct i as [|i]; [destruct long; reflexivity|]). lia.
Qed.

Lemma monthText_not_ongoing (long : bool) (i : nat) (y : string) :
  (i < 12)%nat -> fourDigits y = true ->
  isOngoingIndicator (monthText long i ++ " " ++ y) = false.
Proof.
  intros Hi Hy. rewrite <- isOngoingIndicator_zeroDigits.
  rewrite !zeroDigits_app, (zeroDigits_fourDigits y Hy).
  do 12 (destruct i as [|i]; [destruct long; reflexivity|]). lia.
Qed.

Lemma monthText_nonempty (long : bool) (i : nat) (t : string) :
  (i < 12)%nat -> isEmpty (monthText long i ++ t) = false.
Proof.
  intros Hi. do 12 (destruct i as [|i]; [destruct long; reflexivity|]). lia.
Qed.

(** X6. A string that reads, once trimmed and put in lower case, as the
    name of a month or its three-letter abbreviation, one space and a year
    of four digits between 1950 and ten years after the current one, is
    parsed as the first day of that month of that year, with the format
    MONTH_YEAR and confidence 1. *)
Theorem parseDate_month_and_year :
  forall (now : Date) (dateString : string) (long : bool) (monthIndex : nat) (year : Z),
    (monthIndex < 12)%nat ->
    (1950 <= year <= getFullYear now + 10)%Z ->
    (year <= 9999)%Z ->
    toLowerCase (trim dateString) = (monthText long monthIndex ++ " " ++ ofZ year)%string ->
    option_map reading (parseDate now dateString)
    = Some (newDate year (Z.of_nat monthIndex) 1, MONTH_YEAR, false,
            FORMAT_CONFIDENCE.EXACT_MATCH).
Proof.
  intros now dateString long i year Hi Hyear Hmax Htext.
  destruct (ofZ_fourDigits year ltac:(lia)) as [Hshape Hint].
  rewrite parseDate_trimmed. cbv zeta. rewrite Htext.
  rewrite (monthText_nonempty long i _ Hi), (monthText_not_ongoing long i _ Hi Hshape).
  cbn [formats firstSome]. unfold parseMonthYear.
  rewrite (monthYear_match long i (ofZ year) Hi Hshape).
  unfold group. cbn [groups Nat.pred nth]. rewrite Hint, (monthText_index long i Hi).
  rewrite (isValidYear_intro now year Hyear). reflexivity.
Qed.

Lemma parseDate_month_and_year_witness :
  (8 < 12)%nat /\ (1950 <= 2018 <= getFullYear today + 10)%Z /\ (2018 <= 9999)%Z /\
  toLowerCase (trim " Sep 2018") = (monthText false 8 ++ " " ++ ofZ 2018)%string /\
  option_map reading (parseDate today " Sep 2018")
  = Some (newDate 2018 (Z.of_nat 8) 1, MONTH_YEAR, false, FORMAT_CONFIDENCE.EXACT_MATCH).
Proof.
  assert (H1 : (8 < 12)%nat) by lia.
  assert (H2 : (1950 <= 2018 <= getFullYear today + 10)%Z)
    by (vm_compute; intuition discriminate).
  assert (H3 : (2018 <= 9999)%Z) by lia.
  assert (H4 : toLowerCase (trim " Sep 2018") = (monthText false 8 ++ " " ++ ofZ 2018)%string)
    by reflexivity.
  split; [exact H1|]. split; [exact H2|]. split; [exact H3|]. split; [exact H4|].
  exact (parseDate_month_and_year today " Sep 2018" false 8 2018 H1 H2 H3 H4).
Defined.

(* ================================================================== *)
(** * Calendar dates *)

Local Open Scope Z_scope.

(** The year of the era is recovered from the day of the era. *)
Lemma yearOfEra_recovered (yoe doy : Z) :
  0 <= yoe <= 399 -> 0 <= doy <= 365 ->
  (doy = 365 -> (yoe + 1) mod 4 = 0 /\ ((yoe + 1) mod 100 <> 0 \/ yoe = 399)) ->
  let doe := yoe * 365 + yoe / 4 - yoe / 100 + doy in
  0 <= doe <= 146096 /\
  (doe - doe / 1460 + doe / 36524 - doe / 146096) / 365 = yoe.
Proof.
  intros H1 H2 H3. cbv zeta. split.
  - Z.div_mod_to_equations; lia.
  - Z.div_mod_to_equations; lia.
Qed.

(** The month and the day are recovered from the day of the year, which
    starts on 1 March. *)
Lemma monthDay_recovered (mp d : Z) :
  0 <= mp <= 11 -> 1 <= d <= 31 ->
  (mp = 1 \/ mp = 3 \/ mp = 6 \/ mp = 8 -> d <= 30) ->
  (mp = 11 -> d <= 29) ->
  let doy := (153 * mp + 2) / 5 + d - 1 in
  (5 * doy + 2) / 153 = mp /\ doy - (153 * mp + 2) / 5 + 1 = d /\
  0 <= doy <= 365 /\ (doy = 365 -> mp = 11 /\ d = 29).
Proof.
  intros H1 H2 H3 H4. cbv zeta.
  repeat split; Z.div_mod_to_equations; lia.
Qed.

Lemma civilFromDays_era (era yoe mp d : Z) :
  0 <= yoe <= 399 -> 0 <= mp <= 11 -> 1 <= d <= 31 ->
  (mp = 1 \/ mp = 3 \/ mp = 6 \/ mp = 8 -> d <= 30) ->
  (mp = 11 -> d <= 29) ->
  (mp = 11 -> d = 29 -> (yoe + 1) mod 4 = 0 /\ ((yoe + 1) mod 100 <> 0 \/ yoe = 399)) ->
  civilFromDays (era * 146097
                 + (yoe * 365 + yoe / 4 - yoe / 100 + ((153 * mp + 2) / 5 + d - 1))
                 - 719468)
  = (yoe + era * 400 + (if (if mp <? 10 then mp + 3 else mp - 9) <=? 2 then 1 else 0),
     if mp <? 10 then mp + 3 else mp - 9, d).
Proof.
  intros Hyoe Hmp Hd H30 H29 Hleap.
  destruct (monthDay_recovered mp d Hmp Hd H30 H29) as (Hm & Hday & Hdoy & H365).
  cbv zeta in Hm, Hday, Hdoy, H365.
  set (doy := (153 * mp + 2) / 5 + d - 1) in *.
  assert (Hl : doy = 365 -> (yoe + 1) mod 4 = 0 /\ ((yoe + 1) mod 100 <> 0 \/ yoe = 399)).
  { intros E. destruct (H365 E). auto. }
  destruct (yearOfEra_recovered yoe doy Hyoe Hdoy Hl) as (Hdoe & Hy).
  cbv zeta in Hdoe, Hy.
  set (doe := yoe * 365 + yoe / 4 - yoe / 100 + doy) in *.
  unfold civilFromDays. cbv zeta.
  replace (era * 146097 + doe - 719468 + 719468) with (doe + era * 146097) by lia.
  rewrite Z.div_add by lia. rewrite (Z.div_small doe) by lia.
  replace (doe + era * 146097 - (0 + era) * 146097) with doe by lia.
  rewrite Hy.
  replace (doe - (365 * yoe + yoe / 4 - yoe / 100)) with doy by (unfold doe; lia).
  rewrite Hm, Hday. reflexivity.
Qed.

(** [civilFromDays] undoes [daysFromCivil] on the dates of the calendar. *)
Lemma civil_roundtrip (y m d : Z) :
  1 <= m <= 12 -> 1 <= d <= daysInMonth y m ->
  civilFromDays (daysFromCivil y m d) = (y, m, d).
Proof.
  intros Hm Hd.
  assert (Hd31 : 1 <= d <= 31) by (pose proof (daysInMonth_le y m); lia).
  unfold daysFromCivil. cbv zeta.
  unfold daysInMonth, isLeapYear in Hd.
  destruct (Z.leb_spec m 2) as [Hle|Hgt]; destruct (Z.ltb_spec 2 m) as [Hlt|Hge]; try lia.
  - (* January and February belong to the year before *)
    rewrite civilFromDays_era.
    + destruct (Z.ltb_spec (m + 9) 10); [lia|].
      destruct (Z.leb_spec (m + 9 - 9) 2); [|lia].
      f_equal. f_equal; Z.div_mod_to_equations; lia.
    + Z.div_mod_to_equations; lia.
    + lia.
    + lia.
    + lia.
    + intros E. assert (m = 2) by lia. subst m. cbn in Hd.
      destruct (Z.eqb_spec (y mod 4) 0); destruct (Z.eqb_spec (y mod 100) 0);
        destruct (Z.eqb_spec (y mod 400) 0); cbn in Hd; lia.
    + intros E E'. assert (m = 2) by lia. subst m d. cbn in Hd.
      destruct (Z.eqb_spec (y mod 4) 0); destruct (Z.eqb_spec (y mod 100) 0);
        destruct (Z.eqb_spec (y mod 400) 0); cbn in Hd; try lia;
        split; try (Z.div_mod_to_equations; lia).
  - rewrite civilFromDays_era.
    + destruct (Z.ltb_spec (m - 3) 10); [|lia].
      destruct (Z.leb_spec (m - 3 + 3) 2); [lia|].
      f_equal. f_equal; Z.div_mod_to_equations; lia.
    + Z.div_mod_to_equations; lia.
    + lia.
    + lia.
    + intros E.
      destruct (Z.eqb_spec m 2); [lia|].
      destruct (Z.eqb_spec m 4); destruct (Z.eqb_spec m 6); destruct (Z.eqb_spec m 9);
        destruct (Z.eqb_spec m 11); cbn in Hd; lia.
    + lia.
    + lia.
Qed.

Lemma daysFromCivil_day (y m d : Z) :
  daysFromCivil y m 1 + (d - 1) = daysFromCivil y m d.
Proof. unfold daysFromCivil. cbv zeta. lia. Qed.

Lemma daysInMonth_ge (y m : Z) : 28 <= daysInMonth y m.
Proof.
  unfold daysInMonth. destruct (m =? 2); [destruct (isLeapYear y); lia|].
  destruct (_ || _); lia.
Qed.

(** The day after the last day of a month is the first day of the next
    month. *)
Lemma daysFromCivil_next_month (y m : Z) :
  1 <= m <= 12 ->
  daysFromCivil y m (daysInMonth y m + 1)
  = if m =? 12 then daysFromCivil (y + 1) 1 1 else daysFromCivil y (m + 1) 1.
Proof.
  intros Hm.
  assert (Hcases : m = 1 \/ m = 2 \/ m = 3 \/ m = 4 \/ m = 5 \/ m = 6 \/ m = 7 \/ m = 8 \/
                   m = 9 \/ m = 10 \/ m = 11 \/ m = 12) by lia.
  unfold daysInMonth, isLeapYear, daysFromCivil.
  repeat (destruct Hcases as [->|Hcases]); try subst m;
    cbn [Z.leb Z.ltb Z.eqb Z.compare Pos.compare Pos.compare_cont orb andb Pos.eqb Z.add
         Z.sub Z.opp Z.pos_sub Pos.add Pos.succ Pos.pred_double Z.succ_double Z.pred_double
         Z.double Pos.add_carry];
    cbv zeta;
    repeat match goal with
           | |- context [Z.eqb ?a ?b] => destruct (Z.eqb_spec a b)
           end; cbn [andb orb negb];
    Z.div_mod_to_equations; lia.
Qed.

Lemma newDate_days (year monthIndex day : Z) :
  100 <= year -> 0 <= monthIndex <= 11 ->
  newDate year monthIndex day / msPerDay = daysFromCivil year (monthIndex + 1) day.
Proof.
  intros Hy Hm. unfold newDate. cbv zeta.
  replace ((0 <=? year) && (year <=? 99)) with false
    by (symmetry; apply andb_false_iff; right; apply Z.leb_gt; lia).
  rewrite (Z.div_small monthIndex 12), (Z.mod_small monthIndex 12), Z.add_0_r by lia.
  rewrite Z.div_mul by (unfold msPerDay; lia).
  apply daysFromCivil_day.
Qed.

(** The fields of a date that was built from a date of the calendar. *)
Lemma newDate_fields (year monthIndex day : Z) :
  100 <= year -> 0 <= monthIndex <= 11 ->
  1 <= day <= daysInMonth year (monthIndex + 1) ->
  getFullYear (newDate year monthIndex day) = year /\
  getMonth (newDate year monthIndex day) = monthIndex /\
  getDate (newDate year monthIndex day) = day.
Proof.
  intros Hy Hm Hd. unfold getFullYear, getMonth, getDate.
  rewrite newDate_days by lia. rewrite civil_roundtrip by lia.
  repeat split; lia.
Qed.

(** A day behind the end of the month carries over to the next month. *)
Lemma newDate_overflow (year monthIndex day : Z) :
  100 <= year -> 0 <= monthIndex <= 11 ->
  daysInMonth year (monthIndex + 1) < day <= 31 ->
  getMonth (newDate year monthIndex day) <> monthIndex.
Proof.
  intros Hy Hm Hd. unfold getMonth. rewrite newDate_days by lia.
  set (m := monthIndex + 1) in *.
  pose proof (daysInMonth_ge year m) as Hge.
  assert (Hnext : daysFromCivil year m day
                  = daysFromCivil year m (daysInMonth year m + 1)
                    + (day - daysInMonth year m - 1))
    by (rewrite <- (daysFromCivil_day year m day),
          <- (daysFromCivil_day year m (daysInMonth year m + 1)); lia).
  rewrite Hnext, daysFromCivil_next_month by lia.
  destruct (Z.eqb_spec m 12) as [E|E].
  - replace (daysFromCivil (year + 1) 1 1 + (day - daysInMonth year m - 1))
      with (daysFromCivil (year + 1) 1 (day - daysInMonth year m))
      by (rewrite <- (daysFromCivil_day (year + 1) 1 (day - daysInMonth year m)); lia).
    rewrite civil_roundtrip; [lia|lia|].
    change (daysInMonth (year + 1) 1) with 31. lia.
  - replace (daysFromCivil year (m + 1) 1 + (day - daysInMonth year m - 1))
      with (daysFromCivil year (m + 1) (day - daysInMonth year m))
      by (rewrite <- (daysFromCivil_day year (m + 1) (day - daysInMonth year m)); lia).
    rewrite civil_roundtrip; [lia|lia|].
    pose proof (daysInMonth_ge year (m + 1)). lia.
Qed.

Lemma isValidYear_iff (now : Date) (year : Z) :
  isValidYear now year = true <-> 1950 <= year <= getFullYear now + 10.
Proof.
  unfold isValidYear. cbv zeta. rewrite andb_true_iff, !Z.leb_le. tauto.
Qed.

(* ================================================================== *)
(** * What the parser returns *)

Lemma isValidDate_spec (now : Date) (month day year : Z) :
  isValidDate now month day year = true <->
  1 <= month <= 12 /\ 1 <= day <= daysInMonth year month /\
  1950 <= year <= getFullYear now + 10.
Proof.
  unfold isValidDate.
  destruct (Z.ltb_spec month 1); [cbn; split; [discriminate|lia]|].
  destruct (Z.ltb_spec 12 month); [cbn; split; [discriminate|lia]|].
  cbn [orb].
  destruct (Z.ltb_spec day 1); [cbn; split; [discriminate|lia]|].
  destruct (Z.ltb_spec 31 day).
  { cbn. split; [discriminate|]. pose proof (daysInMonth_le year month). lia. }
  cbn [orb].
  destruct (isValidYear now year) eqn:Hyear; cbn [negb].
  2:{ split; [discriminate|]. intros (_ & _ & Hy). apply isValidYear_iff in Hy. congruence. }
  apply isValidYear_iff in Hyear. cbv zeta.
  destruct (Z_le_gt_dec day (daysInMonth year month)) as [Hle|Hgt].
  - destruct (newDate_fields year (month - 1) day) as (Hy & Hm & Hd);
      try (replace (month - 1 + 1) with month by lia); lia.
  - assert (Hov : getMonth (newDate year (month - 1) day) <> month - 1).
    { apply newDate_overflow; try lia. replace (month - 1 + 1) with month by lia. lia. }
    apply Z.eqb_neq in Hov. rewrite Hov, andb_false_r. cbn. split; [discriminate|lia].
Qed.

Lemma indexOfString_bound (l : list string) (s : string) (i : nat) :
  indexOfString l s = Some i -> (i < List.length l)%nat.
Proof.
  intros H. apply findIndex_Some in H as (pre & x & post & -> & <- & _).
  rewrite List.length_app. simpl. lia.
Qed.

Lemma parseMonthYear_shape (now : Date) (text : string) (r : FormatResult) :
  parseMonthYear now text = Some r ->
  calendarResult now r /\ fr_format r = MONTH_YEAR /\
  fr_confidence r = FORMAT_CONFIDENCE.EXACT_MATCH /\ getDate (fr_date r) = 1.
Proof.
  unfold parseMonthYear.
  destruct (matchFirst monthYearRx text) as [m|]; [|discriminate].
  destruct (parseInt (group 2 m)) as [year|]; [|discriminate].
  set (monthStr := toLowerCase (group 1 m)).
  assert (Hidx : forall mi,
             match indexOfString monthAbbreviations monthStr with
             | Some i => Some i
             | None => indexOfString monthNames monthStr
             end = Some mi -> (mi < 12)%nat).
  { intros mi. destruct (indexOfString monthAbbreviations monthStr) eqn:E.
    - intros H. injection H as <-. now apply indexOfString_bound in E.
    - intros H. now apply indexOfString_bound in H. }
  destruct (match indexOfString monthAbbreviations monthStr with
            | Some i => Some i
            | None => indexOfString monthNames monthStr
            end) as [mi|]; [|discriminate].
  specialize (Hidx mi eq_refl).
  destruct (isValidYear now year) eqn:Hy; [|discriminate].
  apply isValidYear_iff in Hy. intros H. injection H as <-. cbn [fr_date fr_format fr_confidence].
  destruct (newDate_fields year (Z.of_nat mi) 1) as (H1 & H2 & H3); try lia.
  { pose proof (daysInMonth_ge year (Z.of_nat mi + 1)). lia. }
  repeat split; auto. exists year, (Z.of_nat mi), 1. auto.
Qed.

Lemma parseYearOnly_shape (now : Date) (text : string) (r : FormatResult) :
  parseYearOnly now text = Some r ->
  calendarResult now r /\ fr_format r = YEAR_ONLY /\
  fr_confidence r = FORMAT_CONFIDENCE.PATTERN_MATCH /\
  getMonth (fr_date r) = 0 /\ getDate (fr_date r) = 1.
Proof.
  unfold parseYearOnly.
  destruct (matchFirst YEAR_ONLY_RX text) as [m|]; [|discriminate].
  destruct (parseInt (matched m)) as [year|]; [|discriminate].
  destruct (isValidYear now year) eqn:Hy; [|discriminate].
  apply isValidYear_iff in Hy. intros H. injection H as <-. cbn [fr_date fr_format fr_confidence].
  destruct (newDate_fields year 0 1) as (H1 & H2 & H3); try lia.
  { pose proof (daysInMonth_ge year (0 + 1)). lia. }
  repeat split; auto. exists year, 0, 1. auto.
Qed.

Lemma parseFullDate_shape (now : Date) (text : string) (r : FormatResult) :
  parseFullDate now text = Some r ->
  calendarResult now r /\ fr_format r = FULL_DATE /\
  fr_confidence r = FORMAT_CONFIDENCE.EXACT_MATCH.
Proof.
  unfold parseFullDate.
  destruct (matchFirst FULL_DATE_RX text) as [m|]; [|discriminate].
  destruct (parseInt (group 1 m)) as [month|]; [|discriminate].
  destruct (parseInt (group 2 m)) as [day|]; [|discriminate].
  destruct (parseInt (group 3 m)) as [year|]; [|discriminate].
  destruct (isValidDate now month day year) eqn:Hv; [|discriminate].
  apply isValidDate_spec in Hv as (Hm & Hd & Hy).
  intros H. injection H as <-. cbn [fr_date fr_format fr_confidence].
  destruct (newDate_fields year (month - 1) day) as (H1 & H2 & H3);
    try (replace (month - 1 + 1) with month by lia); try lia.
  repeat split; auto. exists year, (month - 1), day. auto.
Qed.

Lemma firstSome_formats (now : Date) (text : string) (r : FormatResult) :
  firstSome (formats now) text = Some r ->
  parseMonthYear now text = Some r \/ parseYearOnly now text = Some r \/
  parseFullDate now text = Some r.
Proof.
  cbn [formats firstSome].
  destruct (parseMonthYear now text); [auto|].
  destruct (parseYearOnly now text); [auto|].
  destruct (parseFullDate now text); [auto|discriminate].
Qed.

Lemma parseDate_shape :
  forall (now : Date) (dateString : string) (p : ParsedDate),
    parseDate now dateString = Some p ->
    pd_original p = dateString /\
    ((pd_isOngoing p = true /\ pd_format p = PRESENT /\ pd_normalized p = now /\
      pd_confidence p = FORMAT_CONFIDENCE.EXACT_MATCH)
     \/
     (pd_isOngoing p = false /\
      1950 <= getFullYear (pd_normalized p) <= getFullYear now + 10 /\
      pd_normalized p = newDate (getFullYear (pd_normalized p)) (getMonth (pd_normalized p))
                                (getDate (pd_normalized p)) /\
      ((pd_format p = MONTH_YEAR /\ pd_confidence p = FORMAT_CONFIDENCE.EXACT_MATCH /\
        getDate (pd_normalized p) = 1)
       \/ (pd_format p = YEAR_ONLY /\ pd_confidence p = FORMAT_CONFIDENCE.PATTERN_MATCH /\
           getMonth (pd_normalized p) = 0 /\ getDate (pd_normalized p) = 1)
       \/ (pd_format p = FULL_DATE /\ pd_confidence p = FORMAT_CONFIDENCE.EXACT_MATCH)))).
Proof.
  intros now dateString p. unfold parseDate.
  destruct (isEmpty dateString); [discriminate|].
  destruct (isEmpty (trim dateString)); [discriminate|]. cbv zeta.
  destruct (isOngoingIndicator _).
  - intros H. injection H as <-. cbn. split; auto.
  - destruct (firstSome (formats now) _) as [r|] eqn:Hr; [|discriminate].
    intros H. injection H as <-.
    cbn [pd_original pd_isOngoing pd_format pd_normalized pd_confidence].
    split; [reflexivity|]. right. split; [reflexivity|].
    assert (Hcal : calendarResult now r ->
                   1950 <= getFullYear (fr_date r) <= getFullYear now + 10 /\
                   fr_date r = newDate (getFullYear (fr_date r)) (getMonth (fr_date r))
                                       (getDate (fr_date r))).
    { intros (y & mi & d & Hd & Hy & H1 & H2 & H3). rewrite H1, H2, H3. auto. }
    apply firstSome_formats in Hr as [Hr|[Hr|Hr]].
    + apply parseMonthYear_shape in Hr as (Hc & Hf & Hq & Hd).
      destruct (Hcal Hc). repeat split; auto; try lia.
    + apply parseYearOnly_shape in Hr as (Hc & Hf & Hq & Hm & Hd).
      destruct (Hcal Hc). repeat split; auto; try lia.
      right. left. auto.
    + apply parseFullDate_shape in Hr as (Hc & Hf & Hq).
      destruct (Hcal Hc). repeat split; auto; try lia.
Qed.

(** X2. Whatever [parseDate] returns keeps the string it was given and is
    one of two kinds.  An ongoing result has the format PRESENT, the
    current date and confidence 1.  Every other result is the midnight of a
    date of the calendar whose year lies between 1950 and ten years after
    the current one: a MONTH_YEAR result with confidence 1 on the first of
    a month, a YEAR_ONLY result with confidence 0.8 on 1 January, or a
    FULL_DATE result with confidence 1. *)
Theorem parseDate_result_shape :
  forall (now : Date) (dateString : string) (p : ParsedDate),
    parseDate now dateString = Some p ->
    pd_original p = dateString /\
    ((pd_isOngoing p = true /\ pd_format p = PRESENT /\ pd_normalized p = now /\
      pd_confidence p = FORMAT_CONFIDENCE.EXACT_MATCH)
     \/
     (pd_isOngoing p = false /\
      1950 <= getFullYear (pd_normalized p) <= getFullYear now + 10 /\
      pd_normalized p = newDate (getFullYear (pd_normalized p)) (getMonth (pd_normalized p))
                                (getDate (pd_normalized p)) /\
      ((pd_format p = MONTH_YEAR /\ pd_confidence p = FORMAT_CONFIDENCE.EXACT_MATCH /\
        getDate (pd_normalized p) = 1)
       \/ (pd_format p = YEAR_ONLY /\ pd_confidence p = FORMAT_CONFIDENCE.PATTERN_MATCH /\
           getMonth (pd_normalized p) = 0 /\ getDate (pd_normalized p) = 1)
       \/ (pd_format p = FULL_DATE /\ pd_confidence p = FORMAT_CONFIDENCE.EXACT_MATCH)))).
Proof. exact parseDate_shape. Qed.

(** X5. [isValidDate] accepts exactly the dates of the calendar whose
    year lies between 1950 and ten years after the current one: the month
    is in 1..12 and the day exists in that month of that year, leap years
    included. *)
Theorem isValidDate_iff_calendar_date :
  forall (now : Date) (month day year : Z),
    isValidDate now month day year = true <->
    1 <= month <= 12 /\ 1 <= day <= daysInMonth year month /\
    1950 <= year <= getFullYear now + 10.
Proof. exact isValidDate_spec. Qed.

Local Close Scope Z_scope.

(* ================================================================== *)
(** * Full dates from the year 2100 on *)

Lemma fourDigits_dateText (y : string) : fourDigits y = true -> allChars isDateChar y = true.
Proof.
  destruct y as [|a [|b [|c [|d [|]]]]]; try discriminate. cbn [fourDigits allChars].
  intros H. apply andb_prop in H as [H Hd]. apply andb_prop in H as [H Hc].
  apply andb_prop in H as [Ha Hb].
  now rewrite (digit_dateChar a Ha), (digit_dateChar b Hb), (digit_dateChar c Hc),
    (digit_dateChar d Hd).
Qed.

Lemma yearOnly_at_end (i : nat) (prev : option ascii) :
  matchAt YEAR_ONLY_RX (mkCursor i prev "") = None.
Proof.
  unfold matchAt. cbn -[isDigit isWordChar]. now destruct (xorb _ _).
Qed.

(** Four digits that do not start with 19 or 20 are no year of the
    year-only pattern. *)
Lemma yearOnly_other_century (i : nat) (prev : option ascii) (y : string) :
  fourDigits y = true -> yearText y = false ->
  matchAt YEAR_ONLY_RX (mkCursor i prev y) = None.
Proof.
  destruct y as [|a [|b [|c [|d [|]]]]]; try discriminate. cbn [fourDigits yearText].
  intros H Hy. apply andb_prop in H as [H Hd]. apply andb_prop in H as [H Hc].
  rewrite Hc, Hd, !andb_true_r in Hy. apply orb_false_elim in Hy as [H19 H20].
  unfold matchAt.
  case_char "1"%char a.
  { case_char "9"%char b; [discriminate H19|].
    year_steps. rewrite E. now split_ifs. }
  case_char "2"%char a.
  { case_char "0"%char b; [discriminate H20|].
    year_steps. rewrite E0. now split_ifs. }
  year_steps. rewrite E, E0. now split_ifs.
Qed.

(** The year-only pattern finds nothing in [M/D/YYYY] when the year does
    not start with 19 or 20. *)
Lemma yearOnly_fullDate_none (m d y : string) :
  shortNumeral m = true -> shortNumeral d = true ->
  fourDigits y = true -> yearText y = false ->
  matchFirst YEAR_ONLY_RX (m ++ "/" ++ d ++ "/" ++ y) = None.
Proof.
  intros Hm Hd Hy Hc. unfold matchFirst, exec, start. cbn [index before rest].
  assert (Htail : forall i p, searchFrom YEAR_ONLY_RX i p (String "/" y) = None).
  { intros i p. rewrite searchFrom_skip by apply yearOnly_at_slash.
    pose proof (yearOnly_other_century (S i) (Some "/"%char) y Hy Hc) as Hat.
    destruct y as [|a [|b [|c [|e [|]]]]]; try discriminate. cbn [fourDigits] in Hy.
    apply andb_prop in Hy as [Hy He]. apply andb_prop in Hy as [Hy Hc'].
    apply andb_prop in Hy as [Ha Hb].
    rewrite searchFrom_skip by exact Hat.
    rewrite searchFrom_skip by (apply yearOnly_no_boundary; now apply digit_wordChar).
    rewrite searchFrom_skip by (apply yearOnly_no_boundary; now apply digit_wordChar).
    rewrite searchFrom_skip by (apply yearOnly_no_boundary; now apply digit_wordChar).
    cbn [searchFrom]. now rewrite yearOnly_at_end. }
  assert (Hday : forall i p, searchFrom YEAR_ONLY_RX i p ("/" ++ d ++ "/" ++ y) = None).
  { intros i p. cbn [append]. rewrite searchFrom_skip by apply yearOnly_at_slash.
    destruct d as [|a [|b [|]]]; try discriminate; cbn [append shortNumeral] in *.
    - rewrite searchFrom_skip by apply yearOnly_short1. apply Htail.
    - apply andb_prop in Hd as [Ha Hb].
      rewrite searchFrom_skip by apply yearOnly_short2.
      rewrite searchFrom_skip by (apply yearOnly_no_boundary; now apply digit_wordChar).
      apply Htail. }
  destruct m as [|a [|b [|]]]; try discriminate; cbn [append shortNumeral] in *.
  - rewrite searchFrom_skip by apply yearOnly_short1.
    now rewrite (Hday 1).
  - apply andb_prop in Hm as [Ha Hb].
    rewrite searchFrom_skip by apply yearOnly_short2.
    rewrite searchFrom_skip by (apply yearOnly_no_boundary; now apply digit_wordChar).
    now rewrite (Hday 2).
Qed.

(** Uses what is known of a digit of the subject. *)
Ltac known_digit :=
  match goal with
  | H : isDigit ?c = true |- context [isDigit ?c] => rewrite H
  | H : isWordChar ?c = true |- context [isWordChar ?c] => rewrite H
  end.

(** The full-date pattern matches the whole of [M/D/YYYY]. *)
Lemma fullDate_match (m d y : string) :
  shortNumeral m = true -> shortNumeral d = true -> fourDigits y = true ->
  matchFirst FULL_DATE_RX (m ++ "/" ++ d ++ "/" ++ y)
  = Some (mkMatch (m ++ "/" ++ d ++ "/" ++ y) 0 [m; d; y]).
Proof.
  intros Hm Hd Hy.
  destruct y as [|y1 [|y2 [|y3 [|y4 [|]]]]]; try discriminate. cbn [fourDigits] in Hy.
  apply andb_prop in Hy as [Hy H4]. apply andb_prop in Hy as [Hy H3].
  apply andb_prop in Hy as [H1 H2].
  pose proof (digit_wordChar y4 H4) as Hw4.
  assert (Hhit : forall text,
             (exists c, matchAt FULL_DATE_RX (mkCursor 0 None text)
                        = Some (mkMatch text 0
                                        [m; d; String y1 (String y2 (String y3 (String y4 "")))],
                                c)) ->
             option_map fst (searchFrom FULL_DATE_RX 0 None text)
             = Some (mkMatch text 0 [m; d; String y1 (String y2 (String y3 (String y4 "")))])).
  { intros text [c H]. now rewrite (searchFrom_hit _ _ _ _ _ H). }
  unfold matchFirst, exec, start. cbn [index before rest]. apply Hhit.
  destruct m as [|m1 [|m2 [|]]]; try discriminate; cbn [shortNumeral] in Hm;
    destruct d as [|d1 [|d2 [|]]]; try discriminate; cbn [shortNumeral] in Hd;
    repeat match goal with
           | H : _ && _ = true |- _ => apply andb_prop in H as [? ?]
           end;
    repeat match goal with
           | H : isDigit ?c = true |- _ =>
               lazymatch goal with
               | _ : isWordChar c = true |- _ => fail
               | _ => pose proof (digit_wordChar c H)
               end
           end;
    eexists; unfold matchAt;
    repeat (head_step; first [closed_test | known_digit]);
    reflexivity.
Qed.

Lemma numeral_readsBack (leadingZero : bool) (n : Z) :
  (1 <= n <= 31)%Z -> parseInt (numeral leadingZero n) = Some n.
Proof.
  intros H.
  assert (Hall : forallb (fun n =>
                            match parseInt (numeral true n), parseInt (numeral false n) with
                            | Some a, Some b => ((a =? n) && (b =? n))%Z
                            | _, _ => false
                            end)
                         (zrange 1 31) = true) by (vm_compute; reflexivity).
  rewrite forallb_forall in Hall.
  specialize (Hall n (In_zrange 1 n 31 ltac:(lia))).
  destruct (parseInt (numeral true n)) as [a|] eqn:Ea; [|discriminate].
  destruct (parseInt (numeral false n)) as [b|] eqn:Eb; [|discriminate].
  apply andb_prop in Hall as [Ha Hb]. apply Z.eqb_eq in Ha, Hb.
  destruct leadingZero; congruence.
Qed.

Lemma ofZ_other_century (y : Z) : (2100 <= y <= 9999)%Z -> yearText (ofZ y) = false.
Proof.
  intros H.
  assert (Hall : forallb (fun y => negb (yearText (ofZ y))) (zrange 2100 (Z.to_nat 7900)) = true)
    by (vm_compute; reflexivity).
  rewrite forallb_forall in Hall.
  specialize (Hall y (In_zrange 2100 y (Z.to_nat 7900) ltac:(rewrite Z2Nat.id; lia))).
  now apply negb_true_iff in Hall.
Qed.

Lemma fullDateString_dateChars zeroMonth zeroDay month day year :
  (1 <= month <= 31)%Z -> (1 <= day <= 31)%Z -> (1000 <= year <= 9999)%Z ->
  allChars isDateChar (fullDateString zeroMonth zeroDay month day year) = true.
Proof.
  intros Hm Hd Hy. unfold fullDateString. rewrite !allChars_app.
  rewrite (shortNumeral_dateText _ (numeral_short zeroMonth month Hm)).
  rewrite (shortNumeral_dateText _ (numeral_short zeroDay day Hd)).
  now rewrite (fourDigits_dateText _ (proj1 (ofZ_fourDigits year Hy))).
Qed.

(** A text [M/D/YYYY] with a year from 2100 on is left to the full-date
    parser, which reads its month and its day. *)
Lemma parseDate_full_date_from_2100 :
  forall (now : Date) (zeroMonth zeroDay : bool) (month day year : Z),
    (1 <= month <= 12)%Z ->
    (1 <= day <= daysInMonth year month)%Z ->
    (1950 <= year <= getFullYear now + 10)%Z ->
    (2100 <= year <= 9999)%Z ->
    parseDate now (fullDateString zeroMonth zeroDay month day year) =
    Some (mkParsedDate (fullDateString zeroMonth zeroDay month day year)
                       (newDate year (month - 1) day) FULL_DATE false
                       FORMAT_CONFIDENCE.EXACT_MATCH).
Proof.
  intros now zeroMonth zeroDay month day year Hm Hd Hy Hc.
  pose proof (daysInMonth_le year month) as Hle.
  assert (Hm' : (1 <= month <= 31)%Z) by lia.
  assert (Hd' : (1 <= day <= 31)%Z) by lia.
  assert (Hy' : (1000 <= year <= 9999)%Z) by lia.
  pose proof (fullDateString_dateChars zeroMonth zeroDay month day year Hm' Hd' Hy') as Htext.
  destruct (ofZ_fourDigits year Hy') as [Hshape Hint].
  pose proof (ofZ_other_century year Hc) as Hcentury.
  pose proof (numeral_short zeroMonth month Hm') as Hms.
  pose proof (numeral_short zeroDay day Hd') as Hds.
  set (text := fullDateString zeroMonth zeroDay month day year) in *.
  assert (Hne : isEmpty text = false) by (now apply shortNumeral_nonempty).
  unfold parseDate. rewrite (dateText_trim text Htext), Hne.
  rewrite (dateText_toLowerCase text Htext), (dateText_not_ongoing text Htext).
  cbn [formats firstSome].
  assert (Hmy : parseMonthYear now text = None).
  { unfold parseMonthYear, matchFirst, exec, start. cbn [index before rest].
    now rewrite monthYear_dateText. }
  rewrite Hmy.
  assert (Hyo : parseYearOnly now text = None).
  { unfold parseYearOnly. subst text. unfold fullDateString.
    now rewrite yearOnly_fullDate_none. }
  rewrite Hyo.
  assert (Hfd : parseFullDate now text
                = Some (mkFormatResult (newDate year (month - 1) day) FULL_DATE
                                       FORMAT_CONFIDENCE.EXACT_MATCH)).
  { unfold parseFullDate. subst text. unfold fullDateString.
    rewrite fullDate_match by auto. unfold group. cbn [groups Nat.pred nth].
    rewrite (numeral_readsBack zeroMonth month Hm'), (numeral_readsBack zeroDay day Hd'), Hint.
    replace (isValidDate now month day year) with true; [reflexivity|].
    symmetry. apply isValidDate_spec. auto. }
  now rewrite Hfd.
Qed.

(** C10 (amended).  For a text [M/D/YYYY] with a month in 1..12, a day of
    that month and a year of four digits from 1950 up to ten years after
    the current one, what [parseDate] answers depends on the century.  For
    a year up to 2099 it answers with the format [YEAR_ONLY], the date
    January 1 of that year and the confidence 0.8: the year-only parser runs
    before the full-date parser and its pattern finds the four digits of
    the year, so the month and the day are never examined.  For a year
    from 2100 on, which is in range once the current year reaches 2090, the
    year-only pattern knows no such year and the full-date parser answers
    with the format [FULL_DATE], the given day of the given month of that
    year and the confidence 1. *)
Theorem parseDate_full_date_reads_year_only :
  forall (now : Date) (zeroMonth zeroDay : bool) (month day year : Z),
    (1 <= month <= 12)%Z ->
    (1 <= day <= daysInMonth year month)%Z ->
    (1950 <= year <= getFullYear now + 10)%Z ->
    let text := fullDateString zeroMonth zeroDay month day year in
    ((year <= 2099)%Z ->
     parseDate now text
     = Some (mkParsedDate text (newDate year 0 1) YEAR_ONLY false
                          FORMAT_CONFIDENCE.PATTERN_MATCH)) /\
    ((2100 <= year <= 9999)%Z ->
     parseDate now text
     = Some (mkParsedDate text (newDate year (month - 1) day) FULL_DATE false
                          FORMAT_CONFIDENCE.EXACT_MATCH)).
Proof.
  intros now zeroMonth zeroDay month day year Hm Hd Hy text. split; intros Hc.
  - now apply parseDate_full_date_before_2100.
  - apply parseDate_full_date_from_2100; auto; lia.
Qed.

Lemma parseDate_full_date_reads_year_only_witness :
  ((1 <= 1 <= 12)%Z /\ (1 <= 15 <= daysInMonth 2023 1)%Z /\
   (1950 <= 2023 <= getFullYear today + 10)%Z /\ (2023 <= 2099)%Z /\
   parseDate today "01/15/2023"
   = Some (mkParsedDate "01/15/2023" (newDate 2023 0 1) YEAR_ONLY false
                        FORMAT_CONFIDENCE.PATTERN_MATCH)) /\
  ((1 <= 12 <= 12)%Z /\ (1 <= 31 <= daysInMonth 2100 12)%Z /\
   (1950 <= 2100 <= getFullYear (newDate 2095 0 1) + 10)%Z /\
   (2100 <= 2100 <= 9999)%Z /\
   parseDate (newDate 2095 0 1) "12/31/2100"
   = Some (mkParsedDate "12/31/2100" (newDate 2100 (12 - 1) 31) FULL_DATE false
                        FORMAT_CONFIDENCE.EXACT_MATCH)).
Proof.
  assert (H1 : (1 <= 1 <= 12)%Z) by lia.
  assert (H2 : (1 <= 15 <= daysInMonth 2023 1)%Z) by (vm_compute; intuition discriminate).
  assert (H3 : (1950 <= 2023 <= getFullYear today + 10)%Z)
    by (vm_compute; intuition discriminate).
  assert (H5 : (2023 <= 2099)%Z) by lia.
  assert (K1 : (1 <= 12 <= 12)%Z) by lia.
  assert (K2 : (1 <= 31 <= daysInMonth 2100 12)%Z) by (vm_compute; intuition discriminate).
  assert (K3 : (1950 <= 2100 <= getFullYear (newDate 2095 0 1) + 10)%Z)
    by (vm_compute; intuition discriminate).
  assert (K5 : (2100 <= 2100 <= 9999)%Z) by lia.
  split.
  - split; [exact H1|]. split; [exact H2|]. split; [exact H3|]. split; [exact H5|].
    exact (proj1 (parseDate_full_date_reads_year_only today true false 1 15 2023
                    H1 H2 H3) H5).
  - split; [exact K1|]. split; [exact K2|]. split; [exact K3|]. split; [exact K5|].
    exact (proj2 (parseDate_full_date_reads_year_only (newDate 2095 0 1) false false 12 31 2100
                    K1 K2 K3) K5).
Defined.

(* ================================================================== *)
(** * Periods *)

Lemma byNormalizedTime_le (a b : ParsedDate) :
  Service.byNormalizedTime a b = true <-> (pd_normalized a <= pd_normalized b)%Z.
Proof. unfold Service.byNormalizedTime, getTime. rewrite Z.leb_le. lia. Qed.

Lemma byNormalizedTime_sorted (l : list ParsedDate) :
  StronglySorted (fun a b => (pd_normalized a <= pd_normalized b)%Z)
                 (sortBy Service.byNormalizedTime l).
Proof.
  assert (H : StronglySorted (fun a b => Service.byNormalizedTime a b = true)
                             (sortBy Service.byNormalizedTime l)).
  { apply sortBy_sorted.
    - intros a b. rewrite !byNormalizedTime_le. lia.
    - intros a b c. rewrite !byNormalizedTime_le. lia. }
  induction H; constructor; auto.
  eapply Forall_impl; [|eassumption]. intros b. apply byNormalizedTime_le.
Qed.

Lemma last_opt_In {A} (l : list A) (x : A) : last_opt l = Some x -> In x l.
Proof.
  unfold last_opt. destruct (rev l) as [|y t] eqn:E; [discriminate|].
  intros H. injection H as ->. apply in_rev. rewrite E. now left.
Qed.

Lemma sorted_last_max {A} (le : A -> A -> Prop) (l : list A) (x : A) :
  (forall a, le a a) -> StronglySorted le l -> last_opt l = Some x ->
  forall y, In y l -> le y x.
Proof.
  intros Hrefl Hs. unfold last_opt.
  induction Hs as [|a l Hs IH Ha]; [discriminate|].
  simpl. destruct (rev l) as [|z t] eqn:E.
  - simpl. intros H. injection H as ->.
    assert (l = []) by (apply (f_equal (@rev A)) in E; rewrite rev_involutive in E; auto).
    subst. intros y [->|[]]. auto.
  - simpl. intros H. injection H as ->. intros y [->|Hy]; [|apply IH; auto].
    rewrite Forall_forall in Ha. apply Ha. apply in_rev. rewrite E. now left.
Qed.

Lemma determineDateRange_spec (extractedDates : list ExtractedDate) :
  let r := Service.determineDateRange extractedDates in
  let dates := Service.actualDatesOf extractedDates in
  Service.isOngoing r = existsb Service.isOngoingDate extractedDates /\
  (Service.isOngoing r = true -> Service.endDate r = None) /\
  (forall s, Service.startDate r = Some s ->
             (exists p, In p dates /\ pd_normalized p = s) /\
             forall p, In p dates -> (s <= pd_normalized p)%Z) /\
  (forall e, Service.endDate r = Some e ->
             (exists p, In p dates /\ pd_normalized p = e) /\
             forall p, In p dates -> (pd_normalized p <= e)%Z).
Proof.
  cbv zeta. unfold Service.determineDateRange.
  destruct extractedDates as [|d0 rest0] eqn:El.
  { cbn. repeat split; intros; discriminate. }
  rewrite <- El. clear El d0 rest0. cbv zeta.
  remember (existsb Service.isOngoingDate extractedDates) as ongoing eqn:Eo.
  set (dates := Service.actualDatesOf extractedDates).
  pose proof (byNormalizedTime_sorted dates) as Hsorted.
  pose proof (sortBy_perm Service.byNormalizedTime dates) as Hperm.
  destruct (sortBy Service.byNormalizedTime dates) as [|first [|second more]] eqn:Es.
  - cbn. repeat split; intros; discriminate.
  - assert (Hin : forall p, In p dates -> p = first).
    { intros p Hp. apply (Permutation_in _ (Permutation_sym Hperm)) in Hp.
      destruct Hp as [->|[]]. reflexivity. }
    assert (Hfirst : In first dates)
      by (apply (Permutation_in _ Hperm); now left).
    assert (Hone : (exists p, In p dates /\ pd_normalized p = pd_normalized first) /\
                   (forall p, In p dates -> (pd_normalized first <= pd_normalized p)%Z) /\
                   (forall p, In p dates -> (pd_normalized p <= pd_normalized first)%Z)).
    { split; [eauto|]. split; intros p Hp; rewrite (Hin p Hp); lia. }
    destruct Hone as (Hex & Hmin & Hmax).
    destruct ongoing; cbn [Service.startDate Service.endDate Service.isOngoing].
    + split; [reflexivity|]. split; [reflexivity|]. split.
      * intros s Hs. injection Hs as <-. auto.
      * discriminate.
    + split; [reflexivity|]. split; [discriminate|]. split.
      * discriminate.
      * intros e He. injection He as <-. auto.
  - cbn [Service.startDate Service.endDate Service.isOngoing].
    split; [reflexivity|]. split; [intros ->; reflexivity|]. split.
    + intros s Hs. injection Hs as <-. split.
      * exists first. split; auto. apply (Permutation_in _ Hperm). now left.
      * intros p Hp. apply (Permutation_in _ (Permutation_sym Hperm)) in Hp.
        inversion Hsorted as [|? ? _ Hall]; subst. rewrite Forall_forall in Hall.
        destruct Hp as [->|Hp]; [lia|auto].
    + destruct ongoing; [discriminate|].
      intros e He.
      destruct (last_opt (first :: second :: more)) as [lastDate|] eqn:Elast; [|discriminate].
      injection He as <-. split.
      * exists lastDate. split; auto. apply (Permutation_in _ Hperm).
        now apply last_opt_In.
      * intros p Hp. apply (Permutation_in _ (Permutation_sym Hperm)) in Hp.
        apply (sorted_last_max (fun a b => (pd_normalized a <= pd_normalized b)%Z)
                               _ _ (fun a => Z.le_refl _) Hsorted Elast p Hp).
Qed.

(** X8. [determineDateRange] reports a range as ongoing exactly when one
    of the extracted dates is an ongoing marker, and then it has no end
    date.  A start date is the earliest of the parsed dates that are not
    ongoing markers and an end date is the latest of them, so a start date
    is never after the end date. *)
Theorem determineDateRange_earliest_and_latest :
  forall (extractedDates : list ExtractedDate),
    let r := Service.determineDateRange extractedDates in
    let dates := Service.actualDatesOf extractedDates in
    Service.isOngoing r = existsb Service.isOngoingDate extractedDates /\
    (Service.isOngoing r = true -> Service.endDate r = None) /\
    (forall s, Service.startDate r = Some s ->
               (exists p, In p dates /\ pd_normalized p = s) /\
               forall p, In p dates -> (s <= pd_normalized p)%Z) /\
    (forall e, Service.endDate r = Some e ->
               (exists p, In p dates /\ pd_normalized p = e) /\
               forall p, In p dates -> (pd_normalized p <= e)%Z) /\
    (forall s e, Service.startDate r = Some s -> Service.endDate r = Some e -> (s <= e)%Z).
Proof.
  intros extractedDates.
  destruct (determineDateRange_spec extractedDates) as (H1 & H2 & H3 & H4).
  cbv zeta in *. repeat split; auto; try (now apply H3); try (now apply H4).
  intros s e Hs He. destruct (H3 s Hs) as [(p & Hp & <-) _].
  destruct (H4 e He) as [_ Hmax]. auto.
Qed.

Lemma somes_In {A} (l : list (option A)) (x : A) : In x (Service.somes l) <-> In (Some x) l.
Proof.
  induction l as [|[y|] l IH]; simpl; [tauto| |].
  - rewrite IH. split; intros [H|H]; auto; [left; congruence|left; congruence].
  - rewrite IH. split; [auto|]. intros [H|H]; [discriminate|auto].
Qed.

Lemma actualDatesOf_In (l : list ExtractedDate) (p : ParsedDate) :
  In p (Service.actualDatesOf l) ->
  exists d, In d l /\ ed_parsedDate d = Some p /\ pd_isOngoing p = false.
Proof.
  induction l as [|d l IH]; simpl; [intros []|].
  destruct (ed_parsedDate d) as [q|] eqn:E.
  - destruct (pd_isOngoing q) eqn:Eo.
    + intros H. destruct (IH H) as (d' & H1 & H2). exists d'. auto.
    + intros [->|H]; [exists d; auto|]. destruct (IH H) as (d' & H1 & H2). exists d'. auto.
  - intros H. destruct (IH H) as (d' & H1 & H2). exists d'. auto.
Qed.

Lemma dateConfidence_bounds (now : Date) (text : string) (date : ExtractedDate) :
  In date (extractDatesFromText now text) ->
  (0 <= Service.dateConfidence date <= 1)%Q.
Proof.
  intros H. apply extract_located in H as (Hp & _). unfold Service.dateConfidence.
  rewrite Hp. destruct (parseDate now (ed_text date)) as [p|] eqn:E; [|split; discriminate].
  apply parseDate_shape in E as (_ & [(_ & _ & _ & ->)|(_ & _ & _ & [H|[H|H]])]).
  - split; discriminate.
  - destruct H as (_ & -> & _). split; discriminate.
  - destruct H as (_ & -> & _). split; discriminate.
  - destruct H as (_ & ->). split; discriminate.
Qed.

Lemma confidence_sum_bounds (dates : list ExtractedDate) (acc : Q) :
  Forall (fun d => (0 <= Service.dateConfidence d <= 1)%Q) dates ->
  (acc <= fold_left (fun sum date => sum + Service.dateConfidence date) dates acc
   <= acc + inject_Z (Z.of_nat (List.length dates)))%Q.
Proof.
  intros H. revert acc. induction H as [|d dates Hd _ IH]; intros acc.
  - simpl. split; [apply Qle_refl|]. unfold inject_Z. lra.
  - cbn [fold_left List.length]. destruct (IH (acc + Service.dateConfidence d)%Q) as [H1 H2].
    rewrite Nat2Z.inj_succ, <- Z.add_1_r, inject_Z_plus.
    change (inject_Z 1) with 1%Q. split; lra.
Qed.

Lemma calculateEducationConfidence_bounds (institution degree : option string)
      (dates : list ExtractedDate) :
  dates <> [] ->
  Forall (fun d => (0 <= Service.dateConfidence d <= 1)%Q) dates ->
  ((5 # 10) <= Service.calculateEducationConfidence institution degree dates <= 1)%Q.
Proof.
  intros Hne Hall. unfold Service.calculateEducationConfidence. cbv zeta.
  set (c1 := match institution with
             | Some i => if isEmpty i then (5 # 10)%Q else _
             | None => (5 # 10)%Q
             end).
  assert (H1 : ((5 # 10) <= c1)%Q).
  { unfold c1. destruct institution as [i|]; [|lra].
    destruct (isEmpty i); [lra|]. destruct (_ || _); lra. }
  set (c2 := match degree with
             | Some d => if isEmpty d then c1 else (c1 + (2 # 10))%Q
             | None => c1
             end).
  assert (H2 : ((5 # 10) <= c2)%Q).
  { unfold c2. destruct degree as [d|]; [|lra]. destruct (isEmpty d); lra. }
  set (n := inject_Z (Z.of_nat (List.length dates))).
  assert (Hn : (0 < n)%Q).
  { unfold n. destruct dates; [contradiction|].
    change 0%Q with (inject_Z 0). rewrite <- Zlt_Qlt. cbn [List.length]. lia. }
  destruct (confidence_sum_bounds dates 0 Hall) as [Hs1 Hs2]. fold n in Hs2.
  set (total := fold_left _ dates 0%Q) in *.
  assert (Havg : (0 <= total / n)%Q).
  { apply Qle_shift_div_l; auto; lra. }
  destruct (Qleb _ 1) eqn:E.
  - unfold Qleb in E. apply Qle_bool_iff in E. split; [lra|exact E].
  - split; lra.
Qed.

Lemma orDefault_nonempty (o : option string) (d : string) :
  isEmpty d = false -> isEmpty (Service.orDefault o d) = false.
Proof.
  intros H. unfold Service.orDefault. destruct o as [s|]; auto.
  destruct (isEmpty s) eqn:E; auto.
Qed.

Lemma parseEducationSection_wellformed (now : Date) (sectionText : string)
      (period : EducationPeriod) :
  Service.parseEducationSection now sectionText = Some period ->
  ep_originalText period = sectionText /\
  isEmpty (ep_institution period) = false /\
  (forall d, ep_degree period = Some d -> isEmpty d = false) /\
  (ep_isOngoing period = true -> ep_endDate period = None) /\
  (forall s e, ep_startDate period = Some s -> ep_endDate period = Some e -> (s <= e)%Z) /\
  (forall date, ep_startDate period = Some date \/ ep_endDate period = Some date ->
                (1950 <= getFullYear date <= getFullYear now + 10)%Z) /\
  ((5 # 10) <= ep_confidence period <= 1)%Q.
Proof.
  unfold Service.parseEducationSection. cbv zeta.
  destruct (extractDatesFromText now sectionText) as [|d0 rest0] eqn:El; [discriminate|].
  rewrite <- El. intros H. injection H as <-.
  cbn [ep_originalText ep_institution ep_degree ep_isOngoing ep_endDate ep_startDate
       ep_confidence].
  destruct (determineDateRange_spec (extractDatesFromText now sectionText))
    as (H1 & H2 & H3 & H4). cbv zeta in *.
  assert (Hyear : forall p, In p (Service.actualDatesOf (extractDatesFromText now sectionText)) ->
                  (1950 <= getFullYear (pd_normalized p) <= getFullYear now + 10)%Z).
  { intros p Hp. apply actualDatesOf_In in Hp as (d & Hd & Hparsed & Hongoing).
    apply extract_located in Hd as (Hd & _). rewrite Hparsed in Hd. symmetry in Hd.
    apply parseDate_shape in Hd as (_ & [(Ho & _)|(_ & Hy & _)]); [congruence|exact Hy]. }
  split; [reflexivity|]. split; [now apply orDefault_nonempty|]. split.
  { intros d. destruct (Service.extractDegree _) as [d'|]; [|discriminate].
    unfold Service.truthy. destruct (isEmpty d') eqn:E; [discriminate|].
    intros H. now injection H as <-. }
  split; [exact H2|]. split.
  { intros s e Hs He. destruct (H3 s Hs) as [(p & Hp & <-) _].
    destruct (H4 e He) as [_ Hmax]. auto. }
  split.
  { intros date [Hs|He].
    - destruct (H3 date Hs) as [(p & Hp & <-) _]. auto.
    - destruct (H4 date He) as [(p & Hp & <-) _]. auto. }
  apply calculateEducationConfidence_bounds.
  - rewrite El. discriminate.
  - apply Forall_forall. intros d Hd. now apply (dateConfidence_bounds now sectionText).
Qed.

(** X9. Every period that [parseEducationDates] returns is built from
    one of the education sections of the text and is well formed: its
    institution is not empty, a degree that is present is not empty, an
    ongoing period has no end date, a start date is never after the end
    date, every date lies in a year between 1950 and ten years after the
    current one, and the confidence lies between 0.5 and 1. *)
Theorem parseEducationDates_periods_wellformed :
  forall (now : Date) (text : string) (period : EducationPeriod),
    In period (Service.parseEducationDates now text) ->
    In (ep_originalText period) (Service.extractEducationSections text) /\
    isEmpty (ep_institution period) = false /\
    (forall d, ep_degree period = Some d -> isEmpty d = false) /\
    (ep_isOngoing period = true -> ep_endDate period = None) /\
    (forall s e, ep_startDate period = Some s -> ep_endDate period = Some e -> (s <= e)%Z) /\
    (forall date, ep_startDate period = Some date \/ ep_endDate period = Some date ->
                  (1950 <= getFullYear date <= getFullYear now + 10)%Z) /\
    ((5 # 10) <= ep_confidence period <= 1)%Q.
Proof.
  intros now text period. unfold Service.parseEducationDates.
  destruct (isEmpty text); [intros []|].
  destruct (isEmpty (trim text)); [intros []|].
  intros H. apply somes_In, in_map_iff in H as (section & Hsection & Hin).
  destruct (parseEducationSection_wellformed now section period Hsection)
    as (H1 & H2 & H3 & H4 & H5 & H6 & H7).
  rewrite H1. auto 10.
Qed.

(* ================================================================== *)
(** * The education validator *)

Lemma noCritical_app (a b : list ValidationIssue) :
  noCritical (a ++ b) = noCritical a && noCritical b.
Proof. apply forallb_app. Qed.

Lemma noCritical_flat_map {A} (f : A -> list ValidationIssue) (l : list A) :
  (forall x, In x l -> noCritical (f x) = true) -> noCritical (flat_map f l) = true.
Proof.
  induction l as [|x l IH]; simpl; auto. intros H.
  rewrite noCritical_app, H, IH; auto.
Qed.

Lemma overlapIssue_not_critical toLocaleDateString now pr :
  noCritical (Service.overlapIssue toLocaleDateString now pr) = true.
Proof.
  unfold Service.overlapIssue. destruct pr as [p1 p2].
  destruct (Service.hasEducationOverlap now p1 p2); [|reflexivity].
  destruct (negb _); reflexivity.
Qed.

Lemma periodIssues_past toLocaleDateString (now : Date) (cfg : ValidationConfig)
      (period : EducationPeriod) :
  (0 <= maxFutureEducationYears cfg)%Z ->
  (forall s, ep_startDate period = Some s -> (s <= now)%Z) ->
  (forall e, ep_endDate period = Some e -> (e <= now)%Z) ->
  (ep_isOngoing period = false ->
   forall s e, ep_startDate period = Some s -> ep_endDate period = Some e -> (s < e)%Z) ->
  noCritical (Service.periodIssues toLocaleDateString now cfg period) = true.
Proof.
  intros Hcfg Hs He Hse.
  assert (Hy : (0 < Service.msPerYear)%Q) by reflexivity.
  assert (Hm : (0 < Service.msPerMonth)%Q) by reflexivity.
  unfold Service.periodIssues. rewrite !noCritical_app.
  assert (H1 : noCritical (Service.futureGraduation toLocaleDateString now cfg period) = true).
  { unfold Service.futureGraduation. destruct (ep_endDate period) as [e|]; [|reflexivity].
    destruct (negb _); [|reflexivity]. cbv zeta.
    rewrite (Qltb_false (inject_Z (maxFutureEducationYears cfg))).
    2:{ apply Qle_trans with 0%Q; [apply elapsed_nonpos; auto|].
        unfold Qle. simpl. lia. }
    rewrite (Qltb_false 2); [reflexivity|].
    apply Qle_trans with 0%Q; [apply elapsed_nonpos; auto|easy]. }
  assert (H2 : noCritical (Service.futureStart toLocaleDateString now period) = true).
  { unfold Service.futureStart. destruct (ep_startDate period) as [s|]; [|reflexivity].
    cbv zeta. rewrite (Qltb_false 3); [reflexivity|].
    apply Qle_trans with 0%Q; [apply elapsed_nonpos; auto|easy]. }
  assert (H3 : noCritical (Service.dateOrder toLocaleDateString period) = true).
  { unfold Service.dateOrder. destruct (ep_startDate period) as [s|]; [|reflexivity].
    destruct (ep_endDate period) as [e|]; [|reflexivity].
    destruct (ep_isOngoing period); [reflexivity|]. cbn [negb andb].
    specialize (Hse eq_refl s e eq_refl eq_refl).
    replace (getTime e <=? getTime s)%Z with false; [reflexivity|].
    symmetry. apply Z.leb_gt. unfold getTime. lia. }
  assert (H4 : noCritical (Service.duration toLocaleDateString period) = true).
  { unfold Service.duration. destruct (ep_startDate period) as [s|]; [|reflexivity].
    destruct (ep_endDate period) as [e|]; [|reflexivity].
    destruct (negb _); [|reflexivity]. cbv zeta.
    destruct (Qltb 10 _); [reflexivity|]. destruct (_ && _); reflexivity. }
  assert (H5 : noCritical (Service.staleOngoing toLocaleDateString now period) = true).
  { unfold Service.staleOngoing. destruct (ep_startDate period) as [s|]; [|reflexivity].
    destruct (ep_isOngoing period); [|reflexivity]. cbv zeta.
    destruct (Qltb 8 _); reflexivity. }
  now rewrite H1, H2, H3, H4, H5.
Qed.

(** X10. A timeline in which no start or end date lies in the future and
    every finished period starts before it ends raises no critical issue,
    for every configuration that allows no negative number of future
    years: what is left are warnings and suggestions.  Overlapping periods
    never raise a critical issue. *)
Theorem past_timeline_has_no_critical_issue :
  forall (toLocaleDateString : Date -> string) (now : Date) (cfg : ValidationConfig)
         (education : list EducationPeriod),
    (0 <= maxFutureEducationYears cfg)%Z ->
    (forall period, In period education ->
       (forall s, ep_startDate period = Some s -> (s <= now)%Z) /\
       (forall e, ep_endDate period = Some e -> (e <= now)%Z) /\
       (ep_isOngoing period = false ->
        forall s e, ep_startDate period = Some s -> ep_endDate period = Some e ->
                    (s < e)%Z)) ->
    noCritical (Service.validateEducationTimeline toLocaleDateString now cfg education) = true.
Proof.
  intros toLocaleDateString now cfg education Hcfg Hall.
  unfold Service.validateEducationTimeline. rewrite noCritical_app.
  rewrite !noCritical_flat_map; auto.
  - intros pr _. apply overlapIssue_not_critical.
  - intros period Hin. destruct (Hall period Hin) as (Hs & He & Hse).
    now apply periodIssues_past.
Qed.


(** The issues of the education validator by kind. *)
Lemma education_issue_kinds toLocaleDateString now cfg periods i :
  In i (Service.validateEducationTimeline toLocaleDateString now cfg periods) ->
  vi_category i = education /\
  ((vi_type i = critical /\
    (vi_confidence i = (9 # 10)%Q \/ vi_confidence i = (85 # 100)%Q
     \/ vi_confidence i = (95 # 100)%Q))
   \/ (vi_type i = warning /\
       (vi_confidence i = (7 # 10)%Q \/ vi_confidence i = (6 # 10)%Q))
   \/ (vi_type i = suggestion /\
       (vi_confidence i = (5 # 10)%Q \/ vi_confidence i = (6 # 10)%Q))).
Proof.
  unfold Service.validateEducationTimeline. intros H.
  apply in_app_or in H as [H|H]; apply in_flat_map in H as (x & _ & H).
  - unfold Service.periodIssues in H.
    repeat (apply in_app_or in H as [H|H]).
    + unfold Service.futureGraduation in H.
      destruct (ep_endDate x); [|destruct H]. destruct (negb _); [|destruct H].
      cbv zeta in H. destruct (Qltb _ _); [|destruct (Qltb _ _)];
        [destruct H as [<-|[]]|destruct H as [<-|[]]|destruct H]; cbn; auto 10.
    + unfold Service.futureStart in H.
      destruct (ep_startDate x); [|destruct H]. cbv zeta in H.
      destruct (Qltb _ _); [destruct H as [<-|[]]|destruct H]; cbn; auto 10.
    + unfold Service.dateOrder in H.
      destruct (ep_startDate x); [|destruct H]. destruct (ep_endDate x); [|destruct H].
      destruct (_ && _); [destruct H as [<-|[]]|destruct H]; cbn; auto 10.
    + unfold Service.duration in H.
      destruct (ep_startDate x); [|destruct H]. destruct (ep_endDate x); [|destruct H].
      destruct (negb _); [|destruct H]. cbv zeta in H.
      destruct (Qltb _ _); [|destruct (_ && _)];
        [destruct H as [<-|[]]|destruct H as [<-|[]]|destruct H]; cbn; auto 10.
    + unfold Service.staleOngoing in H.
      destruct (ep_startDate x); [|destruct H]. destruct (ep_isOngoing x); [|destruct H].
      cbv zeta in H. destruct (Qltb _ _); [destruct H as [<-|[]]|destruct H]; cbn; auto 10.
  - unfold Service.overlapIssue in H. destruct x as [p1 p2].
    destruct (Service.hasEducationOverlap now p1 p2); [|destruct H].
    destruct (negb _); [destruct H as [<-|[]]|destruct H]; cbn; auto 10.
Qed.

(** X11. Every issue of the education validator has the category
    education and a confidence between 0.5 and 0.95, and a critical one has
    a confidence of at least 0.85.  Hence, for a confidence threshold of at
    most 0.85, as the default 0.8, [categorizeIssuesBySeverity] keeps all
    of them as issues and converts none into a warning. *)
Theorem education_issues_keep_their_severity :
  forall (toLocaleDateString : Date -> string) (now : Date)
         (cfg thresholds : ValidationConfig) (periods : list EducationPeriod),
    let found := Service.validateEducationTimeline toLocaleDateString now cfg periods in
    (forall i, In i found ->
       vi_category i = education /\
       ((5 # 10) <= vi_confidence i <= (95 # 100))%Q /\
       (vi_type i = critical -> ((85 # 100) <= vi_confidence i)%Q)) /\
    ((confidenceThreshold thresholds <= (85 # 100))%Q ->
     Service.categorizeIssuesBySeverity thresholds found = Service.mkCategorized found []).
Proof.
  intros toLocaleDateString now cfg thresholds periods found.
  assert (Hkinds : forall i, In i found ->
             vi_category i = education /\
             ((5 # 10) <= vi_confidence i <= (95 # 100))%Q /\
             (vi_type i = critical -> ((85 # 100) <= vi_confidence i)%Q)).
  { intros i Hi. apply education_issue_kinds in Hi as (Hc & H).
    split; [exact Hc|].
    destruct H as [(Ht & [-> | [-> | ->]]) | [(Ht & [-> | ->]) | (Ht & [-> | ->])]];
      (split; [split; discriminate|]); intros; try discriminate; congruence. }
  split; [exact Hkinds|].
  intros Hthreshold. rewrite categorizeIssuesBySeverity_spec.
  assert (Hnone : forall i, In i found -> Service.isLowConfidenceCritical thresholds i = false).
  { intros i Hi. destruct (Hkinds i Hi) as (_ & _ & Hcrit).
    unfold Service.isLowConfidenceCritical, isCritical.
    destruct (vi_type i); rewrite ?andb_false_r; auto.
    rewrite andb_true_r. apply Qltb_false.
    apply Qle_trans with (85 # 100)%Q; auto. }
  f_equal.
  - clear Hkinds. induction found as [|i l IH]; simpl; auto.
    rewrite (Hnone i) by now left. simpl. f_equal. apply IH. intros j Hj. apply Hnone. now right.
  - clear Hkinds. induction found as [|i l IH]; simpl; auto.
    rewrite (Hnone i) by now left. apply IH. intros j Hj. apply Hnone. now right.
Qed.

Lemma calculateWorkConfidence_bounds (company position : option string)
      (dates : list ExtractedDate) :
  dates <> [] ->
  Forall (fun d => (0 <= Service.dateConfidence d <= 1)%Q) dates ->
  ((5 # 10) <= WorkService.calculateWorkConfidence company position dates <= 1)%Q.
Proof.
  intros Hne Hall. unfold WorkService.calculateWorkConfidence. cbv zeta.
  set (c1 := match company with
             | Some c => if isEmpty c then (5 # 10)%Q else _
             | None => (5 # 10)%Q
             end).
  assert (H1 : ((5 # 10) <= c1)%Q).
  { unfold c1. destruct company as [c|]; [|lra].
    destruct (isEmpty c); [lra|]. destruct (WorkService.containsCompanyIndicators c); lra. }
  set (c2 := match position with
             | Some p => if isEmpty p then c1 else (c1 + (2 # 10))%Q
             | None => c1
             end).
  assert (H2 : ((5 # 10) <= c2)%Q).
  { unfold c2. destruct position as [p|]; [|lra]. destruct (isEmpty p); lra. }
  set (n := inject_Z (Z.of_nat (List.length dates))).
  assert (Hn : (0 < n)%Q).
  { unfold n. destruct dates; [contradiction|].
    change 0%Q with (inject_Z 0). rewrite <- Zlt_Qlt. cbn [List.length]. lia. }
  destruct (confidence_sum_bounds dates 0 Hall) as [Hs1 Hs2]. fold n in Hs2.
  set (total := fold_left _ dates 0%Q) in *.
  assert (Havg : (0 <= total / n)%Q).
  { apply Qle_shift_div_l; auto; lra. }
  destruct (Qleb _ 1) eqn:E.
  - unfold Qleb in E. apply Qle_bool_iff in E. split; [lra|exact E].
  - split; lra.
Qed.

Lemma parseWorkSection_wellformed (now : Date) (sectionText : string)
      (experience : WorkExperience) :
  WorkService.parseWorkSection now sectionText = Some experience ->
  we_originalText experience = sectionText /\
  isEmpty (we_company experience) = false /\
  isEmpty (we_position experience) = false /\
  (we_isOngoing experience = true -> we_endDate experience = None) /\
  (forall s e, we_startDate experience = Some s -> we_endDate experience = Some e ->
               (s <= e)%Z) /\
  (forall date, we_startDate experience = Some date \/ we_endDate experience = Some date ->
                (1950 <= getFullYear date <= getFullYear now + 10)%Z) /\
  ((5 # 10) <= we_confidence experience <= 1)%Q.
Proof.
  unfold WorkService.parseWorkSection. cbv zeta.
  destruct (extractDatesFromText now sectionText) as [|d0 rest0] eqn:El; [discriminate|].
  rewrite <- El. intros H. injection H as <-.
  cbn [we_originalText we_company we_position we_isOngoing we_endDate we_startDate
       we_confidence].
  destruct (determineDateRange_spec (extractDatesFromText now sectionText))
    as (H1 & H2 & H3 & H4). cbv zeta in *.
  assert (Hyear : forall p, In p (Service.actualDatesOf (extractDatesFromText now sectionText)) ->
                  (1950 <= getFullYear (pd_normalized p) <= getFullYear now + 10)%Z).
  { intros p Hp. apply actualDatesOf_In in Hp as (d & Hd & Hparsed & Hongoing).
    apply extract_located in Hd as (Hd & _). rewrite Hparsed in Hd. symmetry in Hd.
    apply parseDate_shape in Hd as (_ & [(Ho & _)|(_ & Hy & _)]); [congruence|exact Hy]. }
  split; [reflexivity|]. split; [now apply orDefault_nonempty|].
  split; [now apply orDefault_nonempty|].
  split; [exact H2|]. split.
  { intros s e Hs He. destruct (H3 s Hs) as [(p & Hp & <-) _].
    destruct (H4 e He) as [_ Hmax]. auto. }
  split.
  { intros date [Hs|He].
    - destruct (H3 date Hs) as [(p & Hp & <-) _]. auto.
    - destruct (H4 date He) as [(p & Hp & <-) _]. auto. }
  apply calculateWorkConfidence_bounds.
  - rewrite El. discriminate.
  - apply Forall_forall. intros d Hd. now apply (dateConfidence_bounds now sectionText).
Qed.

(** X12. Every experience that [parseWorkExperience] returns is built
    from one of the work sections of the text and is well formed: its
    company and its position are not empty, an ongoing position has no end
    date, a start date is never after the end date, every date lies in a
    year between 1950 and ten years after the current one, and the
    confidence lies between 0.5 and 1. *)
Theorem parseWorkExperience_entries_wellformed :
  forall (now : Date) (text : string) (experience : WorkExperience),
    In experience (WorkService.parseWorkExperience now text) ->
    In (we_originalText experience) (WorkService.extractWorkSections text) /\
    isEmpty (we_company experience) = false /\
    isEmpty (we_position experience) = false /\
    (we_isOngoing experience = true -> we_endDate experience = None) /\
    (forall s e, we_startDate experience = Some s -> we_endDate experience = Some e ->
                 (s <= e)%Z) /\
    (forall date, we_startDate experience = Some date \/ we_endDate experience = Some date ->
                  (1950 <= getFullYear date <= getFullYear now + 10)%Z) /\
    ((5 # 10) <= we_confidence experience <= 1)%Q.
Proof.
  intros now text experience. unfold WorkService.parseWorkExperience.
  destruct (isEmpty text); [intros []|].
  destruct (isEmpty (trim text)); [intros []|].
  intros H. apply somes_In, in_map_iff in H as (section & Hsection & Hin).
  destruct (parseWorkSection_wellformed now section experience Hsection)
    as (H1 & H2 & H3 & H4 & H5 & H6 & H7).
  rewrite H1. auto 10.
Qed.

(* ================================================================== *)
(** * The work validator *)


Lemma work_overlapIssue_not_critical toLocaleDateString now work1 work2 :
  noCritical (WorkService.overlapIssue toLocaleDateString now work1 work2) = true.
Proof.
  unfold WorkService.overlapIssue.
  destruct (WorkService.hasWorkOverlap now work1 work2); [|reflexivity].
  destruct (negb _); reflexivity.
Qed.

Lemma gapIssue_not_critical toLocaleDateString currentWork nextWork :
  noCritical (WorkService.gapIssue toLocaleDateString currentWork nextWork) = true.
Proof.
  unfold WorkService.gapIssue.
  destruct (we_endDate currentWork); [|reflexivity].
  destruct (we_startDate nextWork); [|reflexivity].
  destruct (negb _); [|reflexivity]. cbv zeta. destruct (Qltb _ _); reflexivity.
Qed.

Lemma pairLoop_not_critical toLocaleDateString now (sortedWork : list WorkExperience) :
  noCritical (WorkService.pairLoop toLocaleDateString now sortedWork) = true.
Proof.
  induction sortedWork as [|work1 rest IH]; [reflexivity|].
  cbn [WorkService.pairLoop]. rewrite !noCritical_app, IH.
  rewrite noCritical_flat_map by (intros; apply work_overlapIssue_not_critical).
  destruct rest; [reflexivity|]. now rewrite gapIssue_not_critical.
Qed.

Lemma whole_day (s e : Date) :
  (msPerDay <= e - s)%Z -> (1 <= Service.elapsed e s (inject_Z msPerDay))%Q.
Proof.
  intros H. unfold Service.elapsed, getTime.
  apply Qle_shift_div_l; [reflexivity|]. rewrite Qmult_1_l. now rewrite <- Zle_Qle.
Qed.

Lemma experienceIssues_past toLocaleDateString (now : Date) (cfg : ValidationConfig)
      (experience : WorkExperience) :
  (0 <= maxFutureWorkMonths cfg)%Z ->
  (forall s, we_startDate experience = Some s -> (s <= now)%Z) ->
  (forall e, we_endDate experience = Some e -> (e <= now)%Z) ->
  (we_isOngoing experience = false ->
   forall s e, we_startDate experience = Some s -> we_endDate experience = Some e ->
               (msPerDay <= e - s)%Z) ->
  noCritical (WorkService.experienceIssues toLocaleDateString now cfg experience) = true.
Proof.
  intros Hcfg Hs He Hse.
  assert (Hm : (0 < Service.msPerMonth)%Q) by reflexivity.
  assert (Hlimit : (0 <= inject_Z (maxFutureWorkMonths cfg))%Q)
    by (unfold Qle; simpl; lia).
  unfold WorkService.experienceIssues. rewrite !noCritical_app.
  assert (H1 : noCritical (WorkService.futureEnd toLocaleDateString now cfg experience) = true).
  { unfold WorkService.futureEnd. destruct (we_endDate experience) as [e|]; [|reflexivity].
    destruct (negb _); [|reflexivity]. cbv zeta.
    rewrite (Qltb_false (inject_Z (maxFutureWorkMonths cfg)))
      by (apply Qle_trans with 0%Q; [apply elapsed_nonpos; auto|exact Hlimit]).
    rewrite (Qltb_false 1); [reflexivity|].
    apply Qle_trans with 0%Q; [apply elapsed_nonpos; auto|easy]. }
  assert (H2 : noCritical (WorkService.futureStart toLocaleDateString now cfg experience) = true).
  { unfold WorkService.futureStart. destruct (we_startDate experience) as [s|]; [|reflexivity].
    cbv zeta.
    rewrite (Qltb_false (inject_Z (maxFutureWorkMonths cfg))); [reflexivity|].
    apply Qle_trans with 0%Q; [apply elapsed_nonpos; auto|exact Hlimit]. }
  assert (Hday : (0 < msPerDay)%Z) by reflexivity.
  assert (H3 : noCritical (WorkService.dateOrder toLocaleDateString experience) = true).
  { unfold WorkService.dateOrder. destruct (we_startDate experience) as [s|]; [|reflexivity].
    destruct (we_endDate experience) as [e|]; [|reflexivity].
    destruct (we_isOngoing experience); [reflexivity|]. cbn [negb andb].
    specialize (Hse eq_refl s e eq_refl eq_refl).
    replace (getTime e <=? getTime s)%Z with false; [reflexivity|].
    symmetry. apply Z.leb_gt. unfold getTime. lia. }
  assert (H4 : noCritical (WorkService.duration toLocaleDateString experience) = true).
  { unfold WorkService.duration. destruct (we_startDate experience) as [s|]; [|reflexivity].
    destruct (we_endDate experience) as [e|]; [|reflexivity].
    destruct (we_isOngoing experience); [reflexivity|]. cbn [negb]. cbv zeta.
    specialize (Hse eq_refl s e eq_refl eq_refl).
    unfold Qltb at 1. pose proof (whole_day s e Hse) as Hd.
    apply Qle_bool_iff in Hd. rewrite Hd. cbn [negb].
    destruct (Qltb _ 7); reflexivity. }
  assert (H5 : noCritical (WorkService.staleOngoing toLocaleDateString now experience) = true).
  { unfold WorkService.staleOngoing. destruct (we_startDate experience) as [s|]; [|reflexivity].
    destruct (we_isOngoing experience); [|reflexivity]. cbv zeta.
    destruct (Qltb 15 _); reflexivity. }
  now rewrite H1, H2, H3, H4, H5.
Qed.

(** X13. A work history in which no start or end date lies in the future
    and every finished position lasts at least one day raises no critical
    issue, for every configuration that allows no negative number of
    future months and whatever order the sort of the host leaves the
    experiences in: overlaps and gaps only raise warnings and
    suggestions. *)
Theorem past_work_history_has_no_critical_issue :
  forall (toLocaleDateString : Date -> string) (now : Date) (cfg : ValidationConfig)
         (arraySort : (WorkExperience -> WorkExperience -> Z)
                      -> list WorkExperience -> list WorkExperience)
         (experiences : list WorkExperience),
    (0 <= maxFutureWorkMonths cfg)%Z ->
    (forall experience, In experience experiences ->
       (forall s, we_startDate experience = Some s -> (s <= now)%Z) /\
       (forall e, we_endDate experience = Some e -> (e <= now)%Z) /\
       (we_isOngoing experience = false ->
        forall s e, we_startDate experience = Some s -> we_endDate experience = Some e ->
                    (msPerDay <= e - s)%Z)) ->
    noCritical (WorkService.validateWorkTimeline toLocaleDateString now cfg arraySort
                                                 experiences) = true.
Proof.
  intros toLocaleDateString now cfg arraySort experiences Hcfg Hall.
  unfold WorkService.validateWorkTimeline. rewrite noCritical_app, pairLoop_not_critical.
  rewrite noCritical_flat_map; auto.
  intros experience Hin. destruct (Hall experience Hin) as (Hs & He & Hse).
  now apply experienceIssues_past.
Qed.

Lemma pairLoop_kinds toLocaleDateString now sortedWork i :
  In i (WorkService.pairLoop toLocaleDateString now sortedWork) ->
  vi_category i = work /\
  ((vi_type i = warning /\ vi_confidence i = (7 # 10)%Q)
   \/ (vi_type i = suggestion /\ vi_confidence i = (5 # 10)%Q)).
Proof.
  induction sortedWork as [|work1 rest IH]; [intros []|].
  cbn [WorkService.pairLoop]. intros H.
  apply in_app_or in H as [H|H]; [|apply in_app_or in H as [H|H]]; auto.
  - apply in_flat_map in H as (work2 & _ & H). unfold WorkService.overlapIssue in H.
    destruct (WorkService.hasWorkOverlap now work1 work2); [|destruct H].
    destruct (negb _); [destruct H as [<-|[]]|destruct H]; cbn; auto.
  - destruct rest as [|nextWork rest]; [destruct H|].
    unfold WorkService.gapIssue in H.
    destruct (we_endDate work1); [|destruct H].
    destruct (we_startDate nextWork); [|destruct H].
    destruct (negb _); [|destruct H]. cbv zeta in H.
    destruct (Qltb _ _); [destruct H as [<-|[]]|destruct H]; cbn; auto.
Qed.

(** The issues of the work validator by kind. *)
Lemma work_issue_kinds toLocaleDateString now cfg arraySort experiences i :
  In i (WorkService.validateWorkTimeline toLocaleDateString now cfg arraySort experiences) ->
  vi_category i = work /\
  ((vi_type i = critical /\
    (vi_confidence i = (9 # 10)%Q \/ vi_confidence i = (85 # 100)%Q
     \/ vi_confidence i = (95 # 100)%Q))
   \/ (vi_type i = warning /\ vi_confidence i = (7 # 10)%Q)
   \/ (vi_type i = suggestion /\
       (vi_confidence i = (5 # 10)%Q \/ vi_confidence i = (6 # 10)%Q))).
Proof.
  unfold WorkService.validateWorkTimeline. intros H.
  apply in_app_or in H as [H|H].
  - apply in_flat_map in H as (x & _ & H).
    unfold WorkService.experienceIssues in H.
    repeat (apply in_app_or in H as [H|H]).
    + unfold WorkService.futureEnd in H.
      destruct (we_endDate x); [|destruct H]. destruct (negb _); [|destruct H].
      cbv zeta in H. destruct (Qltb _ _); [|destruct (Qltb _ _)];
        [destruct H as [<-|[]]|destruct H as [<-|[]]|destruct H]; cbn; auto 10.
    + unfold WorkService.futureStart in H.
      destruct (we_startDate x); [|destruct H]. cbv zeta in H.
      destruct (Qltb _ _); [destruct H as [<-|[]]|destruct H]; cbn; auto 10.
    + unfold WorkService.dateOrder in H.
      destruct (we_startDate x); [|destruct H]. destruct (we_endDate x); [|destruct H].
      destruct (_ && _); [destruct H as [<-|[]]|destruct H]; cbn; auto 10.
    + unfold WorkService.duration in H.
      destruct (we_startDate x); [|destruct H]. destruct (we_endDate x); [|destruct H].
      destruct (negb _); [|destruct H]. cbv zeta in H.
      destruct (Qltb _ _); [|destruct (Qltb _ _)];
        [destruct H as [<-|[]]|destruct H as [<-|[]]|destruct H]; cbn; auto 10.
    + unfold WorkService.staleOngoing in H.
      destruct (we_startDate x); [|destruct H]. destruct (we_isOngoing x); [|destruct H].
      cbv zeta in H. destruct (Qltb _ _); [destruct H as [<-|[]]|destruct H]; cbn; auto 10.
  - apply pairLoop_kinds in H as (Hc & [(Ht & Hq)|(Ht & Hq)]); auto 10.
Qed.

Lemma work_issue_bounds toLocaleDateString now cfg arraySort experiences i :
  In i (WorkService.validateWorkTimeline toLocaleDateString now cfg arraySort experiences) ->
  vi_category i = work /\
  ((5 # 10) <= vi_confidence i <= (95 # 100))%Q /\
  (vi_type i = critical -> ((85 # 100) <= vi_confidence i)%Q).
Proof.
  intros Hi. apply work_issue_kinds in Hi as (Hc & H).
  split; [exact Hc|].
  destruct H as [(Ht & [-> | [-> | ->]]) | [(Ht & ->) | (Ht & [-> | ->])]];
    (split; [split; discriminate|]); intros; try discriminate; congruence.
Qed.

Lemma confident_critical_kept (thresholds : ValidationConfig) (i : ValidationIssue) :
  (confidenceThreshold thresholds <= (85 # 100))%Q ->
  (vi_type i = critical -> ((85 # 100) <= vi_confidence i)%Q) ->
  Service.isLowConfidenceCritical thresholds i = false.
Proof.
  intros Hthreshold Hcrit. unfold Service.isLowConfidenceCritical, isCritical.
  destruct (vi_type i); rewrite ?andb_false_r; auto.
  rewrite andb_true_r. apply Qltb_false.
  apply Qle_trans with (85 # 100)%Q; auto.
Qed.


(* ================================================================== *)
(** * The validation rules *)

Lemma Qltb_true (a x : Q) : (a < x)%Q -> Qltb a x = true.
Proof.
  intros H. unfold Qltb. destruct (Qle_bool x a) eqn:E; [|reflexivity].
  apply Qle_bool_iff in E. exfalso. apply (Qlt_irrefl a).
  now apply Qlt_le_trans with x.
Qed.

(** The critical issues of the rules, outside the strict mode: they come
    from the rule on impossible future dates and carry the base
    confidence. *)
Lemma rule_issue_critical toLocaleDateString now add context i :
  strictMode (config context) = false ->
  In i (Rules.applyValidationRules toLocaleDateString now add context) ->
  vi_type i = critical ->
  vi_category i = general /\ vi_confidence i = (7 # 10)%Q.
Proof.
  intros Hstrict. unfold Rules.applyValidationRules, Rules.getValidationRules.
  cbn [flat_map Rules.rule_condition app].
  intros H Hcrit.
  repeat (apply in_app_or in H as [H|H]);
    match type of H with
    | In _ (if ?b then _ else _) => destruct b; [destruct H as [<-|[]]|destruct H]
    | In _ [] => destruct H
    end; try discriminate Hcrit.
  split; [reflexivity|].
  unfold Rules.ruleIssue, Rules.calculateRuleConfidence.
  cbn [vi_confidence Rules.rule_category Rules.isEducation Rules.isWork andb].
  now rewrite Hstrict.
Qed.

Lemma rule_issue_low toLocaleDateString now add context thresholds i :
  strictMode (config context) = false ->
  ((7 # 10) < confidenceThreshold thresholds)%Q ->
  In i (Rules.applyValidationRules toLocaleDateString now add context) ->
  Service.isLowConfidenceCritical thresholds i = isCritical i.
Proof.
  intros Hstrict Hthreshold Hi. unfold Service.isLowConfidenceCritical.
  destruct (isCritical i) eqn:Ec; [|apply andb_false_r].
  rewrite andb_true_r.
  assert (Hcrit : vi_type i = critical)
    by (unfold isCritical in Ec; destruct (vi_type i); congruence).
  destruct (rule_issue_critical _ _ _ _ _ Hstrict Hi Hcrit) as [_ ->].
  now apply Qltb_true.
Qed.

Lemma noCritical_filter_critical (l : list ValidationIssue) :
  noCritical (filter (fun i => negb (isCritical i)) l) = true.
Proof.
  induction l as [|i l IH]; simpl; auto.
  destruct (isCritical i) eqn:E; simpl; auto. unfold noCritical in *. simpl.
  now rewrite E, IH.
Qed.

Lemma rules_reclassified toLocaleDateString now add context thresholds :
  strictMode (config context) = false ->
  ((7 # 10) < confidenceThreshold thresholds)%Q ->
  let found := Rules.applyValidationRules toLocaleDateString now add context in
  Service.categorizeIssuesBySeverity thresholds found
  = Service.mkCategorized (filter (fun i => negb (isCritical i)) found)
                          (map Service.toWarning (filter isCritical found)).
Proof.
  intros Hstrict Hthreshold found. rewrite categorizeIssuesBySeverity_spec. f_equal.
  - apply filter_ext_in. intros i Hi. f_equal.
    exact (rule_issue_low toLocaleDateString now add context thresholds i Hstrict Hthreshold Hi).
  - f_equal. apply filter_ext_in. intros i Hi.
    exact (rule_issue_low toLocaleDateString now add context thresholds i Hstrict Hthreshold Hi).
Qed.

(** X15. Outside the strict mode the rules cannot make a resume invalid
    under a confidence threshold above 0.7, as the default 0.8: their only
    critical issue, the one on impossible future dates, has the confidence
    0.7, so [categorizeIssuesBySeverity] turns every critical issue of the
    rules into a warning and keeps the others. *)
Theorem rule_issues_never_stay_critical :
  forall (toLocaleDateString : Date -> string) (now : Date) (add : Q -> Q -> Q)
         (context : ValidationContext) (thresholds : ValidationConfig),
    strictMode (config context) = false ->
    ((7 # 10) < confidenceThreshold thresholds)%Q ->
    let found := Rules.applyValidationRules toLocaleDateString now add context in
    let sorted := Service.categorizeIssuesBySeverity thresholds found in
    noCritical (Service.cat_issues sorted) = true /\
    Service.cat_issues sorted = filter (fun i => negb (isCritical i)) found /\
    Service.convertedWarnings sorted = map Service.toWarning (filter isCritical found).
Proof.
  intros toLocaleDateString now add context thresholds Hstrict Hthreshold found sorted.
  unfold sorted, found. rewrite rules_reclassified by auto.
  cbn [Service.cat_issues Service.convertedWarnings].
  split; [apply noCritical_filter_critical|]. split; reflexivity.
Qed.

(* ================================================================== *)
(** * Runs with a logger that does not throw *)

Section QuietRuns.
Import Orchestrator Runs.
Variable this : ServiceObject.
Variable now : Date.
Hypothesis Hlog : loggingReturns this.

Ltac silent :=
  try solve [exfalso; eapply throw_not_returns; [eassumption|];
             destruct Hlog as (? & ? & ? & ? & ? & ? & ?); auto].

Ltac run_stage :=
  wp_steps; silent; simpl;
  repeat match goal with H : _ = _ |- _ => rewrite H end; simpl; try reflexivity.

Ltac state_fields :=
  cbn [okOr QuietRun.skippedIf l_allIssues l_warnings l_suggestions l_issues
       l_educationPeriods l_workExperience pushIssues pushWarnings pushSuggestions
       setWorkExperience setEducationPeriods setIssues initial app].

Lemma validateEducationStep_exact s :
  wp (validateEducationStep this)
     (fun _ s' =>
        s' = match validateEducationTimeline this (l_educationPeriods s) with
             | Ok found => pushIssues found s
             | Throw _ => pushWarnings [educationSkipped] s
             end)
     (fun _ _ => False) s.
Proof. unfold validateEducationStep. run_stage. Qed.

Lemma validateWorkStep_exact s :
  wp (validateWorkStep this)
     (fun _ s' =>
        s' = match validateWorkTimeline this (l_workExperience s) with
             | Ok found => pushIssues found s
             | Throw _ => pushWarnings [workSkipped] s
             end)
     (fun _ _ => False) s.
Proof. unfold validateWorkStep. run_stage. Qed.

Lemma applyRulesStep_exact (context : ValidationContext) s :
  wp (applyRulesStep this context)
     (fun _ s' =>
        s' = match applyValidationRules this context with
             | Ok found => pushIssues found s
             | Throw _ => pushWarnings [rulesSkipped] s
             end)
     (fun _ _ => False) s.
Proof. unfold applyRulesStep. run_stage. Qed.

Lemma suggestionStep_exact (context : ValidationContext) s :
  wp (suggestionStep this context)
     (fun _ s' =>
        s' = if isTypoDetectionEnabled (configManager this)
             then match generate this context (l_allIssues s) with
                  | Ok found => pushSuggestions found s
                  | Throw _ => pushWarnings [suggestionsSkipped] s
                  end
             else s)
     (fun _ _ => False) s.
Proof. unfold suggestionStep. run_stage. Qed.

Lemma validate_exact (resumeText operationId : string) :
  isEmpty (trim resumeText) = false ->
  wp (validate this now resumeText operationId)
     (fun r _ => r = QuietRun.result this now resumeText)
     (fun _ _ => False) initial.
Proof.
  intros Hblank. unfold validate. rewrite (nonblank_nonempty _ Hblank), Hblank.
  apply wp_bind. wp_step; silent. cbv beta.
  eapply wp_seq; [apply parseEducationStep_quiet; auto|]. intros ? s1 ->.
  eapply wp_seq; [apply parseWorkStep_quiet; auto|]. intros ? s2 ->.
  eapply wp_seq; [apply logExtractedDatesStep_quiet; auto|]. intros ? s3 ->.
  apply wp_bind, wp_get. simpl. unfold validateWith.
  fold (contextOfRun this now resumeText).
  eapply wp_seq; [apply validateEducationStep_exact|]. intros ? s4 ->.
  eapply wp_seq; [apply validateWorkStep_exact|]. intros ? s5 ->.
  eapply wp_seq; [apply applyRulesStep_exact|]. intros ? s6 ->.
  eapply wp_seq; [apply suggestionStep_exact|]. intros ? s7 ->.
  eapply wp_seq; [apply categorizeStep_spec|]. intros ? s8 (Hi8 & Hw8 & Hs8).
  eapply wp_mono; [apply finishStep_quiet; auto| |tauto].
  intros r ? ->. rewrite Hi8, Hw8, Hs8. clear Hi8 Hw8 Hs8 s8.
  unfold QuietRun.result, QuietRun.keptIssues, QuietRun.convertedIssues,
    QuietRun.stageWarnings, QuietRun.generated, validatorIssues.
  rewrite Hblank.
  destruct (validateEducationTimeline this (educationOf this resumeText)) as [fe|] eqn:Ee;
    state_fields; rewrite ?Ee; state_fields;
    destruct (validateWorkTimeline this (workOf this resumeText)) as [fw|] eqn:Ew;
    state_fields; rewrite ?Ew; state_fields;
    destruct (applyValidationRules this (contextOfRun this now resumeText)) as [fr|] eqn:Er;
    state_fields; rewrite ?app_nil_r, <- ?app_assoc;
    destruct (isTypoDetectionEnabled (configManager this));
    try match goal with
        | |- context [generate ?a ?b ?c] => destruct (generate a b c)
        end;
    state_fields; rewrite ?app_nil_r, <- ?app_assoc; reflexivity.
Qed.

Lemma validateResumeDates_exact (resumeText : string) :
  isEmpty (trim resumeText) = false ->
  validateResumeDates this now resumeText = Ok (QuietRun.result this now resumeText).
Proof.
  intros Hblank.
  destruct (loggingReturns_around this Hlog resumeText)
    as (operationId & Hstart & [[] Hdate] & _).
  unfold validateResumeDates, obind. rewrite Hstart, Hdate.
  pose proof (validate_exact resumeText operationId Hblank) as H.
  unfold wp in H. unfold run, tryCatch.
  destruct (validate this now resumeText operationId initial) as [[r|e] s]; [|contradiction].
  cbn. now rewrite H.
Qed.

End QuietRuns.

(** X16. With a logger that does not throw, the result for a text that is
    not blank is determined by the outcomes of the stages.  The issues are
    those of the validators that returned, without the critical ones
    below the threshold; [isValid] says that no critical issue is left; a
    validator, the rules or the suggestion generator that throws adds its
    own warning that the stage was skipped and nothing else, and the later
    stages still run; the warnings made from the reclassified issues
    follow; the suggestions are those generated, or none when typo
    detection is off or the generator throws.  A parsing stage that
    throws counts as having found no period. *)
Theorem quiet_run_in_closed_form :
  forall (this : Orchestrator.ServiceObject) (now : Date) (resumeText : string),
    Runs.loggingReturns this ->
    isEmpty (trim resumeText) = false ->
    Orchestrator.validateResumeDates this now resumeText
    = Ok (QuietRun.result this now resumeText).
Proof. intros this now resumeText Hlog. now apply validateResumeDates_exact. Qed.

(* ================================================================== *)
(** * Runs without typo detection *)

Section NoTypoDetection.
Import Orchestrator Runs.
Variable this : ServiceObject.
Variable now : Date.
Hypothesis Hoff : isTypoDetectionEnabled (configManager this) = false.

Lemma suggestionStep_off (context : ValidationContext) (E : Error -> Locals -> Prop) s :
  (forall e s', E e s') ->
  wp (suggestionStep this context) (fun _ s' => l_suggestions s' = l_suggestions s) E s.
Proof.
  intros HE. unfold suggestionStep. rewrite Hoff. wp_steps; simpl; auto.
Qed.

Lemma validate_off (resumeText operationId : string) :
  wp (validate this now resumeText operationId)
     (fun r _ => suggestions r = [])
     (fun _ s' => wp (recover this resumeText operationId)
                     (fun r _ => suggestions r = []) (fun _ _ => True) s') initial.
Proof.
  assert (Hrec : forall (e : Error) s', wp (recover this resumeText operationId)
                   (fun r _ => suggestions r = []) (fun _ _ => True) s')
    by (intros; apply recover_result; reflexivity).
  unfold validate.
  destruct (isEmpty resumeText); [|destruct (isEmpty (trim resumeText))].
  - wp_steps; auto.
  - wp_steps; auto.
  - apply wp_bind. wp_step; auto. cbv beta.
    eapply wp_seq; [apply parseEducationStep_suggestions; auto|]. intros ? s1 H1.
    eapply wp_seq; [apply parseWorkStep_suggestions; auto|]. intros ? s2 H2.
    eapply wp_seq; [apply logExtractedDatesStep_suggestions; auto|]. intros ? s3 H3.
    apply wp_bind, wp_get. unfold validateWith.
    eapply wp_seq; [apply validateEducationStep_suggestions; auto|]. intros ? s4 H4.
    eapply wp_seq; [apply validateWorkStep_suggestions; auto|]. intros ? s5 H5.
    eapply wp_seq; [apply applyRulesStep_suggestions; auto|]. intros ? s6 H6.
    eapply wp_seq; [apply suggestionStep_off; auto|]. intros ? s7 H7.
    eapply wp_seq; [apply categorizeStep_suggestions; auto|]. intros ? s8 H8.
    eapply wp_post; [apply finishStep_suggestions; auto|].
    cbv beta in *. intros r ? ->. now rewrite H8, H7, H6, H5, H4, H3, H2, H1.
Qed.

Lemma validateResumeDates_off (resumeText : string) (r : DateValidationResult) :
  validateResumeDates this now resumeText = Ok r -> suggestions r = [].
Proof.
  unfold validateResumeDates, obind.
  destruct (startPerformanceMonitoring _ _) as [operationId|]; [|discriminate].
  destruct (logDate _ _); [|discriminate].
  intros H.
  apply (wp_run _ (fun r _ => suggestions r = []) (fun _ _ => True)) in H as [s' H];
    [exact H|].
  apply wp_tryCatch. apply validate_off.
Qed.

End NoTypoDetection.

(** X17. When typo detection is switched off in the configuration, no
    result of [validateResumeDates] carries a suggestion: the suggestion
    generator is not called, whatever the logger and the stages do. *)
Theorem no_suggestions_without_typo_detection :
  forall (this : Orchestrator.ServiceObject) (now : Date) (resumeText : string)
         (r : DateValidationResult),
    enableTypoDetection (Orchestrator.getConfig (Orchestrator.configManager this)) = false ->
    Orchestrator.validateResumeDates this now resumeText = Ok r ->
    suggestions r = [].
Proof.
  intros this now resumeText r Hoff. now apply validateResumeDates_off.
Qed.

(* ================================================================== *)
(** * The service with its own stages *)

Lemma filter_keeps {A} (f : A -> bool) (l : list A) :
  (forall x, In x l -> f x = true) -> filter f l = l.
Proof.
  induction l as [|x l IH]; simpl; auto. intros H.
  rewrite (H x) by now left. f_equal. apply IH. intros y Hy. apply H. now right.
Qed.

Lemma education_issue_bounds toLocaleDateString now cfg periods i :
  In i (Service.validateEducationTimeline toLocaleDateString now cfg periods) ->
  vi_type i = critical -> ((85 # 100) <= vi_confidence i)%Q.
Proof.
  intros Hi. apply education_issue_kinds in Hi as (_ & H).
  destruct H as [(Ht & [-> | [-> | ->]]) | [(Ht & _) | (Ht & _)]];
    intros; try discriminate; congruence.
Qed.

Lemma repositoryService_issues logger generators cfg toLocaleDateString arraySort add now
      resumeText :
  isEmpty (trim resumeText) = false ->
  strictMode cfg = false ->
  ((7 # 10) < confidenceThreshold cfg)%Q ->
  (confidenceThreshold cfg <= (85 # 100))%Q ->
  let this := repositoryService logger generators cfg toLocaleDateString arraySort add now in
  let periods := Service.parseEducationDates now resumeText in
  let experiences := WorkService.parseWorkExperience now resumeText in
  QuietRun.keptIssues this now resumeText
  = Service.validateEducationTimeline toLocaleDateString now cfg periods
    ++ WorkService.validateWorkTimeline toLocaleDateString now cfg arraySort experiences
    ++ filter (fun i => negb (isCritical i))
              (Rules.applyValidationRules toLocaleDateString now add
                 (mkValidationContext now periods experiences cfg resumeText)).
Proof.
  intros Hblank Hstrict Hlow Hhigh this periods experiences.
  unfold QuietRun.keptIssues, Runs.validatorIssues. rewrite Hblank.
  unfold Runs.contextOfRun, Runs.educationOf, Runs.workOf, this, repositoryService.
  cbn [Orchestrator.parseEducationDates Orchestrator.parseWorkExperience
       Orchestrator.validateEducationTimeline Orchestrator.validateWorkTimeline
       Orchestrator.applyValidationRules Orchestrator.configManager
       Orchestrator.getConfig Runs.quietManager okOr].
  fold periods experiences. rewrite !filter_app. f_equal; [|f_equal].
  - apply filter_keeps. intros i Hi. apply negb_true_iff.
    apply confident_critical_kept; auto.
    now apply (education_issue_bounds _ _ _ _ _ Hi).
  - apply filter_keeps. intros i Hi. apply negb_true_iff.
    apply confident_critical_kept; auto.
    now apply (work_issue_bounds _ _ _ _ _ _ Hi).
  - apply filter_ext_in. intros i Hi. f_equal.
    now apply (rule_issue_low toLocaleDateString now add
                 (mkValidationContext now periods experiences cfg resumeText) cfg i).
Qed.

(** X18. The service of the repository, outside the strict mode, with a
    confidence threshold above 0.7 and of at most 0.85, as the default 0.8,
    and a logger that does not throw, judges a text that is not blank by its
    two timelines alone.  The issues of the result are those of the
    education validator, those of the work validator and the rule issues
    that are not critical, in this order, and the resume is valid exactly
    when neither timeline raises a critical issue. *)
Theorem validity_is_decided_by_the_timelines :
  forall (logger : Orchestrator.Logger) (generators : Orchestrator.Generators)
         (cfg : ValidationConfig) (toLocaleDateString : Date -> string)
         (arraySort : (WorkExperience -> WorkExperience -> Z)
                      -> list WorkExperience -> list WorkExperience)
         (add : Q -> Q -> Q) (now : Date) (resumeText : string),
    let this := repositoryService logger generators cfg toLocaleDateString arraySort add now in
    let periods := Service.parseEducationDates now resumeText in
    let experiences := WorkService.parseWorkExperience now resumeText in
    let educationIssues :=
      Service.validateEducationTimeline toLocaleDateString now cfg periods in
    let workIssues :=
      WorkService.validateWorkTimeline toLocaleDateString now cfg arraySort experiences in
    Runs.loggingReturns this ->
    strictMode cfg = false ->
    ((7 # 10) < confidenceThreshold cfg)%Q ->
    (confidenceThreshold cfg <= (85 # 100))%Q ->
    isEmpty (trim resumeText) = false ->
    exists r : DateValidationResult,
      Orchestrator.validateResumeDates this now resumeText = Ok r /\
      issues r
      = educationIssues ++ workIssues
        ++ filter (fun i => negb (isCritical i))
                  (Rules.applyValidationRules toLocaleDateString now add
                     (mkValidationContext now periods experiences cfg resumeText)) /\
      isValid r = noCritical educationIssues && noCritical workIssues.
Proof.
  intros logger generators cfg toLocaleDateString arraySort add now resumeText
         this periods experiences educationIssues workIssues Hlog Hstrict Hlow Hhigh Hblank.
  exists (QuietRun.result this now resumeText).
  split; [now apply validateResumeDates_exact|].
  unfold QuietRun.result. cbn [issues isValid].
  pose proof (repositoryService_issues logger generators cfg toLocaleDateString arraySort add
                now resumeText Hblank Hstrict Hlow Hhigh) as H.
  cbv zeta in H. fold this in H. rewrite H. split; [reflexivity|].
  rewrite !noCritical_app, noCritical_filter_critical. now rewrite andb_true_r.
Qed.

(* ================================================================== *)
(** * Timeline suggestions *)

Lemma filterFrom_app {A} (f : A -> nat -> bool) (i : nat) (a b : list A) :
  filterFrom f i (a ++ b) = filterFrom f i a ++ filterFrom f (i + List.length a) b.
Proof.
  revert i. induction a as [|x a IH]; intros i; simpl.
  - now rewrite Nat.add_0_r.
  - rewrite IH, Nat.add_succ_r. simpl. now destruct (f x i).
Qed.

Lemma findIndex_app_Some {A} (p : A -> bool) (a b : list A) (j : nat) :
  findIndex p a = Some j -> findIndex p (a ++ b) = Some j.
Proof.
  revert j. induction a as [|x a IH]; simpl; intros j H; [discriminate|].
  destruct (p x); auto.
  destruct (findIndex p a) as [k|]; [|discriminate]. now rewrite (IH k eq_refl).
Qed.

Lemma findIndex_In {A} (p : A -> bool) (a : list A) (x : A) :
  In x a -> p x = true -> exists j, findIndex p a = Some j.
Proof.
  induction a as [|y a IH]; simpl; [intros []|]. intros [->|H] Hp.
  - rewrite Hp. eauto.
  - destruct (p y); eauto. destruct (IH H Hp) as [j ->]. simpl. eauto.
Qed.

Lemma sameSuggestion_refl (x : DateSuggestion) : sameSuggestion x x = true.
Proof. unfold sameSuggestion. now rewrite !String.eqb_refl. Qed.

(** Suggestions appended to the collected ones never displace one of
    them. *)
Lemma uniqueBy_app (a b : list DateSuggestion) :
  exists kept,
    uniqueBy sameSuggestion (a ++ b) = uniqueBy sameSuggestion a ++ kept /\
    forall x, In x kept -> In x b.
Proof.
  unfold uniqueBy, filterIndexed. rewrite filterFrom_app.
  eexists. split.
  - f_equal. apply filterFrom_ext. intros k x Hk.
    destruct (findIndex_In (fun y => sameSuggestion y x) a x) as [j Hj].
    + eapply nth_error_In; eauto.
    + apply sameSuggestion_refl.
    + now rewrite (findIndex_app_Some _ a b j Hj), Hj.
  - intros x Hx. eapply filterFrom_In; eauto.
Qed.

Lemma filterAndRank_app_low (raw extra : list DateSuggestion) (context : ValidationContext) :
  (forall s, In s extra -> meetsThreshold context s = false) ->
  filterAndRankSuggestions (raw ++ extra) context = filterAndRankSuggestions raw context.
Proof.
  intros Hlow. unfold filterAndRankSuggestions. cbv zeta.
  destruct (uniqueBy_app raw extra) as (kept & -> & Hkept).
  rewrite filter_app.
  replace (filter (meetsThreshold context) kept) with (@nil DateSuggestion).
  - now rewrite app_nil_r.
  - symmetry. induction kept as [|x kept IH]; simpl; auto.
    rewrite (Hlow x) by (apply Hkept; now left). apply IH. intros y Hy. apply Hkept. now right.
Qed.

Lemma gapSuggestions_confidence (sortedEducation : list EducationPeriod) (s : DateSuggestion) :
  In s (TimelineSuggestions.gapSuggestions sortedEducation) -> ds_confidence s = (3 # 10)%Q.
Proof.
  induction sortedEducation as [|current rest IH]; [intros []|].
  destruct rest as [|next rest]; [intros []|].
  cbn [TimelineSuggestions.gapSuggestions]. intros H. apply in_app_or in H as [H|H]; auto.
  destruct (ep_endDate current); [|destruct H].
  destruct (ep_startDate next); [|destruct H]. cbv zeta in H.
  destruct (_ <? _)%Z; [destruct H as [<-|[]]|destruct H]. reflexivity.
Qed.

Lemma timeline_suggestion_confidence toLocaleDateString now context s :
  In s (TimelineSuggestions.generateTimelineSuggestions toLocaleDateString now context) ->
  ds_confidence s = (3 # 10)%Q \/ ds_confidence s = (4 # 10)%Q.
Proof.
  unfold TimelineSuggestions.generateTimelineSuggestions. intros H.
  apply in_app_or in H as [H|H].
  - left. unfold TimelineSuggestions.generateEducationTimelineGapSuggestions in H.
    now apply gapSuggestions_confidence in H.
  - right. unfold TimelineSuggestions.generateWorkTimelineOverlapSuggestions in H.
    apply in_flat_map in H as ([work1 work2] & _ & H).
    unfold TimelineSuggestions.overlapSuggestion in H.
    destruct (TimelineSuggestions.hasSignificantOverlap now work1 work2); [|destruct H].
    unfold TimelineSuggestions.generateOverlapSuggestion in H.
    destruct (we_endDate work1); [|destruct H].
    destruct (we_startDate work2); [|destruct H].
    destruct H as [<-|[]]. reflexivity.
Qed.

Lemma timeline_suggestion_low toLocaleDateString now context s :
  ((4 # 10) < confidenceThreshold (config context))%Q ->
  In s (TimelineSuggestions.generateTimelineSuggestions toLocaleDateString now context) ->
  meetsThreshold context s = false.
Proof.
  intros Hthreshold H. unfold meetsThreshold, Qleb.
  destruct (Qle_bool _ _) eqn:E; [|reflexivity].
  apply Qle_bool_iff in E. exfalso.
  apply timeline_suggestion_confidence in H as [H|H]; rewrite H in E; lra.
Qed.

(** X22. Every timeline suggestion has the confidence 0.3 (a gap in the
    education) or 0.4 (overlapping positions).  Hence, under a confidence
    threshold above 0.4, as the default 0.8, the timeline suggestions
    never reach the result of [generateSuggestions]: it returns what it
    would without them, whatever the typo detector and the issue-specific
    generators return or throw. *)
Theorem timeline_suggestions_never_surface :
  forall (toLocaleDateString : Date -> string) (now : Date)
         (detectTypos : ValidationContext -> Outcome (list DateSuggestion))
         (generateContextAwareSuggestions :
            ValidationIssue -> ValidationContext -> Outcome (list DateSuggestion))
         (context : ValidationContext) (issues : list ValidationIssue),
    (forall s,
        In s (TimelineSuggestions.generateTimelineSuggestions toLocaleDateString now context) ->
        ds_confidence s = (3 # 10)%Q \/ ds_confidence s = (4 # 10)%Q) /\
    (((4 # 10) < confidenceThreshold (config context))%Q ->
     generateSuggestions
       detectTypos generateContextAwareSuggestions
       (fun context =>
          Ok (TimelineSuggestions.generateTimelineSuggestions toLocaleDateString now context))
       context issues
     = generateSuggestions detectTypos generateContextAwareSuggestions (fun _ => Ok [])
                           context issues).
Proof.
  intros toLocaleDateString now detectTypos generateContextAwareSuggestions context issues.
  split; [intros s; apply timeline_suggestion_confidence|].
  intros Hthreshold. unfold generateSuggestions, collectSuggestions, obind.
  destruct (detectTypos context) as [typoSuggestions|e]; [|reflexivity].
  destruct (forIssues generateContextAwareSuggestions context issues typoSuggestions)
    as [withIssues|e]; [|reflexivity].
  rewrite app_nil_r. f_equal. apply filterAndRank_app_low.
  intros s. now apply timeline_suggestion_low.
Qed.

Lemma timeline_suggestions_never_surface_witness :
  ((4 # 10) < confidenceThreshold (config gapContext))%Q /\
  List.length (TimelineSuggestions.generateTimelineSuggestions enUS today gapContext) = 1 /\
  generateSuggestions
    (fun _ => Ok typoSuggestions) (fun _ _ => Ok [])
    (fun context => Ok (TimelineSuggestions.generateTimelineSuggestions enUS today context))
    gapContext []
  = generateSuggestions (fun _ => Ok typoSuggestions) (fun _ _ => Ok []) (fun _ => Ok [])
                        gapContext [].
Proof.
  assert (H : ((4 # 10) < confidenceThreshold (config gapContext))%Q) by reflexivity.
  split; [exact H|]. split; [vm_compute; reflexivity|].
  exact (proj2 (timeline_suggestions_never_surface
                  enUS today (fun _ => Ok typoSuggestions) (fun _ _ => Ok []) gapContext [])
               H).
Defined.

(* ================================================================== *)
(** * The configuration manager *)

Lemma Qltb_iff (a b : Q) : Qltb a b = true <-> (a < b)%Q.
Proof.
  unfold Qltb. rewrite negb_true_iff. split.
  - intros H. apply Qnot_le_lt. intros Hle. apply Qle_bool_iff in Hle. congruence.
  - intros H. destruct (Qle_bool b a) eqn:E; auto. apply Qle_bool_iff in E. lra.
Qed.

Lemma validateConfig_iff (config : ConfigManager.ConfigObject) :
  ConfigManager.validateConfig config = Ok tt <-> ConfigManager.withinRules config.
Proof.
  unfold ConfigManager.validateConfig, ConfigManager.errorsOf, ConfigManager.withinRules.
  destruct config as [years months typo threshold strict]. cbn.
  split.
  - destruct years as [y|]; cbn; [|discriminate].
    destruct (Z.ltb_spec y 0) as [?|Hy0]; cbn; [discriminate|].
    destruct (Z.ltb_spec 10 y) as [?|Hy1]; cbn; [discriminate|].
    destruct months as [m|]; cbn; [|discriminate].
    destruct (Z.ltb_spec m 0) as [?|Hm0]; cbn; [discriminate|].
    destruct (Z.ltb_spec 12 m) as [?|Hm1]; cbn; [discriminate|].
    destruct threshold as [t|]; cbn; [|discriminate].
    destruct (Qltb t 0) eqn:E1; cbn; [discriminate|].
    destruct (Qltb 1 t) eqn:E2; cbn; [discriminate|].
    destruct typo as [b1|]; cbn; [|discriminate].
    destruct strict as [b2|]; cbn; [|discriminate].
    intros _. exists (mkValidationConfig y m b1 t b2). cbn. repeat split; auto; try lia.
    + apply Qnot_lt_le. intros Hlt. apply Qltb_iff in Hlt. congruence.
    + apply Qnot_lt_le. intros Hlt. apply Qltb_iff in Hlt. congruence.
  - intros (c & E & Hy & Hm & Ht). injection E as -> -> -> -> ->. cbn.
    destruct (Z.ltb_spec (maxFutureEducationYears c) 0); [lia|].
    destruct (Z.ltb_spec 10 (maxFutureEducationYears c)); [lia|].
    destruct (Z.ltb_spec (maxFutureWorkMonths c) 0); [lia|].
    destruct (Z.ltb_spec 12 (maxFutureWorkMonths c)); [lia|]. cbn.
    destruct (Qltb (confidenceThreshold c) 0) eqn:E1; [apply Qltb_iff in E1; lra|].
    destruct (Qltb 1 (confidenceThreshold c)) eqn:E2; [apply Qltb_iff in E2; lra|].
    reflexivity.
Qed.

Lemma validateConfig_outcome (config : ConfigManager.ConfigObject) :
  ConfigManager.validateConfig config = Ok tt \/
  exists e, ConfigManager.validateConfig config = Throw e.
Proof.
  unfold ConfigManager.validateConfig. destruct (ConfigManager.errorsOf config); eauto.
Qed.

Lemma updateConfigSync_spec (updates : ConfigManager.PartialConfig)
      (config : ConfigManager.ConfigObject) :
  (ConfigManager.withinRules (ConfigManager.spread config updates) /\
   ConfigManager.updateConfigSync updates config
   = (Ok tt, ConfigManager.spread config updates))
  \/
  (~ ConfigManager.withinRules (ConfigManager.spread config updates) /\
   exists e, ConfigManager.updateConfigSync updates config = (Throw e, config)).
Proof.
  unfold ConfigManager.updateConfigSync, bind, get, modify, tryCatch, call.
  destruct (validateConfig_outcome (ConfigManager.spread config updates)) as [H|[e H]];
    rewrite H.
  - left. split; auto. now apply validateConfig_iff.
  - right. split; eauto. intros Hv. apply validateConfig_iff in Hv. congruence.
Qed.

(** X19. An update that leads to a configuration within the rules (0 to
    10 years, 0 to 12 months, a threshold from 0 to 1, both flags
    booleans) is applied as the spread of the old configuration and the
    update; every other update throws and leaves the configuration exactly
    as it was. *)
Theorem updateConfigSync_applies_or_rolls_back :
  forall (updates : ConfigManager.PartialConfig) (config : ConfigManager.ConfigObject),
    (ConfigManager.withinRules (ConfigManager.spread config updates) /\
     ConfigManager.updateConfigSync updates config
     = (Ok tt, ConfigManager.spread config updates))
    \/
    (~ ConfigManager.withinRules (ConfigManager.spread config updates) /\
     exists e, ConfigManager.updateConfigSync updates config = (Throw e, config)).
Proof. exact updateConfigSync_spec. Qed.

Lemma after_withinRules (config : ConfigManager.ConfigObject) (c : ConfigManager.Call) :
  ConfigManager.withinRules config -> ConfigManager.withinRules (ConfigManager.after config c).
Proof.
  intros H. destruct c as [updates|]; unfold ConfigManager.after.
  - destruct (updateConfigSync_spec updates config) as [[Hv ->]|[_ [e ->]]]; auto.
  - cbn. exists DEFAULT_VALIDATION_CONFIG. cbn. repeat split; try lia; discriminate.
Qed.

(** X20. A manager that was constructed holds a configuration within the
    rules, and it still does after every sequence of calls of
    [updateConfigSync] and [resetToDefaultsSync], whichever of them
    throw: the validators never see a negative number of years or months
    or a threshold outside 0..1. *)
Theorem manager_configuration_stays_within_rules :
  forall (customConfig : option ConfigManager.PartialConfig)
         (config : ConfigManager.ConfigObject) (calls : list ConfigManager.Call),
    ConfigManager.construct customConfig = Ok config ->
    ConfigManager.withinRules (fold_left ConfigManager.after calls config).
Proof.
  intros customConfig config calls H.
  assert (Hv : ConfigManager.withinRules config).
  { unfold ConfigManager.construct in H. cbv zeta in H.
    destruct (validateConfig_outcome
                (ConfigManager.spread (ConfigManager.ofConfig DEFAULT_VALIDATION_CONFIG)
                   match customConfig with
                   | Some p => p
                   | None => ConfigManager.noUpdates
                   end)) as [E|[e E]]; rewrite E in H; [|discriminate].
    cbn in H. injection H as <-. now apply validateConfig_iff. }
  clear H. revert config Hv. induction calls as [|c calls IH]; intros config Hv; cbn; auto.
  apply IH. now apply after_withinRules.
Qed.

(* ================================================================== *)
(** * The theorems at work, continued *)

Lemma parseDate_result_shape_witness :
  parseDate today "May 2022"
  = Some (mkParsedDate "May 2022" (newDate 2022 4 1) MONTH_YEAR false
                       FORMAT_CONFIDENCE.EXACT_MATCH) /\
  pd_original (mkParsedDate "May 2022" (newDate 2022 4 1) MONTH_YEAR false
                            FORMAT_CONFIDENCE.EXACT_MATCH) = "May 2022".
Proof.
  assert (H : parseDate today "May 2022"
              = Some (mkParsedDate "May 2022" (newDate 2022 4 1) MONTH_YEAR false
                                   FORMAT_CONFIDENCE.EXACT_MATCH))
    by (vm_compute; reflexivity).
  split; [exact H|].
  exact (proj1 (parseDate_result_shape today "May 2022" _ H)).
Defined.

Lemma isValidDate_iff_calendar_date_witness :
  ((1 <= 2 <= 12)%Z /\ (1 <= 29 <= daysInMonth 2024 2)%Z /\
   (1950 <= 2024 <= getFullYear today + 10)%Z) /\
  isValidDate today 2 29 2024 = true.
Proof.
  assert (H : (1 <= 2 <= 12)%Z /\ (1 <= 29 <= daysInMonth 2024 2)%Z /\
              (1950 <= 2024 <= getFullYear today + 10)%Z)
    by (vm_compute; intuition discriminate).
  split; [exact H|].
  exact (proj2 (isValidDate_iff_calendar_date today 2 29 2024) H).
Defined.

Lemma extractDatesFromText_entries_located_witness :
  In (mkExtractedDate "2026" 13 17 (parseDate today "2026") scenario4)
     (extractDatesFromText today scenario4) /\
  substring 13 17 scenario4 = "2026".
Proof.
  assert (H : In (mkExtractedDate "2026" 13 17 (parseDate today "2026") scenario4)
                 (extractDatesFromText today scenario4))
    by (vm_compute; auto).
  split; [exact H|].
  exact (proj1 (extractDatesFromText_entries_located today scenario4 _ H)).
Defined.

Lemma determineDateRange_earliest_and_latest_witness :
  Service.startDate (Service.determineDateRange (extractDatesFromText today scenario1))
  = Some (newDate 2018 0 1) /\
  Service.endDate (Service.determineDateRange (extractDatesFromText today scenario1))
  = Some (newDate 2022 4 1) /\
  (newDate 2018 0 1 <= newDate 2022 4 1)%Z.
Proof.
  assert (Hs : Service.startDate
                 (Service.determineDateRange (extractDatesFromText today scenario1))
               = Some (newDate 2018 0 1)) by (vm_compute; reflexivity).
  assert (He : Service.endDate
                 (Service.determineDateRange (extractDatesFromText today scenario1))
               = Some (newDate 2022 4 1)) by (vm_compute; reflexivity).
  split; [exact Hs|]. split; [exact He|].
  destruct (determineDateRange_earliest_and_latest (extractDatesFromText today scenario1))
    as (_ & _ & _ & _ & H).
  exact (H _ _ Hs He).
Defined.

Lemma parseEducationDates_periods_wellformed_witness :
  In scenario1Period (Service.parseEducationDates today scenario1) /\
  isEmpty (ep_institution scenario1Period) = false /\
  ((5 # 10) <= ep_confidence scenario1Period <= 1)%Q.
Proof.
  assert (H : In scenario1Period (Service.parseEducationDates today scenario1))
    by (vm_compute; auto).
  split; [exact H|].
  destruct (parseEducationDates_periods_wellformed today scenario1 scenario1Period H)
    as (_ & H2 & _ & _ & _ & _ & H7).
  split; [exact H2|exact H7].
Defined.

Lemma scenario1Period_past (period : EducationPeriod) :
  In period [scenario1Period] ->
  (forall s, ep_startDate period = Some s -> (s <= today)%Z) /\
  (forall e, ep_endDate period = Some e -> (e <= today)%Z) /\
  (ep_isOngoing period = false ->
   forall s e, ep_startDate period = Some s -> ep_endDate period = Some e -> (s < e)%Z).
Proof.
  intros [<-|[]]. cbn [scenario1Period ep_startDate ep_endDate ep_isOngoing].
  split; [|split].
  - intros s H. injection H as <-. vm_compute. discriminate.
  - intros e H. injection H as <-. vm_compute. discriminate.
  - intros _ s e Hs He. injection Hs as <-. injection He as <-. reflexivity.
Qed.

Lemma past_timeline_has_no_critical_issue_witness :
  (0 <= maxFutureEducationYears DEFAULT_VALIDATION_CONFIG)%Z /\
  noCritical (Service.validateEducationTimeline enUS today DEFAULT_VALIDATION_CONFIG
                                                [scenario1Period]) = true.
Proof.
  assert (H : (0 <= maxFutureEducationYears DEFAULT_VALIDATION_CONFIG)%Z)
    by (vm_compute; discriminate).
  split; [exact H|].
  exact (past_timeline_has_no_critical_issue enUS today DEFAULT_VALIDATION_CONFIG
           [scenario1Period] H scenario1Period_past).
Defined.

Lemma education_issues_keep_their_severity_witness :
  (confidenceThreshold DEFAULT_VALIDATION_CONFIG <= (85 # 100))%Q /\
  Service.categorizeIssuesBySeverity DEFAULT_VALIDATION_CONFIG
    (Service.validateEducationTimeline enUS today DEFAULT_VALIDATION_CONFIG [distantProgram])
  = Service.mkCategorized
      (Service.validateEducationTimeline enUS today DEFAULT_VALIDATION_CONFIG [distantProgram])
      [].
Proof.
  assert (H : (confidenceThreshold DEFAULT_VALIDATION_CONFIG <= (85 # 100))%Q)
    by (vm_compute; discriminate).
  split; [exact H|].
  exact (proj2 (education_issues_keep_their_severity enUS today DEFAULT_VALIDATION_CONFIG
                  DEFAULT_VALIDATION_CONFIG [distantProgram]) H).
Defined.

Lemma no_suggestions_without_typo_detection_witness :
  enableTypoDetection (Orchestrator.getConfig (Orchestrator.configManager plainService))
  = false /\
  exists r,
    Orchestrator.validateResumeDates plainService today scenario1 = Ok r /\
    suggestions r = [].
Proof.
  assert (H : enableTypoDetection
                (Orchestrator.getConfig (Orchestrator.configManager plainService)) = false)
    by reflexivity.
  split; [exact H|].
  eexists. split; [vm_compute; reflexivity|].
  apply (no_suggestions_without_typo_detection plainService today scenario1 _ H).
  vm_compute. reflexivity.
Defined.

Lemma quiet_run_in_closed_form_witness :
  Runs.loggingReturns strictService /\
  isEmpty (trim futureProgram) = false /\
  Orchestrator.validateResumeDates strictService today futureProgram
  = Ok (QuietRun.result strictService today futureProgram).
Proof.
  assert (H1 : Runs.loggingReturns strictService) by apply quietLogger_returns.
  assert (H2 : isEmpty (trim futureProgram) = false) by reflexivity.
  split; [exact H1|]. split; [exact H2|].
  exact (quiet_run_in_closed_form strictService today futureProgram H1 H2).
Defined.

Lemma manager_configuration_stays_within_rules_witness :
  ConfigManager.construct
    (Some (ConfigManager.mkPartialConfig (ConfigManager.Value 2%Z) ConfigManager.Absent
             ConfigManager.Absent ConfigManager.Absent ConfigManager.Absent))
  = Ok (ConfigManager.ofConfig (mkValidationConfig 2 3 true (8 # 10) false)) /\
  ConfigManager.withinRules
    (fold_left ConfigManager.after
       [ConfigManager.UpdateConfigSync
          (ConfigManager.mkPartialConfig (ConfigManager.Value 11%Z) ConfigManager.Absent
             ConfigManager.Undefined ConfigManager.Absent ConfigManager.Absent);
        ConfigManager.UpdateConfigSync
          (ConfigManager.mkPartialConfig ConfigManager.Absent (ConfigManager.Value 6%Z)
             ConfigManager.Absent ConfigManager.Absent ConfigManager.Absent)]
       (ConfigManager.ofConfig (mkValidationConfig 2 3 true (8 # 10) false))).
Proof.
  assert (H : ConfigManager.construct
                (Some (ConfigManager.mkPartialConfig (ConfigManager.Value 2%Z)
                         ConfigManager.Absent ConfigManager.Absent ConfigManager.Absent
                         ConfigManager.Absent))
              = Ok (ConfigManager.ofConfig (mkValidationConfig 2 3 true (8 # 10) false)))
    by reflexivity.
  split; [exact H|].
  exact (manager_configuration_stays_within_rules _ _ _ H).
Defined.

Lemma acmeExperience_past (experience : WorkExperience) :
  In experience [acmeExperience] ->
  (forall s, we_startDate experience = Some s -> (s <= today)%Z) /\
  (forall e, we_endDate experience = Some e -> (e <= today)%Z) /\
  (we_isOngoing experience = false ->
   forall s e, we_startDate experience = Some s -> we_endDate experience = Some e ->
               (msPerDay <= e - s)%Z).
Proof.
  intros [<-|[]]. cbn [acmeExperience we_startDate we_endDate we_isOngoing].
  split; [|split].
  - intros s H. injection H as <-. vm_compute. discriminate.
  - intros e H. injection H as <-. vm_compute. discriminate.
  - intros _ s e Hs He. injection Hs as <-. injection He as <-. vm_compute. discriminate.
Qed.

Lemma past_work_history_has_no_critical_issue_witness :
  (0 <= maxFutureWorkMonths DEFAULT_VALIDATION_CONFIG)%Z /\
  noCritical (WorkService.validateWorkTimeline enUS today DEFAULT_VALIDATION_CONFIG stableSort
                                               [acmeExperience]) = true.
Proof.
  assert (H : (0 <= maxFutureWorkMonths DEFAULT_VALIDATION_CONFIG)%Z)
    by (vm_compute; discriminate).
  split; [exact H|].
  exact (past_work_history_has_no_critical_issue enUS today DEFAULT_VALIDATION_CONFIG
           stableSort [acmeExperience] H acmeExperience_past).
Defined.


Lemma parseWorkExperience_entries_wellformed_witness :
  exists experience : WorkExperience,
    In experience (WorkService.parseWorkExperience today workScenario) /\
    we_position experience = "Software Engineer, Acme Inc" /\
    isEmpty (we_company experience) = false /\
    ((5 # 10) <= we_confidence experience <= 1)%Q.
Proof.
  eexists. 
  assert (H : In _ (WorkService.parseWorkExperience today workScenario))
    by (vm_compute; left; reflexivity).
  split; [exact H|]. split; [reflexivity|].
  destruct (parseWorkExperience_entries_wellformed today workScenario _ H)
    as (_ & H2 & _ & _ & _ & _ & H7).
  split; [exact H2|exact H7].
Defined.

Lemma rule_issues_never_stay_critical_witness :
  strictMode (config distantContext) = false /\
  ((7 # 10) < confidenceThreshold DEFAULT_VALIDATION_CONFIG)%Q /\
  existsb isCritical (Rules.applyValidationRules enUS today Qplus distantContext) = true /\
  noCritical
    (Service.cat_issues
       (Service.categorizeIssuesBySeverity DEFAULT_VALIDATION_CONFIG
          (Rules.applyValidationRules enUS today Qplus distantContext))) = true.
Proof.
  assert (H1 : strictMode (config distantContext) = false) by reflexivity.
  assert (H2 : ((7 # 10) < confidenceThreshold DEFAULT_VALIDATION_CONFIG)%Q) by reflexivity.
  split; [exact H1|]. split; [exact H2|]. split; [vm_compute; reflexivity|].
  exact (proj1 (rule_issues_never_stay_critical enUS today Qplus distantContext
                  DEFAULT_VALIDATION_CONFIG H1 H2)).
Defined.

Lemma defaultService_logging : Runs.loggingReturns defaultService.
Proof. repeat split; intros; eexists; reflexivity. Qed.

Lemma validity_is_decided_by_the_timelines_witness :
  Runs.loggingReturns defaultService /\
  strictMode DEFAULT_VALIDATION_CONFIG = false /\
  ((7 # 10) < confidenceThreshold DEFAULT_VALIDATION_CONFIG)%Q /\
  (confidenceThreshold DEFAULT_VALIDATION_CONFIG <= (85 # 100))%Q /\
  isEmpty (trim resumeScenario) = false /\
  exists r : DateValidationResult,
    Orchestrator.validateResumeDates defaultService today resumeScenario = Ok r /\
    isValid r
    = noCritical (Service.validateEducationTimeline enUS today DEFAULT_VALIDATION_CONFIG
                    (Service.parseEducationDates today resumeScenario))
      && noCritical (WorkService.validateWorkTimeline enUS today DEFAULT_VALIDATION_CONFIG
                       stableSort (WorkService.parseWorkExperience today resumeScenario)).
Proof.
  assert (H1 : Runs.loggingReturns defaultService) by apply defaultService_logging.
  assert (H2 : strictMode DEFAULT_VALIDATION_CONFIG = false) by reflexivity.
  assert (H3 : ((7 # 10) < confidenceThreshold DEFAULT_VALIDATION_CONFIG)%Q) by reflexivity.
  assert (H4 : (confidenceThreshold DEFAULT_VALIDATION_CONFIG <= (85 # 100))%Q)
    by (vm_compute; discriminate).
  assert (H5 : isEmpty (trim resumeScenario) = false) by reflexivity.
  split; [exact H1|]. split; [exact H2|]. split; [exact H3|]. split; [exact H4|].
  split; [exact H5|].
  destruct (validity_is_decided_by_the_timelines
              Runs.quietLogger Runs.noSuggestions DEFAULT_VALIDATION_CONFIG enUS stableSort
              Qplus today resumeScenario H1 H2 H3 H4 H5) as (r & Hr & _ & Hvalid).
  exists r. split; [exact Hr|exact Hvalid].
Defined.

Lemma dates_by_context_need_a_keyword_witness :
  (In (mkExtractedDate "2015" 17 21 (parseDate today "2015") universityScenario)
      (extractDatesFromText today universityScenario) /\
   isEducationContext universityScenario = true /\
   In (mkExtractedDate "2015" 17 21 (parseDate today "2015") universityScenario)
      (extractEducationDates today universityScenario)) /\
  (includesAny (toLowerCase universityScenario) workContextKeywords = false /\
   extractWorkExperienceDates today universityScenario = []) /\
  map matchKey (extractEducationDates today universityScenario) = [(17, "2015"); (24, "2019")].
Proof.
  assert (H1 : In (mkExtractedDate "2015" 17 21 (parseDate today "2015") universityScenario)
                  (extractDatesFromText today universityScenario))
    by (vm_compute; auto).
  assert (H2 : isEducationContext universityScenario = true) by reflexivity.
  assert (H3 : includesAny (toLowerCase universityScenario) workContextKeywords = false)
    by reflexivity.
  destruct (dates_by_context_need_a_keyword today universityScenario)
    as [(_ & Hin & _) (_ & _ & _ & _ & Hnone)].
  split; [|split].
  - split; [exact H1|]. split; [exact H2|].
    exact (proj2 (Hin (mkExtractedDate "2015" 17 21 (parseDate today "2015")
                                       universityScenario))
                 (conj H1 H2)).
  - split; [exact H3|exact (Hnone H3)].
  - vm_compute. reflexivity.
Defined.
